(** * Patient BMI web front-end: BMI engine, response normaliser, visit-date
      guard, workflow router and listing aggregator.

    A shallow embedding of the TypeScript sources

      - [src/components/VitalsForm.tsx]                 (module [VitalsForm])
      - the vitals form with patient lookup, [part_004] (module [VitalsFormV2])
      - [src/components/GeneralAssessmentForm.tsx]      (modules
        [GeneralAssessmentFormV1], first document, and [GeneralAssessmentForm],
        second document)
      - the overweight assessment form, [part_002]      (module
        [OverweightAssessmentForm])
      - the patient details page, [part_002]            (module [PatientDetails])
      - [src/components/PatientListing.tsx]             (modules [PatientListing],
        first document, and [PatientListingV2], second document)

    JavaScript numbers are modelled as extended rationals: [NaN], the two
    infinities and finite values.  Module [JSNumber] has the operations
    without rounding; the event handlers, which compare numbers and pass
    them on, are stated over it.  Module [Double] has the same operations
    with the rounding and the range of binary64, and the properties of the
    value of the BMI are stated over it; module [Binary64] evaluates the
    BMI engine on the primitive floats, against which [Double] is
    checked.  The sign of zero is not modelled.

    What the browser does between a click on a submit button and the
    submit event, the constraint validation of the controls, is modelled
    for the assessment forms (modules [FormControls],
    [GeneralAssessmentFormPage] and [OverweightAssessmentFormPage]). *)

From Stdlib Require Import ZArith QArith Qround Qabs Qpower Lqa Lia.
From Stdlib Require Import Bool List String Ascii Permutation Sorted DecimalString.
From Stdlib Require Import Uint63 PrimFloat FloatOps SpecFloat.
Import ListNotations.

Local Open Scope string_scope.
Local Open Scope Z_scope.

(* ================================================================== *)
(** ** JavaScript numbers *)

Module JSNumber.

Inductive number : Type :=
| NaN
| PInf
| NInf
| Fin (q : Q).

Definition Qltb (a b : Q) : bool := negb (Qle_bool b a).
Definition Qzero (a : Q) : bool := Qeq_bool a 0.
Definition Qneg (a : Q) : bool := Qltb a 0.

(** [a < b]; every comparison with [NaN] is false. *)
Definition lt (a b : number) : bool :=
  match a, b with
  | NaN, _ | _, NaN => false
  | Fin x, Fin y => Qltb x y
  | NInf, NInf => false
  | NInf, _ => true
  | _, NInf => false
  | PInf, _ => false
  | Fin _, PInf => true
  end.

(** [a > b]. *)
Definition gt (a b : number) : bool := lt b a.

(** [a <= b]. *)
Definition le (a b : number) : bool :=
  match a, b with
  | NaN, _ | _, NaN => false
  | _, _ => negb (lt b a)
  end.

Definition isNaN (a : number) : bool :=
  match a with NaN => true | _ => false end.

Definition isFinite (a : number) : bool :=
  match a with Fin _ => true | _ => false end.

(** ToBoolean on a number: [0] and [NaN] are falsy. *)
Definition truthy (a : number) : bool :=
  match a with
  | NaN => false
  | Fin q => negb (Qzero q)
  | _ => true
  end.

Definition inf (negative : bool) : number := if negative then NInf else PInf.

(** [a * b] and [a / b] before rounding: the special cases of IEEE 754,
    and the exact product and quotient of finite values, which
    [Double.mul] and [Double.div] round to a double. *)
Definition mul (a b : number) : number :=
  match a, b with
  | NaN, _ | _, NaN => NaN
  | Fin x, Fin y => Fin (x * y)
  | Fin x, PInf | PInf, Fin x => if Qzero x then NaN else inf (Qneg x)
  | Fin x, NInf | NInf, Fin x => if Qzero x then NaN else inf (negb (Qneg x))
  | PInf, PInf | NInf, NInf => PInf
  | PInf, NInf | NInf, PInf => NInf
  end.

Definition div (a b : number) : number :=
  match a, b with
  | NaN, _ | _, NaN => NaN
  | Fin x, Fin y =>
      if Qzero y then (if Qzero x then NaN else inf (Qneg x))
      else Fin (x / y)
  | Fin _, (PInf | NInf) => Fin 0
  | PInf, Fin y => inf (Qneg y)
  | NInf, Fin y => inf (negb (Qneg y))
  | _, _ => NaN
  end.

(** The integer [n] for which [n / 10 - q] is as close to zero as possible,
    the larger one of two ([0 <= q]): step 8 of Number.prototype.toFixed. *)
Definition nearest_tenths (q : Q) : Z := Qfloor (q * 10 + (1 # 2)).

Definition tenths (n : Z) : Q := n # 10.

Definition toFixed_limit : Q := (10 ^ 21)%Z # 1.

(** [parseFloat(x.toFixed(1))], as the value of the numeral printed
    ([Double.toFixed1] rounds it to a double).  toFixed prints [NaN] and the infinities
    by name and a value of magnitude at least 10^21 in full, and parseFloat
    reads each of those back; below that it removes the sign, picks
    [nearest_tenths] and prints it with one fraction digit. *)
Definition toFixed1 (x : number) : number :=
  match x with
  | Fin q =>
      if Qle_bool toFixed_limit (Qabs q) then Fin q
      else if Qneg q then Fin (tenths (- nearest_tenths (- q)))
      else Fin (tenths (nearest_tenths q))
  | other => other
  end.

Definition of_Z (z : Z) : number := Fin (inject_Z z).

End JSNumber.
Import JSNumber.

(* ================================================================== *)
(** ** Strings: [trim], [includes], [parseFloat] *)

Module JSString.

(** White space and line terminators of the ASCII range. *)
Definition is_space (c : ascii) : bool :=
  let n := nat_of_ascii c in
  (n =? 32)%nat || ((9 <=? n)%nat && (n <=? 13)%nat).

Fixpoint trimStart (s : string) : string :=
  match s with
  | String c s' => if is_space c then trimStart s' else s
  | EmptyString => s
  end.

Fixpoint all_space (s : string) : bool :=
  match s with
  | String c s' => is_space c && all_space s'
  | EmptyString => true
  end.

Fixpoint trimEnd (s : string) : string :=
  match s with
  | String c s' => if all_space s then EmptyString else String c (trimEnd s')
  | EmptyString => s
  end.

(** [s.trim()]. *)
Definition trim (s : string) : string := trimEnd (trimStart s).

(** [!s] on a string. *)
Definition empty (s : string) : bool :=
  match s with EmptyString => true | _ => false end.

(** [dates.includes(d)]. *)
Definition includes (l : list string) (d : string) : bool :=
  existsb (String.eqb d) l.

(** [s.split(sep)[0]] for a one-character separator. *)
Fixpoint split_head (sep : ascii) (s : string) : string :=
  match s with
  | String c s' => if Ascii.eqb c sep then EmptyString else String c (split_head sep s')
  | EmptyString => EmptyString
  end.

Definition digit_of (c : ascii) : option Z :=
  let n := Z.of_nat (nat_of_ascii c) in
  if (48 <=? n) && (n <=? 57) then Some (n - 48) else None.

(** Reads the longest run of decimal digits: the number read so far, how
    many digits were read, and the rest. *)
Fixpoint read_digits (acc count : Z) (s : string) : Z * Z * string :=
  match s with
  | String c s' =>
      match digit_of c with
      | Some d => read_digits (acc * 10 + d) (count + 1) s'
      | None => (acc, count, s)
      end
  | EmptyString => (acc, count, s)
  end.

Definition read_sign (s : string) : bool * string :=
  match s with
  | String "-" s' => (true, s')
  | String "+" s' => (false, s')
  | _ => (false, s)
  end.

(** ExponentPart, when one is there: [e] or [E], a sign, at least one digit. *)
Definition read_exponent (s : string) : Z :=
  match s with
  | String c s' =>
      if Ascii.eqb c "e" || Ascii.eqb c "E" then
        let '(negative, s'') := read_sign s' in
        let '(e, n, _) := read_digits 0 0 s'' in
        if n =? 0 then 0 else if negative then - e else e
      else 0
  | EmptyString => 0
  end.

(** [m * 10^k]. *)
Definition scale10 (m k : Z) : Q :=
  if 0 <=? k then (m * 10 ^ k) # 1 else m # Z.to_pos (10 ^ (- k)).

(** [parseFloat(s)]: leading white space is skipped and the longest prefix
    that is a StrDecimalLiteral is read; [NaN] when there is none.  The
    value is that of the decimal read; [Double.parseFloat] rounds it to
    a double. *)
Definition parseFloat (s : string) : number :=
  let '(negative, s1) := read_sign (trimStart s) in
  if prefix "Infinity" s1 then inf negative
  else
    let '(m, ni, s2) := read_digits 0 0 s1 in
    let '(m', nf, s3) :=
      match s2 with
      | String "." s2' => read_digits m 0 s2'
      | _ => (m, 0, s2)
      end in
    if (ni =? 0) && (nf =? 0) then NaN
    else
      let q := scale10 m' (read_exponent s3 - nf) in
      Fin (if negative then - q else q)%Q.

End JSString.
Import JSString.

(* ================================================================== *)
(** ** Dates *)

Definition msPerDay : Z := 86400000.

Module Calendar.

(** Days since 1970-01-01 of a date of the proleptic Gregorian calendar. *)
Definition days_from_civil (y m d : Z) : Z :=
  let y' := if m <=? 2 then y - 1 else y in
  let era := y' / 400 in
  let yoe := y' - era * 400 in
  let doy := (153 * (if 2 <? m then m - 3 else m + 9) + 2) / 5 + d - 1 in
  let doe := yoe * 365 + yoe / 4 - yoe / 100 + doy in
  era * 146097 + doe - 719468.

(** Year, month (1 to 12) and day of the month of a day number. *)
Definition civil_from_days (z : Z) : Z * Z * Z :=
  let z' := z + 719468 in
  let era := z' / 146097 in
  let doe := z' - era * 146097 in
  let yoe := (doe - doe / 1460 + doe / 36524 - doe / 146096) / 365 in
  let doy := doe - (365 * yoe + yoe / 4 - yoe / 100) in
  let mp := (5 * doy + 2) / 153 in
  let d := doy - (153 * mp + 2) / 5 + 1 in
  let m := if mp <? 10 then mp + 3 else mp - 9 in
  let y := yoe + era * 400 in
  (if m <=? 2 then y + 1 else y, m, d).

Definition leap (y : Z) : bool :=
  ((y mod 4 =? 0) && negb (y mod 100 =? 0)) || (y mod 400 =? 0).

Definition days_in_month (y m : Z) : Z :=
  if m =? 2 then (if leap y then 29 else 28)
  else if (m =? 4) || (m =? 6) || (m =? 9) || (m =? 11) then 30
  else 31.

Definition digit_char (n : Z) : ascii := ascii_of_nat (Z.to_nat (48 + n mod 10)).

(** [n] in [width] decimal digits, zero padded. *)
Fixpoint pad (width : nat) (n : Z) : string :=
  match width with
  | O => EmptyString
  | S w => pad w (n / 10) ++ String (digit_char n) EmptyString
  end.

(** [new Date(t).toISOString()] of a valid time value [t]. *)
Definition toISOString (t : Z) : string :=
  let '(y, m, d) := civil_from_days (t / msPerDay) in
  let ms := t mod msPerDay in
  let year :=
    if (0 <=? y) && (y <=? 9999) then pad 4 y
    else if y <? 0 then "-" ++ pad 6 (- y) else "+" ++ pad 6 y in
  year ++ "-" ++ pad 2 m ++ "-" ++ pad 2 d ++ "T"
  ++ pad 2 (ms / 3600000) ++ ":" ++ pad 2 (ms / 60000 mod 60) ++ ":"
  ++ pad 2 (ms / 1000 mod 60) ++ "." ++ pad 3 (ms mod 1000) ++ "Z".

(** Reads exactly [width] decimal digits. *)
Fixpoint fixed_digits (width : nat) (acc : Z) (s : string) : option (Z * string) :=
  match width, s with
  | O, _ => Some (acc, s)
  | S w, String c s' =>
      match digit_of c with
      | Some d => fixed_digits w (acc * 10 + d) s'
      | None => None
      end
  | S _, EmptyString => None
  end.

Definition expect (c : ascii) (s : string) : option string :=
  match s with
  | String c' s' => if Ascii.eqb c c' then Some s' else None
  | EmptyString => None
  end.

(** The time of day after the [T] of a date-time string in UTC:
    [HH:mm:ss], an optional [.sss], and [Z]. *)
Definition parse_time (s : string) : option Z :=
  match fixed_digits 2 0 s with
  | Some (h, s1) =>
      match expect ":" s1 with
      | Some s2 =>
          match fixed_digits 2 0 s2 with
          | Some (mi, s3) =>
              match expect ":" s3 with
              | Some s4 =>
                  match fixed_digits 2 0 s4 with
                  | Some (sec, s5) =>
                      let '(ms, s6) :=
                        match expect "." s5 with
                        | Some s5' =>
                            match fixed_digits 3 0 s5' with
                            | Some r => r
                            | None => (0, s5)
                            end
                        | None => (0, s5)
                        end in
                      if String.eqb s6 "Z" && (h <? 24) && (mi <? 60) && (sec <? 60)
                      then Some (h * 3600000 + mi * 60000 + sec * 1000 + ms)
                      else None
                  | None => None
                  end
              | None => None
              end
          | None => None
          end
      | None => None
      end
  | None => None
  end.

(** The date-time string format of ECMAScript, in the two forms the
    backend and the date inputs produce: [YYYY-MM-DD] and
    [YYYY-MM-DDTHH:mm:ss(.sss)Z], both UTC.  Every other string is an
    Invalid Date here. *)
Definition parse_iso (s : string) : option Z :=
  match fixed_digits 4 0 s with
  | Some (y, s1) =>
      match expect "-" s1 with
      | Some s2 =>
          match fixed_digits 2 0 s2 with
          | Some (m, s3) =>
              match expect "-" s3 with
              | Some s4 =>
                  match fixed_digits 2 0 s4 with
                  | Some (d, s5) =>
                      if (1 <=? m) && (m <=? 12) && (1 <=? d) && (d <=? days_in_month y m) then
                        let day := days_from_civil y m d * msPerDay in
                        match s5 with
                        | EmptyString => Some day
                        | String "T" s6 =>
                            match parse_time s6 with
                            | Some ms => Some (day + ms)
                            | None => None
                            end
                        | _ => None
                        end
                      else None
                  | None => None
                  end
              | None => None
              end
          | None => None
          end
      | None => None
      end
  | None => None
  end.

End Calendar.

(** What the sources use of the host's [Date] and the standard leaves to
    the host: the time value of [new Date(s)] in milliseconds since the
    epoch ([None] for an Invalid Date), and the offset of local time from
    UTC in milliseconds (taken constant: no daylight saving). *)
Class DateHost : Type := {
  Date_parse : string -> option Z;
  LocalTZA : Z
}.

(** A host in UTC whose parser reads the two ISO forms. *)
Definition utc_host : DateHost :=
  {| Date_parse := Calendar.parse_iso; LocalTZA := 0 |}.

(** The same parser on a host five hours west of UTC. *)
Definition west_host : DateHost :=
  {| Date_parse := Calendar.parse_iso; LocalTZA := - (5 * 3600000) |}.

Section Dates.
Context {host : DateHost}.

(** [new Date(s).toISOString().split('T')[0]]; toISOString throws a
    RangeError on an Invalid Date, which is the [None] here. *)
Definition isoDay (s : string) : option string :=
  match Date_parse s with
  | Some t => Some (split_head "T" (Calendar.toISOString t))
  | None => None
  end.

(** The local day number of a time value. *)
Definition localDay (t : Z) : Z := (t + LocalTZA) / msPerDay.

(** [d.setHours(0, 0, 0, 0)] on a valid time value: local midnight of the
    local day of [t]. *)
Definition setHours0 (t : Z) : Z := localDay t * msPerDay - LocalTZA.

(** [getFullYear()], [getMonth()] (0 to 11) and [getDate()]. *)
Definition getFullYear (t : Z) : Z := fst (fst (Calendar.civil_from_days (localDay t))).
Definition getMonth (t : Z) : Z := snd (fst (Calendar.civil_from_days (localDay t))) - 1.
Definition getDate (t : Z) : Z := snd (Calendar.civil_from_days (localDay t)).

End Dates.

(* ================================================================== *)
(** ** Backend payloads *)

(** A response body, [any] in the sources, whose arrays hold records of
    type [A]; the properties of an object are listed in the order
    [Object.values] and [for ... in] enumerate them, one entry per key. *)
#[local] Unset Elimination Schemes.
Inductive json (A : Type) : Type :=
| JUndefined
| JNull
| JBool (b : bool)
| JNum (n : number)
| JStr (s : string)
| JArr (items : list A)
| JObj (props : list (string * json A)).
#[local] Set Elimination Schemes.

Arguments JUndefined {A}.
Arguments JNull {A}.
Arguments JBool {A} b.
Arguments JNum {A} n.
Arguments JStr {A} s.
Arguments JArr {A} items.
Arguments JObj {A} props.

Module Json.
Section WithRecords.
Context {A : Type}.

(** [data?.key]. *)
Definition get (key : string) (data : json A) : json A :=
  match data with
  | JObj props =>
      match find (fun p => String.eqb (fst p) key) props with
      | Some p => snd p
      | None => JUndefined
      end
  | _ => JUndefined
  end.

(** ToBoolean. *)
Definition truthy (data : json A) : bool :=
  match data with
  | JUndefined | JNull => false
  | JBool b => b
  | JNum n => JSNumber.truthy n
  | JStr s => negb (empty s)
  | JArr _ | JObj _ => true
  end.

(** [Array.isArray(data)], with the array. *)
Definition asArray (data : json A) : option (list A) :=
  match data with JArr items => Some items | _ => None end.

Definition isArray (data : json A) : bool :=
  match data with JArr _ => true | _ => false end.

(** [Object.values(data)] of an object that is not an array. *)
Definition values (props : list (string * json A)) : list (json A) :=
  map snd props.
End WithRecords.
End Json.

(** A settled request: the response body, or a rejection. *)
Inductive response (A : Type) : Type :=
| Fulfilled (data : json A)
| Rejected.

Arguments Fulfilled {A} data.
Arguments Rejected {A}.

(* ================================================================== *)
(** ** Routes and navigation state *)

(** [PatientData] of the forms, the patient carried in the navigation
    state. *)
Record PatientData : Type := {
  id : string;
  patient_id : string;
  first_name : string;
  last_name : string
}.

(** What the assessment forms read of [location.state || {}]; an absent
    entry is [undefined]. *)
Record LocationState : Type := {
  ls_patient : option PatientData;
  ls_bmi : option number;
  ls_bmiStatus : option string
}.

Definition no_state : LocationState :=
  {| ls_patient := None; ls_bmi := None; ls_bmiStatus := None |}.

(** What a form renders before its fields: the two early returns, or the
    form itself. *)
Inductive view : Type :=
| NoPatientData
| AccessDenied
| FormView.

Module App.

Inductive page : Type :=
| PatientRegistration
| VitalsForm
| OverweightAssessmentForm
| GeneralAssessmentForm
| PatientListing
| PatientDetails.

(** The [Routes] table; the last route sends every other path to [/]. *)
Definition route (path : string) : page :=
  if String.eqb path "/" then PatientRegistration
  else if String.eqb path "/register-patient" then PatientRegistration
  else if String.eqb path "/vitals-form" then VitalsForm
  else if String.eqb path "/overweight-assessment" then OverweightAssessmentForm
  else if String.eqb path "/general-assessment" then GeneralAssessmentForm
  else if String.eqb path "/patient-listing" then PatientListing
  else if String.eqb path "/patient-details" then PatientDetails
  else PatientRegistration.

End App.

(** The outcome of a write: the catch blocks turn a failure into the text
    they show, which is what [Failed] carries. *)
Inductive write_result : Type :=
| Saved
| Failed (message : string).

(* ================================================================== *)
(** ** [src/components/VitalsForm.tsx] *)

Module VitalsForm.

Record VitalsFormData : Type := {
  visit_date : string;
  height_cm : string;
  weight_kg : string
}.

Record ExistingVital : Type := {
  ev_visit_date : string;
  ev_height_cm : number;
  ev_weight_kg : number;
  ev_bmi : number;
  ev_created_at : string
}.

Record State : Type := {
  patient : option PatientData;
  formData : VitalsFormData;
  bmi : option number;
  bmiStatus : string;
  isSubmitting : bool;
  error : option string;
  existingDates : list string
}.

Definition setError (e : option string) (st : State) : State :=
  {| patient := patient st; formData := formData st; bmi := bmi st;
     bmiStatus := bmiStatus st; isSubmitting := isSubmitting st;
     error := e; existingDates := existingDates st |}.

Definition setIsSubmitting (b : bool) (st : State) : State :=
  {| patient := patient st; formData := formData st; bmi := bmi st;
     bmiStatus := bmiStatus st; isSubmitting := b;
     error := error st; existingDates := existingDates st |}.

Definition setExistingDates (l : list string) (st : State) : State :=
  {| patient := patient st; formData := formData st; bmi := bmi st;
     bmiStatus := bmiStatus st; isSubmitting := isSubmitting st;
     error := error st; existingDates := l |}.

Record VitalsPayload : Type := {
  p_patient_id : string;
  p_visit_date : string;
  p_height_cm : number;
  p_weight_kg : number;
  p_bmi : number
}.

Inductive effect : Type :=
| CreateVitals (payload : VitalsPayload)
| Navigate (path : string) (state : LocationState).

Section Existing.
Context {host : DateHost}.

(** The effect that runs when the patient changes.  [resp] is what
    [vitalsApi.getVitals(patient.id)] settles with. *)
Definition fetchExistingVitals (resp : response ExistingVital) (st : State) : State :=
  match patient st with
  | None => st
  | Some p =>
      if empty (id p) then st
      else
        match resp with
        | Fulfilled data =>
            if Json.truthy data then
              let vitalsArray :=
                match data with
                | JArr items => items
                | _ =>
                    match Json.get "results" data with
                    | JArr items => items
                    | _ =>
                        match Json.get "data" data with
                        | JArr items => items
                        | _ => []
                        end
                    end
                end in
              let dates :=
                map (fun vital =>
                       match isoDay (ev_visit_date vital) with
                       | Some d => d
                       | None => ev_visit_date vital
                       end) vitalsArray in
              setExistingDates dates st
            else st
        | Rejected => setExistingDates [] st
        end
  end.
End Existing.

Record BMI : Type := { bmi_value : number; status : string }.

(** [calculateBMI], on the operations without rounding: what the
    handlers below pass on and compare.  The same function on doubles is
    [Double.VitalsForm.calculateBMI]; the two differ where the exact
    quotient is at or near the midpoint of two one-decimal values. *)
Definition calculateBMI (heightCm weightKg : number) : BMI :=
  let heightM := div heightCm (of_Z 100) in
  let bmiValue := div weightKg (mul heightM heightM) in
  let roundedBMI := toFixed1 bmiValue in
  let status :=
    if lt roundedBMI (Fin (185 # 10)) then "Underweight"
    else if lt roundedBMI (of_Z 25) then "Normal"
    else "Overweight" in
  {| bmi_value := roundedBMI; status := status |}.

(** [existingDates.some(d => d.trim() === visit_date.trim())]. *)
Definition dateExists (dates : list string) (visit : string) : bool :=
  let normalizedDate := trim visit in
  existsb (fun existingDate => String.eqb (trim existingDate) normalizedDate) dates.

Definition duplicate_message (visit : string) : string :=
  "A vitals entry already exists for " ++ visit ++ ". Please select a different date.".

(** [handleSubmit]: the state it leaves and the requests and navigation
    it issues, in order.  [saved] is how [vitalsApi.createVitals]
    settles when it is called.  The navigation state also holds
    [vitalsData] and [vitalsId], which no component reads. *)
Definition handleSubmit (saved : write_result) (st0 : State) : State * list effect :=
  let st := setError None st0 in
  match patient st with
  | None =>
      (setError (Some "No patient data found. Please register the patient first.") st, [])
  | Some p =>
      if empty (id p) then
        (setError (Some "Invalid patient data. Patient ID is missing.") st, [])
      else if empty (visit_date (formData st)) || empty (height_cm (formData st))
              || empty (weight_kg (formData st)) then
        (setError (Some "All fields are mandatory.") st, [])
      else
        let heightNum := parseFloat (height_cm (formData st)) in
        let weightNum := parseFloat (weight_kg (formData st)) in
        if isNaN heightNum || isNaN weightNum
           || le heightNum (of_Z 0) || le weightNum (of_Z 0) then
          (setError (Some "Height and weight must be valid numbers greater than zero.") st, [])
        else if dateExists (existingDates st) (visit_date (formData st)) then
          (setError (Some (duplicate_message (visit_date (formData st)))) st, [])
        else
          let r := calculateBMI heightNum weightNum in
          let vitalsData :=
            {| p_patient_id := id p;
               p_visit_date := visit_date (formData st);
               p_height_cm := heightNum;
               p_weight_kg := weightNum;
               p_bmi := bmi_value r |} in
          match saved with
          | Saved =>
              let nextRoute :=
                if le (bmi_value r) (of_Z 25) then "/general-assessment"
                else "/overweight-assessment" in
              (setIsSubmitting false st,
               [CreateVitals vitalsData;
                Navigate nextRoute
                  {| ls_patient := Some p;
                     ls_bmi := Some (bmi_value r);
                     ls_bmiStatus := Some (status r) |}])
          | Failed message =>
              (setIsSubmitting false (setError (Some message) st),
               [CreateVitals vitalsData])
          end
  end.

End VitalsForm.

(* ================================================================== *)
(** ** Assessment forms *)

(** The [bmi] of a listed vitals record: a number, a string, or absent. *)
Inductive bmi_field : Type :=
| BmiNumber (n : number)
| BmiString (s : string)
| BmiAbsent.

(** A vitals record as the backend lists it ([any] in the sources): the
    fields the pages read, each date a string or absent. *)
Record RawVital : Type := {
  rv_visit_date : option string;
  rv_created_at : option string;
  rv_bmi : bmi_field
}.

(** [a || b] on two strings that may be absent. *)
Definition or_opt (a b : option string) : option string :=
  match a with
  | Some s => if empty s then b else a
  | None => b
  end.

(** An assessment as the backend lists it ([any] in the sources): the two
    date fields, each a string or absent. *)
Record RawAssessment : Type := {
  ra_visit_date : option string;
  ra_created_at : option string
}.

Inductive assessment_effect (payload : Type) : Type :=
| CreateAssessment (data : payload)
| NavigateTo (path : string) (patient : option PatientData).

Arguments CreateAssessment {payload} data.
Arguments NavigateTo {payload} path patient.

Section ExistingAssessments.
Context {host : DateHost}.

(** The date list both assessment forms derive from the listed
    assessments: [new Date(a.visit_date).toISOString().split('T')[0]],
    the raw field when that throws, and then [.filter(date => date)]. *)
Definition assessment_dates (assessmentsArray : list RawAssessment) : list string :=
  flat_map (fun assessment =>
              match ra_visit_date assessment with
              | Some s =>
                  let date := match isoDay s with Some d => d | None => s end in
                  if empty date then [] else [date]
              | None => []
              end) assessmentsArray.

(** The three shapes both forms look for in the response body. *)
Definition assessments_of (data : json RawAssessment) : list RawAssessment :=
  match data with
  | JArr items => items
  | _ =>
      match Json.get "results" data with
      | JArr items => items
      | _ =>
          match Json.get "data" data with
          | JArr items => items
          | _ => []
          end
      end
  end.
End ExistingAssessments.

(** [src/components/GeneralAssessmentForm.tsx], first document. *)
Module GeneralAssessmentFormV1.

Definition render (ls : LocationState) : view :=
  match ls_patient ls, ls_bmi ls with
  | Some _, Some bmi =>
      if gt bmi (of_Z 25) then AccessDenied else FormView
  | _, _ => NoPatientData
  end.

End GeneralAssessmentFormV1.

(** [src/components/GeneralAssessmentForm.tsx], second document. *)
Module GeneralAssessmentForm.

Record GeneralAssessmentData : Type := {
  visit_date : string;
  general_health : string;
  using_drugs : string;
  comments : string
}.

Record State : Type := {
  formData : GeneralAssessmentData;
  existingDates : list string;
  isSubmitting : bool;
  error : option string
}.

Definition setError (e : option string) (st : State) : State :=
  {| formData := formData st; existingDates := existingDates st;
     isSubmitting := isSubmitting st; error := e |}.

Definition setIsSubmitting (b : bool) (st : State) : State :=
  {| formData := formData st; existingDates := existingDates st;
     isSubmitting := b; error := error st |}.

Definition setExistingDates (l : list string) (st : State) : State :=
  {| formData := formData st; existingDates := l;
     isSubmitting := isSubmitting st; error := error st |}.

Definition getBmiStatusText (bmiValue : number) : string :=
  if lt bmiValue (Fin (185 # 10)) then "Underweight"
  else if lt bmiValue (of_Z 25) then "Normal"
  else "Overweight".

Section Existing.
Context {host : DateHost}.

(** [resp] is what [assessmentApi.getPatientGeneralAssessments]
    settles with. *)
Definition fetchExistingAssessments (ls : LocationState)
    (resp : response RawAssessment) (st : State) : State :=
  match ls_patient ls with
  | None => st
  | Some p =>
      if empty (id p) then st
      else
        match resp with
        | Fulfilled data => setExistingDates (assessment_dates (assessments_of data)) st
        | Rejected => setExistingDates [] st
        end
  end.
End Existing.

Record Payload : Type := {
  p_patient_id : string;
  p_visit_date : string;
  p_general_health : string;
  p_using_drugs : string;
  p_comments : string
}.

Definition duplicate_message (visit : string) : string :=
  "A general assessment already exists for " ++ visit ++ ". Please select a different date.".

Definition handleSubmit (ls : LocationState) (saved : write_result) (st0 : State)
  : State * list (assessment_effect Payload) :=
  let st := setError None st0 in
  match ls_patient ls with
  | None => (setError (Some "Patient data not found") st, [])
  | Some p =>
      if empty (id p) then (setError (Some "Patient data not found") st, [])
      else if empty (visit_date (formData st)) then
        (setError (Some "Visit date is required") st, [])
      else if empty (general_health (formData st)) then
        (setError (Some "General health assessment is required") st, [])
      else if empty (using_drugs (formData st)) then
        (setError (Some "Please specify if the patient is using any drugs") st, [])
      else if includes (existingDates st) (visit_date (formData st)) then
        (setError (Some (duplicate_message (visit_date (formData st)))) st, [])
      else
        let assessmentData :=
          {| p_patient_id := id p;
             p_visit_date := visit_date (formData st);
             p_general_health := trim (general_health (formData st));
             p_using_drugs := trim (using_drugs (formData st));
             p_comments := trim (comments (formData st)) |} in
        match saved with
        | Saved =>
            (setIsSubmitting false st,
             [CreateAssessment assessmentData;
              NavigateTo "/patient-details" (Some p)])
        | Failed message =>
            (setIsSubmitting false (setError (Some message) st),
             [CreateAssessment assessmentData])
        end
  end.

Definition render (ls : LocationState) : view :=
  match ls_patient ls, ls_bmi ls with
  | Some _, Some bmi =>
      let calculatedStatus := getBmiStatusText bmi in
      if String.eqb calculatedStatus "Overweight" then AccessDenied else FormView
  | _, _ => NoPatientData
  end.

(** The render gate in front of [handleSubmit]: the form and its submit
    button exist only in the last of the three views.  What the browser
    checks between a click on that button and the submit event (the
    disabled button, the required controls, the [max] of the date input)
    is [GeneralAssessmentFormPage.click]. *)
Definition submit (ls : LocationState) (saved : write_result) (st : State)
  : view * option (State * list (assessment_effect Payload)) :=
  match render ls with
  | FormView => (FormView, Some (handleSubmit ls saved st))
  | v => (v, None)
  end.

End GeneralAssessmentForm.

(** The overweight assessment form ([part_002], first document; the second
    document has the same early returns). *)
Module OverweightAssessmentForm.

Record OverweightAssessmentData : Type := {
  visit_date : string;
  general_health : string;
  been_on_diet : string;
  comments : string
}.

Record State : Type := {
  formData : OverweightAssessmentData;
  existingDates : list string;
  isSubmitting : bool;
  error : option string
}.

Definition setError (e : option string) (st : State) : State :=
  {| formData := formData st; existingDates := existingDates st;
     isSubmitting := isSubmitting st; error := e |}.

Definition setIsSubmitting (b : bool) (st : State) : State :=
  {| formData := formData st; existingDates := existingDates st;
     isSubmitting := b; error := error st |}.

Definition setExistingDates (l : list string) (st : State) : State :=
  {| formData := formData st; existingDates := l;
     isSubmitting := isSubmitting st; error := error st |}.

Section Existing.
Context {host : DateHost}.

Definition fetchExistingAssessments (ls : LocationState)
    (resp : response RawAssessment) (st : State) : State :=
  match ls_patient ls with
  | None => st
  | Some p =>
      if empty (id p) then st
      else
        match resp with
        | Fulfilled data => setExistingDates (assessment_dates (assessments_of data)) st
        | Rejected => setExistingDates [] st
        end
  end.
End Existing.

Record Payload : Type := {
  p_patient_id : string;
  p_visit_date : string;
  p_general_health : string;
  p_been_on_diet : string;
  p_comments : string
}.

Definition duplicate_message (visit : string) : string :=
  "An overweight assessment already exists for " ++ visit ++ ". Please select a different date.".

Definition handleSubmit (ls : LocationState) (saved : write_result) (st0 : State)
  : State * list (assessment_effect Payload) :=
  let st := setError None st0 in
  match ls_patient ls with
  | None => (setError (Some "Patient data not found") st, [])
  | Some p =>
      if empty (id p) then (setError (Some "Patient data not found") st, [])
      else if empty (visit_date (formData st)) || empty (general_health (formData st))
              || empty (been_on_diet (formData st)) then
        (setError (Some "All fields are mandatory") st, [])
      else if includes (existingDates st) (visit_date (formData st)) then
        (setError (Some (duplicate_message (visit_date (formData st)))) st, [])
      else
        let assessmentData :=
          {| p_patient_id := id p;
             p_visit_date := visit_date (formData st);
             p_general_health := general_health (formData st);
             p_been_on_diet := been_on_diet (formData st);
             p_comments := comments (formData st) |} in
        match saved with
        | Saved =>
            (setIsSubmitting false st,
             [CreateAssessment assessmentData; NavigateTo "/patient-listing" None])
        | Failed message =>
            (setIsSubmitting false (setError (Some message) st),
             [CreateAssessment assessmentData])
        end
  end.

Definition render (ls : LocationState) : view :=
  match ls_patient ls, ls_bmi ls with
  | Some _, Some bmi =>
      if le bmi (of_Z 25) then AccessDenied else FormView
  | _, _ => NoPatientData
  end.

(** The render gate in front of [handleSubmit]; the checks of the browser
    behind a click on the submit button are
    [OverweightAssessmentFormPage.click]. *)
Definition submit (ls : LocationState) (saved : write_result) (st : State)
  : view * option (State * list (assessment_effect Payload)) :=
  match render ls with
  | FormView => (FormView, Some (handleSubmit ls saved st))
  | v => (v, None)
  end.

End OverweightAssessmentForm.

(* ================================================================== *)
(** ** The vitals form with patient lookup ([part_004]) *)

Module VitalsFormV2.

Definition hex (c : ascii) : bool :=
  let n := nat_of_ascii c in
  ((48 <=? n) && (n <=? 57) || (97 <=? n) && (n <=? 102) || (65 <=? n) && (n <=? 70))%nat.

Definition dash (c : ascii) : bool := Ascii.eqb c "-".

Definition version_digit (c : ascii) : bool :=
  let n := nat_of_ascii c in ((49 <=? n) && (n <=? 53))%nat.

Definition variant_digit (c : ascii) : bool :=
  existsb (Ascii.eqb c) ["8"; "9"; "a"; "b"; "A"; "B"]%char.

(** The character classes of the pattern, position by position. *)
Definition uuid_pattern : list (ascii -> bool) :=
  repeat hex 8 ++ [dash] ++ repeat hex 4 ++ [dash]
  ++ [version_digit] ++ repeat hex 3 ++ [dash]
  ++ [variant_digit] ++ repeat hex 3 ++ [dash] ++ repeat hex 12.

Fixpoint matches (pattern : list (ascii -> bool)) (s : string) : bool :=
  match pattern, s with
  | [], EmptyString => true
  | p :: pattern', String c s' => p c && matches pattern' s'
  | _, _ => false
  end.

Definition isValidUUID (str : string) : bool :=
  if empty str then false else matches uuid_pattern str.

Section Records.
Context {A : Type}.

Definition first_array (values : list (json A)) : option (list A) :=
  match find Json.isArray values with
  | Some v => Json.asArray v
  | None => None
  end.

(** The second loop: the first array among the values of the first
    nested object that holds one.  An array cannot be met here, the
    first loop returns on it. *)
Fixpoint first_nested_array (values : list (json A)) : option (list A) :=
  match values with
  | [] => None
  | JObj nested :: rest =>
      match first_array (Json.values nested) with
      | Some items => Some items
      | None => first_nested_array rest
      end
  | _ :: rest => first_nested_array rest
  end.

Definition extractArrayFromResponse (data : json A) : list A :=
  match data with
  | JArr items => items
  | _ =>
      match Json.get "results" data with
      | JArr items => items
      | _ =>
          match Json.get "data" data with
          | JArr items => items
          | _ =>
              match data with
              | JObj props =>
                  let values := Json.values props in
                  match first_array values with
                  | Some items => items
                  | None =>
                      match first_nested_array values with
                      | Some items => items
                      | None => []
                      end
                  end
              | _ => []
              end
          end
      end
  end.
End Records.

Section Form.
Context {host : DateHost}.

(** [now] is the time value of [new Date()]. *)
Definition isFutureDate (now : Z) (dateString : string) : bool :=
  match Date_parse dateString with
  | Some inputDate => setHours0 now <? setHours0 inputDate
  | None => false
  end.

Record FormData : Type := {
  visit_date : string;
  height_cm : string;
  weight_kg : string;
  bmi : number
}.

Record Errors : Type := {
  e_patient : string;
  e_height_cm : string;
  e_weight_kg : string;
  e_visit_date : string
}.

(** The component state but for [existingVitals], the table of earlier
    records the page shows. *)
Record State : Type := {
  loading : bool;
  patient : option PatientData;
  patientUUID : string;
  existingDates : list string;
  formData : FormData;
  errors : Errors
}.

Definition setErrors (e : Errors) (st : State) : State :=
  {| loading := loading st; patient := patient st; patientUUID := patientUUID st;
     existingDates := existingDates st; formData := formData st; errors := e |}.

Definition setLoading (b : bool) (st : State) : State :=
  {| loading := b; patient := patient st; patientUUID := patientUUID st;
     existingDates := existingDates st; formData := formData st; errors := errors st |}.

Definition setExistingDates (l : list string) (st : State) : State :=
  {| loading := loading st; patient := patient st; patientUUID := patientUUID st;
     existingDates := l; formData := formData st; errors := errors st |}.

(** [a || b || '']. *)
Definition or_else (a b : option string) : string :=
  match or_opt a b with Some s => s | None => "" end.

(** The dates of the listed records; [None] when [toISOString] throws
    on one of them. *)
Fixpoint existing_days (visits : list string) : option (list string) :=
  match visits with
  | [] => Some []
  | v :: rest =>
      if empty v then existing_days rest
      else
        match isoDay v, existing_days rest with
        | Some d, Some ds => Some (if empty d then ds else d :: ds)
        | _, _ => None
        end
  end.

(** The effect on [patientUUID].  [first] is what [getVitals] settles
    with and [second] what [getVitalsByPatientId] does when the first
    request fails; an exception leaves the dates as they were. *)
Definition fetchVitals (first second : response RawVital) (st : State) : State :=
  if empty (patientUUID st) || negb (isValidUUID (patientUUID st)) then st
  else
    let settled := match first with Fulfilled _ => first | Rejected => second end in
    match settled with
    | Fulfilled data =>
        let vitalsArray := extractArrayFromResponse data in
        let visits := map (fun v => or_else (rv_visit_date v) (rv_created_at v)) vitalsArray in
        match existing_days visits with
        | Some dates => setExistingDates dates st
        | None => st
        end
    | Rejected => st
    end.

Definition validateForm (now : Z) (st : State) : Errors * bool :=
  let e_p :=
    if empty (patientUUID st) || negb (isValidUUID (patientUUID st))
    then Some "Valid patient UUID is required" else None in
  let height := parseFloat (height_cm (formData st)) in
  let e_h :=
    if empty (height_cm (formData st)) || isNaN height
    then Some "Please enter a valid height"
    else if lt height (of_Z 50) || gt height (of_Z 250)
    then Some "Height must be between 50cm and 250cm" else None in
  let weight := parseFloat (weight_kg (formData st)) in
  let e_w :=
    if empty (weight_kg (formData st)) || isNaN weight
    then Some "Please enter a valid weight"
    else if lt weight (of_Z 2) || gt weight (of_Z 300)
    then Some "Weight must be between 2kg and 300kg" else None in
  let e_future :=
    if isFutureDate now (visit_date (formData st))
    then Some "Visit date cannot be in the future" else None in
  let e_dup :=
    if includes (existingDates st) (visit_date (formData st))
    then Some "Vitals already recorded for this date" else None in
  let text (e : option string) := match e with Some m => m | None => "" end in
  let set (e : option string) := match e with Some _ => true | None => false end in
  ({| e_patient := text e_p;
      e_height_cm := text e_h;
      e_weight_kg := text e_w;
      e_visit_date := match e_dup with Some m => m | None => text e_future end |},
   negb (set e_p || set e_h || set e_w || set e_future || set e_dup)).

(** [calculateBMI], on the operations without rounding; on doubles it is
    [Double.VitalsFormV2.calculateBMI]. *)
Definition calculateBMI (height weight : number) : number :=
  let heightInMeters := div height (of_Z 100) in
  let bmi := div weight (mul heightInMeters heightInMeters) in
  toFixed1 bmi.

Definition getBmiStatus (bmi : number + string) : string :=
  let num := match bmi with inl n => n | inr s => parseFloat s end in
  if isNaN num then "Unknown"
  else if lt num (Fin (185 # 10)) then "Underweight"
  else if lt num (of_Z 25) then "Normal"
  else "Overweight".

(** The label the form shows next to the BMI it has just computed. *)
Definition inline_status (bmi : number) : string :=
  if lt bmi (Fin (185 # 10)) then "Underweight"
  else if lt bmi (of_Z 25) then "Normal"
  else "Overweight".

Record VitalsPayload : Type := {
  p_patient_id : string;
  p_visit_date : string;
  p_height_cm : number;
  p_weight_kg : number;
  p_bmi : number
}.

Inductive effect : Type :=
| Alert (message : string)
| CreateVitals (payload : VitalsPayload)
| Navigate (path : string) (state : LocationState).

(** The patient object of the navigation state is built field by field
    with [patient?.id] and so on: it is an object even when [patient]
    is null, with fields that are then absent and read as empty. *)
Definition navigation_patient (p : option PatientData) : option PatientData :=
  Some (match p with
        | Some x => x
        | None => {| id := ""; patient_id := ""; first_name := ""; last_name := "" |}
        end).

Definition nl : string := String (ascii_of_nat 10) EmptyString.

Definition patient_alert (e : string) : string :=
  "Error: " ++ e ++ nl ++ nl
  ++ "The system cannot find a valid patient ID. Please go back and try again.".

(** [handleSubmit]; the alert on a failed validation reads [errors] of
    the render the handler was created in, the state before
    [setErrors]. *)
Definition handleSubmit (now : Z) (saved : write_result) (st : State)
  : State * list effect :=
  let '(newErrors, isValid) := validateForm now st in
  let st1 := setErrors newErrors st in
  if negb isValid then
    (st1,
     if empty (e_patient (errors st)) then []
     else [Alert (patient_alert (e_patient (errors st)))])
  else
    let submissionData :=
      {| p_patient_id := patientUUID st;
         p_visit_date := visit_date (formData st);
         p_height_cm := parseFloat (height_cm (formData st));
         p_weight_kg := parseFloat (weight_kg (formData st));
         p_bmi := bmi (formData st) |} in
    match saved with
    | Saved =>
        let calculatedBMI :=
          calculateBMI (parseFloat (height_cm (formData st)))
                       (parseFloat (weight_kg (formData st))) in
        let bmiStatus :=
          if le calculatedBMI (of_Z 25) then "Normal/Underweight" else "Overweight" in
        let next :=
          if le calculatedBMI (of_Z 25) then "/general-assessment"
          else "/overweight-assessment" in
        (setLoading false st1,
         [CreateVitals submissionData;
          Alert "Vitals saved successfully!";
          Navigate next
            {| ls_patient := navigation_patient (patient st);
               ls_bmi := Some calculatedBMI;
               ls_bmiStatus := Some bmiStatus |}])
    | Failed message =>
        (setLoading false st1, [CreateVitals submissionData; Alert message])
    end.
End Form.

End VitalsFormV2.

(* ================================================================== *)
(** ** Arrays and promises *)

Module JSArray.
Section Sort.
Context {A : Type}.

(** [after x y]: the comparator is positive on [(x, y)], so [x] is to
    come after [y]. *)
Variable after : A -> A -> bool.

Fixpoint insert (x : A) (l : list A) : list A :=
  match l with
  | [] => [x]
  | y :: l' => if after x y then y :: insert x l' else x :: l
  end.

(** [l.sort(comparator)].  The sort is stable; this is the insertion
    of each element, from the last to the first, in front of the
    elements it is not to come after. *)
Definition sort (l : list A) : list A := fold_right insert [] l.
End Sort.
End JSArray.

Module Promise.
Section All.
Context {A : Type}.

Fixpoint store (i : nat) (v : A) (slots : list (option A)) : list (option A) :=
  match slots, i with
  | [], _ => []
  | _ :: rest, O => Some v :: rest
  | s :: rest, S i' => s :: store i' v rest
  end.

Fixpoint collect (slots : list (option A)) : option (list A) :=
  match slots with
  | [] => Some []
  | Some v :: rest =>
      match collect rest with
      | Some vs => Some (v :: vs)
      | None => None
      end
  | None :: _ => None
  end.

(** [Promise.all] over promises that fulfil with [values].  The result
    array has a slot per promise; a promise that settles stores its
    value in the slot of its own index, and [order] lists the indices
    in the order in which the promises settle.  The result is there
    once every slot is filled. *)
Definition all (values : list A) (order : list nat) : option (list A) :=
  collect
    (fold_left
       (fun slots i =>
          match nth_error values i with
          | Some v => store i v slots
          | None => slots
          end)
       order (repeat None (List.length values))).
End All.
End Promise.

(** The read requests of the listing pages, each settled for a patient
    id. *)
Record Backend : Type := {
  getVitals : string -> response RawVital;
  getPatientOverweightAssessments : string -> response RawAssessment;
  getPatientGeneralAssessments : string -> response RawAssessment
}.

(* ================================================================== *)
(** ** [src/components/PatientListing.tsx], first document *)

Module PatientListing.

Record Patient : Type := {
  id : string;
  patient_id : string;
  first_name : string;
  last_name : string;
  middle_name : option string;
  date_of_birth : string;
  gender : option string;
  registration_date : option string;
  created_at : option string;
  age : option number;
  last_bmi : option number;
  last_bmi_status : option string;
  last_vitals_date : option string;
  last_assessment_date : option string;
  last_assessment_type : option string
}.

Definition extractArrayFromResponse {A : Type} (data : json A) : list A :=
  match data with
  | JArr items => items
  | _ =>
      match Json.get "results" data with
      | JArr items => items
      | _ =>
          match Json.get "data" data with
          | JArr items => items
          | _ => []
          end
      end
  end.

Definition getBmiStatus (bmi : number) : string :=
  if lt bmi (Fin (185 # 10)) then "Underweight"
  else if lt bmi (of_Z 25) then "Normal"
  else "Overweight".

Definition set_vitals (bmi : option number) (status date : option string)
    (p : Patient) : Patient :=
  {| id := id p; patient_id := patient_id p; first_name := first_name p;
     last_name := last_name p; middle_name := middle_name p;
     date_of_birth := date_of_birth p; gender := gender p;
     registration_date := registration_date p; created_at := created_at p;
     age := age p;
     last_bmi := bmi; last_bmi_status := status; last_vitals_date := date;
     last_assessment_date := last_assessment_date p;
     last_assessment_type := last_assessment_type p |}.

Definition set_assessment (date type : option string) (p : Patient) : Patient :=
  {| id := id p; patient_id := patient_id p; first_name := first_name p;
     last_name := last_name p; middle_name := middle_name p;
     date_of_birth := date_of_birth p; gender := gender p;
     registration_date := registration_date p; created_at := created_at p;
     age := age p;
     last_bmi := last_bmi p; last_bmi_status := last_bmi_status p;
     last_vitals_date := last_vitals_date p;
     last_assessment_date := date; last_assessment_type := type |}.

Section Fetch.
Context {host : DateHost}.

(** [new Date(d).getTime()], [None] for [NaN]. *)
Definition getTime (d : option string) : option Z :=
  match d with
  | Some s => Date_parse s
  | None => None
  end.

(** The comparator [new Date(b...).getTime() - new Date(a...).getTime()]
    is positive on [(a, b)]; a [NaN] difference counts as zero. *)
Definition after (a b : option string) : bool :=
  match getTime b, getTime a with
  | Some tb, Some ta => ta <? tb
  | _, _ => false
  end.

Definition vital_date (v : RawVital) : option string :=
  or_opt (rv_visit_date v) (rv_created_at v).

Definition assessment_date (a : RawAssessment) : option string :=
  or_opt (ra_visit_date a) (ra_created_at a).

Definition latest_assessment (l : list RawAssessment) : option RawAssessment :=
  hd_error (JSArray.sort (fun a b => after (assessment_date a) (assessment_date b)) l).

(** The callback [fetchPatients] maps over [basicPatients]: the patient
    it returns. *)
Definition withDetails (api : Backend) (patient : Patient) : Patient :=
  match getVitals api (id patient) with
  | Rejected => patient
  | Fulfilled vitals =>
      let vitalsArray := extractArrayFromResponse vitals in
      let patient1 :=
        match hd_error (JSArray.sort (fun a b => after (vital_date a) (vital_date b))
                                     vitalsArray) with
        | Some latestVital =>
            let bmi :=
              match rv_bmi latestVital with
              | BmiString s => Some (parseFloat s)
              | BmiNumber n => Some n
              | BmiAbsent => None
              end in
            let bmi_or_0 :=
              match bmi with
              | Some n => if truthy n then n else of_Z 0
              | None => of_Z 0
              end in
            set_vitals bmi (Some (getBmiStatus bmi_or_0)) (vital_date latestVital) patient
        | None => patient
        end in
      match getPatientOverweightAssessments api (id patient) with
      | Rejected => patient1
      | Fulfilled overweight =>
          match latest_assessment (extractArrayFromResponse overweight) with
          | Some latestAssessment =>
              set_assessment (assessment_date latestAssessment) (Some "Overweight") patient1
          | None =>
              match getPatientGeneralAssessments api (id patient) with
              | Rejected => patient1
              | Fulfilled general =>
                  match latest_assessment (extractArrayFromResponse general) with
                  | Some latestAssessment =>
                      set_assessment (assessment_date latestAssessment) (Some "General") patient1
                  | None => patient1
                  end
              end
          end
      end
  end.

(** The list [fetchPatients] hands to [setPatients] and
    [setFilteredPatients]: [Promise.all] over the callbacks, which
    settle in [order]. *)
Definition fetchPatients (api : Backend) (basicPatients : list Patient)
    (order : list nat) : option (list Patient) :=
  Promise.all (map (withDetails api) basicPatients) order.
End Fetch.

End PatientListing.

(** The patient details page ([part_002], third document). *)
Module PatientDetails.

Definition extractArrayFromResponse {A : Type} (data : json A) : list A :=
  match data with
  | JArr items => items
  | _ =>
      match Json.get "results" data with
      | JArr items => items
      | _ =>
          match Json.get "data" data with
          | JArr items => items
          | _ => []
          end
      end
  end.

Definition getBmiStatus (bmi : number) : string :=
  if lt bmi (Fin (185 # 10)) then "Underweight"
  else if lt bmi (of_Z 25) then "Normal"
  else "Overweight".

End PatientDetails.

(* ================================================================== *)
(** ** [src/components/PatientListing.tsx], second document *)

Module PatientListingV2.

(** A patient as the backend lists it. *)
Record RawPatient : Type := {
  r_id : string;
  r_patient_number : option string;
  r_patient_id : option string;
  r_first_name : option string;
  r_last_name : option string;
  r_date_of_birth : option string;
  r_created_at : option string;
  r_date_created : option string
}.

Record Patient : Type := {
  id : string;
  patient_id : string;
  first_name : string;
  last_name : string;
  date_of_birth : string;
  last_bmi : option number;
  last_bmi_status : string;
  last_assessment_date : option string;
  last_assessment_type : option string;
  last_vitals_date : option string;
  age : Z;
  created_at : option string
}.

(** An element of [assessments]: the listed assessment with its [type]
    and with [visit_date] replaced by [visit_date || created_at]. *)
Record Assessment : Type := {
  visit_date : option string;
  a_created_at : option string;
  type : string
}.

Definition getBmiStatus (bmi : option number) : string :=
  match bmi with
  | None => "No Data"
  | Some bmi =>
      if negb (truthy bmi) || isNaN bmi then "No Data"
      else if lt bmi (Fin (185 # 10)) then "Underweight"
      else if lt bmi (of_Z 25) then "Normal"
      else "Overweight"
  end.

Definition parseBmiValue (bmi : bmi_field) : option number :=
  match bmi with
  | BmiAbsent => None
  | BmiString s =>
      let num := parseFloat s in
      if isNaN num || negb (isFinite num) then None else Some (toFixed1 num)
  | BmiNumber num =>
      if isNaN num || negb (isFinite num) then None else Some (toFixed1 num)
  end.

(** The three shapes [fetchPatientVitals] and [fetchPatientAssessments]
    look for. *)
Definition array_of {A : Type} (data : json A) : list A :=
  match data with
  | JArr items => items
  | _ =>
      match Json.get "results" data with
      | JArr items => items
      | _ =>
          match Json.get "data" data with
          | JArr items => items
          | _ => []
          end
      end
  end.

Definition or_empty (a : option string) : string :=
  match a with Some s => s | None => "" end.

(** [s.slice(-6)]. *)
Definition slice_last6 (s : string) : string :=
  substring (String.length s - 6) 6 s.

Section Fetch.
Context {host : DateHost}.

Definition calculateAge (now : Z) (dateOfBirth : string) : Z :=
  if empty dateOfBirth then 0
  else
    match Date_parse dateOfBirth with
    | None => 0
    | Some birthDate =>
        let age := getFullYear now - getFullYear birthDate in
        let monthDiff := getMonth now - getMonth birthDate in
        if (monthDiff <? 0) || ((monthDiff =? 0) && (getDate now <? getDate birthDate))
        then age - 1 else age
    end.

Definition getDateValue (dateString : option string) : Z :=
  match dateString with
  | None => 0
  | Some s =>
      if empty s then 0
      else match Date_parse s with Some t => t | None => 0 end
  end.

(** The comparator [dateB - dateA] is positive on [(a, b)]. *)
Definition after (a b : option string) : bool :=
  getDateValue a <? getDateValue b.

Definition fetchPatientVitals (resp : response RawVital) : option RawVital :=
  match resp with
  | Rejected => None
  | Fulfilled data =>
      hd_error
        (JSArray.sort
           (fun a b => after (or_opt (rv_visit_date a) (rv_created_at a))
                             (or_opt (rv_visit_date b) (rv_created_at b)))
           (array_of data))
  end.

(** The assessments one of the two settled requests contributes. *)
Definition tagged (kind : string) (resp : response RawAssessment) : list Assessment :=
  match resp with
  | Fulfilled data =>
      if Json.truthy data then
        map (fun assessment =>
               {| visit_date := or_opt (ra_visit_date assessment) (ra_created_at assessment);
                  a_created_at := ra_created_at assessment;
                  type := kind |})
            (array_of data)
      else []
  | Rejected => []
  end.

Definition assessment_date (a : Assessment) : option string :=
  or_opt (visit_date a) (a_created_at a).

Definition fetchPatientAssessments
    (overweightResponse generalResponse : response RawAssessment) : option Assessment :=
  let assessments := (tagged "overweight" overweightResponse
                      ++ tagged "general" generalResponse)%list in
  hd_error (JSArray.sort (fun a b => after (assessment_date a) (assessment_date b))
                         assessments).

(** [processPatientData]; [now] is the time value of [new Date()] and
    of [Date.now()]. *)
Definition processPatientData (api : Backend) (now : Z) (patientData : RawPatient) : Patient :=
  let patientId :=
    match or_opt (or_opt (r_patient_number patientData) (r_patient_id patientData))
                 (Some (r_id patientData)) with
    | Some s =>
        if empty s then "PAT" ++ slice_last6 (NilZero.string_of_int (Z.to_int now)) else s
    | None => "PAT" ++ slice_last6 (NilZero.string_of_int (Z.to_int now))
    end in
  let dateOfBirth := or_empty (r_date_of_birth patientData) in
  let age := calculateAge now dateOfBirth in
  let latestVitals := fetchPatientVitals (getVitals api (r_id patientData)) in
  let latestAssessment :=
    fetchPatientAssessments
      (getPatientOverweightAssessments api (r_id patientData))
      (getPatientGeneralAssessments api (r_id patientData)) in
  let lastBmi :=
    match latestVitals with
    | Some v => parseBmiValue (rv_bmi v)
    | None => None
    end in
  let lastVitalsDate :=
    match latestVitals with
    | Some v => or_opt (rv_visit_date v) (rv_created_at v)
    | None => None
    end in
  let lastAssessmentDate :=
    match latestAssessment with
    | Some a => assessment_date a
    | None => None
    end in
  let lastAssessmentType :=
    match latestAssessment with
    | Some a =>
        Some (if String.eqb (type a) "overweight"
              then "Overweight Assessment" else "General Assessment")
    | None => None
    end in
  let bmiStatus :=
    match lastBmi with
    | Some n => if truthy n then getBmiStatus lastBmi else "No Data"
    | None => "No Data"
    end in
  {| id := r_id patientData;
     patient_id := patientId;
     first_name := or_empty (r_first_name patientData);
     last_name := or_empty (r_last_name patientData);
     date_of_birth := dateOfBirth;
     age := age;
     last_bmi := lastBmi;
     last_bmi_status := bmiStatus;
     last_vitals_date := lastVitalsDate;
     last_assessment_date := lastAssessmentDate;
     last_assessment_type := lastAssessmentType;
     created_at :=
       match or_opt (r_created_at patientData) (r_date_created patientData) with
       | Some s => if empty s then None else Some s
       | None => None
       end |}.

(** The shapes [fetchPatients] looks for in the patients response: the
    [results] entry first, and at last the first entry that is an
    array. *)
Definition patients_of (data : json RawPatient) : list RawPatient :=
  match Json.get "results" data with
  | JArr items => items
  | _ =>
      match data with
      | JArr items => items
      | _ =>
          match Json.get "data" data with
          | JArr items => items
          | _ =>
              match data with
              | JObj props =>
                  match find Json.isArray (Json.values props) with
                  | Some (JArr items) => items
                  | _ => []
                  end
              | _ => []
              end
          end
      end
  end.

Definition created_value (p : Patient) : Z :=
  match created_at p with
  | Some s => if empty s then 0 else getDateValue (Some s)
  | None => 0
  end.

(** What [fetchPatients] does with the [Promise.all] result: it keeps
    the patients that have a first or a last name and sorts them, the
    most recently created first. *)
Definition publish (patientsData : list Patient) : list Patient :=
  let validPatients :=
    filter (fun patient => negb (empty (first_name patient))
                           || negb (empty (last_name patient))) patientsData in
  JSArray.sort (fun a b => created_value a <? created_value b) validPatients.

Inductive outcome : Type :=
| Loaded (patients : list Patient)
| NoData
| LoadFailed
| Pending.

(** [fetchPatients]: the list it hands to [setPatients] and
    [setFilteredPatients], or the error it sets.  [resp] is what
    [patientApi.getPatients()] settles with and [order] the order in
    which the [processPatientData] promises settle. *)
Definition fetchPatients (api : Backend) (now : Z) (resp : response RawPatient)
    (order : list nat) : outcome :=
  match resp with
  | Rejected => LoadFailed
  | Fulfilled data =>
      if Json.truthy data then
        let patientsArray := patients_of data in
        match patientsArray with
        | [] => Loaded []
        | _ =>
            match Promise.all (map (processPatientData api now) patientsArray) order with
            | Some patientsData => Loaded (publish patientsData)
            | None => Pending
            end
        end
      else NoData
  end.
End Fetch.

End PatientListingV2.

(* ================================================================== *)
(** ** The BMI engine on binary64 *)

(** [calculateBMI] once more, on the primitive floats of the kernel,
    which are the doubles JavaScript computes with; module [Double] has
    the same arithmetic on rationals, where it can be reasoned about. *)
Module Binary64.

(** The double nearest to the decimal [m / 10^k], which is what reading
    the decimal gives. *)
Definition decimal (m : Z) (k : nat) : float :=
  (PrimFloat.of_uint63 (Uint63.of_Z m)
   / PrimFloat.of_uint63 (Uint63.of_Z (10 ^ Z.of_nat k)))%float.

(** The exact value of a finite double. *)
Definition exact (f : float) : option Q :=
  match Prim2SF f with
  | S754_zero _ => Some 0%Q
  | S754_finite negative m e =>
      let v := if 0 <=? e then (Z.pos m * 2 ^ e) # 1 else Z.pos m # Z.to_pos (2 ^ (- e)) in
      Some (if negative then - v else v)%Q
  | _ => None
  end.

(** [parseFloat(bmiValue.toFixed(1))] in tenths, and the status. *)
Definition calculateBMI (heightCm weightKg : float) : option (Z * string) :=
  let heightM := (heightCm / decimal 100 0)%float in
  let bmiValue := (weightKg / (heightM * heightM))%float in
  match exact bmiValue with
  | Some q =>
      let n := nearest_tenths q in
      let roundedBMI := decimal n 1 in
      Some (n,
            if (roundedBMI <? decimal 185 1)%float then "Underweight"
            else if (roundedBMI <? decimal 25 0)%float then "Normal"
            else "Overweight")
  | None => None
  end.

End Binary64.

(* ================================================================== *)
(** ** The category boundaries as the specification words them *)

(** [bmi < 18.5] is Underweight, [18.5 <= bmi < 25] is Normal and
    [bmi >= 25] is Overweight. *)
Inductive category_spec (bmi : Q) : string -> Prop :=
| cat_underweight : (bmi < 185 # 10)%Q -> category_spec bmi "Underweight"
| cat_normal : (185 # 10 <= bmi)%Q -> (bmi < 25)%Q -> category_spec bmi "Normal"
| cat_overweight : (25 <= bmi)%Q -> category_spec bmi "Overweight".

(** A number every label function is defined on without a guard in the
    way: not [NaN], and not zero. *)
Definition plain (x : number) : Prop := isNaN x = false /\ truthy x = true.

(* ================================================================== *)
(** ** Sample data *)

Module Sample.

Definition patient : PatientData :=
  {| id := "7"; patient_id := "PAT007"; first_name := "Amina"; last_name := "Okello" |}.

(** Height 200 cm and weight 100 kg: a BMI of exactly 25.0. *)
Definition vitals_25 : VitalsForm.State :=
  {| VitalsForm.patient := Some patient;
     VitalsForm.formData :=
       {| VitalsForm.visit_date := "2024-01-11";
          VitalsForm.height_cm := "200";
          VitalsForm.weight_kg := "100" |};
     VitalsForm.bmi := None;
     VitalsForm.bmiStatus := "";
     VitalsForm.isSubmitting := false;
     VitalsForm.error := None;
     VitalsForm.existingDates := ["2024-01-10"] |}.

Definition with_visit_date (d : string) (st : VitalsForm.State) : VitalsForm.State :=
  {| VitalsForm.patient := VitalsForm.patient st;
     VitalsForm.formData :=
       {| VitalsForm.visit_date := d;
          VitalsForm.height_cm := VitalsForm.height_cm (VitalsForm.formData st);
          VitalsForm.weight_kg := VitalsForm.weight_kg (VitalsForm.formData st) |};
     VitalsForm.bmi := VitalsForm.bmi st;
     VitalsForm.bmiStatus := VitalsForm.bmiStatus st;
     VitalsForm.isSubmitting := VitalsForm.isSubmitting st;
     VitalsForm.error := VitalsForm.error st;
     VitalsForm.existingDates := VitalsForm.existingDates st |}.

(** The navigation state the vitals form hands on for [vitals_25]. *)
Definition state_25 : LocationState :=
  {| ls_patient := Some patient;
     ls_bmi := Some (Fin (250 # 10));
     ls_bmiStatus := Some "Overweight" |}.

Definition uuid : string := "123e4567-e89b-42d3-a456-426614174000".

Definition vitals_v2 (date height weight : string) (dates : list string)
  : VitalsFormV2.State :=
  {| VitalsFormV2.loading := false;
     VitalsFormV2.patient := Some patient;
     VitalsFormV2.patientUUID := uuid;
     VitalsFormV2.existingDates := dates;
     VitalsFormV2.formData :=
       {| VitalsFormV2.visit_date := date;
          VitalsFormV2.height_cm := height;
          VitalsFormV2.weight_kg := weight;
          VitalsFormV2.bmi := VitalsFormV2.calculateBMI (parseFloat height) (parseFloat weight) |};
     VitalsFormV2.errors :=
       {| VitalsFormV2.e_patient := ""; VitalsFormV2.e_height_cm := "";
          VitalsFormV2.e_weight_kg := ""; VitalsFormV2.e_visit_date := "" |} |}.

Definition general (date : string) (dates : list string) : GeneralAssessmentForm.State :=
  {| GeneralAssessmentForm.formData :=
       {| GeneralAssessmentForm.visit_date := date;
          GeneralAssessmentForm.general_health := "Good";
          GeneralAssessmentForm.using_drugs := "No";
          GeneralAssessmentForm.comments := "" |};
     GeneralAssessmentForm.existingDates := dates;
     GeneralAssessmentForm.isSubmitting := false;
     GeneralAssessmentForm.error := None |}.

Definition overweight (date : string) (dates : list string) : OverweightAssessmentForm.State :=
  {| OverweightAssessmentForm.formData :=
       {| OverweightAssessmentForm.visit_date := date;
          OverweightAssessmentForm.general_health := "Good";
          OverweightAssessmentForm.been_on_diet := "No";
          OverweightAssessmentForm.comments := "" |};
     OverweightAssessmentForm.existingDates := dates;
     OverweightAssessmentForm.isSubmitting := false;
     OverweightAssessmentForm.error := None |}.

(** The navigation state for a BMI of 22.0. *)
Definition state_22 : LocationState :=
  {| ls_patient := Some patient;
     ls_bmi := Some (Fin (220 # 10));
     ls_bmiStatus := Some "Normal" |}.

(** The navigation state for a BMI of 27.0. *)
Definition state_27 : LocationState :=
  {| ls_patient := Some patient;
     ls_bmi := Some (Fin (270 # 10));
     ls_bmiStatus := Some "Overweight" |}.

(** 2024-01-10T09:00:00Z. *)
Definition now : Z := 1704877200000.

End Sample.

(* ================================================================== *)
(** ** Observations used in the statements *)

Definition navigation_of (effects : list VitalsForm.effect) : option (string * LocationState) :=
  match effects with
  | [VitalsForm.CreateVitals _; VitalsForm.Navigate path state] => Some (path, state)
  | _ => None
  end.

(** A date string without white space at either end, as the date inputs
    and [toISOString] produce them. *)
Definition trimmed (s : string) : Prop := trim s = s.

(** The validations [handleSubmit] of the first vitals form makes before
    it looks for a duplicate date. *)
Definition vitals_ready (st : VitalsForm.State) : bool :=
  match VitalsForm.patient st with
  | Some p => negb (empty (id p))
  | None => false
  end
  && negb (empty (VitalsForm.visit_date (VitalsForm.formData st))
           || empty (VitalsForm.height_cm (VitalsForm.formData st))
           || empty (VitalsForm.weight_kg (VitalsForm.formData st)))
  && negb (isNaN (parseFloat (VitalsForm.height_cm (VitalsForm.formData st)))
           || isNaN (parseFloat (VitalsForm.weight_kg (VitalsForm.formData st)))
           || le (parseFloat (VitalsForm.height_cm (VitalsForm.formData st))) (of_Z 0)
           || le (parseFloat (VitalsForm.weight_kg (VitalsForm.formData st))) (of_Z 0)).

(** The validations of the general assessment form before the duplicate
    check. *)
Definition general_ready (ls : LocationState) (st : GeneralAssessmentForm.State) : bool :=
  match ls_patient ls with
  | Some p => negb (empty (id p))
  | None => false
  end
  && negb (empty (GeneralAssessmentForm.visit_date (GeneralAssessmentForm.formData st)))
  && negb (empty (GeneralAssessmentForm.general_health (GeneralAssessmentForm.formData st)))
  && negb (empty (GeneralAssessmentForm.using_drugs (GeneralAssessmentForm.formData st))).

(** The validations of the overweight assessment form before the duplicate
    check. *)
Definition overweight_ready (ls : LocationState) (st : OverweightAssessmentForm.State) : bool :=
  match ls_patient ls with
  | Some p => negb (empty (id p))
  | None => false
  end
  && negb (empty (OverweightAssessmentForm.visit_date (OverweightAssessmentForm.formData st))
           || empty (OverweightAssessmentForm.general_health (OverweightAssessmentForm.formData st))
           || empty (OverweightAssessmentForm.been_on_diet (OverweightAssessmentForm.formData st))).

(** The validations of the second vitals form other than the duplicate
    check. *)
Definition v2_ready {host : DateHost} (now : Z) (st : VitalsFormV2.State) : bool :=
  let height := parseFloat (VitalsFormV2.height_cm (VitalsFormV2.formData st)) in
  let weight := parseFloat (VitalsFormV2.weight_kg (VitalsFormV2.formData st)) in
  negb (empty (VitalsFormV2.patientUUID st)
        || negb (VitalsFormV2.isValidUUID (VitalsFormV2.patientUUID st)))
  && negb (empty (VitalsFormV2.height_cm (VitalsFormV2.formData st)) || isNaN height)
  && negb (lt height (of_Z 50) || gt height (of_Z 250))
  && negb (empty (VitalsFormV2.weight_kg (VitalsFormV2.formData st)) || isNaN weight)
  && negb (lt weight (of_Z 2) || gt weight (of_Z 300))
  && negb (VitalsFormV2.isFutureDate now (VitalsFormV2.visit_date (VitalsFormV2.formData st))).

Definition only_alerts (effects : list VitalsFormV2.effect) : Prop :=
  forall e, In e effects -> exists message, e = VitalsFormV2.Alert message.

Definition not_array {A : Type} (v : json A) : Prop := Json.isArray v = false.

(** No array among the values of [v], when [v] is an object. *)
Definition no_nested_array {A : Type} (v : json A) : Prop :=
  forall props, v = JObj props -> VitalsFormV2.first_array (Json.values props) = None.

Section Keys.
Context {A : Type}.

(** A comparator that orders by a numeric key, the larger key first. *)
Variable key : A -> Z.

Definition by_key (a b : A) : bool := key a <? key b.

Definition newer_first (a b : A) : Prop := key b <= key a.
End Keys.

(** A promise settles: its value goes to the slot of its index. *)
Definition settle {A : Type} (values : list A) (slots : list (option A)) (i : nat) : list (option A) :=
  match nth_error values i with
  | Some v => Promise.store i v slots
  | None => slots
  end.

Module ListingSample.

Definition assessment (visit : string) : RawAssessment :=
  {| ra_visit_date := Some visit; ra_created_at := None |}.

(** A backend that knows no vitals, one overweight assessment of
    2024-01-01 and one general assessment of 2024-02-01 for every
    patient. *)
Definition api : Backend :=
  {| getVitals := fun _ => Fulfilled (JArr []);
     getPatientOverweightAssessments := fun _ => Fulfilled (JArr [assessment "2024-01-01"]);
     getPatientGeneralAssessments :=
       fun _ => Fulfilled (JObj [("results", JArr [assessment "2024-02-01"])]) |}.

(** A backend without vitals and assessments. *)
Definition empty_api : Backend :=
  {| getVitals := fun _ => Fulfilled (JArr []);
     getPatientOverweightAssessments := fun _ => Fulfilled (JArr []);
     getPatientGeneralAssessments := fun _ => Fulfilled (JArr []) |}.

Definition basic (id first : string) : PatientListing.Patient :=
  {| PatientListing.id := id;
     PatientListing.patient_id := "PAT" ++ id;
     PatientListing.first_name := first;
     PatientListing.last_name := "Okello";
     PatientListing.middle_name := None;
     PatientListing.date_of_birth := "1990-05-17";
     PatientListing.gender := None;
     PatientListing.registration_date := None;
     PatientListing.created_at := None;
     PatientListing.age := None;
     PatientListing.last_bmi := None;
     PatientListing.last_bmi_status := None;
     PatientListing.last_vitals_date := None;
     PatientListing.last_assessment_date := None;
     PatientListing.last_assessment_type := None |}.

Definition raw (id first created : string) : PatientListingV2.RawPatient :=
  {| PatientListingV2.r_id := id;
     PatientListingV2.r_patient_number := None;
     PatientListingV2.r_patient_id := Some ("PAT" ++ id);
     PatientListingV2.r_first_name := Some first;
     PatientListingV2.r_last_name := None;
     PatientListingV2.r_date_of_birth := Some "1990-05-17";
     PatientListingV2.r_created_at := Some created;
     PatientListingV2.r_date_created := None |}.

(** Two patients, the first one registered a month before the second. *)
Definition amina : PatientListingV2.RawPatient := raw "1" "Amina" "2024-01-01".
Definition brian : PatientListingV2.RawPatient := raw "2" "Brian" "2024-02-01".

(** A patient without a name. *)
Definition nameless : PatientListingV2.RawPatient := raw "3" "" "2024-03-01".

(** An envelope that names its list [patients], and one that nests it. *)
Definition keyed_payload : json string :=
  JObj [("count", JNum (of_Z 2)); ("patients", JArr ["r1"; "r2"])].

Definition nested_payload : json string :=
  JObj [("meta", JObj [("page", JNum (of_Z 1))]);
        ("body", JObj [("items", JArr ["r1"; "r2"])])].

End ListingSample.

(** The patients the second listing keeps. *)
Definition named (patient : PatientListingV2.Patient) : bool :=
  negb (empty (PatientListingV2.first_name patient))
  || negb (empty (PatientListingV2.last_name patient)).

(** The time value the second listing sorts an assessment by. *)
Definition date_value {host : DateHost} (a : PatientListingV2.Assessment) : Z :=
  PatientListingV2.getDateValue (PatientListingV2.assessment_date a).

(* ================================================================== *)
(** ** Letter case, search and padding of strings *)

Module JSText.

(** The letters of the ASCII range; every other character is left as it
    is. *)
Definition lower (c : ascii) : ascii :=
  let n := nat_of_ascii c in
  if ((65 <=? n) && (n <=? 90))%nat then ascii_of_nat (n + 32) else c.

Definition upper (c : ascii) : ascii :=
  let n := nat_of_ascii c in
  if ((97 <=? n) && (n <=? 122))%nat then ascii_of_nat (n - 32) else c.

Fixpoint toLowerCase (s : string) : string :=
  match s with
  | String c s' => String (lower c) (toLowerCase s')
  | EmptyString => EmptyString
  end.

Fixpoint toUpperCase (s : string) : string :=
  match s with
  | String c s' => String (upper c) (toUpperCase s')
  | EmptyString => EmptyString
  end.

(** [s.includes(t)] on strings. *)
Fixpoint contains (s t : string) : bool :=
  prefix t s
  || match s with
     | String _ s' => contains s' t
     | EmptyString => false
     end.

(** [s.padStart(width, c)]. *)
Definition padStart (width : nat) (c : ascii) (s : string) : string :=
  string_of_list_ascii (repeat c (width - String.length s)) ++ s.

(** [String(n)] of an integer. *)
Definition of_int (n : Z) : string := NilZero.string_of_int (Z.to_int n).

End JSText.

(** Where a handler sends the browser: a path with the patient of the
    navigation state, or one step back in the history. *)
Inductive navigation : Type :=
| GoTo (path : string) (patient : option PatientData)
| GoBack.

(** The form a BMI panel announces under "Next Step After Saving". *)
Inductive announced : Type :=
| GeneralAssessmentAnnounced
| OverweightAssessmentAnnounced.

(* ================================================================== *)
(** ** [src/components/VitalsForm.tsx]: the page around [handleSubmit] *)

Module VitalsFormPage.

(** The [name] attribute of the three inputs. *)
Inductive field : Type :=
| visit_date_field
| height_cm_field
| weight_kg_field.

Definition setFormData (f : VitalsForm.VitalsFormData) (st : VitalsForm.State)
  : VitalsForm.State :=
  {| VitalsForm.patient := VitalsForm.patient st;
     VitalsForm.formData := f;
     VitalsForm.bmi := VitalsForm.bmi st;
     VitalsForm.bmiStatus := VitalsForm.bmiStatus st;
     VitalsForm.isSubmitting := VitalsForm.isSubmitting st;
     VitalsForm.error := VitalsForm.error st;
     VitalsForm.existingDates := VitalsForm.existingDates st |}.

Definition setBmi (b : option number) (st : VitalsForm.State) : VitalsForm.State :=
  {| VitalsForm.patient := VitalsForm.patient st;
     VitalsForm.formData := VitalsForm.formData st;
     VitalsForm.bmi := b;
     VitalsForm.bmiStatus := VitalsForm.bmiStatus st;
     VitalsForm.isSubmitting := VitalsForm.isSubmitting st;
     VitalsForm.error := VitalsForm.error st;
     VitalsForm.existingDates := VitalsForm.existingDates st |}.

Definition setBmiStatus (s : string) (st : VitalsForm.State) : VitalsForm.State :=
  {| VitalsForm.patient := VitalsForm.patient st;
     VitalsForm.formData := VitalsForm.formData st;
     VitalsForm.bmi := VitalsForm.bmi st;
     VitalsForm.bmiStatus := s;
     VitalsForm.isSubmitting := VitalsForm.isSubmitting st;
     VitalsForm.error := VitalsForm.error st;
     VitalsForm.existingDates := VitalsForm.existingDates st |}.

(** The effect on [formData.height_cm] and [formData.weight_kg]. *)
Definition recalculate (st : VitalsForm.State) : VitalsForm.State :=
  let heightNum := parseFloat (VitalsForm.height_cm (VitalsForm.formData st)) in
  let weightNum := parseFloat (VitalsForm.weight_kg (VitalsForm.formData st)) in
  if truthy heightNum && truthy weightNum
     && gt heightNum (of_Z 0) && gt weightNum (of_Z 0) then
    let r := VitalsForm.calculateBMI heightNum weightNum in
    setBmiStatus (VitalsForm.status r) (setBmi (Some (VitalsForm.bmi_value r)) st)
  else setBmiStatus "" (setBmi None st).

Definition handleChange (name : field) (value : string) (st : VitalsForm.State)
  : VitalsForm.State :=
  let prev := VitalsForm.formData st in
  let st1 :=
    setFormData
      match name with
      | visit_date_field =>
          {| VitalsForm.visit_date := value;
             VitalsForm.height_cm := VitalsForm.height_cm prev;
             VitalsForm.weight_kg := VitalsForm.weight_kg prev |}
      | height_cm_field =>
          {| VitalsForm.visit_date := VitalsForm.visit_date prev;
             VitalsForm.height_cm := value;
             VitalsForm.weight_kg := VitalsForm.weight_kg prev |}
      | weight_kg_field =>
          {| VitalsForm.visit_date := VitalsForm.visit_date prev;
             VitalsForm.height_cm := VitalsForm.height_cm prev;
             VitalsForm.weight_kg := value |}
      end st in
  match VitalsForm.error st with
  | Some message => if empty message then st1 else VitalsForm.setError None st1
  | None => st1
  end.

(** An input event: [handleChange], and then the effect, which React
    runs again when the height or the weight has changed. *)
Definition input (name : field) (value : string) (st : VitalsForm.State)
  : VitalsForm.State :=
  match name with
  | visit_date_field => handleChange name value st
  | _ => recalculate (handleChange name value st)
  end.

Definition handleCancel (st : VitalsForm.State) : navigation :=
  match VitalsForm.patient st with
  | Some p => GoTo "/patient-search" (Some p)
  | None => GoBack
  end.

Definition getStatusColor (st : VitalsForm.State) : string :=
  match VitalsForm.bmi st with
  | None => "#e5e7eb"
  | Some bmi =>
      if negb (truthy bmi) then "#e5e7eb"
      else if lt bmi (Fin (185 # 10)) then "#fef3c7"
      else if lt bmi (of_Z 25) then "#d1fae5"
      else "#fee2e2"
  end.

Definition getStatusTextColor (st : VitalsForm.State) : string :=
  match VitalsForm.bmi st with
  | None => "#374151"
  | Some bmi =>
      if negb (truthy bmi) then "#374151"
      else if lt bmi (Fin (185 # 10)) then "#92400e"
      else if lt bmi (of_Z 25) then "#065f46"
      else "#991b1b"
  end.

(** The BMI panel, which is rendered under [bmi && ...]: its colours,
    the badge and the line on the next step. *)
Record Panel : Type := {
  background : string;
  color : string;
  badge : string;
  next_step : announced
}.

Definition panel (st : VitalsForm.State) : option Panel :=
  match VitalsForm.bmi st with
  | Some bmi =>
      if truthy bmi then
        Some {| background := getStatusColor st;
                color := getStatusTextColor st;
                badge := JSText.toUpperCase (VitalsForm.bmiStatus st);
                next_step :=
                  if le bmi (of_Z 25) then GeneralAssessmentAnnounced
                  else OverweightAssessmentAnnounced |}
      else None
  | None => None
  end.

(** The state the component mounts with; [now] is the time value of
    [new Date()] and [patient] the patient of the navigation state. *)
Definition initial (now : Z) (patient : option PatientData) : VitalsForm.State :=
  {| VitalsForm.patient := patient;
     VitalsForm.formData :=
       {| VitalsForm.visit_date := split_head "T" (Calendar.toISOString now);
          VitalsForm.height_cm := "";
          VitalsForm.weight_kg := "" |};
     VitalsForm.bmi := None;
     VitalsForm.bmiStatus := "";
     VitalsForm.isSubmitting := false;
     VitalsForm.error := None;
     VitalsForm.existingDates := [] |}.

(** [disabled] of the submit button. *)
Definition submit_disabled (st : VitalsForm.State) : bool :=
  empty (VitalsForm.visit_date (VitalsForm.formData st))
  || empty (VitalsForm.height_cm (VitalsForm.formData st))
  || empty (VitalsForm.weight_kg (VitalsForm.formData st))
  || VitalsForm.isSubmitting st
  || match VitalsForm.patient st with Some _ => false | None => true end.

End VitalsFormPage.

(* ================================================================== *)
(** ** The vitals form with patient lookup: the page around [handleSubmit] *)

Module VitalsFormV2Page.

Inductive field : Type :=
| visit_date_field
| height_cm_field
| weight_kg_field.

Section Page.
Context {host : DateHost}.

(** [now] is the time value of [new Date()]. *)
Definition getTodayDate (now : Z) : string :=
  let year := getFullYear now in
  let month := JSText.padStart 2 "0" (JSText.of_int (getMonth now + 1)) in
  let day := JSText.padStart 2 "0" (JSText.of_int (getDate now)) in
  JSText.of_int year ++ "-" ++ month ++ "-" ++ day.

(** The form a mounted component starts with. *)
Definition initial_formData (now : Z) : VitalsFormV2.FormData :=
  {| VitalsFormV2.visit_date := getTodayDate now;
     VitalsFormV2.height_cm := "";
     VitalsFormV2.weight_kg := "";
     VitalsFormV2.bmi := of_Z 0 |}.

Definition setFormData (f : VitalsFormV2.FormData) (st : VitalsFormV2.State)
  : VitalsFormV2.State :=
  {| VitalsFormV2.loading := VitalsFormV2.loading st;
     VitalsFormV2.patient := VitalsFormV2.patient st;
     VitalsFormV2.patientUUID := VitalsFormV2.patientUUID st;
     VitalsFormV2.existingDates := VitalsFormV2.existingDates st;
     VitalsFormV2.formData := f;
     VitalsFormV2.errors := VitalsFormV2.errors st |}.



(** [redirectBack] is the entry of that name in the navigation state. *)
Definition handleCancel (redirectBack : bool) (st : VitalsFormV2.State) : navigation :=
  match VitalsFormV2.patient st with
  | Some p => if redirectBack then GoTo "/patient-details" (Some p)
              else GoTo "/patient-listing" None
  | None => GoTo "/patient-listing" None
  end.

Record Colors : Type := { bg : string; text : string }.

Definition getBmiStatusColor (bmi : number + string) : Colors :=
  let status := VitalsFormV2.getBmiStatus bmi in
  if String.eqb status "Underweight" then {| bg := "#fef3c7"; text := "#92400e" |}
  else if String.eqb status "Normal" then {| bg := "#d1fae5"; text := "#065f46" |}
  else if String.eqb status "Overweight" then {| bg := "#fee2e2"; text := "#991b1b" |}
  else {| bg := "#f3f4f6"; text := "#6b7280" |}.

(** The panel under the inputs, rendered under [formData.bmi > 0 && ...]:
    the badge with its colours, and the form it announces. *)
Record Panel : Type := {
  badge : string;
  badge_colors : Colors;
  next_step : announced
}.

Definition panel (st : VitalsFormV2.State) : option Panel :=
  let bmi := VitalsFormV2.bmi (VitalsFormV2.formData st) in
  if gt bmi (of_Z 0) then
    Some {| badge := VitalsFormV2.inline_status bmi;
            badge_colors :=
              {| bg := if lt bmi (Fin (185 # 10)) then "#fef3c7"
                       else if lt bmi (of_Z 25) then "#d1fae5" else "#fee2e2";
                 text := if lt bmi (Fin (185 # 10)) then "#92400e"
                         else if lt bmi (of_Z 25) then "#065f46" else "#991b1b" |};
            next_step :=
              if le bmi (of_Z 25) then GeneralAssessmentAnnounced
              else OverweightAssessmentAnnounced |}
  else None.

End Page.
End VitalsFormV2Page.


(** The BMI panel state of the first vitals form is the one its effect
    computes from the form data: the effect has run. *)
Definition effect_ran (st : VitalsForm.State) : Prop :=
  VitalsFormPage.recalculate st = st.

(* ================================================================== *)
(** ** [src/components/PatientRegistration.tsx] *)

(** The patient object a page puts in the navigation state. *)
Definition patient_data (id patient_id first_name last_name : string) : PatientData :=
  {| id := id; patient_id := patient_id; first_name := first_name; last_name := last_name |}.

Module PatientRegistration.

Record FormData : Type := {
  patient_number : string;
  first_name : string;
  last_name : string;
  middle_name : string;
  date_of_birth : string;
  gender : string;
  registration_date : string
}.

Record State : Type := {
  formData : FormData;
  isSubmitting : bool;
  error : option string
}.

Definition setError (e : option string) (st : State) : State :=
  {| formData := formData st; isSubmitting := isSubmitting st; error := e |}.

Definition setIsSubmitting (b : bool) (st : State) : State :=
  {| formData := formData st; isSubmitting := b; error := error st |}.

(** The body of the create request; [middle_name] is left out when it
    is empty. *)
Record Payload : Type := {
  p_patient_number : string;
  p_first_name : string;
  p_last_name : string;
  p_middle_name : option string;
  p_date_of_birth : string;
  p_gender : string;
  p_registration_date : string
}.

(** What the handler reads of [response.data]; an entry may be absent. *)
Record Created : Type := {
  c_id : option string;
  c_patient_number : option string;
  c_patient_id : option string;
  c_first_name : option string;
  c_last_name : option string
}.

(** What the handler reads of a rejection: [err.response?.data], with
    whether [patient_number] is set in it and its [detail]. *)
Inductive refusal : Type :=
| NoResponseData
| ErrorData (patient_number_taken : bool) (detail : option string).

Inductive create_result : Type :=
| CreatedPatient (data : Created)
| Refused (reason : refusal).

Inductive effect : Type :=
| CreatePatient (payload : Payload)
| Navigate (path : string) (patient : PatientData).

Definition or_empty (a : option string) : string :=
  match a with Some s => s | None => "" end.

(** [handleSubmit]; [created] is how [patientApi.createPatient] settles
    when it is called.  An entry that is absent in the response is read
    as empty by the forms the patient is handed to. *)
Definition handleSubmit (created : create_result) (st0 : State) : State * list effect :=
  let st := setError None st0 in
  let f := formData st in
  if empty (first_name f) || empty (last_name f) || empty (date_of_birth f)
     || empty (gender f) || empty (patient_number f) then
    (setError (Some "Please fill in all required fields") st, [])
  else
    let patientData :=
      {| p_patient_number := patient_number f;
         p_first_name := first_name f;
         p_last_name := last_name f;
         p_middle_name := if empty (middle_name f) then None else Some (middle_name f);
         p_date_of_birth := date_of_birth f;
         p_gender := gender f;
         p_registration_date := registration_date f |} in
    match created with
    | CreatedPatient data =>
        (setIsSubmitting false st,
         [CreatePatient patientData;
          Navigate "/vitals-form"
            (patient_data (or_empty (c_id data))
                          (or_empty (or_opt (c_patient_number data) (c_patient_id data)))
                          (or_empty (c_first_name data))
                          (or_empty (c_last_name data)))])
    | Refused reason =>
        let message :=
          match reason with
          | ErrorData true _ =>
              "Patient number already exists. Please use a different number."
          | ErrorData false (Some detail) =>
              if empty detail
              then "Failed to register patient. Please check the form data."
              else detail
          | ErrorData false None =>
              "Failed to register patient. Please check the form data."
          | NoResponseData =>
              "Failed to register patient. Please check your connection."
          end in
        (setIsSubmitting false (setError (Some message) st), [CreatePatient patientData])
    end.

Definition handleCancel : navigation := GoTo "/" None.

End PatientRegistration.

(* ================================================================== *)
(** ** [src/components/PatientListing.tsx], first document: the table *)

Module PatientListingView.

Section Pages.
Context {A : Type}.

(** [l.slice(first, last)] on integers. *)
Definition slice (first last : Z) (l : list A) : list A :=
  let len := Z.of_nat (List.length l) in
  let k := if first <? 0 then Z.max (len + first) 0 else Z.min first len in
  let final := if last <? 0 then Z.max (len + last) 0 else Z.min last len in
  firstn (Z.to_nat (final - k)) (skipn (Z.to_nat k) l).

(** The effect on [filteredPatients], [currentPage] and [itemsPerPage]:
    the rows of the current page. *)
Definition paginate (itemsPerPage currentPage : Z) (filteredPatients : list A) : list A :=
  let indexOfLastItem := currentPage * itemsPerPage in
  let indexOfFirstItem := indexOfLastItem - itemsPerPage in
  slice indexOfFirstItem indexOfLastItem filteredPatients.

(** [Math.ceil(filteredPatients.length / itemsPerPage)] for a page size
    above zero, as the page-size selector offers them. *)
Definition totalPages (itemsPerPage : Z) (filteredPatients : list A) : Z :=
  (Z.of_nat (List.length filteredPatients) + itemsPerPage - 1) / itemsPerPage.

End Pages.

(** [handlePageChange]: the current page it leaves. *)
Definition handlePageChange (totalPages pageNumber currentPage : Z) : Z :=
  if (pageNumber <? 1) || (totalPages <? pageNumber) then currentPage else pageNumber.

(** The integers from [a] to [b], as the [for] loops push them. *)
Definition range (a b : Z) : list Z :=
  map (fun i => a + Z.of_nat i) (seq 0 (Z.to_nat (b - a + 1))).

(** [getPageNumbers]; [-1] stands for an ellipsis. *)
Definition getPageNumbers (totalPages currentPage : Z) : list Z :=
  let maxVisiblePages := 5 in
  if totalPages <=? maxVisiblePages then range 1 totalPages
  else if currentPage <=? 3 then (range 1 4 ++ [-1; totalPages])%list
  else if totalPages - 2 <=? currentPage then
    ([1; -1] ++ range (totalPages - 3) totalPages)%list
  else ([1; -1] ++ range (currentPage - 1) (currentPage + 1) ++ [-1; totalPages])%list.

Definition getStatusColor (status : string) : string :=
  if empty status || String.eqb status "No Data" then "#f3f4f6"
  else
    let s := JSText.toLowerCase status in
    if String.eqb s "underweight" then "#fef3c7"
    else if String.eqb s "normal" then "#d1fae5"
    else if String.eqb s "overweight" then "#fee2e2"
    else "#f3f4f6".

Definition getStatusTextColor (status : string) : string :=
  if empty status || String.eqb status "No Data" then "#6b7280"
  else
    let s := JSText.toLowerCase status in
    if String.eqb s "underweight" then "#92400e"
    else if String.eqb s "normal" then "#065f46"
    else if String.eqb s "overweight" then "#991b1b"
    else "#6b7280".

(** The status a row shows: [patient.last_bmi_status || 'No Data']. *)
Definition row_status (patient : PatientListing.Patient) : string :=
  match PatientListing.last_bmi_status patient with
  | Some s => if empty s then "No Data" else s
  | None => "No Data"
  end.

Section Filter.
Context {host : DateHost}.

(** Two dates fall on the same local calendar day; the getters of an
    Invalid Date give [NaN], which equals nothing. *)
Definition same_day (a b : option Z) : bool :=
  match a, b with
  | Some x, Some y =>
      (getFullYear x =? getFullYear y) && (getMonth x =? getMonth y)
      && (getDate x =? getDate y)
  | _, _ => false
  end.

(** The effect on [searchTerm], [dateFilter] and [patients]: the list
    it hands to [setFilteredPatients]. *)
Definition filtered (searchTerm dateFilter : string) (patients : list PatientListing.Patient)
  : list PatientListing.Patient :=
  if empty (trim searchTerm) && empty dateFilter then patients
  else
    let term := JSText.toLowerCase searchTerm in
    filter
      (fun patient =>
         let matchesSearch :=
           empty (trim searchTerm)
           || JSText.contains (JSText.toLowerCase (PatientListing.first_name patient)) term
           || JSText.contains (JSText.toLowerCase (PatientListing.last_name patient)) term
           || JSText.contains (JSText.toLowerCase (PatientListing.patient_id patient)) term
           || JSText.contains
                (JSText.toLowerCase (PatientListing.first_name patient ++ " "
                                     ++ PatientListing.last_name patient)) term in
         let matchesDate :=
           if empty dateFilter then true
           else
             let filterDate := Date_parse dateFilter in
             let vitals :=
               match PatientListing.last_vitals_date patient with
               | Some s => if empty s then false else same_day (Date_parse s) filterDate
               | None => false
               end in
             let assessment :=
               match PatientListing.last_assessment_date patient with
               | Some s => if empty s then false else same_day (Date_parse s) filterDate
               | None => false
               end in
             vitals || assessment in
         matchesSearch && matchesDate)
      patients.
End Filter.

End PatientListingView.

(* ================================================================== *)
(** ** [src/components/PatientListing.tsx], second document: the table *)

Module PatientListingV2View.

Section Filter.
Context {host : DateHost}.

(** [handleFilterDateChange]: the list it hands to
    [setFilteredPatients]. *)
Definition handleFilterDateChange (date : string) (patients : list PatientListingV2.Patient)
  : list PatientListingV2.Patient :=
  if empty date then patients
  else
    filter
      (fun patient =>
         match PatientListingV2.last_assessment_date patient with
         | Some s =>
             if empty s then false
             else
               match isoDay s with
               | Some assessmentDate => String.eqb assessmentDate date
               | None => false
               end
         | None => false
         end)
      patients.
End Filter.

Definition getStatusColor (status : string) : string :=
  if empty status || String.eqb status "No Data" then "#f3f4f6"
  else
    let s := JSText.toLowerCase status in
    if String.eqb s "underweight" then "#fef3c7"
    else if String.eqb s "normal" then "#d1fae5"
    else if String.eqb s "overweight" then "#fee2e2"
    else "#f3f4f6".

Definition getStatusTextColor (status : string) : string :=
  if empty status || String.eqb status "No Data" then "#6b7280"
  else
    let s := JSText.toLowerCase status in
    if String.eqb s "underweight" then "#92400e"
    else if String.eqb s "normal" then "#065f46"
    else if String.eqb s "overweight" then "#991b1b"
    else "#6b7280".

End PatientListingV2View.

(* ================================================================== *)
(** ** The patient details page: histories and colours *)

Module PatientDetailsView.

Definition getStatusColor (status : string) : string :=
  let s := JSText.toLowerCase status in
  if String.eqb s "underweight" then "#fef3c7"
  else if String.eqb s "normal" then "#d1fae5"
  else if String.eqb s "overweight" then "#fee2e2"
  else "#f3f4f6".

Definition getStatusTextColor (status : string) : string :=
  let s := JSText.toLowerCase status in
  if String.eqb s "underweight" then "#92400e"
  else if String.eqb s "normal" then "#065f46"
  else if String.eqb s "overweight" then "#991b1b"
  else "#6b7280".

(** [latestBmiStatus], from the BMI of the latest vitals record. *)
Definition latestBmiStatus (latestVitals : option number) : string :=
  match latestVitals with
  | Some bmi => PatientDetails.getBmiStatus bmi
  | None => "No Data"
  end.

Section Histories.
Context {host : DateHost}.

(** An element of [allAssessments]: the listed assessment with its
    [type] and with [visit_date] replaced by [visit_date || created_at]. *)
Definition tagged (kind : string) (l : list RawAssessment) : list PatientListingV2.Assessment :=
  map (fun a =>
         {| PatientListingV2.visit_date := or_opt (ra_visit_date a) (ra_created_at a);
            PatientListingV2.a_created_at := ra_created_at a;
            PatientListingV2.type := kind |}) l.

(** The assessments part of [fetchPatientDetails]: the list it hands
    to [setAssessmentsHistory].  Both requests are awaited together, so
    one rejection empties the history. *)
Definition assessmentsHistory (overweightResponse generalResponse : response RawAssessment)
  : list PatientListingV2.Assessment :=
  match overweightResponse, generalResponse with
  | Fulfilled overweight, Fulfilled general =>
      let allAssessments :=
        (tagged "overweight" (PatientDetails.extractArrayFromResponse overweight)
         ++ tagged "general" (PatientDetails.extractArrayFromResponse general))%list in
      JSArray.sort
        (fun a b => PatientListing.after (PatientListingV2.visit_date a)
                                         (PatientListingV2.visit_date b))
        allAssessments
  | _, _ => []
  end.
End Histories.

End PatientDetailsView.

(* ================================================================== *)
(** ** Ages in the first listing and on the details page *)

Module PatientListingAge.
Section Age.
Context {host : DateHost}.

(** [calculateAge] of the first listing and of the details page, which
    has no check for an Invalid Date: the getters give [NaN] then, and
    so does the age. *)
Definition calculateAge (now : Z) (dateOfBirth : string) : number :=
  if empty dateOfBirth then of_Z 0
  else
    match Date_parse dateOfBirth with
    | None => NaN
    | Some birthDate =>
        let age := getFullYear now - getFullYear birthDate in
        let monthDiff := getMonth now - getMonth birthDate in
        if (monthDiff <? 0) || ((monthDiff =? 0) && (getDate now <? getDate birthDate))
        then of_Z (age - 1) else of_Z age
    end.
End Age.
End PatientListingAge.

(* ================================================================== *)
(** ** The calendar fields of a day number *)

(** The order of dates: by year, then month, then day of the month. *)
Definition date_le (a b : Z * Z * Z) : Prop :=
  fst (fst a) < fst (fst b)
  \/ (fst (fst a) = fst (fst b)
      /\ (snd (fst a) < snd (fst b)
          \/ (snd (fst a) = snd (fst b) /\ snd a <= snd b))).

(** The steps of [Calendar.civil_from_days] on a day of the 400-year
    era: the year of the era, the day of that year (from 1 March), the
    month (from March) and the day of the month. *)
Definition year_of_era (doe : Z) : Z :=
  (doe - doe / 1460 + doe / 36524 - doe / 146096) / 365.

Definition day_of_year (doe : Z) : Z :=
  doe - (365 * year_of_era doe + year_of_era doe / 4 - year_of_era doe / 100).

Definition month_of (doy : Z) : Z := (5 * doy + 2) / 153.

Definition day_of (doy : Z) : Z := doy - (153 * month_of doy + 2) / 5 + 1.

(* ================================================================== *)
(** ** The router without the details page ([part_001]) *)

Module AppWithoutDetails.

(** The [Routes] table of the document that has no [/patient-details]
    route; the last route sends every other path to [/]. *)
Definition route (path : string) : App.page :=
  if String.eqb path "/" then App.PatientRegistration
  else if String.eqb path "/register-patient" then App.PatientRegistration
  else if String.eqb path "/vitals-form" then App.VitalsForm
  else if String.eqb path "/overweight-assessment" then App.OverweightAssessmentForm
  else if String.eqb path "/general-assessment" then App.GeneralAssessmentForm
  else if String.eqb path "/patient-listing" then App.PatientListing
  else App.PatientRegistration.

End AppWithoutDetails.

(* ================================================================== *)
(** ** The vitals form with patient lookup: [fetchRealPatientData] *)

Module VitalsFormV2Lookup.

(** A patient as the backend lists it ([any] in the source): the
    entries the lookup reads, each a string or absent. *)
Record ListedPatient : Type := {
  l_id : option string;
  l_patient_id : option string;
  l_display_id : option string;
  l_medical_record_number : option string;
  l_first_name : option string;
  l_last_name : option string
}.

(** The patient of the navigation state, with entries that may be
    absent. *)
Record LocationPatient : Type := {
  loc_id : option string;
  loc_patient_id : option string;
  loc_first_name : option string;
  loc_last_name : option string
}.

Definition or_empty (a : option string) : string :=
  match a with Some s => s | None => "" end.

(** What the form reads of the object [setPatient] stores; an entry
    that is absent reads as empty. *)
Definition stored (p : ListedPatient) : PatientData :=
  patient_data (or_empty (l_id p)) (or_empty (l_patient_id p))
               (or_empty (l_first_name p)) (or_empty (l_last_name p)).

Definition stored_location (p : LocationPatient) : PatientData :=
  patient_data (or_empty (loc_id p)) (or_empty (loc_patient_id p))
               (or_empty (loc_first_name p)) (or_empty (loc_last_name p)).

(** [isValidUUID(x)] on an entry that may be absent. *)
Definition valid (x : option string) : bool :=
  match x with
  | Some s => VitalsFormV2.isValidUUID s
  | None => false
  end.

(** [a === b]. *)
Definition same (a b : option string) : bool :=
  match a, b with
  | Some x, Some y => String.eqb x y
  | None, None => true
  | _, _ => false
  end.

(** [a?.includes(b)]: an absent argument is searched for by its name. *)
Definition includes_opt (a b : option string) : bool :=
  match a with
  | Some s => JSText.contains s (match b with Some t => t | None => "undefined" end)
  | None => false
  end.

(** An entry in a template literal. *)
Definition shown (a : option string) : string :=
  match a with Some s => s | None => "undefined" end.

Definition setPatient (p : PatientData) (st : VitalsFormV2.State) : VitalsFormV2.State :=
  {| VitalsFormV2.loading := VitalsFormV2.loading st;
     VitalsFormV2.patient := Some p;
     VitalsFormV2.patientUUID := VitalsFormV2.patientUUID st;
     VitalsFormV2.existingDates := VitalsFormV2.existingDates st;
     VitalsFormV2.formData := VitalsFormV2.formData st;
     VitalsFormV2.errors := VitalsFormV2.errors st |}.

Definition setPatientUUID (uuid : string) (st : VitalsFormV2.State) : VitalsFormV2.State :=
  {| VitalsFormV2.loading := VitalsFormV2.loading st;
     VitalsFormV2.patient := VitalsFormV2.patient st;
     VitalsFormV2.patientUUID := uuid;
     VitalsFormV2.existingDates := VitalsFormV2.existingDates st;
     VitalsFormV2.formData := VitalsFormV2.formData st;
     VitalsFormV2.errors := VitalsFormV2.errors st |}.

(** [setErrors(prev => ({ ...prev, patient: message }))]. *)
Definition setPatientError (message : string) (st : VitalsFormV2.State) : VitalsFormV2.State :=
  VitalsFormV2.setErrors
    {| VitalsFormV2.e_patient := message;
       VitalsFormV2.e_height_cm := VitalsFormV2.e_height_cm (VitalsFormV2.errors st);
       VitalsFormV2.e_weight_kg := VitalsFormV2.e_weight_kg (VitalsFormV2.errors st);
       VitalsFormV2.e_visit_date := VitalsFormV2.e_visit_date (VitalsFormV2.errors st) |}
    st.

(** The id the form will write with: the [id] of the patient found when
    it is a UUID, else its [patient_id] when that is one. *)
Definition use_id_or_patient_id (found : ListedPatient) (st : VitalsFormV2.State)
  : option VitalsFormV2.State :=
  if valid (l_id found) then Some (setPatientUUID (or_empty (l_id found)) st)
  else if valid (l_patient_id found) then Some (setPatientUUID (or_empty (l_patient_id found)) st)
  else None.

Definition use_id (found : ListedPatient) (st : VitalsFormV2.State) : VitalsFormV2.State :=
  if valid (l_id found) then setPatientUUID (or_empty (l_id found)) st else st.

Definition not_found_message (p : LocationPatient) : string :=
  "Patient " ++ String (ascii_of_nat 34) EmptyString
  ++ shown (loc_first_name p) ++ " " ++ shown (loc_last_name p)
  ++ String (ascii_of_nat 34) EmptyString
  ++ " (ID: " ++ shown (loc_patient_id p) ++ ") not found".

(** The effect on the patient of the navigation state.  [direct] is how
    [getPatientByPatientId] settles and [all] how [getPatients] does when
    it is called.  The result is the state the effect leaves and where
    it navigates, if it does. *)
Definition fetchRealPatientData (locationPatient : option LocationPatient)
    (direct all : response ListedPatient) (st : VitalsFormV2.State)
  : VitalsFormV2.State * option navigation :=
  match locationPatient with
  | None => (st, Some (GoTo "/patient-listing" None))
  | Some location =>
      let direct_hit :=
        match direct with
        | Fulfilled data => hd_error (VitalsFormV2.extractArrayFromResponse data)
        | Rejected => None
        end in
      match direct_hit with
      | Some foundPatient =>
          let st1 := setPatient (stored foundPatient) st in
          (VitalsFormV2.setLoading false
             match use_id_or_patient_id foundPatient st1 with
             | Some st2 => st2
             | None => st1
             end,
           None)
      | None =>
          match all with
          | Rejected =>
              (VitalsFormV2.setLoading false
                 (setPatient (stored_location location)
                    (setPatientError "Failed to load patient data" st)),
               None)
          | Fulfilled data =>
              let allPatientsArray := VitalsFormV2.extractArrayFromResponse data in
              match allPatientsArray with
              | [] =>
                  (VitalsFormV2.setLoading false
                     (setPatientError "No patients found in system" st), None)
              | _ =>
                  let patientIdToFind := loc_patient_id location in
                  match find (fun p =>
                                same (l_patient_id p) patientIdToFind
                                || same (l_display_id p) patientIdToFind
                                || same (l_medical_record_number p) patientIdToFind
                                || same (l_id p) (loc_id location))
                             allPatientsArray with
                  | Some foundPatient =>
                      let st1 := setPatient (stored foundPatient) st in
                      (VitalsFormV2.setLoading false
                         match use_id_or_patient_id foundPatient st1 with
                         | Some st2 => st2
                         | None =>
                             setPatientError "Patient found but ID is not a valid UUID" st1
                         end,
                       None)
                  | None =>
                      match find (fun p =>
                                    same (l_first_name p) (loc_first_name location)
                                    && same (l_last_name p) (loc_last_name location))
                                 allPatientsArray with
                      | Some foundByName =>
                          (VitalsFormV2.setLoading false
                             (use_id foundByName (setPatient (stored foundByName) st)),
                           None)
                      | None =>
                          match find (fun p =>
                                        includes_opt (l_first_name p) (loc_first_name location)
                                        || includes_opt (l_last_name p)
                                                        (loc_last_name location))
                                     allPatientsArray with
                          | Some partialMatch =>
                              (VitalsFormV2.setLoading false
                                 (use_id partialMatch (setPatient (stored partialMatch) st)),
                               None)
                          | None =>
                              (VitalsFormV2.setLoading false
                                 (setPatientError (not_found_message location) st), None)
                          end
                      end
                  end
              end
          end
      end
  end.

End VitalsFormV2Lookup.

(** The patients a lookup can find: those the two responses list. *)
Definition listed (direct all : response VitalsFormV2Lookup.ListedPatient)
    (found : VitalsFormV2Lookup.ListedPatient) : Prop :=
  (exists data, direct = Fulfilled data
                /\ In found (VitalsFormV2.extractArrayFromResponse data))
  \/ (exists data, all = Fulfilled data
                   /\ In found (VitalsFormV2.extractArrayFromResponse data)).

(** The lookup has taken [found] for the patient: the form holds it, and
    the id of the form either is as before, or is a UUID that is the
    [id] of [found], or its [patient_id] when the [id] is no UUID. *)
Definition taken (found : VitalsFormV2Lookup.ListedPatient)
    (st st' : VitalsFormV2.State) : Prop :=
  VitalsFormV2.patient st' = Some (VitalsFormV2Lookup.stored found)
  /\ (VitalsFormV2.patientUUID st' = VitalsFormV2.patientUUID st
      \/ (VitalsFormV2.isValidUUID (VitalsFormV2.patientUUID st') = true
          /\ (VitalsFormV2Lookup.l_id found = Some (VitalsFormV2.patientUUID st')
              \/ (VitalsFormV2Lookup.valid (VitalsFormV2Lookup.l_id found) = false
                  /\ VitalsFormV2Lookup.l_patient_id found
                     = Some (VitalsFormV2.patientUUID st'))))).

(* ================================================================== *)
(** ** Further sample data *)

Module Cases.

(** A vitals record of 2024-01-10 with a BMI of 24.3. *)
Definition vital : RawVital :=
  {| rv_visit_date := Some "2024-01-10";
     rv_created_at := None;
     rv_bmi := BmiNumber (Fin (243 # 10)) |}.


(** A backend whose vitals request fails and which lists one overweight
    assessment. *)
Definition failing_api : Backend :=
  {| getVitals := fun _ => Rejected;
     getPatientOverweightAssessments :=
       fun _ => Fulfilled (JArr [ListingSample.assessment "2024-01-01"]);
     getPatientGeneralAssessments := fun _ => Fulfilled (JArr []) |}.

(** The first vitals form with a date, a height and a weight. *)
Definition vitals (date height weight : string) (dates : list string) : VitalsForm.State :=
  {| VitalsForm.patient := Some Sample.patient;
     VitalsForm.formData :=
       {| VitalsForm.visit_date := date;
          VitalsForm.height_cm := height;
          VitalsForm.weight_kg := weight |};
     VitalsForm.bmi := None;
     VitalsForm.bmiStatus := "";
     VitalsForm.isSubmitting := false;
     VitalsForm.error := None;
     VitalsForm.existingDates := dates |}.

(** A listed record of the evening of 2024-01-10. *)
Definition existing : VitalsForm.ExistingVital :=
  {| VitalsForm.ev_visit_date := "2024-01-10T23:59:59Z";
     VitalsForm.ev_height_cm := of_Z 170;
     VitalsForm.ev_weight_kg := of_Z 71;
     VitalsForm.ev_bmi := Fin (246 # 10);
     VitalsForm.ev_created_at := "2024-01-10T23:59:59Z" |}.

Definition listed_vital (date : string) : RawVital :=
  {| rv_visit_date := Some date; rv_created_at := None; rv_bmi := BmiAbsent |}.

(** The payload the second vitals form sends for 170 cm and 70 kg. *)
Definition payload_170_70 : VitalsFormV2.VitalsPayload :=
  {| VitalsFormV2.p_patient_id := Sample.uuid;
     VitalsFormV2.p_visit_date := "2024-01-10";
     VitalsFormV2.p_height_cm := Fin 170;
     VitalsFormV2.p_weight_kg := Fin 70;
     VitalsFormV2.p_bmi := Fin (242 # 10) |}.

(** A patient as the lookup finds it, and the patient of the navigation
    state it is looked up for. *)
Definition found : VitalsFormV2Lookup.ListedPatient :=
  {| VitalsFormV2Lookup.l_id := Some Sample.uuid;
     VitalsFormV2Lookup.l_patient_id := Some "PAT007";
     VitalsFormV2Lookup.l_display_id := None;
     VitalsFormV2Lookup.l_medical_record_number := None;
     VitalsFormV2Lookup.l_first_name := Some "Amina";
     VitalsFormV2Lookup.l_last_name := Some "Okello" |}.

Definition location : VitalsFormV2Lookup.LocationPatient :=
  {| VitalsFormV2Lookup.loc_id := Some "7";
     VitalsFormV2Lookup.loc_patient_id := Some "PAT007";
     VitalsFormV2Lookup.loc_first_name := Some "Amina";
     VitalsFormV2Lookup.loc_last_name := Some "Okello" |}.

(** The second vitals form as it mounts, before the lookup: no id, and
    170 cm and 70 kg entered. *)
Definition mounted : VitalsFormV2.State :=
  {| VitalsFormV2.loading := false;
     VitalsFormV2.patient := None;
     VitalsFormV2.patientUUID := "";
     VitalsFormV2.existingDates := [];
     VitalsFormV2.formData :=
       {| VitalsFormV2.visit_date := "2024-01-10";
          VitalsFormV2.height_cm := "170";
          VitalsFormV2.weight_kg := "70";
          VitalsFormV2.bmi := Fin (242 # 10) |};
     VitalsFormV2.errors :=
       {| VitalsFormV2.e_patient := ""; VitalsFormV2.e_height_cm := "";
          VitalsFormV2.e_weight_kg := ""; VitalsFormV2.e_visit_date := "" |} |}.

(** A registration form that is filled in. *)
Definition registration : PatientRegistration.State :=
  {| PatientRegistration.formData :=
       {| PatientRegistration.patient_number := "PAT007";
          PatientRegistration.first_name := "Amina";
          PatientRegistration.last_name := "Okello";
          PatientRegistration.middle_name := "";
          PatientRegistration.date_of_birth := "1990-05-17";
          PatientRegistration.gender := "F";
          PatientRegistration.registration_date := "2024-01-10" |};
     PatientRegistration.isSubmitting := false;
     PatientRegistration.error := None |}.

End Cases.

(* ================================================================== *)
(** ** Binary64 arithmetic *)

(** The arithmetic of JavaScript numbers: every operation gives the
    double nearest to the exact result, ties to the even significand
    (IEEE 754, roundTiesToEven).  A finite double is [m * 2^e] with
    [|m| < 2^53] and [-1074 <= e]; a result of magnitude [2^1024] or more
    is an infinity.  The sign of zero is not modelled. *)
Module Double.

(** [floor (log2 q)] of a positive rational. *)
Definition ilog2 (q : Q) : Z :=
  let k := Z.log2 (Qnum q) - Z.log2 (Z.pos (Qden q)) in
  if Qltb q (2 ^ k) then k - 1 else k.

(** The integer nearest to [x], the even one of two. *)
Definition ties_to_even (x : Q) : Z :=
  let f := Qfloor x in
  match Qcompare (x - inject_Z f) (1 # 2) with
  | Lt => f
  | Gt => f + 1
  | Eq => if Z.even f then f else f + 1
  end.

(** The exponent of the unit in the last place of the doubles around a
    positive [a]: 53 significant bits, and -1074 for the subnormals. *)
Definition ulp_exponent (a : Q) : Z := Z.max (ilog2 a - 52) (-1074).

(** The double nearest to [q]. *)
Definition round64 (q : Q) : number :=
  if Qzero q then Fin 0
  else
    let a := Qabs q in
    let e := ulp_exponent a in
    let r := Qred (inject_Z (ties_to_even (a / 2 ^ e)) * 2 ^ e) in
    if Qle_bool (2 ^ 1024) r then inf (Qneg q)
    else Fin (if Qneg q then - r else r).

Definition rounded (x : number) : number :=
  match x with
  | Fin q => round64 q
  | other => other
  end.

(** [a * b] and [a / b] on doubles. *)
Definition mul (a b : number) : number := rounded (JSNumber.mul a b).
Definition div (a b : number) : number := rounded (JSNumber.div a b).

(** [parseFloat(s)]: the double nearest to the decimal read. *)
Definition parseFloat (s : string) : number := rounded (JSString.parseFloat s).

(** [parseFloat(x.toFixed(1))]: the double nearest to the one-decimal
    numeral toFixed prints. *)
Definition toFixed1 (x : number) : number := rounded (JSNumber.toFixed1 x).

(** The functions of the sources that compute with numbers, on doubles. *)

(** [calculateBMI] of [src/components/VitalsForm.tsx]. *)
Module VitalsForm.

Definition calculateBMI (heightCm weightKg : number) : VitalsForm.BMI :=
  let heightM := div heightCm (of_Z 100) in
  let bmiValue := div weightKg (mul heightM heightM) in
  let roundedBMI := toFixed1 bmiValue in
  let status :=
    if lt roundedBMI (Fin (185 # 10)) then "Underweight"
    else if lt roundedBMI (of_Z 25) then "Normal"
    else "Overweight" in
  {| VitalsForm.bmi_value := roundedBMI; VitalsForm.status := status |}.

End VitalsForm.

(** [calculateBMI] of the second vitals form ([part_004]). *)
Module VitalsFormV2.

Definition calculateBMI (height weight : number) : number :=
  let heightInMeters := div height (of_Z 100) in
  let bmi := div weight (mul heightInMeters heightInMeters) in
  toFixed1 bmi.

End VitalsFormV2.

(** [parseBmiValue] of the second listing. *)
Module PatientListingV2.

Definition parseBmiValue (bmi : bmi_field) : option number :=
  match bmi with
  | BmiAbsent => None
  | BmiString s =>
      let num := parseFloat s in
      if isNaN num || negb (isFinite num) then None else Some (toFixed1 num)
  | BmiNumber num =>
      if isNaN num || negb (isFinite num) then None else Some (toFixed1 num)
  end.

End PatientListingV2.

End Double.

(** The relative error of one rounding in the normal range, [2^-53],
    and a bound on the error of the three roundings of the BMI
    quotient, [2^-50]. *)
Definition unit_roundoff : Q := 1 # 9007199254740992.
Definition quotient_error : Q := 1 # 1125899906842624.

(** Heights from 1 cm to 100 m and weights from 1 g to 1000 t: the
    quotient and its parts stay far from the ends of the range of the
    doubles and below the 10^21 at which toFixed stops rounding. *)
Definition plausible (h w : Q) : Prop :=
  (1 <= h)%Q /\ (h <= 10000)%Q /\ (1 # 1000 <= w)%Q /\ (w <= 1000000)%Q.

(** [weightKg / (heightCm / 100)^2], exactly. *)
Definition exact_bmi (h w : Q) : Q := (w / (h / 100 * (h / 100)))%Q.

(** The double of module [Double] against the value of a primitive
    float of the kernel. *)
Definition same_double (x : number) (f : float) : bool :=
  match x, Binary64.exact f with
  | Fin q, Some q' => Qeq_bool q q'
  | _, _ => false
  end.

(** [a * 2^k / b] and [a * 2^k * b] on either model, to compare them
    among the subnormal doubles, at the largest doubles and where the
    result is an infinity. *)
Definition same_scaled_quotient (a b k : Z) : bool :=
  let f := (Z.ldexp (Binary64.decimal a 0) k / Binary64.decimal b 0)%float in
  match Double.div (Double.round64 (inject_Z a * 2 ^ k)) (Fin (inject_Z b)),
        Binary64.exact f with
  | Fin q, Some q' => Qeq_bool q q'
  | PInf, None => PrimFloat.eqb f infinity
  | _, _ => false
  end.

Definition same_scaled_product (a b k : Z) : bool :=
  let f := (Z.ldexp (Binary64.decimal a 0) k * Binary64.decimal b 0)%float in
  match Double.mul (Double.round64 (inject_Z a * 2 ^ k)) (Fin (inject_Z b)),
        Binary64.exact f with
  | Fin q, Some q' => Qeq_bool q q'
  | PInf, None => PrimFloat.eqb f infinity
  | _, _ => false
  end.

(** Whether the two models of [calculateBMI] on doubles give the same
    one-decimal value and status for [height] cm and [weight] tenths of
    a kilogram. *)
Definition same_bmi (height weight : Z) : bool :=
  match Binary64.calculateBMI (Binary64.decimal height 0) (Binary64.decimal weight 1) with
  | Some (n, status) =>
      let result :=
        Double.VitalsForm.calculateBMI (Double.round64 (inject_Z height))
                                       (Double.round64 (tenths weight)) in
      match VitalsForm.bmi_value result, Double.round64 (tenths n) with
      | Fin a, Fin b => Qeq_bool a b && String.eqb (VitalsForm.status result) status
      | _, _ => false
      end
  | None => false
  end.

(** [first], [first + step], ..., [count] numbers. *)
Fixpoint progression (first step : Z) (count : nat) : list Z :=
  match count with
  | O => []
  | S k => first :: progression (first + step) step k
  end.

(** Whether [calculateBMI] without rounding and [calculateBMI] on
    doubles give the same one-decimal value and the same status for a
    height and a weight as they are typed. *)
Definition same_on_doubles (height weight : string) : bool :=
  let exact :=
    VitalsForm.calculateBMI (JSString.parseFloat height) (JSString.parseFloat weight) in
  let double :=
    Double.VitalsForm.calculateBMI (Double.parseFloat height) (Double.parseFloat weight) in
  String.eqb (VitalsForm.status exact) (VitalsForm.status double)
  && match Double.rounded (VitalsForm.bmi_value exact), VitalsForm.bmi_value double with
     | Fin a, Fin b => Qeq_bool a b
     | _, _ => false
     end.

(* ================================================================== *)
(** ** The controls and the submit button of the assessment forms *)

(** Constraint validation of the controls the assessment forms have,
    [<input type="date">] and required radio groups: the browser runs it
    on a click on the submit button of a form without [noValidate], and
    fires the submit event only when every control is valid. *)
Module FormControls.

(** The day number of a valid date string, [YYYY-MM-DD] with a year
    above 0 (years of more than four digits are left out).  Every other
    string is no date: as a value it is sanitised to the empty string, as
    a [max] attribute it sets no maximum. *)
Definition day_number (s : string) : option Z :=
  if (String.length s =? 10)%nat && negb (prefix "0000" s) then
    option_map (fun t => t / msPerDay) (Calendar.parse_iso s)
  else None.

(** [new Date().toISOString().split('T')[0]]: the [max] attribute of
    the date input of both assessment forms and of the first vitals
    form, and the visit date their form data start with. *)
Definition utcToday (now : Z) : string := split_head "T" (Calendar.toISOString now).

(** [validity.valueMissing] of a required date input. *)
Definition valueMissing (value : string) : bool :=
  match day_number value with
  | Some _ => false
  | None => true
  end.

(** [validity.rangeOverflow]: the value is a date after the maximum. *)
Definition rangeOverflow (max value : string) : bool :=
  match day_number max, day_number value with
  | Some m, Some v => m <? v
  | _, _ => false
  end.

(** A required radio group is satisfied when one of its buttons is
    checked, which the forms tie to the field holding the value of that
    button ([checked={formData.general_health === 'Good'}]). *)
Definition checked (values : list string) (field : string) : bool :=
  existsb (String.eqb field) values.

End FormControls.

(** What a click on the submit button of a form leads to. *)
Inductive click_result (R : Type) : Type :=
| OtherView (v : view)
| ButtonDisabled
| InvalidReported
| SubmitHandled (result : R).

Arguments OtherView {R} v.
Arguments ButtonDisabled {R}.
Arguments InvalidReported {R}.
Arguments SubmitHandled {R} result.

(** The page of [src/components/GeneralAssessmentForm.tsx], second
    document; [now] is the time value of [new Date()] when the component
    is mounted and when it is rendered. *)
Module GeneralAssessmentFormPage.

(** The state the component is mounted with. *)
Definition initial (now : Z) : GeneralAssessmentForm.State :=
  {| GeneralAssessmentForm.formData :=
       {| GeneralAssessmentForm.visit_date := FormControls.utcToday now;
          GeneralAssessmentForm.general_health := "";
          GeneralAssessmentForm.using_drugs := "";
          GeneralAssessmentForm.comments := "" |};
     GeneralAssessmentForm.existingDates := [];
     GeneralAssessmentForm.isSubmitting := false;
     GeneralAssessmentForm.error := None |}.

(** [handleChange] on the control [name]. *)
Definition handleChange (name value : string) (st : GeneralAssessmentForm.State)
  : GeneralAssessmentForm.State :=
  let prev := GeneralAssessmentForm.formData st in
  {| GeneralAssessmentForm.formData :=
       {| GeneralAssessmentForm.visit_date :=
            if String.eqb name "visit_date" then value
            else GeneralAssessmentForm.visit_date prev;
          GeneralAssessmentForm.general_health :=
            if String.eqb name "general_health" then value
            else GeneralAssessmentForm.general_health prev;
          GeneralAssessmentForm.using_drugs :=
            if String.eqb name "using_drugs" then value
            else GeneralAssessmentForm.using_drugs prev;
          GeneralAssessmentForm.comments :=
            if String.eqb name "comments" then value
            else GeneralAssessmentForm.comments prev |};
     GeneralAssessmentForm.existingDates := GeneralAssessmentForm.existingDates st;
     GeneralAssessmentForm.isSubmitting := GeneralAssessmentForm.isSubmitting st;
     GeneralAssessmentForm.error := GeneralAssessmentForm.error st |}.

(** The controls of the form that have constraints: the required date
    input with its [max], and the two required radio groups. *)
Definition valid (now : Z) (st : GeneralAssessmentForm.State) : bool :=
  let formData := GeneralAssessmentForm.formData st in
  negb (FormControls.valueMissing (GeneralAssessmentForm.visit_date formData))
  && negb (FormControls.rangeOverflow (FormControls.utcToday now)
             (GeneralAssessmentForm.visit_date formData))
  && FormControls.checked ["Good"; "Poor"] (GeneralAssessmentForm.general_health formData)
  && FormControls.checked ["Yes"; "No"] (GeneralAssessmentForm.using_drugs formData).

(** A click on the submit button, which is
    [disabled={isSubmitting || existingDates.includes(formData.visit_date)}]. *)
Definition click (now : Z) (ls : LocationState) (saved : write_result)
    (st : GeneralAssessmentForm.State)
  : click_result (GeneralAssessmentForm.State
                  * list (assessment_effect GeneralAssessmentForm.Payload)) :=
  match GeneralAssessmentForm.render ls with
  | FormView =>
      if GeneralAssessmentForm.isSubmitting st
         || includes (GeneralAssessmentForm.existingDates st)
              (GeneralAssessmentForm.visit_date (GeneralAssessmentForm.formData st))
      then ButtonDisabled
      else if valid now st then SubmitHandled (GeneralAssessmentForm.handleSubmit ls saved st)
      else InvalidReported
  | v => OtherView v
  end.

End GeneralAssessmentFormPage.

(** The page of the overweight assessment form ([part_002], first
    document). *)
Module OverweightAssessmentFormPage.

Definition initial (now : Z) : OverweightAssessmentForm.State :=
  {| OverweightAssessmentForm.formData :=
       {| OverweightAssessmentForm.visit_date := FormControls.utcToday now;
          OverweightAssessmentForm.general_health := "";
          OverweightAssessmentForm.been_on_diet := "";
          OverweightAssessmentForm.comments := "" |};
     OverweightAssessmentForm.existingDates := [];
     OverweightAssessmentForm.isSubmitting := false;
     OverweightAssessmentForm.error := None |}.

Definition handleChange (name value : string) (st : OverweightAssessmentForm.State)
  : OverweightAssessmentForm.State :=
  let prev := OverweightAssessmentForm.formData st in
  {| OverweightAssessmentForm.formData :=
       {| OverweightAssessmentForm.visit_date :=
            if String.eqb name "visit_date" then value
            else OverweightAssessmentForm.visit_date prev;
          OverweightAssessmentForm.general_health :=
            if String.eqb name "general_health" then value
            else OverweightAssessmentForm.general_health prev;
          OverweightAssessmentForm.been_on_diet :=
            if String.eqb name "been_on_diet" then value
            else OverweightAssessmentForm.been_on_diet prev;
          OverweightAssessmentForm.comments :=
            if String.eqb name "comments" then value
            else OverweightAssessmentForm.comments prev |};
     OverweightAssessmentForm.existingDates := OverweightAssessmentForm.existingDates st;
     OverweightAssessmentForm.isSubmitting := OverweightAssessmentForm.isSubmitting st;
     OverweightAssessmentForm.error := OverweightAssessmentForm.error st |}.

Definition valid (now : Z) (st : OverweightAssessmentForm.State) : bool :=
  let formData := OverweightAssessmentForm.formData st in
  negb (FormControls.valueMissing (OverweightAssessmentForm.visit_date formData))
  && negb (FormControls.rangeOverflow (FormControls.utcToday now)
             (OverweightAssessmentForm.visit_date formData))
  && FormControls.checked ["Good"; "Poor"] (OverweightAssessmentForm.general_health formData)
  && FormControls.checked ["Yes"; "No"] (OverweightAssessmentForm.been_on_diet formData).

Definition click (now : Z) (ls : LocationState) (saved : write_result)
    (st : OverweightAssessmentForm.State)
  : click_result (OverweightAssessmentForm.State
                  * list (assessment_effect OverweightAssessmentForm.Payload)) :=
  match OverweightAssessmentForm.render ls with
  | FormView =>
      if OverweightAssessmentForm.isSubmitting st
         || includes (OverweightAssessmentForm.existingDates st)
              (OverweightAssessmentForm.visit_date (OverweightAssessmentForm.formData st))
      then ButtonDisabled
      else if valid now st then
        SubmitHandled (OverweightAssessmentForm.handleSubmit ls saved st)
      else InvalidReported
  | v => OtherView v
  end.

End OverweightAssessmentFormPage.

(** 2024-01-11T01:00:00Z, which five hours west of UTC is 20:00 on
    2024-01-10. *)
Definition west_evening : Z := 1704934800000.

(* ================================================================== *)
(** * Properties *)

(** ** Numbers *)

Lemma Qltb_lt (a b : Q) : Qltb a b = true <-> (a < b)%Q.
Proof.
  unfold Qltb. rewrite negb_true_iff.
  split; intro H.
  - apply Qnot_le_lt. intro Hle. apply Qle_bool_iff in Hle. congruence.
  - destruct (Qle_bool b a) eqn:E; [|reflexivity].
    apply Qle_bool_iff in E. exfalso. exact (Qlt_not_le _ _ H E).
Qed.

Lemma Qltb_ge (a b : Q) : Qltb a b = false <-> (b <= a)%Q.
Proof.
  unfold Qltb. rewrite negb_false_iff. apply Qle_bool_iff.
Qed.

Lemma Qzero_false (a : Q) : ~ (a == 0)%Q -> Qzero a = false.
Proof.
  intro H. unfold Qzero. destruct (Qeq_bool a 0) eqn:E; [|reflexivity].
  apply Qeq_bool_iff in E. contradiction.
Qed.

Lemma nearest_tenths_spec (q : Q) :
  (inject_Z (nearest_tenths q) - (1 # 2) <= q * 10
   /\ q * 10 < inject_Z (nearest_tenths q) + (1 # 2))%Q.
Proof.
  unfold nearest_tenths.
  pose proof (Qfloor_le (q * 10 + (1 # 2))) as Hle.
  pose proof (Qlt_floor (q * 10 + (1 # 2))) as Hlt.
  rewrite inject_Z_plus in Hlt. change (inject_Z 1) with 1%Q in Hlt.
  generalize dependent (inject_Z (Qfloor (q * 10 + (1 # 2)))).
  intros n Hle Hlt. split; lra.
Qed.

(** The three-way comparison against the boundaries of the specification. *)
Lemma thresholds_category (q : Q) :
  category_spec q
    (if lt (Fin q) (Fin (185 # 10)) then "Underweight"
     else if lt (Fin q) (of_Z 25) then "Normal" else "Overweight").
Proof.
  simpl. destruct (Qltb q (185 # 10)) eqn:E1.
  - apply cat_underweight. now apply Qltb_lt.
  - apply Qltb_ge in E1.
    destruct (Qltb q (inject_Z 25)) eqn:E2.
    + apply cat_normal; [exact E1|]. apply Qltb_lt in E2. exact E2.
    + apply cat_overweight. apply Qltb_ge in E2. exact E2.
Qed.

Lemma category_spec_functional (q : Q) (a b : string) :
  category_spec q a -> category_spec q b -> a = b.
Proof.
  intros Ha Hb. destruct Ha, Hb; try reflexivity; exfalso; lra.
Qed.

(* ------------------------------------------------------------------ *)
(** ** BMI engine *)

Lemma quotient_positive (h w : Q) :
  (0 < h)%Q -> (0 < w)%Q -> (0 < w / (h / inject_Z 100 * (h / inject_Z 100)))%Q.
Proof.
  intros Hh Hw.
  assert (H100 : (0 < h / inject_Z 100)%Q).
  { apply Qlt_shift_div_l; [reflexivity|]. lra. }
  apply Qlt_shift_div_l.
  - apply Qmult_lt_0_compat; assumption.
  - lra.
Qed.


Lemma calculateBMI_status (x y : number) :
  VitalsForm.status (VitalsForm.calculateBMI x y)
  = GeneralAssessmentForm.getBmiStatusText
      (VitalsForm.bmi_value (VitalsForm.calculateBMI x y)).
Proof. reflexivity. Qed.


(* ------------------------------------------------------------------ *)
(** ** Rounding to binary64 *)

Lemma ties_to_even_near (x : Q) :
  (inject_Z (Double.ties_to_even x) - (1 # 2) <= x
   /\ x <= inject_Z (Double.ties_to_even x) + (1 # 2))%Q.
Proof.
  unfold Double.ties_to_even.
  pose proof (Qfloor_le x) as Hle.
  pose proof (Qlt_floor x) as Hlt.
  rewrite inject_Z_plus in Hlt. change (inject_Z 1) with 1%Q in Hlt.
  destruct (Qcompare (x - inject_Z (Qfloor x)) (1 # 2)) eqn:E.
  - apply Qeq_alt in E.
    destruct (Z.even (Qfloor x)).
    + split; lra.
    + rewrite inject_Z_plus. change (inject_Z 1) with 1%Q. split; lra.
  - apply Qlt_alt in E. split; lra.
  - apply Qgt_alt in E. rewrite inject_Z_plus. change (inject_Z 1) with 1%Q. split; lra.
Qed.

Lemma two_power_Z (k : Z) : 0 <= k -> (2 ^ k == inject_Z (2 ^ k))%Q.
Proof.
  intro Hk. rewrite (Zpower_Qpower 2 k Hk). reflexivity.
Qed.

Lemma two_power_pos (k : Z) : (0 < 2 ^ k)%Q.
Proof. apply Qpower_0_lt. reflexivity. Qed.

Lemma two_power_succ (k : Z) : (2 ^ (k + 1) == 2 * 2 ^ k)%Q.
Proof.
  rewrite Qpower_plus by (intro H; discriminate H).
  change (2 ^ 1)%Q with 2%Q. ring.
Qed.

Lemma two_power_pred (k : Z) : (2 * 2 ^ (k - 1) == 2 ^ k)%Q.
Proof.
  rewrite <- two_power_succ. replace (k - 1 + 1) with k by lia. reflexivity.
Qed.

(** [ilog2] is the floor of the binary logarithm. *)
Lemma ilog2_spec (q : Q) :
  (0 < q)%Q -> (2 ^ Double.ilog2 q <= q /\ q < 2 ^ (Double.ilog2 q + 1))%Q.
Proof.
  intro Hq. destruct q as [n d].
  assert (Hn : 0 < n).
  { unfold Qlt in Hq. simpl in Hq. lia. }
  unfold Double.ilog2. cbn [Qnum Qden].
  set (ln := Z.log2 n). set (ld := Z.log2 (Z.pos d)).
  pose proof (Z.log2_spec n Hn) as [Hn1 Hn2]. fold ln in Hn1, Hn2.
  pose proof (Z.log2_spec (Z.pos d) eq_refl) as [Hd1 Hd2]. fold ld in Hd1, Hd2.
  assert (Hln : 0 <= ln) by apply Z.log2_nonneg.
  assert (Hld : 0 <= ld) by apply Z.log2_nonneg.
  replace (Z.succ ln) with (ln + 1) in Hn2 by lia.
  replace (Z.succ ld) with (ld + 1) in Hd2 by lia.
  (* the bounds as rationals *)
  set (A := (2 ^ ln)%Q). set (B := (2 ^ ld)%Q).
  assert (HA : (A == inject_Z (2 ^ ln))%Q) by (apply two_power_Z; exact Hln).
  assert (HB : (B == inject_Z (2 ^ ld))%Q) by (apply two_power_Z; exact Hld).
  assert (HBpos : (0 < B)%Q) by apply two_power_pos.
  assert (HApos : (0 < A)%Q) by apply two_power_pos.
  set (q := n # d).
  set (D := inject_Z (Z.pos d)).
  assert (HD : (0 < D)%Q) by (unfold D, Qlt; simpl; lia).
  assert (Hq' : (q * D == inject_Z n)%Q).
  { unfold q, D, Qeq, inject_Z. simpl. lia. }
  assert (HnA : (A <= inject_Z n)%Q) by (rewrite HA, <- Zle_Qle; exact Hn1).
  assert (HnA2 : (inject_Z n < 2 * A)%Q).
  { rewrite HA. change 2%Q with (inject_Z 2). rewrite <- inject_Z_mult, <- Zlt_Qlt.
    rewrite Z.pow_add_r in Hn2 by lia. lia. }
  assert (HdB : (B <= D)%Q) by (unfold D; rewrite HB, <- Zle_Qle; exact Hd1).
  assert (HdB2 : (D < 2 * B)%Q).
  { unfold D. rewrite HB. change 2%Q with (inject_Z 2).
    rewrite <- inject_Z_mult, <- Zlt_Qlt.
    rewrite Z.pow_add_r in Hd2 by lia. lia. }
  set (k := ln - ld).
  assert (HP : (2 ^ k * B == A)%Q).
  { unfold k, A, B. rewrite Qpower_minus by (intro H; discriminate H).
    field. apply Qpower_not_0. intro H; discriminate H. }
  assert (HPpos : (0 < 2 ^ k)%Q) by apply two_power_pos.
  pose proof (two_power_succ k) as Hsucc.
  pose proof (two_power_pred k) as Hpred.
  assert (HPm : (0 < 2 ^ (k - 1))%Q) by apply two_power_pos.
  assert (Hlow : (2 ^ (k - 1) < q)%Q).
  { set (P0 := (2 ^ (k - 1))%Q) in *. set (P := (2 ^ k)%Q) in *.
    assert (H1 : (P * B <= q * D)%Q) by (rewrite HP, Hq'; exact HnA).
    nra. }
  assert (Hhigh : (q < 2 ^ (k + 1))%Q).
  { set (P1 := (2 ^ (k + 1))%Q) in *. set (P := (2 ^ k)%Q) in *.
    assert (H1 : (q * D < 2 * (P * B))%Q) by (rewrite HP, Hq'; exact HnA2).
    nra. }
  destruct (Qltb q (2 ^ k)) eqn:E.
  - apply Qltb_lt in E. replace (k - 1 + 1) with k by lia.
    split; [apply Qlt_le_weak; exact Hlow|exact E].
  - apply Qltb_ge in E. split; [exact E|exact Hhigh].
Qed.

Lemma Qabs_positive (q : Q) : (0 < q)%Q -> Qabs q = q.
Proof.
  destruct q as [n d]. unfold Qlt. simpl. intro H.
  rewrite Z.abs_eq by lia. reflexivity.
Qed.

(** Rounding in the normal range moves a value by [2^-53] of it at
    most, half a unit in the last place. *)
Lemma round64_normal (q : Q) :
  (2 ^ (-1022) <= q)%Q -> (q <= 2 ^ 1023)%Q ->
  exists r,
    Double.round64 q = Fin r
    /\ (q * (1 - unit_roundoff) <= r)%Q
    /\ (r <= q * (1 + unit_roundoff))%Q.
Proof.
  intros Hlo Hhi.
  assert (Hq : (0 < q)%Q).
  { eapply Qlt_le_trans; [apply (two_power_pos (-1022))|exact Hlo]. }
  unfold Double.round64.
  rewrite (Qzero_false q) by lra.
  rewrite (Qabs_positive q Hq).
  assert (Hneg : Qneg q = false) by (apply Qltb_ge; lra).
  rewrite Hneg.
  destruct (ilog2_spec q Hq) as [Hl1 Hl2].
  set (l := Double.ilog2 q) in *.
  assert (Hl : -1022 <= l).
  { assert (H : (2 ^ (-1022) < 2 ^ (l + 1))%Q) by (eapply Qle_lt_trans; eassumption).
    apply Qpower_lt_compat_l_inv in H; [lia|reflexivity]. }
  unfold Double.ulp_exponent. fold l.
  replace (Z.max (l - 52) (-1074)) with (l - 52) by lia.
  set (e := l - 52).
  assert (HE : (0 < 2 ^ e)%Q) by apply two_power_pos.
  assert (Hel : (2 ^ e * 2 ^ 52 == 2 ^ l)%Q).
  { rewrite <- Qpower_plus by (intro H; discriminate H).
    unfold e. replace (l - 52 + 52) with l by lia. reflexivity. }
  pose proof (ties_to_even_near (q / 2 ^ e)) as [Hm1 Hm2].
  set (m := inject_Z (Double.ties_to_even (q / 2 ^ e))) in *.
  assert (Hx : (q / 2 ^ e * 2 ^ e == q)%Q).
  { field. apply Qpower_not_0. intro H; discriminate H. }
  set (r := Qred (m * 2 ^ e)).
  assert (Hr : (r == m * 2 ^ e)%Q) by apply Qred_correct.
  change (2 ^ 52)%Q with (4503599627370496 # 1)%Q in Hel.
  assert (Hbounds : (q * (1 - unit_roundoff) <= r /\ r <= q * (1 + unit_roundoff))%Q).
  { rewrite Hr. unfold unit_roundoff.
    set (E := (2 ^ e)%Q) in *. set (x := (q / E)%Q) in *.
    set (L := (2 ^ l)%Q) in *.
    assert (H1 : (E * (4503599627370496 # 1) <= x * E)%Q) by (rewrite Hel, Hx; exact Hl1).
    assert (H2 : ((m - x) * E <= (1 # 2) * E)%Q) by nra.
    assert (H3 : (- ((1 # 2) * E) <= (m - x) * E)%Q) by nra.
    rewrite <- Hx. split; nra. }
  destruct Hbounds as [Hb1 Hb2].
  assert (Hfinite : Qle_bool (2 ^ 1024) r = false).
  { destruct (Qle_bool (2 ^ 1024) r) eqn:E; [|reflexivity].
    apply Qle_bool_iff in E. exfalso.
    assert (H : (2 ^ 1024 == 2 * 2 ^ 1023)%Q) by (apply (two_power_succ 1023)).
    rewrite H in E. unfold unit_roundoff in Hb2.
    pose proof (two_power_pos 1023) as Hp.
    set (T := (2 ^ 1023)%Q) in *. nra. }
  rewrite Hfinite. exists r. split; [reflexivity|]. split; assumption.
Qed.

(* ------------------------------------------------------------------ *)
(** ** Bounds that pass through products and quotients *)

Lemma scale_square (H y lo hi : Q) :
  (0 < lo)%Q -> (0 < H)%Q -> (H * lo <= y)%Q -> (y <= H * hi)%Q ->
  ((H * H) * (lo * lo) <= y * y)%Q /\ (y * y <= (H * H) * (hi * hi))%Q.
Proof.
  intros Hlo HH H1 H2.
  assert (H0 : (0 < H * lo)%Q) by (apply Qmult_lt_0_compat; assumption).
  split.
  - assert (K : ((H * lo) * (H * lo) <= y * y)%Q)
      by (apply Qmult_le_compat_nonneg; split; lra).
    lra.
  - assert (K : (y * y <= (H * hi) * (H * hi))%Q)
      by (apply Qmult_le_compat_nonneg; split; lra).
    lra.
Qed.

Lemma scale_twice (x y z lo hi lo' hi' : Q) :
  (0 < x)%Q -> (0 < lo)%Q -> (0 < lo')%Q ->
  (x * lo <= y)%Q -> (y <= x * hi)%Q -> (y * lo' <= z)%Q -> (z <= y * hi')%Q ->
  (x * (lo * lo') <= z)%Q /\ (z <= x * (hi * hi'))%Q.
Proof.
  intros Hx Hlo Hlo' H1 H2 H3 H4.
  assert (H0 : (0 < x * lo)%Q) by (apply Qmult_lt_0_compat; assumption).
  assert (Hy : (0 < y)%Q) by lra.
  assert (Hhi' : (0 < hi')%Q).
  { assert (K : (y * lo' <= y * hi')%Q) by lra.
    apply Qmult_le_l in K; [lra|exact Hy]. }
  split.
  - assert (K : ((x * lo) * lo' <= y * lo')%Q) by (apply Qmult_le_compat_r; lra).
    lra.
  - assert (K : (y * hi' <= (x * hi) * hi')%Q) by (apply Qmult_le_compat_r; lra).
    lra.
Qed.

Lemma quotient_bounds (t s x S cm cp : Q) :
  (0 < S)%Q -> (0 < t)%Q ->
  (t * s == x * S)%Q -> (S * cm <= s)%Q -> (s <= S * cp)%Q ->
  (x <= t * cp)%Q /\ (t * cm <= x)%Q.
Proof.
  intros HS Ht Heq H1 H2. split.
  - apply (Qmult_lt_0_le_reg_r _ _ S HS).
    assert (K : (t * s <= t * (S * cp))%Q) by (apply Qmult_le_l; assumption).
    lra.
  - apply (Qmult_lt_0_le_reg_r _ _ S HS).
    assert (K : (t * (S * cm) <= t * s)%Q) by (apply Qmult_le_l; assumption).
    lra.
Qed.

Lemma rounded_quotient (t b x u e cm cp : Q) :
  (0 < t)%Q -> (0 < x)%Q -> (0 < cm)%Q -> (0 < cp)%Q -> (0 <= u)%Q -> (u <= 1)%Q ->
  (t * (1 - u) <= b)%Q -> (b <= t * (1 + u))%Q ->
  (x <= t * cp)%Q -> (t * cm <= x)%Q ->
  ((1 - e) * cp <= 1 - u)%Q -> (1 + u <= (1 + e) * cm)%Q ->
  (x * (1 - e) <= b)%Q /\ (b <= x * (1 + e))%Q.
Proof.
  intros Ht Hx Hcm Hcp Hu0 Hu1 H1 H2 H3 H4 H5 H6. split.
  - apply (Qmult_lt_0_le_reg_r _ _ cp Hcp).
    assert (K1 : (x * ((1 - e) * cp) <= x * (1 - u))%Q) by (apply Qmult_le_l; assumption).
    assert (K2 : (x * (1 - u) <= (t * cp) * (1 - u))%Q) by (apply Qmult_le_compat_r; lra).
    assert (K3 : ((t * (1 - u)) * cp <= b * cp)%Q) by (apply Qmult_le_compat_r; lra).
    lra.
  - apply (Qmult_lt_0_le_reg_r _ _ cm Hcm).
    assert (K1 : (b * cm <= (t * (1 + u)) * cm)%Q) by (apply Qmult_le_compat_r; lra).
    assert (K2 : ((t * cm) * (1 + u) <= x * (1 + u))%Q) by (apply Qmult_le_compat_r; lra).
    assert (K3 : (x * (1 + u) <= x * ((1 + e) * cm))%Q) by (apply Qmult_le_l; assumption).
    lra.
Qed.

Lemma normal_range (x : Q) :
  (1 # 1000000000000 <= x)%Q -> (x <= 1000000000000)%Q ->
  (2 ^ (-1022) <= x)%Q /\ (x <= 2 ^ 1023)%Q.
Proof.
  intros Hlo Hhi. split.
  - eapply Qle_trans; [|exact Hlo]. apply Qle_bool_iff. vm_compute. reflexivity.
  - eapply Qle_trans; [exact Hhi|]. apply Qle_bool_iff. vm_compute. reflexivity.
Qed.

(** Between 10^-12 and 10^12 a value is rounded to a double within
    [2^-53] of it, so within half and twice the value. *)
Lemma round64_plain (q : Q) :
  (1 # 1000000000000 <= q)%Q -> (q <= 1000000000000)%Q ->
  exists r,
    Double.round64 q = Fin r
    /\ (q * (1 - unit_roundoff) <= r)%Q
    /\ (r <= q * (1 + unit_roundoff))%Q
    /\ (q <= 2 * r)%Q
    /\ (r <= 2 * q)%Q.
Proof.
  intros Hlo Hhi. destruct (normal_range q Hlo Hhi) as [H1 H2].
  destruct (round64_normal q H1 H2) as (r & Hr & Hr1 & Hr2).
  exists r. split; [exact Hr|]. split; [exact Hr1|]. split; [exact Hr2|].
  assert (Hq : (0 < q)%Q) by lra.
  assert (K1 : (q * (1 # 2) <= q * (1 - unit_roundoff))%Q).
  { apply Qmult_le_l; [exact Hq|]. apply Qle_bool_iff. reflexivity. }
  assert (K2 : (q * (1 + unit_roundoff) <= q * 2)%Q).
  { apply Qmult_le_l; [exact Hq|]. apply Qle_bool_iff. reflexivity. }
  split; lra.
Qed.

Lemma Qfloor_unique (x : Q) (z : Z) :
  (inject_Z z <= x)%Q -> (x < inject_Z z + 1)%Q -> Qfloor x = z.
Proof.
  intros Hle Hlt.
  pose proof (Qfloor_le x) as H1. pose proof (Qlt_floor x) as H2.
  rewrite inject_Z_plus in H2. change (inject_Z 1) with 1%Q in H2.
  assert (Ha : (inject_Z z < inject_Z (Qfloor x) + 1)%Q) by lra.
  assert (Hb : (inject_Z (Qfloor x) < inject_Z z + 1)%Q) by lra.
  change 1%Q with (inject_Z 1) in Ha, Hb.
  rewrite <- inject_Z_plus, <- Zlt_Qlt in Ha, Hb. lia.
Qed.

Lemma nearest_tenths_unique (q : Q) (n : Z) :
  (inject_Z n - (1 # 2) <= q * 10)%Q -> (q * 10 < inject_Z n + (1 # 2))%Q ->
  nearest_tenths q = n.
Proof.
  intros H1 H2. unfold nearest_tenths. apply Qfloor_unique; lra.
Qed.

Lemma tenths_times_ten (n : Z) : (tenths n * 10 == inject_Z n)%Q.
Proof. unfold tenths, Qeq, inject_Z. simpl. lia. Qed.

(** The double a one-decimal numeral below 10^12 is read as. *)
Lemma round64_tenths (n : Z) :
  0 <= n <= 2000000000001 ->
  exists r,
    Double.round64 (tenths n) = Fin r
    /\ (tenths n * (1 - unit_roundoff) <= r)%Q
    /\ (r <= tenths n * (1 + unit_roundoff))%Q.
Proof.
  intro Hn. destruct (Z.eq_dec n 0) as [->|Hne].
  - exists 0%Q. split; [reflexivity|]. split; vm_compute; discriminate.
  - assert (K1 : (inject_Z 1 <= inject_Z n)%Q) by (rewrite <- Zle_Qle; lia).
    assert (K2 : (inject_Z n <= inject_Z 2000000000001)%Q) by (rewrite <- Zle_Qle; lia).
    change (inject_Z 1) with 1%Q in K1.
    change (inject_Z 2000000000001) with 2000000000001%Q in K2.
    pose proof (tenths_times_ten n) as Kt.
    destruct (round64_plain (tenths n)) as (r & Hr & Hr1 & Hr2 & _); [lra|lra|].
    exists r. auto.
Qed.

(** The double quotient of [calculateBMI], the one-decimal numeral
    toFixed prints for it, and the double that numeral is read as. *)
Lemma calculateBMI_double (h w : Q) :
  plausible h w ->
  exists (b r : Q) (n : Z),
    Double.div (Fin w)
      (Double.mul (Double.div (Fin h) (of_Z 100)) (Double.div (Fin h) (of_Z 100)))
    = Fin b
    /\ (exact_bmi h w * (1 - quotient_error) <= b)%Q
    /\ (b <= exact_bmi h w * (1 + quotient_error))%Q
    /\ (inject_Z n - (1 # 2) <= b * 10)%Q
    /\ (b * 10 < inject_Z n + (1 # 2))%Q
    /\ 0 <= n <= 2000000000001
    /\ Double.round64 (tenths n) = Fin r
    /\ (tenths n * (1 - unit_roundoff) <= r)%Q
    /\ (r <= tenths n * (1 + unit_roundoff))%Q
    /\ Double.toFixed1 (Fin b) = Fin r.
Proof.
  intros (Hh1 & Hh2 & Hw1 & Hw2).
  assert (Hu0 : (0 <= unit_roundoff)%Q) by (apply Qle_bool_iff; reflexivity).
  assert (Hu1 : (unit_roundoff <= 1)%Q) by (apply Qle_bool_iff; reflexivity).
  assert (Hlo : (0 < 1 - unit_roundoff)%Q) by reflexivity.
  (* height in metres *)
  assert (EhM : Double.div (Fin h) (of_Z 100) = Double.round64 (h / 100)) by reflexivity.
  set (H := (h / 100)%Q) in *.
  assert (HH : (H * 100 == h)%Q) by (unfold H; field).
  assert (HH1 : (1 # 100 <= H)%Q) by lra.
  assert (HH2 : (H <= 100)%Q) by lra.
  destruct (round64_plain H) as (hM & HhM & HhM1 & HhM2 & HhM3 & HhM4); [lra|lra|].
  rewrite EhM, HhM.
  (* its square *)
  assert (Esq : Double.mul (Fin hM) (Fin hM) = Double.round64 (hM * hM)) by reflexivity.
  assert (Hsqr1 : ((1 # 200) * (1 # 200) <= hM * hM)%Q)
    by (apply Qmult_le_compat_nonneg; split; lra).
  assert (Hsqr2 : (hM * hM <= 200 * 200)%Q)
    by (apply Qmult_le_compat_nonneg; split; lra).
  destruct (round64_plain (hM * hM)) as (sq & Hsq & Hsq1 & Hsq2 & Hsq3 & Hsq4); [lra|lra|].
  rewrite Esq, Hsq.
  (* the quotient *)
  assert (Hsqpos : (0 < sq)%Q) by lra.
  assert (Ediv : Double.div (Fin w) (Fin sq) = Double.round64 (w / sq)).
  { unfold Double.div, JSNumber.div. rewrite (Qzero_false sq) by lra. reflexivity. }
  set (t := (w / sq)%Q) in *.
  assert (Ht : (t * sq == w)%Q) by (unfold t; field; lra).
  assert (Htpos : (0 < t)%Q) by (unfold t; apply Qlt_shift_div_l; lra).
  assert (Kt1 : (t * (1 # 80000) <= t * sq)%Q) by (apply Qmult_le_l; [exact Htpos|lra]).
  assert (Kt2 : (t * sq <= t * 80000)%Q) by (apply Qmult_le_l; [exact Htpos|lra]).
  destruct (round64_plain t) as (b & Hb & Hb1 & Hb2 & Hb3 & Hb4); [lra|lra|].
  rewrite Ediv, Hb.
  (* against the exact quotient *)
  set (x := exact_bmi h w).
  assert (HHpos : (0 < H * H)%Q) by (apply Qmult_lt_0_compat; lra).
  assert (Hx : (x * (H * H) == w)%Q).
  { unfold x, exact_bmi. fold H. field. lra. }
  assert (Hxpos : (0 < x)%Q).
  { unfold x, exact_bmi. fold H. apply Qlt_shift_div_l; lra. }
  destruct (scale_square H hM (1 - unit_roundoff) (1 + unit_roundoff))
    as [Hs1 Hs2]; [exact Hlo|lra|exact HhM1|exact HhM2|].
  destruct (scale_twice (H * H) (hM * hM) sq
              ((1 - unit_roundoff) * (1 - unit_roundoff))
              ((1 + unit_roundoff) * (1 + unit_roundoff))
              (1 - unit_roundoff) (1 + unit_roundoff))
    as [Hs3 Hs4]; [exact HHpos|reflexivity|exact Hlo|exact Hs1|exact Hs2|exact Hsq1|exact Hsq2|].
  destruct (quotient_bounds t sq x (H * H) _ _ HHpos Htpos
              ltac:(rewrite Ht, Hx; reflexivity) Hs3 Hs4) as [Hq1 Hq2].
  destruct (rounded_quotient t b x unit_roundoff quotient_error
              ((1 - unit_roundoff) * (1 - unit_roundoff) * (1 - unit_roundoff))
              ((1 + unit_roundoff) * (1 + unit_roundoff) * (1 + unit_roundoff))
              Htpos Hxpos) as [Hbx1 Hbx2];
    [reflexivity|reflexivity|exact Hu0|exact Hu1|exact Hb1|exact Hb2|exact Hq1|exact Hq2
    |apply Qle_bool_iff; reflexivity|apply Qle_bool_iff; reflexivity|].
  assert (Hblo : (0 < b)%Q) by lra.
  assert (Hbhi : (b <= 200000000000)%Q) by lra.
  (* toFixed *)
  pose proof (nearest_tenths_spec b) as [Hn1 Hn2].
  set (n := nearest_tenths b) in *.
  assert (Hn0 : 0 <= n <= 2000000000001).
  { assert (K1 : (inject_Z (-1) < inject_Z n)%Q) by (change (inject_Z (-1)) with (-1)%Q; lra).
    assert (K2 : (inject_Z n < inject_Z 2000000000002)%Q)
      by (change (inject_Z 2000000000002) with 2000000000002%Q; lra).
    rewrite <- Zlt_Qlt in K1, K2. lia. }
  assert (Efix : Double.toFixed1 (Fin b) = Double.round64 (tenths n)).
  { unfold Double.toFixed1, JSNumber.toFixed1.
    assert (Hlim : Qle_bool toFixed_limit (Qabs b) = false).
    { destruct (Qle_bool toFixed_limit (Qabs b)) eqn:E; [|reflexivity].
      apply Qle_bool_iff in E. rewrite (Qabs_positive b Hblo) in E.
      unfold toFixed_limit in E. exfalso.
      change ((10 ^ 21)%Z # 1)%Q with 1000000000000000000000%Q in E. lra. }
    rewrite Hlim.
    assert (Hneg : Qneg b = false) by (apply Qltb_ge; lra).
    rewrite Hneg. reflexivity. }
  destruct (round64_tenths n Hn0) as (r & Hr & Hr1 & Hr2).
  exists b, r, n.
  split; [reflexivity|]. split; [exact Hbx1|]. split; [exact Hbx2|].
  split; [exact Hn1|]. split; [exact Hn2|]. split; [exact Hn0|].
  split; [exact Hr|]. split; [exact Hr1|]. split; [exact Hr2|].
  rewrite Efix. exact Hr.
Qed.

(** The status [calculateBMI] gives is the category of the one-decimal
    value, not only of the double it is read as: the boundaries 18.5 and
    25 are doubles, and rounding does not cross them. *)
Lemma category_of_tenths (n : Z) (r : Q) :
  0 <= n <= 2000000000001 ->
  Double.round64 (tenths n) = Fin r ->
  (tenths n * (1 - unit_roundoff) <= r)%Q ->
  (r <= tenths n * (1 + unit_roundoff))%Q ->
  category_spec (tenths n)
    (if lt (Fin r) (Fin (185 # 10)) then "Underweight"
     else if lt (Fin r) (of_Z 25) then "Normal" else "Overweight").
Proof.
  intros Hn Hr Hr1 Hr2.
  pose proof (tenths_times_ten n) as Ht.
  unfold unit_roundoff in Hr1, Hr2.
  cbn [lt of_Z].
  assert (Hcases : n <= 184 \/ n = 185 \/ 186 <= n <= 249 \/ n = 250 \/ 251 <= n) by lia.
  destruct Hcases as [H|[H|[H|[H|H]]]].
  - assert (K : (inject_Z n <= inject_Z 184)%Q) by (rewrite <- Zle_Qle; exact H).
    change (inject_Z 184) with 184%Q in K.
    destruct (Qltb r (185 # 10)) eqn:E1.
    + apply cat_underweight. lra.
    + apply Qltb_ge in E1. exfalso. lra.
  - subst n. vm_compute in Hr. injection Hr as <-. vm_compute.
    apply cat_normal; [apply Qle_bool_iff|]; reflexivity.
  - assert (K1 : (inject_Z 186 <= inject_Z n)%Q) by (rewrite <- Zle_Qle; lia).
    assert (K2 : (inject_Z n <= inject_Z 249)%Q) by (rewrite <- Zle_Qle; lia).
    change (inject_Z 186) with 186%Q in K1. change (inject_Z 249) with 249%Q in K2.
    destruct (Qltb r (185 # 10)) eqn:E1.
    + apply Qltb_lt in E1. exfalso. lra.
    + destruct (Qltb r (inject_Z 25)) eqn:E2.
      * apply cat_normal; lra.
      * apply Qltb_ge in E2. change (inject_Z 25) with 25%Q in E2. exfalso. lra.
  - subst n. vm_compute in Hr. injection Hr as <-. vm_compute.
    apply cat_overweight. apply Qle_bool_iff. reflexivity.
  - assert (K : (inject_Z 251 <= inject_Z n)%Q) by (rewrite <- Zle_Qle; exact H).
    change (inject_Z 251) with 251%Q in K.
    destruct (Qltb r (185 # 10)) eqn:E1.
    + apply Qltb_lt in E1. exfalso. lra.
    + destruct (Qltb r (inject_Z 25)) eqn:E2.
      * apply Qltb_lt in E2. change (inject_Z 25) with 25%Q in E2. exfalso. lra.
      * apply cat_overweight. lra.
Qed.

(** The rounding of module [Double] is the rounding of the primitive
    floats: quotients and products of small integers, the whole of
    [calculateBMI] for heights from 140 to 200 cm and weights from 40.0
    to 129.7 kg, and quotients and products among the subnormal doubles,
    at ties and where the result overflows, come out the same. *)
Lemma double_agrees_with_primitive_floats :
  forallb (fun a =>
             forallb (fun b =>
                        same_double (Double.div (Fin (inject_Z a)) (Fin (inject_Z b)))
                          (Binary64.decimal a 0 / Binary64.decimal b 0)%float
                        && same_double (Double.mul (Double.round64 (tenths a))
                                                   (Double.round64 (tenths b)))
                             (Binary64.decimal a 1 * Binary64.decimal b 1)%float)
                     (progression 1 1 40))
          (progression 1 7 40) = true
  /\ forallb (fun height => forallb (same_bmi height) (progression 400 13 70))
             (progression 140 3 21) = true
  /\ forallb (fun '(a, b, k) => same_scaled_quotient a b k)
       [(1, 2, -1074); (3, 2, -1074); (5, 2, -1074); (1, 3, -1070); (7, 3, -1060);
        (1, 3, -1022); (1, 1, 1023); (9007199254740991, 3, 971)] = true
  /\ forallb (fun '(a, b, k) => same_scaled_product a b k)
       [(1, 7, -1074); (1, 2, 1023); (3, 3, 1020); (9007199254740991, 1, 971);
        (9007199254740991, 2, 971); (9007199254740993, 1, 0); (9007199254740995, 1, 0)]
     = true.
Proof.
  split; [vm_compute; reflexivity|].
  split; [vm_compute; reflexivity|].
  split; vm_compute; reflexivity.
Qed.

(** The heights and weights at which the handlers are evaluated in this
    file give the same BMI and status on doubles as without rounding;
    160 cm and 48 kg do not. *)
Lemma samples_same_on_doubles :
  forallb (fun sample => same_on_doubles (fst sample) (snd sample))
    [("200", "100"); ("250", "0.3"); ("500", "1"); ("170", "70"); ("170", "70.2");
     ("160", "70"); ("180", "55")] = true
  /\ same_on_doubles "160" "48" = false.
Proof. split; vm_compute; reflexivity. Qed.

(** C4, as stated, fails where the exact quotient ends in 5 at the
    second decimal.  For 160 cm and 48 kg it is 18.75, which rounds to
    18.8; the doubles give 1.6000000000000001 for the height in metres,
    a quotient just below 18.75, and [calculateBMI] returns 18.7 (the
    primitive floats agree).  For the inputs 200 and 99.8 the quotient of
    the decimals is 24.95, which rounds to 25.0 and Overweight, and
    [calculateBMI] returns 24.9 and Normal.  For 1 cm and 1e308 kg the
    quotient overflows and the value is [Infinity]. *)
Lemma calculateBMI_off_at_midpoints :
  (exact_bmi 160 48 == 1875 # 100)%Q
  /\ nearest_tenths (exact_bmi 160 48) = 188
  /\ Double.VitalsForm.calculateBMI (Fin 160) (Fin 48)
     = {| VitalsForm.bmi_value := Double.round64 (187 # 10); VitalsForm.status := "Normal" |}
  /\ Double.VitalsFormV2.calculateBMI (Fin 160) (Fin 48) = Double.round64 (187 # 10)
  /\ Double.round64 (187 # 10) <> Double.round64 (188 # 10)
  /\ Binary64.calculateBMI (Binary64.decimal 160 0) (Binary64.decimal 48 0)
     = Some (187, "Normal")
  /\ nearest_tenths (exact_bmi 200 (998 # 10)) = 250
  /\ Double.VitalsForm.calculateBMI (Double.parseFloat "200") (Double.parseFloat "99.8")
     = {| VitalsForm.bmi_value := Double.round64 (249 # 10); VitalsForm.status := "Normal" |}
  /\ Binary64.calculateBMI (Binary64.decimal 200 0) (Binary64.decimal 998 1)
     = Some (249, "Normal")
  /\ Double.VitalsForm.calculateBMI (Fin 1) (Double.parseFloat "1e308")
     = {| VitalsForm.bmi_value := PInf; VitalsForm.status := "Overweight" |}.
Proof.
  split; [vm_compute; reflexivity|].
  split; [vm_compute; reflexivity|].
  split; [vm_compute; reflexivity|].
  split; [vm_compute; reflexivity|].
  split; [vm_compute; discriminate|].
  split; [vm_compute; reflexivity|].
  split; [vm_compute; reflexivity|].
  split; [vm_compute; reflexivity|].
  split; [vm_compute; reflexivity|].
  vm_compute; reflexivity.
Qed.

(** The exact quotient of a plausible height and weight. *)
Lemma exact_bmi_range (h w : Q) :
  plausible h w -> (0 < exact_bmi h w)%Q /\ (exact_bmi h w <= 10000000000)%Q.
Proof.
  intros (Hh1 & Hh2 & Hw1 & Hw2).
  set (H := (h / 100)%Q).
  assert (HH : (H * 100 == h)%Q) by (unfold H; field).
  assert (HH1 : (1 # 100 <= H)%Q) by lra.
  assert (Hsq : ((1 # 100) * (1 # 100) <= H * H)%Q)
    by (apply Qmult_le_compat_nonneg; split; lra).
  assert (HHpos : (0 < H * H)%Q) by lra.
  assert (Hx : (exact_bmi h w * (H * H) == w)%Q).
  { unfold exact_bmi. fold H. field. lra. }
  assert (Hpos : (0 < exact_bmi h w)%Q).
  { unfold exact_bmi. fold H. apply Qlt_shift_div_l; lra. }
  split; [exact Hpos|].
  assert (K : (exact_bmi h w * ((1 # 100) * (1 # 100)) <= exact_bmi h w * (H * H))%Q)
    by (apply Qmult_le_l; assumption).
  lra.
Qed.

(** C4, amended.  For a height from 1 cm to 100 m and a weight from 1 g
    to 1000 t, [calculateBMI] of both vitals forms returns the double
    that the one-decimal numeral [n / 10] is read as, where [n] is the
    integer nearest to ten times the quotient the doubles give for
    [weightKg / ((heightCm / 100) * (heightCm / 100))], the larger one
    of two.  That quotient [b] is within a relative [2^-50] of the exact
    quotient; so [n / 10] is less than 0.1 away from the exact quotient,
    and it is the exact quotient rounded to one decimal whenever ten
    times the exact quotient is farther than that error from a
    half-integer.  The status
    is the category of [n / 10].  In particular (170, 70.2) gives 24.3
    and Normal, (160, 70) gives 27.3 and Overweight, (180, 55) gives 17.0
    and Underweight. *)
Theorem calculateBMI_one_decimal_of_double_quotient (h w : Q) :
  plausible h w ->
  (exists (b r : Q) (n : Z),
      Double.div (Fin w)
        (Double.mul (Double.div (Fin h) (of_Z 100)) (Double.div (Fin h) (of_Z 100)))
      = Fin b
      /\ (exact_bmi h w * (1 - quotient_error) <= b)%Q
      /\ (b <= exact_bmi h w * (1 + quotient_error))%Q
      /\ (inject_Z n - (1 # 2) <= b * 10)%Q
      /\ (b * 10 < inject_Z n + (1 # 2))%Q
      /\ Double.round64 (tenths n) = Fin r
      /\ (tenths n * (1 - unit_roundoff) <= r)%Q
      /\ (r <= tenths n * (1 + unit_roundoff))%Q
      /\ VitalsForm.bmi_value (Double.VitalsForm.calculateBMI (Fin h) (Fin w)) = Fin r
      /\ Double.VitalsFormV2.calculateBMI (Fin h) (Fin w) = Fin r
      /\ category_spec (tenths n)
           (VitalsForm.status (Double.VitalsForm.calculateBMI (Fin h) (Fin w)))
      /\ (inject_Z n - 1 < exact_bmi h w * 10)%Q
      /\ (exact_bmi h w * 10 < inject_Z n + 1)%Q
      /\ (forall N : Z,
             (inject_Z N - (1 # 2) + exact_bmi h w * 10 * quotient_error
              <= exact_bmi h w * 10)%Q ->
             (exact_bmi h w * 10 + exact_bmi h w * 10 * quotient_error
              < inject_Z N + (1 # 2))%Q ->
             n = N /\ n = nearest_tenths (exact_bmi h w)))
  /\ Double.VitalsForm.calculateBMI (Double.parseFloat "170") (Double.parseFloat "70.2")
     = {| VitalsForm.bmi_value := Double.parseFloat "24.3"; VitalsForm.status := "Normal" |}
  /\ Double.VitalsForm.calculateBMI (Double.parseFloat "160") (Double.parseFloat "70")
     = {| VitalsForm.bmi_value := Double.parseFloat "27.3"; VitalsForm.status := "Overweight" |}
  /\ Double.VitalsForm.calculateBMI (Double.parseFloat "180") (Double.parseFloat "55")
     = {| VitalsForm.bmi_value := Double.parseFloat "17.0";
          VitalsForm.status := "Underweight" |}.
Proof.
  intro Hplausible.
  split; [|split; [vm_compute; reflexivity|split; vm_compute; reflexivity]].
  destruct (calculateBMI_double h w Hplausible)
    as (b & r & n & Hb & Hb1 & Hb2 & Hn1 & Hn2 & Hn0 & Hr & Hr1 & Hr2 & Hfix).
  exists b, r, n.
  split; [exact Hb|]. split; [exact Hb1|]. split; [exact Hb2|].
  split; [exact Hn1|]. split; [exact Hn2|].
  split; [exact Hr|]. split; [exact Hr1|]. split; [exact Hr2|].
  assert (Hvalue : Double.VitalsFormV2.calculateBMI (Fin h) (Fin w) = Fin r).
  { unfold Double.VitalsFormV2.calculateBMI. cbn zeta. rewrite Hb. exact Hfix. }
  assert (Hsame : VitalsForm.bmi_value (Double.VitalsForm.calculateBMI (Fin h) (Fin w))
                  = Double.VitalsFormV2.calculateBMI (Fin h) (Fin w)) by reflexivity.
  split; [rewrite Hsame; exact Hvalue|]. split; [exact Hvalue|].
  split.
  - change (VitalsForm.status (Double.VitalsForm.calculateBMI (Fin h) (Fin w)))
      with (if lt (Double.VitalsFormV2.calculateBMI (Fin h) (Fin w)) (Fin (185 # 10))
            then "Underweight"
            else if lt (Double.VitalsFormV2.calculateBMI (Fin h) (Fin w)) (of_Z 25)
                 then "Normal" else "Overweight").
    rewrite Hvalue. exact (category_of_tenths n r Hn0 Hr Hr1 Hr2).
  - destruct (exact_bmi_range h w Hplausible) as [Hx0 Hx1].
    unfold quotient_error in *.
    split; [lra|]. split; [lra|].
    intros N HN1 HN2.
    assert (Heq : n = N).
    { rewrite <- (nearest_tenths_unique b n Hn1 Hn2).
      apply (nearest_tenths_unique b N); lra. }
    split; [exact Heq|].
    symmetry. rewrite Heq. apply nearest_tenths_unique; lra.
Qed.

Lemma calculateBMI_one_decimal_of_double_quotient_witness :
  plausible 160 70
  /\ exists (b : Q) (n : Z),
       (inject_Z n - (1 # 2) <= b * 10)%Q
       /\ (b * 10 < inject_Z n + (1 # 2))%Q
       /\ category_spec (tenths n)
            (VitalsForm.status (Double.VitalsForm.calculateBMI (Fin 160) (Fin 70))).
Proof.
  assert (Hplausible : plausible 160 70).
  { unfold plausible. repeat split; apply Qle_bool_iff; reflexivity. }
  split; [exact Hplausible|].
  destruct (calculateBMI_one_decimal_of_double_quotient 160 70 Hplausible)
    as [(b & r & n & _ & _ & _ & Hn1 & Hn2 & _ & _ & _ & _ & _ & Hc & _) _].
  exists b, n. split; [exact Hn1|]. split; [exact Hn2|exact Hc].
Defined.

(** The three examples, and the BMI of 200 cm and 100 kg, on binary64
    arithmetic: the rounding of the division does not change them. *)
Lemma calculateBMI_binary64 :
  Binary64.calculateBMI (Binary64.decimal 170 0) (Binary64.decimal 702 1) = Some (243, "Normal")
  /\ Binary64.calculateBMI (Binary64.decimal 160 0) (Binary64.decimal 70 0)
     = Some (273, "Overweight")
  /\ Binary64.calculateBMI (Binary64.decimal 180 0) (Binary64.decimal 55 0)
     = Some (170, "Underweight")
  /\ Binary64.calculateBMI (Binary64.decimal 200 0) (Binary64.decimal 100 0)
     = Some (250, "Overweight").
Proof. repeat split; vm_compute; reflexivity. Qed.

(* ------------------------------------------------------------------ *)
(** ** BMI labels *)

Lemma getBmiStatusText_label (x : number) :
  In (GeneralAssessmentForm.getBmiStatusText x) ["Underweight"; "Normal"; "Overweight"].
Proof.
  unfold GeneralAssessmentForm.getBmiStatusText.
  destruct (lt x (Fin (185 # 10))); [simpl; auto|].
  destruct (lt x (of_Z 25)); simpl; auto.
Qed.

(** C5, as stated, fails at a BMI of 0, which the first vitals form records
    for a height of 250 cm and a weight of 0.3 kg: the list view of the
    second listing answers "No Data", which is none of the three labels,
    where the vitals form and the assessment form answer "Underweight". *)
Lemma labels_differ_at_zero :
  VitalsForm.calculateBMI (parseFloat "250") (parseFloat "0.3")
  = {| VitalsForm.bmi_value := Fin (0 # 10); VitalsForm.status := "Underweight" |}
  /\ PatientListingV2.parseBmiValue (BmiNumber (Fin (0 # 10))) = Some (Fin (0 # 10))
  /\ PatientListingV2.getBmiStatus (Some (Fin (0 # 10))) = "No Data"
  /\ GeneralAssessmentForm.getBmiStatusText (Fin (0 # 10)) = "Underweight"
  /\ ~ In (PatientListingV2.getBmiStatus (Some (Fin (0 # 10))))
          ["Underweight"; "Normal"; "Overweight"]
  /\ ~ (forall bmi : number,
          PatientListingV2.getBmiStatus (Some bmi)
          = GeneralAssessmentForm.getBmiStatusText bmi).
Proof.
  split; [vm_compute; reflexivity|].
  split; [vm_compute; reflexivity|].
  split; [reflexivity|]. split; [reflexivity|]. split.
  - simpl. intros [H | [H | [H | []]]]; discriminate H.
  - intro H. specialize (H (of_Z 0)). discriminate H.
Qed.

(** C5, amended.  The label functions that compare without a guard (list
    view and detail view [getBmiStatus], [getBmiStatusText] of the
    assessment form, the label next to the BMI field and the status
    [calculateBMI] returns) are one function: they agree on every number,
    answer one of the three labels, and on a finite number the label of
    the fixed boundaries.  [getBmiStatus] of the second vitals form agrees
    with them on every number but [NaN], and [getBmiStatus] of the second
    listing on every number but [NaN] and zero; on those the former
    answers "Unknown" and the latter "No Data". *)
Theorem bmi_labels_agree (x : number) :
  PatientListing.getBmiStatus x = GeneralAssessmentForm.getBmiStatusText x
  /\ PatientDetails.getBmiStatus x = GeneralAssessmentForm.getBmiStatusText x
  /\ VitalsFormV2.inline_status x = GeneralAssessmentForm.getBmiStatusText x
  /\ (forall h w : number,
         VitalsForm.bmi_value (VitalsForm.calculateBMI h w) = x ->
         VitalsForm.status (VitalsForm.calculateBMI h w)
         = GeneralAssessmentForm.getBmiStatusText x)
  /\ (isNaN x = false ->
      VitalsFormV2.getBmiStatus (inl x) = GeneralAssessmentForm.getBmiStatusText x)
  /\ (plain x ->
      PatientListingV2.getBmiStatus (Some x) = GeneralAssessmentForm.getBmiStatusText x)
  /\ In (GeneralAssessmentForm.getBmiStatusText x) ["Underweight"; "Normal"; "Overweight"]
  /\ (forall q : Q, x = Fin q ->
        category_spec q (GeneralAssessmentForm.getBmiStatusText x))
  /\ (isNaN x = true -> VitalsFormV2.getBmiStatus (inl x) = "Unknown")
  /\ (isNaN x = true \/ truthy x = false ->
      PatientListingV2.getBmiStatus (Some x) = "No Data")
  /\ PatientListingV2.getBmiStatus None = "No Data".
Proof.
  repeat split; try reflexivity.
  - intros h w <-. apply calculateBMI_status.
  - intro Hnan. unfold VitalsFormV2.getBmiStatus. rewrite Hnan. reflexivity.
  - intros [Hnan Htruthy]. unfold PatientListingV2.getBmiStatus.
    rewrite Hnan, Htruthy. reflexivity.
  - apply getBmiStatusText_label.
  - intros q ->. apply thresholds_category.
  - intro Hnan. unfold VitalsFormV2.getBmiStatus. rewrite Hnan. reflexivity.
  - intros [Hnan | Hfalsy]; unfold PatientListingV2.getBmiStatus.
    + rewrite Hnan, orb_true_r. reflexivity.
    + rewrite Hfalsy. reflexivity.
Qed.

Lemma bmi_labels_agree_witness :
  plain (Fin (220 # 10))
  /\ PatientListingV2.getBmiStatus (Some (Fin (220 # 10))) = "Normal"
  /\ VitalsFormV2.getBmiStatus (inl (Fin (220 # 10))) = "Normal".
Proof.
  assert (Hplain : plain (Fin (220 # 10))) by (split; reflexivity).
  destruct (bmi_labels_agree (Fin (220 # 10))) as (_ & _ & _ & _ & H5 & H6 & _).
  split; [exact Hplain|]. split.
  - rewrite (H6 Hplain). reflexivity.
  - rewrite (H5 eq_refl). reflexivity.
Defined.

(* ------------------------------------------------------------------ *)
(** ** Workflow router *)

(** Away from 25.0 the route and the two gates follow the category: a BMI
    of 25 or more that is not 25 opens the overweight form only, a BMI
    below 25 the general form only. *)
Lemma gates_away_from_25 (p : PatientData) (q : Q) (status : option string) :
  ~ (q == 25)%Q ->
  let ls := {| ls_patient := Some p; ls_bmi := Some (Fin q); ls_bmiStatus := status |} in
  ((25 <= q)%Q ->
   le (Fin q) (of_Z 25) = false
   /\ OverweightAssessmentForm.render ls = FormView
   /\ GeneralAssessmentForm.render ls = AccessDenied)
  /\ ((q < 25)%Q ->
      le (Fin q) (of_Z 25) = true
      /\ GeneralAssessmentForm.render ls = FormView
      /\ OverweightAssessmentForm.render ls = AccessDenied).
Proof.
  intros Hne ls. unfold ls, OverweightAssessmentForm.render, GeneralAssessmentForm.render,
    GeneralAssessmentForm.getBmiStatusText, le. cbn [ls_patient ls_bmi lt of_Z].
  change (inject_Z 25) with 25%Q.
  split; intro H.
  - assert (H1 : Qltb 25 q = true) by (apply Qltb_lt; lra).
    assert (H2 : Qltb q (185 # 10) = false) by (apply Qltb_ge; lra).
    assert (H3 : Qltb q 25 = false) by (apply Qltb_ge; lra).
    rewrite H1, H2, H3. repeat split.
  - assert (H1 : Qltb 25 q = false) by (apply Qltb_ge; lra).
    assert (H3 : Qltb q 25 = true) by (apply Qltb_lt; lra).
    rewrite H1, H3. destruct (Qltb q (185 # 10)); repeat split.
Qed.

(** A patient whose latest BMI is 27.0 is shown the access-denied view by
    the general assessment form and can submit an overweight assessment;
    a page opened without navigation state shows neither form. *)
Lemma gating_at_27 :
  GeneralAssessmentForm.submit Sample.state_27 Saved (Sample.general "2024-01-11" [])
  = (AccessDenied, None)
  /\ GeneralAssessmentFormV1.render Sample.state_27 = AccessDenied
  /\ (exists st payload,
         OverweightAssessmentForm.submit Sample.state_27 Saved
           (Sample.overweight "2024-01-11" [])
         = (FormView, Some (st, [CreateAssessment payload; NavigateTo "/patient-listing" None]))
         /\ OverweightAssessmentForm.error st = None)
  /\ GeneralAssessmentForm.render no_state = NoPatientData
  /\ OverweightAssessmentForm.render no_state = NoPatientData.
Proof.
  split; [reflexivity|]. split; [reflexivity|].
  split; [eexists; eexists; split; vm_compute; reflexivity|].
  split; reflexivity.
Qed.

(** C9.  A recorded BMI of exactly 25.0 (200 cm, 100 kg) is valid input
    that neither assessment form accepts: both vitals forms route it to
    the general assessment form, their condition being [bmi <= 25]; that
    form labels 25.0 Overweight and shows the access-denied view, and the
    overweight form denies every [bmi <= 25]; neither page then has a
    form to submit. *)
Theorem bmi_25_accepted_by_no_form :
  navigation_of (snd (VitalsForm.handleSubmit Saved Sample.vitals_25))
  = Some ("/general-assessment", Sample.state_25)
  /\ le (Fin (250 # 10)) (of_Z 25) = true
  /\ (exists payload,
         snd (VitalsFormV2.handleSubmit (host := utc_host) Sample.now Saved
                (Sample.vitals_v2 "2024-01-10" "200" "100" []))
         = [VitalsFormV2.CreateVitals payload;
            VitalsFormV2.Alert "Vitals saved successfully!";
            VitalsFormV2.Navigate "/general-assessment"
              {| ls_patient := Some Sample.patient;
                 ls_bmi := Some (Fin (250 # 10));
                 ls_bmiStatus := Some "Normal/Underweight" |}])
  /\ App.route "/general-assessment" = App.GeneralAssessmentForm
  /\ GeneralAssessmentForm.getBmiStatusText (Fin (250 # 10)) = "Overweight"
  /\ GeneralAssessmentForm.render Sample.state_25 = AccessDenied
  /\ OverweightAssessmentForm.render Sample.state_25 = AccessDenied
  /\ (forall saved st,
         GeneralAssessmentForm.submit Sample.state_25 saved st = (AccessDenied, None))
  /\ (forall saved st,
         OverweightAssessmentForm.submit Sample.state_25 saved st = (AccessDenied, None)).
Proof.
  split; [vm_compute; reflexivity|].
  split; [reflexivity|].
  split; [eexists; vm_compute; reflexivity|].
  repeat split.
Qed.

(** C1 at its failing input.  Height 200 cm and weight 100 kg give the
    BMI 25.0, whose category is Overweight, and yet the vitals form
    navigates to the general assessment form; the overweight form denies
    access to that patient, and the first general assessment form accepts
    the patient. *)
Theorem overweight_25_sent_to_general :
  VitalsForm.calculateBMI (parseFloat "200") (parseFloat "100")
  = {| VitalsForm.bmi_value := Fin (250 # 10); VitalsForm.status := "Overweight" |}
  /\ category_spec (250 # 10) "Overweight"
  /\ navigation_of (snd (VitalsForm.handleSubmit Saved Sample.vitals_25))
     = Some ("/general-assessment", Sample.state_25)
  /\ App.route "/general-assessment" = App.GeneralAssessmentForm
  /\ App.route "/general-assessment" <> App.OverweightAssessmentForm
  /\ OverweightAssessmentForm.render Sample.state_25 = AccessDenied
  /\ GeneralAssessmentFormV1.render Sample.state_25 = FormView.
Proof.
  split; [vm_compute; reflexivity|].
  split; [apply cat_overweight; discriminate|].
  split; [vm_compute; reflexivity|].
  repeat split. discriminate.
Qed.

(* ------------------------------------------------------------------ *)
(** ** Visit-date guard *)

Lemma includes_In (l : list string) (d : string) : includes l d = true <-> In d l.
Proof.
  unfold includes. rewrite existsb_exists. split.
  - intros [x [Hin Heq]]. apply String.eqb_eq in Heq. now subst.
  - intro Hin. exists d. split; [exact Hin|apply String.eqb_refl].
Qed.

Lemma includes_not_In (l : list string) (d : string) : ~ In d l -> includes l d = false.
Proof.
  intro H. destruct (includes l d) eqn:E; [|reflexivity].
  apply includes_In in E. contradiction.
Qed.

Lemma dateExists_In (dates : list string) (d : string) :
  In d dates -> VitalsForm.dateExists dates d = true.
Proof.
  intro Hin. unfold VitalsForm.dateExists. apply existsb_exists.
  exists d. split; [exact Hin|apply String.eqb_refl].
Qed.

Lemma dateExists_not_In (dates : list string) (d : string) :
  trimmed d -> Forall trimmed dates -> ~ In d dates ->
  VitalsForm.dateExists dates d = false.
Proof.
  intros Hd Hdates Hnot.
  destruct (VitalsForm.dateExists dates d) eqn:E; [|reflexivity].
  unfold VitalsForm.dateExists in E. apply existsb_exists in E.
  destruct E as [x [Hin Heq]]. apply String.eqb_eq in Heq.
  rewrite Forall_forall in Hdates. specialize (Hdates x Hin).
  unfold trimmed in Hd, Hdates. rewrite Hd, Hdates in Heq. subst x. contradiction.
Qed.

(** A rejected submission of the first vitals form: an error is shown and
    nothing is requested. *)
Lemma vitals_duplicate_rejected (saved : write_result) (st : VitalsForm.State) :
  VitalsForm.dateExists (VitalsForm.existingDates st)
    (VitalsForm.visit_date (VitalsForm.formData st)) = true ->
  snd (VitalsForm.handleSubmit saved st) = []
  /\ exists message, VitalsForm.error (fst (VitalsForm.handleSubmit saved st)) = Some message.
Proof.
  intro Hdup. unfold VitalsForm.handleSubmit.
  cbn [VitalsForm.patient VitalsForm.formData VitalsForm.existingDates VitalsForm.setError].
  destruct (VitalsForm.patient st) as [p|]; [|split; [reflexivity|eexists; reflexivity]].
  destruct (empty (id p)); [split; [reflexivity|eexists; reflexivity]|].
  destruct (_ || _ || _); [split; [reflexivity|eexists; reflexivity]|].
  destruct (_ || _ || _ || _); [split; [reflexivity|eexists; reflexivity]|].
  rewrite Hdup. split; [reflexivity|eexists; reflexivity].
Qed.

(** A submission of the first vitals form that passes every check: the
    write is issued for the date of the form. *)
Lemma vitals_submitted (saved : write_result) (st : VitalsForm.State) :
  vitals_ready st = true ->
  VitalsForm.dateExists (VitalsForm.existingDates st)
    (VitalsForm.visit_date (VitalsForm.formData st)) = false ->
  exists payload rest,
    snd (VitalsForm.handleSubmit saved st) = VitalsForm.CreateVitals payload :: rest
    /\ VitalsForm.p_visit_date payload = VitalsForm.visit_date (VitalsForm.formData st).
Proof.
  intros Hready Hdup. unfold vitals_ready in Hready. unfold VitalsForm.handleSubmit.
  cbn [VitalsForm.patient VitalsForm.formData VitalsForm.existingDates VitalsForm.setError].
  destruct (VitalsForm.patient st) as [p|]; [|discriminate Hready].
  apply andb_true_iff in Hready. destruct Hready as [Hready H3].
  apply andb_true_iff in Hready. destruct Hready as [H1 H2].
  apply negb_true_iff in H1, H2, H3. rewrite H1, H2, H3, Hdup.
  destruct saved; eexists; eexists; split; reflexivity.
Qed.

Lemma general_duplicate_rejected (ls : LocationState) (saved : write_result)
    (st : GeneralAssessmentForm.State) :
  includes (GeneralAssessmentForm.existingDates st)
    (GeneralAssessmentForm.visit_date (GeneralAssessmentForm.formData st)) = true ->
  snd (GeneralAssessmentForm.handleSubmit ls saved st) = []
  /\ exists message,
       GeneralAssessmentForm.error (fst (GeneralAssessmentForm.handleSubmit ls saved st))
       = Some message.
Proof.
  intro Hdup. unfold GeneralAssessmentForm.handleSubmit.
  cbn [GeneralAssessmentForm.formData GeneralAssessmentForm.existingDates
       GeneralAssessmentForm.setError].
  destruct (ls_patient ls) as [p|]; [|split; [reflexivity|eexists; reflexivity]].
  destruct (empty (id p)); [split; [reflexivity|eexists; reflexivity]|].
  destruct (empty _); [split; [reflexivity|eexists; reflexivity]|].
  destruct (empty _); [split; [reflexivity|eexists; reflexivity]|].
  destruct (empty _); [split; [reflexivity|eexists; reflexivity]|].
  rewrite Hdup. split; [reflexivity|eexists; reflexivity].
Qed.

Lemma general_submitted (ls : LocationState) (saved : write_result)
    (st : GeneralAssessmentForm.State) :
  general_ready ls st = true ->
  includes (GeneralAssessmentForm.existingDates st)
    (GeneralAssessmentForm.visit_date (GeneralAssessmentForm.formData st)) = false ->
  exists payload rest,
    snd (GeneralAssessmentForm.handleSubmit ls saved st) = CreateAssessment payload :: rest
    /\ GeneralAssessmentForm.p_visit_date payload
       = GeneralAssessmentForm.visit_date (GeneralAssessmentForm.formData st).
Proof.
  intros Hready Hdup. unfold general_ready in Hready.
  unfold GeneralAssessmentForm.handleSubmit.
  cbn [GeneralAssessmentForm.formData GeneralAssessmentForm.existingDates
       GeneralAssessmentForm.setError].
  destruct (ls_patient ls) as [p|]; [|discriminate Hready].
  repeat (apply andb_true_iff in Hready; destruct Hready as [Hready ?]).
  repeat match goal with H : negb _ = true |- _ => apply negb_true_iff in H; rewrite H end.
  rewrite Hdup. destruct saved; eexists; eexists; split; reflexivity.
Qed.

Lemma overweight_duplicate_rejected (ls : LocationState) (saved : write_result)
    (st : OverweightAssessmentForm.State) :
  includes (OverweightAssessmentForm.existingDates st)
    (OverweightAssessmentForm.visit_date (OverweightAssessmentForm.formData st)) = true ->
  snd (OverweightAssessmentForm.handleSubmit ls saved st) = []
  /\ exists message,
       OverweightAssessmentForm.error (fst (OverweightAssessmentForm.handleSubmit ls saved st))
       = Some message.
Proof.
  intro Hdup. unfold OverweightAssessmentForm.handleSubmit.
  cbn [OverweightAssessmentForm.formData OverweightAssessmentForm.existingDates
       OverweightAssessmentForm.setError].
  destruct (ls_patient ls) as [p|]; [|split; [reflexivity|eexists; reflexivity]].
  destruct (empty (id p)); [split; [reflexivity|eexists; reflexivity]|].
  destruct (_ || _ || _); [split; [reflexivity|eexists; reflexivity]|].
  rewrite Hdup. split; [reflexivity|eexists; reflexivity].
Qed.

Lemma overweight_submitted (ls : LocationState) (saved : write_result)
    (st : OverweightAssessmentForm.State) :
  overweight_ready ls st = true ->
  includes (OverweightAssessmentForm.existingDates st)
    (OverweightAssessmentForm.visit_date (OverweightAssessmentForm.formData st)) = false ->
  exists payload rest,
    snd (OverweightAssessmentForm.handleSubmit ls saved st) = CreateAssessment payload :: rest
    /\ OverweightAssessmentForm.p_visit_date payload
       = OverweightAssessmentForm.visit_date (OverweightAssessmentForm.formData st).
Proof.
  intros Hready Hdup. unfold overweight_ready in Hready.
  unfold OverweightAssessmentForm.handleSubmit.
  cbn [OverweightAssessmentForm.formData OverweightAssessmentForm.existingDates
       OverweightAssessmentForm.setError].
  destruct (ls_patient ls) as [p|]; [|discriminate Hready].
  apply andb_true_iff in Hready. destruct Hready as [H1 H2].
  apply negb_true_iff in H1, H2. rewrite H1, H2, Hdup.
  destruct saved; eexists; eexists; split; reflexivity.
Qed.

Section SecondVitalsForm.
Context {host : DateHost}.

Lemma v2_invalid_only_alerts (now : Z) (saved : write_result) (st : VitalsFormV2.State) :
  snd (VitalsFormV2.validateForm now st) = false ->
  only_alerts (snd (VitalsFormV2.handleSubmit now saved st))
  /\ VitalsFormV2.errors (fst (VitalsFormV2.handleSubmit now saved st))
     = fst (VitalsFormV2.validateForm now st).
Proof.
  intro Hinvalid. unfold VitalsFormV2.handleSubmit.
  destruct (VitalsFormV2.validateForm now st) as [newErrors isValid].
  cbn [snd fst] in *. subst isValid. cbn [negb].
  split; [|reflexivity].
  cbn [snd]. intros e Hin.
  destruct (empty (VitalsFormV2.e_patient (VitalsFormV2.errors st))); [destruct Hin|].
  destruct Hin as [<- | []]. eexists; reflexivity.
Qed.

Lemma v2_duplicate_invalid (now : Z) (st : VitalsFormV2.State) :
  includes (VitalsFormV2.existingDates st)
    (VitalsFormV2.visit_date (VitalsFormV2.formData st)) = true ->
  snd (VitalsFormV2.validateForm now st) = false
  /\ VitalsFormV2.e_visit_date (fst (VitalsFormV2.validateForm now st))
     = "Vitals already recorded for this date".
Proof.
  intro Hdup. unfold VitalsFormV2.validateForm. cbn [fst snd VitalsFormV2.e_visit_date].
  rewrite Hdup. split; [|reflexivity].
  rewrite !orb_true_r. reflexivity.
Qed.

Lemma v2_future_invalid (now : Z) (st : VitalsFormV2.State) :
  VitalsFormV2.isFutureDate now (VitalsFormV2.visit_date (VitalsFormV2.formData st)) = true ->
  snd (VitalsFormV2.validateForm now st) = false
  /\ (VitalsFormV2.e_visit_date (fst (VitalsFormV2.validateForm now st))
      = "Visit date cannot be in the future"
      \/ VitalsFormV2.e_visit_date (fst (VitalsFormV2.validateForm now st))
         = "Vitals already recorded for this date").
Proof.
  intro Hfuture. unfold VitalsFormV2.validateForm. cbn [fst snd VitalsFormV2.e_visit_date].
  rewrite Hfuture. split.
  - rewrite !orb_true_r. reflexivity.
  - destruct (includes _ _); [right|left]; reflexivity.
Qed.

Lemma v2_submitted (now : Z) (saved : write_result) (st : VitalsFormV2.State) :
  v2_ready now st = true ->
  includes (VitalsFormV2.existingDates st)
    (VitalsFormV2.visit_date (VitalsFormV2.formData st)) = false ->
  exists payload rest,
    snd (VitalsFormV2.handleSubmit now saved st) = VitalsFormV2.CreateVitals payload :: rest
    /\ VitalsFormV2.p_visit_date payload
       = VitalsFormV2.visit_date (VitalsFormV2.formData st).
Proof.
  intros Hready Hdup. unfold v2_ready in Hready. cbv zeta in Hready.
  repeat (apply andb_true_iff in Hready; destruct Hready as [Hready ?]).
  repeat match goal with H : negb _ = true |- _ => apply negb_true_iff in H end.
  unfold VitalsFormV2.handleSubmit, VitalsFormV2.validateForm. cbv zeta.
  repeat match goal with H : _ = false |- _ => rewrite H; clear H end.
  cbn [negb orb]. destruct saved; eexists; eexists; split; reflexivity.
Qed.
End SecondVitalsForm.

(** C6.  For each record kind and whatever the existing dates are: a
    submission whose visit date is among them is rejected with an error
    message and without any request, and one whose visit date is not among
    them passes the duplicate check, so that the write is issued once the
    other validations pass.  (The first vitals form compares after
    [trim], which changes nothing on date strings.)  With the existing
    vitals dates {"2024-01-10"} a vitals submission for "2024-01-10" is
    rejected and one for "2024-01-11" is written. *)
Theorem duplicate_date_guard :
  (forall saved st,
      In (VitalsForm.visit_date (VitalsForm.formData st)) (VitalsForm.existingDates st) ->
      snd (VitalsForm.handleSubmit saved st) = []
      /\ exists message, VitalsForm.error (fst (VitalsForm.handleSubmit saved st)) = Some message)
  /\ (forall saved st,
         trimmed (VitalsForm.visit_date (VitalsForm.formData st)) ->
         Forall trimmed (VitalsForm.existingDates st) ->
         ~ In (VitalsForm.visit_date (VitalsForm.formData st)) (VitalsForm.existingDates st) ->
         VitalsForm.dateExists (VitalsForm.existingDates st)
           (VitalsForm.visit_date (VitalsForm.formData st)) = false
         /\ (vitals_ready st = true ->
             exists payload rest,
               snd (VitalsForm.handleSubmit saved st) = VitalsForm.CreateVitals payload :: rest
               /\ VitalsForm.p_visit_date payload
                  = VitalsForm.visit_date (VitalsForm.formData st)))
  /\ (forall (host : DateHost) now saved st,
         In (VitalsFormV2.visit_date (VitalsFormV2.formData st)) (VitalsFormV2.existingDates st) ->
         only_alerts (snd (VitalsFormV2.handleSubmit now saved st))
         /\ VitalsFormV2.e_visit_date (VitalsFormV2.errors (fst (VitalsFormV2.handleSubmit now saved st)))
            = "Vitals already recorded for this date")
  /\ (forall (host : DateHost) now saved st,
         ~ In (VitalsFormV2.visit_date (VitalsFormV2.formData st)) (VitalsFormV2.existingDates st) ->
         v2_ready now st = true ->
         exists payload rest,
           snd (VitalsFormV2.handleSubmit now saved st) = VitalsFormV2.CreateVitals payload :: rest
           /\ VitalsFormV2.p_visit_date payload
              = VitalsFormV2.visit_date (VitalsFormV2.formData st))
  /\ (forall ls saved st,
         In (GeneralAssessmentForm.visit_date (GeneralAssessmentForm.formData st))
            (GeneralAssessmentForm.existingDates st) ->
         snd (GeneralAssessmentForm.handleSubmit ls saved st) = []
         /\ exists message,
              GeneralAssessmentForm.error (fst (GeneralAssessmentForm.handleSubmit ls saved st))
              = Some message)
  /\ (forall ls saved st,
         ~ In (GeneralAssessmentForm.visit_date (GeneralAssessmentForm.formData st))
              (GeneralAssessmentForm.existingDates st) ->
         general_ready ls st = true ->
         exists payload rest,
           snd (GeneralAssessmentForm.handleSubmit ls saved st) = CreateAssessment payload :: rest
           /\ GeneralAssessmentForm.p_visit_date payload
              = GeneralAssessmentForm.visit_date (GeneralAssessmentForm.formData st))
  /\ (forall ls saved st,
         In (OverweightAssessmentForm.visit_date (OverweightAssessmentForm.formData st))
            (OverweightAssessmentForm.existingDates st) ->
         snd (OverweightAssessmentForm.handleSubmit ls saved st) = []
         /\ exists message,
              OverweightAssessmentForm.error (fst (OverweightAssessmentForm.handleSubmit ls saved st))
              = Some message)
  /\ (forall ls saved st,
         ~ In (OverweightAssessmentForm.visit_date (OverweightAssessmentForm.formData st))
              (OverweightAssessmentForm.existingDates st) ->
         overweight_ready ls st = true ->
         exists payload rest,
           snd (OverweightAssessmentForm.handleSubmit ls saved st) = CreateAssessment payload :: rest
           /\ OverweightAssessmentForm.p_visit_date payload
              = OverweightAssessmentForm.visit_date (OverweightAssessmentForm.formData st))
  /\ VitalsForm.existingDates Sample.vitals_25 = ["2024-01-10"]
  /\ (let rejected := VitalsForm.handleSubmit Saved
                        (Sample.with_visit_date "2024-01-10" Sample.vitals_25) in
      snd rejected = []
      /\ VitalsForm.error (fst rejected) = Some (VitalsForm.duplicate_message "2024-01-10"))
  /\ (exists payload rest,
         snd (VitalsForm.handleSubmit Saved (Sample.with_visit_date "2024-01-11" Sample.vitals_25))
         = VitalsForm.CreateVitals payload :: rest
         /\ VitalsForm.p_visit_date payload = "2024-01-11").
Proof.
  split; [intros saved st Hin; apply vitals_duplicate_rejected, dateExists_In, Hin|].
  split.
  { intros saved st Hd Hdates Hnot.
    pose proof (dateExists_not_In _ _ Hd Hdates Hnot) as Hfalse.
    split; [exact Hfalse|]. intro Hready. now apply vitals_submitted. }
  split.
  { intros host now saved st Hin. apply includes_In in Hin.
    destruct (v2_duplicate_invalid now st Hin) as [Hinvalid Hmessage].
    destruct (v2_invalid_only_alerts now saved st Hinvalid) as [Halerts Herrors].
    split; [exact Halerts|]. rewrite Herrors. exact Hmessage. }
  split.
  { intros host now saved st Hnot Hready.
    apply v2_submitted; [exact Hready|]. now apply includes_not_In. }
  split; [intros ls saved st Hin; apply general_duplicate_rejected, includes_In, Hin|].
  split.
  { intros ls saved st Hnot Hready.
    apply general_submitted; [exact Hready|]. now apply includes_not_In. }
  split; [intros ls saved st Hin; apply overweight_duplicate_rejected, includes_In, Hin|].
  split.
  { intros ls saved st Hnot Hready.
    apply overweight_submitted; [exact Hready|]. now apply includes_not_In. }
  split; [reflexivity|].
  split; [split; vm_compute; reflexivity|].
  eexists; eexists; split; vm_compute; reflexivity.
Qed.

Lemma duplicate_date_guard_witness :
  In "2024-01-10" ["2024-01-10"]
  /\ snd (VitalsForm.handleSubmit Saved (Sample.with_visit_date "2024-01-10" Sample.vitals_25)) = []
  /\ ~ In "2024-01-11" ["2024-01-10"]
  /\ trimmed "2024-01-11"
  /\ Forall trimmed ["2024-01-10"]
  /\ vitals_ready Sample.vitals_25 = true
  /\ (exists payload rest,
         snd (VitalsForm.handleSubmit Saved Sample.vitals_25)
         = VitalsForm.CreateVitals payload :: rest
         /\ VitalsForm.p_visit_date payload = "2024-01-11")
  /\ In "2024-01-10" ["2024-01-10"; "2024-01-12"]
  /\ snd (GeneralAssessmentForm.handleSubmit Sample.state_22 Saved
            (Sample.general "2024-01-10" ["2024-01-10"; "2024-01-12"])) = []
  /\ ~ In "2024-01-11" ["2024-01-10"; "2024-01-12"]
  /\ general_ready Sample.state_22 (Sample.general "2024-01-11" ["2024-01-10"; "2024-01-12"]) = true
  /\ (exists payload rest,
         snd (GeneralAssessmentForm.handleSubmit Sample.state_22 Saved
                (Sample.general "2024-01-11" ["2024-01-10"; "2024-01-12"]))
         = CreateAssessment payload :: rest
         /\ GeneralAssessmentForm.p_visit_date payload = "2024-01-11").
Proof.
  destruct duplicate_date_guard as (Hv1 & Hv2 & _ & _ & Hg1 & Hg2 & _).
  assert (Hin : In "2024-01-10" ["2024-01-10"]) by (left; reflexivity).
  assert (Hnot : ~ In "2024-01-11" ["2024-01-10"]).
  { intros [H | []]. discriminate H. }
  assert (Htrim : trimmed "2024-01-11") by reflexivity.
  assert (Hall : Forall trimmed ["2024-01-10"]) by (repeat constructor).
  assert (Hready : vitals_ready Sample.vitals_25 = true) by reflexivity.
  assert (Hin' : In "2024-01-10" ["2024-01-10"; "2024-01-12"]) by (left; reflexivity).
  assert (Hnot' : ~ In "2024-01-11" ["2024-01-10"; "2024-01-12"]).
  { intros [H | [H | []]]; discriminate H. }
  assert (Hready' : general_ready Sample.state_22
                      (Sample.general "2024-01-11" ["2024-01-10"; "2024-01-12"]) = true)
    by reflexivity.
  split; [exact Hin|].
  split; [exact (proj1 (Hv1 Saved (Sample.with_visit_date "2024-01-10" Sample.vitals_25) Hin))|].
  split; [exact Hnot|]. split; [exact Htrim|]. split; [exact Hall|]. split; [exact Hready|].
  split; [exact (proj2 (Hv2 Saved Sample.vitals_25 Htrim Hall Hnot) Hready)|].
  split; [exact Hin'|].
  split; [exact (proj1 (Hg1 Sample.state_22 Saved
                          (Sample.general "2024-01-10" ["2024-01-10"; "2024-01-12"]) Hin'))|].
  split; [exact Hnot'|]. split; [exact Hready'|].
  exact (Hg2 Sample.state_22 Saved
           (Sample.general "2024-01-11" ["2024-01-10"; "2024-01-12"]) Hnot' Hready').
Defined.

(** C10.  When the request for the existing records fails, the form takes
    the existing dates to be empty: the duplicate check then passes for
    every candidate date, and a submission that passes the other
    validations is written.  This holds for the vitals form and for both
    assessment forms, whatever dates the form held before. *)
Theorem failed_read_disables_duplicate_guard :
  (forall (host : DateHost) (st : VitalsForm.State) (p : PatientData),
      VitalsForm.patient st = Some p -> empty (id p) = false ->
      let st' := VitalsForm.fetchExistingVitals Rejected st in
      VitalsForm.existingDates st' = []
      /\ VitalsForm.formData st' = VitalsForm.formData st
      /\ (forall date, VitalsForm.dateExists (VitalsForm.existingDates st') date = false)
      /\ (forall saved,
             vitals_ready st = true ->
             exists payload rest,
               snd (VitalsForm.handleSubmit saved st') = VitalsForm.CreateVitals payload :: rest
               /\ VitalsForm.p_visit_date payload
                  = VitalsForm.visit_date (VitalsForm.formData st)))
  /\ (forall (host : DateHost) ls (st : GeneralAssessmentForm.State) (p : PatientData),
         ls_patient ls = Some p -> empty (id p) = false ->
         let st' := GeneralAssessmentForm.fetchExistingAssessments ls Rejected st in
         GeneralAssessmentForm.existingDates st' = []
         /\ GeneralAssessmentForm.formData st' = GeneralAssessmentForm.formData st
         /\ (forall date, includes (GeneralAssessmentForm.existingDates st') date = false)
         /\ (forall saved,
                general_ready ls st = true ->
                exists payload rest,
                  snd (GeneralAssessmentForm.handleSubmit ls saved st')
                  = CreateAssessment payload :: rest
                  /\ GeneralAssessmentForm.p_visit_date payload
                     = GeneralAssessmentForm.visit_date (GeneralAssessmentForm.formData st)))
  /\ (forall (host : DateHost) ls (st : OverweightAssessmentForm.State) (p : PatientData),
         ls_patient ls = Some p -> empty (id p) = false ->
         let st' := OverweightAssessmentForm.fetchExistingAssessments ls Rejected st in
         OverweightAssessmentForm.existingDates st' = []
         /\ OverweightAssessmentForm.formData st' = OverweightAssessmentForm.formData st
         /\ (forall date, includes (OverweightAssessmentForm.existingDates st') date = false)
         /\ (forall saved,
                overweight_ready ls st = true ->
                exists payload rest,
                  snd (OverweightAssessmentForm.handleSubmit ls saved st')
                  = CreateAssessment payload :: rest
                  /\ OverweightAssessmentForm.p_visit_date payload
                     = OverweightAssessmentForm.visit_date (OverweightAssessmentForm.formData st))).
Proof.
  split; [|split].
  - intros host st p Hp Hid st'.
    assert (Hst' : st' = VitalsForm.setExistingDates [] st).
    { unfold st', VitalsForm.fetchExistingVitals. rewrite Hp, Hid. reflexivity. }
    rewrite Hst'. cbn [VitalsForm.setExistingDates VitalsForm.existingDates VitalsForm.formData].
    repeat split.
    intros saved Hready.
    apply (vitals_submitted saved (VitalsForm.setExistingDates [] st)); [exact Hready|reflexivity].
  - intros host ls st p Hp Hid st'.
    assert (Hst' : st' = GeneralAssessmentForm.setExistingDates [] st).
    { unfold st', GeneralAssessmentForm.fetchExistingAssessments. rewrite Hp, Hid. reflexivity. }
    rewrite Hst'.
    cbn [GeneralAssessmentForm.setExistingDates GeneralAssessmentForm.existingDates
         GeneralAssessmentForm.formData].
    repeat split.
    intros saved Hready.
    apply (general_submitted ls saved (GeneralAssessmentForm.setExistingDates [] st));
      [exact Hready|reflexivity].
  - intros host ls st p Hp Hid st'.
    assert (Hst' : st' = OverweightAssessmentForm.setExistingDates [] st).
    { unfold st', OverweightAssessmentForm.fetchExistingAssessments. rewrite Hp, Hid. reflexivity. }
    rewrite Hst'.
    cbn [OverweightAssessmentForm.setExistingDates OverweightAssessmentForm.existingDates
         OverweightAssessmentForm.formData].
    repeat split.
    intros saved Hready.
    apply (overweight_submitted ls saved (OverweightAssessmentForm.setExistingDates [] st));
      [exact Hready|reflexivity].
Qed.

Lemma failed_read_disables_duplicate_guard_witness :
  VitalsForm.patient (Sample.with_visit_date "2024-01-10" Sample.vitals_25)
  = Some Sample.patient
  /\ empty (id Sample.patient) = false
  /\ vitals_ready (Sample.with_visit_date "2024-01-10" Sample.vitals_25) = true
  /\ VitalsForm.dateExists
       (VitalsForm.existingDates (Sample.with_visit_date "2024-01-10" Sample.vitals_25))
       "2024-01-10" = true
  /\ exists payload rest,
       snd (VitalsForm.handleSubmit Saved
              (VitalsForm.fetchExistingVitals (host := utc_host) Rejected
                 (Sample.with_visit_date "2024-01-10" Sample.vitals_25)))
       = VitalsForm.CreateVitals payload :: rest
       /\ VitalsForm.p_visit_date payload = "2024-01-10".
Proof.
  set (st := Sample.with_visit_date "2024-01-10" Sample.vitals_25).
  assert (Hp : VitalsForm.patient st = Some Sample.patient) by reflexivity.
  assert (Hid : empty (id Sample.patient) = false) by reflexivity.
  assert (Hready : vitals_ready st = true) by reflexivity.
  split; [exact Hp|]. split; [exact Hid|]. split; [exact Hready|].
  split; [reflexivity|].
  destruct failed_read_disables_duplicate_guard as [Hvitals _].
  destruct (Hvitals utc_host st Sample.patient Hp Hid) as (_ & _ & _ & Hsubmit).
  exact (Hsubmit Saved Hready).
Defined.

(** The dates the forms derive from the listed records: the day of each
    visit date in UTC. *)
Lemma existing_dates_of_listed_records :
  VitalsForm.existingDates
    (VitalsForm.fetchExistingVitals (host := utc_host)
       (Fulfilled (JObj [("count", JNum (of_Z 2));
                         ("results",
                          JArr [{| VitalsForm.ev_visit_date := "2024-01-12";
                                   VitalsForm.ev_height_cm := of_Z 170;
                                   VitalsForm.ev_weight_kg := of_Z 70;
                                   VitalsForm.ev_bmi := Fin (242 # 10);
                                   VitalsForm.ev_created_at := "2024-01-12T08:30:00Z" |};
                                {| VitalsForm.ev_visit_date := "2024-01-10T23:59:59Z";
                                   VitalsForm.ev_height_cm := of_Z 170;
                                   VitalsForm.ev_weight_kg := of_Z 71;
                                   VitalsForm.ev_bmi := Fin (246 # 10);
                                   VitalsForm.ev_created_at := "2024-01-10T23:59:59Z" |}])]))
       Sample.vitals_25)
  = ["2024-01-12"; "2024-01-10"]
  /\ assessment_dates (host := utc_host)
       [{| ra_visit_date := Some "2024-01-12"; ra_created_at := None |};
        {| ra_visit_date := None; ra_created_at := Some "2024-01-11T10:00:00Z" |};
        {| ra_visit_date := Some "yesterday"; ra_created_at := None |}]
     = ["2024-01-12"; "yesterday"].
Proof. split; vm_compute; reflexivity. Qed.

(** Unlike the other forms, the second vitals form keeps the dates it has
    when both requests for the existing records fail. *)
Lemma fetchVitals_failure_keeps_dates (host : DateHost) (st : VitalsFormV2.State) :
  VitalsFormV2.fetchVitals Rejected Rejected st = st.
Proof.
  unfold VitalsFormV2.fetchVitals. destruct (_ || _); reflexivity.
Qed.

(* ------------------------------------------------------------------ *)
(** ** Future dates *)

Section FutureDates.
Context {host : DateHost}.

Lemma setHours0_lt (a b : Z) :
  (setHours0 a <? setHours0 b) = (localDay a <? localDay b).
Proof.
  unfold setHours0, msPerDay.
  destruct (localDay a <? localDay b) eqn:E.
  - apply Z.ltb_lt in E. apply Z.ltb_lt. lia.
  - apply Z.ltb_ge in E. apply Z.ltb_ge. lia.
Qed.

(** [isFutureDate] holds of the strings that parse to an instant on a
    later local day than the current instant. *)
Lemma isFutureDate_later_day (now : Z) (dateString : string) :
  VitalsFormV2.isFutureDate now dateString = true
  <-> exists t, Date_parse dateString = Some t /\ localDay now < localDay t.
Proof.
  unfold VitalsFormV2.isFutureDate. split.
  - destruct (Date_parse dateString) as [t|]; [|discriminate].
    rewrite setHours0_lt. intro H. apply Z.ltb_lt in H. now exists t.
  - intros [t [-> Hlt]]. rewrite setHours0_lt. now apply Z.ltb_lt.
Qed.
(** A date-only string parses to midnight UTC, which is on the day of the
    string itself for a host at or east of UTC. *)
Lemma utc_midnight_local_day (d : Z) :
  0 <= LocalTZA < msPerDay -> localDay (d * msPerDay) = d.
Proof.
  intro H. unfold localDay, msPerDay in *.
  symmetry. apply (Z.div_unique _ _ _ LocalTZA); lia.
Qed.
End FutureDates.

(** West of UTC, midnight UTC of tomorrow is still today: at 20:00 on
    2024-01-10, five hours west of UTC, [isFutureDate] does not flag
    2024-01-11, which the second vitals form then submits. *)
Lemma isFutureDate_west_of_utc :
  Calendar.toISOString (1704934800000 + LocalTZA (DateHost := west_host))
  = "2024-01-10T20:00:00.000Z"
  /\ VitalsFormV2.isFutureDate (host := west_host) 1704934800000 "2024-01-11" = false
  /\ VitalsFormV2.isFutureDate (host := west_host) 1704934800000 "2024-01-12" = true
  /\ exists payload rest,
       snd (VitalsFormV2.handleSubmit (host := west_host) 1704934800000 Saved
              (Sample.vitals_v2 "2024-01-11" "170" "70" []))
       = VitalsFormV2.CreateVitals payload :: rest
       /\ VitalsFormV2.p_visit_date payload = "2024-01-11".
Proof.
  split; [vm_compute; reflexivity|].
  split; [vm_compute; reflexivity|].
  split; [vm_compute; reflexivity|].
  eexists; eexists; split; vm_compute; reflexivity.
Qed.

(** The second vitals form repeats the check in its handler: it
    rejects, before any request, every visit date that is a future date
    to [isFutureDate], that is every date that parses to an instant on a
    later local day than the current instant.  [validateForm] fails, the
    only effects are alerts and the visit-date error is set, whether or
    not the date is among the existing dates. *)
Lemma second_vitals_form_handler_rejects_future_dates
    (host : DateHost) (now : Z) (saved : write_result) (st : VitalsFormV2.State) (t : Z) :
  Date_parse (VitalsFormV2.visit_date (VitalsFormV2.formData st)) = Some t ->
  localDay now < localDay t ->
  VitalsFormV2.isFutureDate now (VitalsFormV2.visit_date (VitalsFormV2.formData st)) = true
  /\ snd (VitalsFormV2.validateForm now st) = false
  /\ only_alerts (snd (VitalsFormV2.handleSubmit now saved st))
  /\ (VitalsFormV2.e_visit_date (VitalsFormV2.errors (fst (VitalsFormV2.handleSubmit now saved st)))
      = "Visit date cannot be in the future"
      \/ VitalsFormV2.e_visit_date (VitalsFormV2.errors (fst (VitalsFormV2.handleSubmit now saved st)))
         = "Vitals already recorded for this date").
Proof.
  intros Hparse Hlater.
  assert (Hfuture : VitalsFormV2.isFutureDate now
                      (VitalsFormV2.visit_date (VitalsFormV2.formData st)) = true).
  { apply isFutureDate_later_day. now exists t. }
  destruct (v2_future_invalid now st Hfuture) as [Hinvalid Hmessage].
  destruct (v2_invalid_only_alerts now saved st Hinvalid) as [Halerts Herrors].
  split; [exact Hfuture|]. split; [exact Hinvalid|]. split; [exact Halerts|].
  rewrite Herrors. exact Hmessage.
Qed.

(** A date input refuses every date after its maximum: with such a date
    in the form data, a click on the submit button never reaches
    [handleSubmit]. *)
Lemma general_click_after_max (now : Z) (ls : LocationState) (saved : write_result)
    (st : GeneralAssessmentForm.State) (m v : Z) :
  FormControls.day_number (FormControls.utcToday now) = Some m ->
  FormControls.day_number
    (GeneralAssessmentForm.visit_date (GeneralAssessmentForm.formData st)) = Some v ->
  m < v ->
  forall result, GeneralAssessmentFormPage.click now ls saved st <> SubmitHandled result.
Proof.
  intros Hm Hv Hlt result. unfold GeneralAssessmentFormPage.click.
  destruct (GeneralAssessmentForm.render ls); try discriminate.
  destruct (_ || _); [discriminate|].
  unfold GeneralAssessmentFormPage.valid, FormControls.rangeOverflow. cbn zeta.
  rewrite Hm, Hv.
  replace (m <? v) with true by (symmetry; apply Z.ltb_lt; exact Hlt).
  rewrite andb_false_r. discriminate.
Qed.

Lemma overweight_click_after_max (now : Z) (ls : LocationState) (saved : write_result)
    (st : OverweightAssessmentForm.State) (m v : Z) :
  FormControls.day_number (FormControls.utcToday now) = Some m ->
  FormControls.day_number
    (OverweightAssessmentForm.visit_date (OverweightAssessmentForm.formData st)) = Some v ->
  m < v ->
  forall result, OverweightAssessmentFormPage.click now ls saved st <> SubmitHandled result.
Proof.
  intros Hm Hv Hlt result. unfold OverweightAssessmentFormPage.click.
  destruct (OverweightAssessmentForm.render ls); try discriminate.
  destruct (_ || _); [discriminate|].
  unfold OverweightAssessmentFormPage.valid, FormControls.rangeOverflow. cbn zeta.
  rewrite Hm, Hv.
  replace (m <? v) with true by (symmetry; apply Z.ltb_lt; exact Hlt).
  rewrite andb_false_r. discriminate.
Qed.

Lemma day_number_not_empty (s : string) (m : Z) :
  FormControls.day_number s = Some m -> empty s = false.
Proof.
  intro H. destruct s; [vm_compute in H; discriminate H|reflexivity].
Qed.

(** The general assessment form writes the date it starts with: at
    every instant whose UTC day is a date the input accepts, for a patient
    the form is shown for, the form as it is mounted passes the checks of
    the browser once both questions are answered, and [handleSubmit]
    writes an assessment dated with the UTC day of the instant. *)
Lemma general_form_writes_utc_day (now : Z) (ls : LocationState) (p : PatientData) (m : Z) :
  GeneralAssessmentForm.render ls = FormView ->
  ls_patient ls = Some p ->
  empty (id p) = false ->
  FormControls.day_number (FormControls.utcToday now) = Some m ->
  exists st,
    GeneralAssessmentFormPage.click now ls Saved
      (GeneralAssessmentFormPage.handleChange "using_drugs" "No"
         (GeneralAssessmentFormPage.handleChange "general_health" "Good"
            (GeneralAssessmentFormPage.initial now)))
    = SubmitHandled
        (st,
         [CreateAssessment
            {| GeneralAssessmentForm.p_patient_id := id p;
               GeneralAssessmentForm.p_visit_date := FormControls.utcToday now;
               GeneralAssessmentForm.p_general_health := "Good";
               GeneralAssessmentForm.p_using_drugs := "No";
               GeneralAssessmentForm.p_comments := "" |};
          NavigateTo "/patient-details" (Some p)]).
Proof.
  intros Hrender Hp Hid Hm.
  pose proof (day_number_not_empty _ _ Hm) as Hne.
  assert (Hst : GeneralAssessmentFormPage.handleChange "using_drugs" "No"
                  (GeneralAssessmentFormPage.handleChange "general_health" "Good"
                     (GeneralAssessmentFormPage.initial now))
                = {| GeneralAssessmentForm.formData :=
                       {| GeneralAssessmentForm.visit_date := FormControls.utcToday now;
                          GeneralAssessmentForm.general_health := "Good";
                          GeneralAssessmentForm.using_drugs := "No";
                          GeneralAssessmentForm.comments := "" |};
                     GeneralAssessmentForm.existingDates := [];
                     GeneralAssessmentForm.isSubmitting := false;
                     GeneralAssessmentForm.error := None |}) by reflexivity.
  rewrite Hst.
  unfold GeneralAssessmentFormPage.click. rewrite Hrender.
  cbn [GeneralAssessmentForm.formData GeneralAssessmentForm.visit_date
       GeneralAssessmentForm.existingDates GeneralAssessmentForm.isSubmitting
       includes existsb orb].
  unfold GeneralAssessmentFormPage.valid, FormControls.valueMissing,
    FormControls.rangeOverflow.
  cbn [GeneralAssessmentForm.formData GeneralAssessmentForm.visit_date
       GeneralAssessmentForm.general_health GeneralAssessmentForm.using_drugs].
  rewrite Hm, Z.ltb_irrefl.
  change (FormControls.checked ["Good"; "Poor"] "Good") with true.
  change (FormControls.checked ["Yes"; "No"] "No") with true.
  cbn [negb andb].
  unfold GeneralAssessmentForm.handleSubmit.
  cbn [GeneralAssessmentForm.setError GeneralAssessmentForm.formData
       GeneralAssessmentForm.visit_date GeneralAssessmentForm.general_health
       GeneralAssessmentForm.using_drugs GeneralAssessmentForm.comments
       GeneralAssessmentForm.existingDates includes existsb].
  rewrite Hp, Hid, Hne.
  change (empty "Good") with false. change (empty "No") with false.
  cbv beta iota.
  eexists. reflexivity.
Qed.

(** The same for the overweight assessment form. *)
Lemma overweight_form_writes_utc_day (now : Z) (ls : LocationState) (p : PatientData)
    (m : Z) :
  OverweightAssessmentForm.render ls = FormView ->
  ls_patient ls = Some p ->
  empty (id p) = false ->
  FormControls.day_number (FormControls.utcToday now) = Some m ->
  exists st,
    OverweightAssessmentFormPage.click now ls Saved
      (OverweightAssessmentFormPage.handleChange "been_on_diet" "No"
         (OverweightAssessmentFormPage.handleChange "general_health" "Good"
            (OverweightAssessmentFormPage.initial now)))
    = SubmitHandled
        (st,
         [CreateAssessment
            {| OverweightAssessmentForm.p_patient_id := id p;
               OverweightAssessmentForm.p_visit_date := FormControls.utcToday now;
               OverweightAssessmentForm.p_general_health := "Good";
               OverweightAssessmentForm.p_been_on_diet := "No";
               OverweightAssessmentForm.p_comments := "" |};
          NavigateTo "/patient-listing" None]).
Proof.
  intros Hrender Hp Hid Hm.
  pose proof (day_number_not_empty _ _ Hm) as Hne.
  assert (Hst : OverweightAssessmentFormPage.handleChange "been_on_diet" "No"
                  (OverweightAssessmentFormPage.handleChange "general_health" "Good"
                     (OverweightAssessmentFormPage.initial now))
                = {| OverweightAssessmentForm.formData :=
                       {| OverweightAssessmentForm.visit_date := FormControls.utcToday now;
                          OverweightAssessmentForm.general_health := "Good";
                          OverweightAssessmentForm.been_on_diet := "No";
                          OverweightAssessmentForm.comments := "" |};
                     OverweightAssessmentForm.existingDates := [];
                     OverweightAssessmentForm.isSubmitting := false;
                     OverweightAssessmentForm.error := None |}) by reflexivity.
  rewrite Hst.
  unfold OverweightAssessmentFormPage.click. rewrite Hrender.
  cbn [OverweightAssessmentForm.formData OverweightAssessmentForm.visit_date
       OverweightAssessmentForm.existingDates OverweightAssessmentForm.isSubmitting
       includes existsb orb].
  unfold OverweightAssessmentFormPage.valid, FormControls.valueMissing,
    FormControls.rangeOverflow.
  cbn [OverweightAssessmentForm.formData OverweightAssessmentForm.visit_date
       OverweightAssessmentForm.general_health OverweightAssessmentForm.been_on_diet].
  rewrite Hm, Z.ltb_irrefl.
  change (FormControls.checked ["Good"; "Poor"] "Good") with true.
  change (FormControls.checked ["Yes"; "No"] "No") with true.
  cbn [negb andb].
  unfold OverweightAssessmentForm.handleSubmit.
  cbn [OverweightAssessmentForm.setError OverweightAssessmentForm.formData
       OverweightAssessmentForm.visit_date OverweightAssessmentForm.general_health
       OverweightAssessmentForm.been_on_diet OverweightAssessmentForm.comments
       OverweightAssessmentForm.existingDates includes existsb].
  rewrite Hp, Hid, Hne.
  change (empty "Good") with false. change (empty "No") with false.
  cbn [orb]. cbv beta iota.
  eexists. reflexivity.
Qed.

(** C7.  The claim fails through the page of an assessment form.  The
    forms other than the second vitals form have no future-date check in
    [handleSubmit]; what keeps a future date out is the [max] attribute
    of the date input, which they set to the UTC day of the current
    instant, [new Date().toISOString().split('T')[0]], and which is also
    the date the form starts with.  At 20:00 on 2024-01-10 five hours
    west of UTC that day is 2024-01-11: the general assessment form opens
    with tomorrow's date, the browser finds it valid, and a click on the
    submit button, once the existing assessments have been read (there
    are none) and both questions are answered, writes an assessment dated
    2024-01-11, the day after the local day; so does the overweight
    form.  The date input of the second vitals form, whose [max] is the
    local date of [getTodayDate], refuses that date.  At every instant
    whose UTC day is a date the input accepts, the assessment forms write
    the UTC day they start with; a date after the [max] of the page never
    reaches [handleSubmit]. *)
Theorem future_date_passes_utc_max :
  VitalsFormV2Page.getTodayDate (host := west_host) west_evening = "2024-01-10"
  /\ localDay (host := west_host) west_evening = 19732
  /\ FormControls.day_number "2024-01-11" = Some 19733
  /\ FormControls.utcToday west_evening = "2024-01-11"
  /\ GeneralAssessmentForm.visit_date
       (GeneralAssessmentForm.formData (GeneralAssessmentFormPage.initial west_evening))
     = "2024-01-11"
  /\ (exists st,
         GeneralAssessmentFormPage.click west_evening Sample.state_22 Saved
           (GeneralAssessmentFormPage.handleChange "using_drugs" "No"
              (GeneralAssessmentFormPage.handleChange "general_health" "Good"
                 (GeneralAssessmentForm.fetchExistingAssessments (host := west_host)
                    Sample.state_22 (Fulfilled (JArr []))
                    (GeneralAssessmentFormPage.initial west_evening))))
         = SubmitHandled
             (st,
              [CreateAssessment
                 {| GeneralAssessmentForm.p_patient_id := "7";
                    GeneralAssessmentForm.p_visit_date := "2024-01-11";
                    GeneralAssessmentForm.p_general_health := "Good";
                    GeneralAssessmentForm.p_using_drugs := "No";
                    GeneralAssessmentForm.p_comments := "" |};
               NavigateTo "/patient-details" (Some Sample.patient)]))
  /\ (exists st,
         OverweightAssessmentFormPage.click west_evening Sample.state_27 Saved
           (OverweightAssessmentFormPage.handleChange "been_on_diet" "No"
              (OverweightAssessmentFormPage.handleChange "general_health" "Good"
                 (OverweightAssessmentForm.fetchExistingAssessments (host := west_host)
                    Sample.state_27 (Fulfilled (JArr []))
                    (OverweightAssessmentFormPage.initial west_evening))))
         = SubmitHandled
             (st,
              [CreateAssessment
                 {| OverweightAssessmentForm.p_patient_id := "7";
                    OverweightAssessmentForm.p_visit_date := "2024-01-11";
                    OverweightAssessmentForm.p_general_health := "Good";
                    OverweightAssessmentForm.p_been_on_diet := "No";
                    OverweightAssessmentForm.p_comments := "" |};
               NavigateTo "/patient-listing" None]))
  /\ FormControls.rangeOverflow
       (VitalsFormV2Page.getTodayDate (host := west_host) west_evening) "2024-01-11" = true
  /\ GeneralAssessmentFormPage.click west_evening Sample.state_22 Saved
       (GeneralAssessmentFormPage.handleChange "visit_date" "2024-01-12"
          (GeneralAssessmentFormPage.handleChange "using_drugs" "No"
             (GeneralAssessmentFormPage.handleChange "general_health" "Good"
                (GeneralAssessmentFormPage.initial west_evening))))
     = InvalidReported
  /\ (forall now ls saved st m v,
         FormControls.day_number (FormControls.utcToday now) = Some m ->
         FormControls.day_number
           (GeneralAssessmentForm.visit_date (GeneralAssessmentForm.formData st)) = Some v ->
         m < v ->
         forall result,
           GeneralAssessmentFormPage.click now ls saved st <> SubmitHandled result)
  /\ (forall now ls saved st m v,
         FormControls.day_number (FormControls.utcToday now) = Some m ->
         FormControls.day_number
           (OverweightAssessmentForm.visit_date (OverweightAssessmentForm.formData st))
         = Some v ->
         m < v ->
         forall result,
           OverweightAssessmentFormPage.click now ls saved st <> SubmitHandled result)
  /\ (forall now ls p m,
         GeneralAssessmentForm.render ls = FormView ->
         ls_patient ls = Some p ->
         empty (id p) = false ->
         FormControls.day_number (FormControls.utcToday now) = Some m ->
         exists st,
           GeneralAssessmentFormPage.click now ls Saved
             (GeneralAssessmentFormPage.handleChange "using_drugs" "No"
                (GeneralAssessmentFormPage.handleChange "general_health" "Good"
                   (GeneralAssessmentFormPage.initial now)))
           = SubmitHandled
               (st,
                [CreateAssessment
                   {| GeneralAssessmentForm.p_patient_id := id p;
                      GeneralAssessmentForm.p_visit_date := FormControls.utcToday now;
                      GeneralAssessmentForm.p_general_health := "Good";
                      GeneralAssessmentForm.p_using_drugs := "No";
                      GeneralAssessmentForm.p_comments := "" |};
                 NavigateTo "/patient-details" (Some p)]))
  /\ (forall now ls p m,
         OverweightAssessmentForm.render ls = FormView ->
         ls_patient ls = Some p ->
         empty (id p) = false ->
         FormControls.day_number (FormControls.utcToday now) = Some m ->
         exists st,
           OverweightAssessmentFormPage.click now ls Saved
             (OverweightAssessmentFormPage.handleChange "been_on_diet" "No"
                (OverweightAssessmentFormPage.handleChange "general_health" "Good"
                   (OverweightAssessmentFormPage.initial now)))
           = SubmitHandled
               (st,
                [CreateAssessment
                   {| OverweightAssessmentForm.p_patient_id := id p;
                      OverweightAssessmentForm.p_visit_date := FormControls.utcToday now;
                      OverweightAssessmentForm.p_general_health := "Good";
                      OverweightAssessmentForm.p_been_on_diet := "No";
                      OverweightAssessmentForm.p_comments := "" |};
                 NavigateTo "/patient-listing" None])).
Proof.
  split; [vm_compute; reflexivity|].
  split; [vm_compute; reflexivity|].
  split; [vm_compute; reflexivity|].
  split; [vm_compute; reflexivity|].
  split; [vm_compute; reflexivity|].
  split; [eexists; vm_compute; reflexivity|].
  split; [eexists; vm_compute; reflexivity|].
  split; [vm_compute; reflexivity|].
  split; [vm_compute; reflexivity|].
  split; [exact general_click_after_max|].
  split; [exact overweight_click_after_max|].
  split; [exact general_form_writes_utc_day|exact overweight_form_writes_utc_day].
Qed.

(* ------------------------------------------------------------------ *)
(** ** Response normaliser *)

Section Normaliser.
Context {A : Type}.

(** [first_array] finds the first array of the list. *)
Lemma first_array_Some (values : list (json A)) (items : list A) :
  VitalsFormV2.first_array values = Some items
  <-> exists pre post, values = (pre ++ JArr items :: post)%list /\ Forall not_array pre.
Proof.
  unfold VitalsFormV2.first_array. induction values as [|v values IH]; simpl.
  - split; [discriminate|]. intros (pre & post & H & _). destruct pre; discriminate H.
  - destruct (Json.isArray v) eqn:E.
    + destruct v; try discriminate E. simpl. split.
      * intro H. injection H as ->. exists [], values. split; [reflexivity|constructor].
      * intros (pre & post & H & Hpre). destruct pre as [|w pre].
        -- simpl in H. injection H as ->. reflexivity.
        -- simpl in H. injection H as <- _. inversion Hpre as [|? ? Hw _]. discriminate Hw.
    + rewrite IH. split.
      * intros (pre & post & -> & Hpre). exists (v :: pre), post.
        split; [reflexivity|]. constructor; assumption.
      * intros (pre & post & H & Hpre). destruct pre as [|w pre].
        -- simpl in H. injection H as -> _. discriminate E.
        -- simpl in H. injection H as <- ->. inversion Hpre. exists pre, post. now split.
Qed.

Lemma first_array_None (values : list (json A)) :
  VitalsFormV2.first_array values = None <-> Forall not_array values.
Proof.
  unfold VitalsFormV2.first_array. induction values as [|v values IH]; simpl.
  - split; [constructor|reflexivity].
  - destruct (Json.isArray v) eqn:E.
    + destruct v; try discriminate E. simpl. split; [discriminate|].
      intro H. inversion H as [|? ? Hv _]. discriminate Hv.
    + rewrite IH. split.
      * intro H. constructor; assumption.
      * intro H. now inversion H.
Qed.

(** [first_nested_array] finds the first array inside the first object
    that holds one. *)
Lemma first_nested_array_Some (values : list (json A)) (items : list A) :
  VitalsFormV2.first_nested_array values = Some items
  <-> exists pre props post,
        values = (pre ++ JObj props :: post)%list
        /\ Forall no_nested_array pre
        /\ VitalsFormV2.first_array (Json.values props) = Some items.
Proof.
  induction values as [|v values IH].
  - simpl. split; [discriminate|]. intros (pre & ? & ? & H & _). destruct pre; discriminate H.
  - assert (Hskip : no_nested_array v ->
                    (VitalsFormV2.first_nested_array values = Some items
                     <-> exists pre props post,
                           v :: values = (pre ++ JObj props :: post)%list
                           /\ Forall no_nested_array pre
                           /\ VitalsFormV2.first_array (Json.values props) = Some items)).
    { intro Hv. rewrite IH. split.
      - intros (pre & props & post & -> & Hpre & Hitems).
        exists (v :: pre), props, post. repeat split; [constructor|]; assumption.
      - intros (pre & props & post & H & Hpre & Hitems). destruct pre as [|w pre].
        + simpl in H. injection H as -> _. rewrite (Hv props eq_refl) in Hitems.
          discriminate Hitems.
        + simpl in H. injection H as <- ->. inversion Hpre.
          exists pre, props, post. now repeat split. }
    destruct v as [| | b | n | s | arr | nested];
      try (simpl; apply Hskip; intros props Hprops; discriminate Hprops).
    simpl. destruct (VitalsFormV2.first_array (Json.values nested)) as [found|] eqn:E.
    + split.
      * intro H. injection H as ->. exists [], nested, values.
        repeat split; [constructor|exact E].
      * intros (pre & props & post & H & Hpre & Hitems). destruct pre as [|w pre].
        -- simpl in H. injection H as <- _. congruence.
        -- simpl in H. injection H as <- _. inversion Hpre as [|? ? Hw _].
           rewrite (Hw nested eq_refl) in E. discriminate E.
    + apply Hskip. intros props Hprops. injection Hprops as <-. exact E.
Qed.

Lemma first_nested_array_None (values : list (json A)) :
  VitalsFormV2.first_nested_array values = None <-> Forall no_nested_array values.
Proof.
  induction values as [|v values IH].
  - simpl. split; [constructor|reflexivity].
  - destruct v as [| | b | n | s | arr | nested];
      try (simpl; rewrite IH; split;
           [intro H; constructor; [intros props Hprops; discriminate Hprops|exact H]
           |intro H; now inversion H]).
    simpl. destruct (VitalsFormV2.first_array (Json.values nested)) eqn:E.
    + split; [discriminate|]. intro H. inversion H as [|? ? Hv _].
      rewrite (Hv nested eq_refl) in E. discriminate E.
    + rewrite IH. split.
      * intro H. constructor; [|exact H]. intros props Hprops. injection Hprops as <-. exact E.
      * intro H. now inversion H.
Qed.

(** The normaliser of the second vitals form tries, first match winning:
    the payload itself when it is an array, its [results] entry, its [data]
    entry, the first array among its values, the first array among the
    values of its nested objects, and else the empty list. *)
Lemma extractArrayFromResponse_steps (data : json A) :
  (forall items, data = JArr items -> VitalsFormV2.extractArrayFromResponse data = items)
  /\ (not_array data ->
      forall items, Json.get "results" data = JArr items ->
                    VitalsFormV2.extractArrayFromResponse data = items)
  /\ (not_array data -> not_array (Json.get "results" data) ->
      forall items, Json.get "data" data = JArr items ->
                    VitalsFormV2.extractArrayFromResponse data = items)
  /\ (forall props,
         data = JObj props ->
         not_array (Json.get "results" data) -> not_array (Json.get "data" data) ->
         (forall items,
             VitalsFormV2.first_array (Json.values props) = Some items ->
             VitalsFormV2.extractArrayFromResponse data = items)
         /\ (VitalsFormV2.first_array (Json.values props) = None ->
             forall items,
               VitalsFormV2.first_nested_array (Json.values props) = Some items ->
               VitalsFormV2.extractArrayFromResponse data = items)
         /\ (VitalsFormV2.first_array (Json.values props) = None ->
             VitalsFormV2.first_nested_array (Json.values props) = None ->
             VitalsFormV2.extractArrayFromResponse data = []))
  /\ (not_array data -> (forall props, data <> JObj props) ->
      VitalsFormV2.extractArrayFromResponse data = []).
Proof.
  unfold not_array.
  split; [intros items ->; reflexivity|].
  split.
  { intros Hdata items Hresults. unfold VitalsFormV2.extractArrayFromResponse.
    rewrite Hresults. destruct data; try reflexivity. discriminate Hdata. }
  split.
  { intros Hdata Hresults items Hd. unfold VitalsFormV2.extractArrayFromResponse.
    rewrite Hd. destruct data; try (discriminate Hdata); try reflexivity.
    destruct (Json.get "results" (JObj props)); try reflexivity. discriminate Hresults. }
  split.
  { intros props -> Hresults Hd.
    assert (Hscan : VitalsFormV2.extractArrayFromResponse (JObj props)
                    = match VitalsFormV2.first_array (Json.values props) with
                      | Some items => items
                      | None =>
                          match VitalsFormV2.first_nested_array (Json.values props) with
                          | Some items => items
                          | None => []
                          end
                      end).
    { unfold VitalsFormV2.extractArrayFromResponse.
      destruct (Json.get "results" (JObj props)); try (discriminate Hresults);
        destruct (Json.get "data" (JObj props)); try (discriminate Hd); reflexivity. }
    rewrite Hscan. split; [|split].
    - intros items ->. reflexivity.
    - intros -> items ->. reflexivity.
    - intros -> ->. reflexivity. }
  intros Hdata Hobj. destruct data; try reflexivity.
  - discriminate Hdata.
  - exfalso. exact (Hobj props eq_refl).
Qed.

(** A flat list comes back unchanged, and the same list under [results]
    or under [data] comes back equal, from each of the normalisers. *)
Lemma normalisers_shape_independent (items : list A) :
  VitalsFormV2.extractArrayFromResponse (JArr items) = items
  /\ VitalsFormV2.extractArrayFromResponse (JObj [("results", JArr items)]) = items
  /\ VitalsFormV2.extractArrayFromResponse (JObj [("data", JArr items)]) = items
  /\ PatientListing.extractArrayFromResponse (JArr items) = items
  /\ PatientListing.extractArrayFromResponse (JObj [("results", JArr items)]) = items
  /\ PatientListing.extractArrayFromResponse (JObj [("data", JArr items)]) = items.
Proof. repeat split. Qed.

(** The three-step copies of the listing and of the details page agree
    with the normaliser of the vitals form wherever they find an array. *)
Lemma short_normaliser_agrees (data : json A) :
  PatientDetails.extractArrayFromResponse data = PatientListing.extractArrayFromResponse data
  /\ (PatientListing.extractArrayFromResponse data <> [] ->
      VitalsFormV2.extractArrayFromResponse data
      = PatientListing.extractArrayFromResponse data).
Proof.
  split; [reflexivity|].
  unfold PatientListing.extractArrayFromResponse, VitalsFormV2.extractArrayFromResponse.
  destruct data; try (intro H; now contradiction H); try reflexivity.
  destruct (Json.get "results" (JObj props)); try reflexivity;
    destruct (Json.get "data" (JObj props)); try reflexivity;
    intro H; now contradiction H.
Qed.
End Normaliser.

(* ------------------------------------------------------------------ *)
(** ** Sorting *)

Section SortFacts.
Context {A : Type}.

Lemma insert_Permutation (after : A -> A -> bool) (x : A) (l : list A) :
  Permutation (JSArray.insert after x l) (x :: l).
Proof.
  induction l as [|y l IH]; simpl.
  - apply Permutation_refl.
  - destruct (after x y).
    + apply Permutation_trans with (y :: x :: l).
      * apply perm_skip. exact IH.
      * apply perm_swap.
    + apply Permutation_refl.
Qed.

Lemma sort_Permutation (after : A -> A -> bool) (l : list A) :
  Permutation (JSArray.sort after l) l.
Proof.
  induction l as [|x l IH]; simpl.
  - apply Permutation_refl.
  - apply Permutation_trans with (x :: JSArray.sort after l).
    + apply insert_Permutation.
    + apply perm_skip. exact IH.
Qed.

Lemma sort_length (after : A -> A -> bool) (l : list A) :
  List.length (JSArray.sort after l) = List.length l.
Proof. apply Permutation_length, sort_Permutation. Qed.

Variable key : A -> Z.

Lemma insert_sorted (x : A) (l : list A) :
  StronglySorted (newer_first key) l -> StronglySorted (newer_first key) (JSArray.insert (by_key key) x l).
Proof.
  induction 1 as [|y l Hsorted IH Hall]; simpl.
  - constructor; constructor.
  - unfold by_key at 1. destruct (key x <? key y) eqn:E.
    + apply Z.ltb_lt in E. constructor; [exact IH|].
      apply Forall_forall. intros z Hz.
      apply (Permutation_in _ (insert_Permutation (by_key key) x l)) in Hz.
      destruct Hz as [<- | Hz].
      * unfold newer_first. lia.
      * rewrite Forall_forall in Hall. now apply Hall.
    + apply Z.ltb_ge in E. constructor; [constructor; assumption|].
      constructor; [exact E|].
      apply Forall_forall. intros z Hz. rewrite Forall_forall in Hall.
      specialize (Hall z Hz). unfold newer_first in *. lia.
Qed.

Lemma sort_sorted (l : list A) : StronglySorted (newer_first key) (JSArray.sort (by_key key) l).
Proof.
  induction l as [|x l IH]; simpl.
  - constructor.
  - apply insert_sorted. exact IH.
Qed.

Lemma insert_head (x : A) (l : list A) :
  hd_error (JSArray.insert (by_key key) x l)
  = match hd_error l with
    | None => Some x
    | Some y => if key x <? key y then Some y else Some x
    end.
Proof.
  destruct l as [|y l]; simpl; [reflexivity|].
  unfold by_key. destruct (key x <? key y); reflexivity.
Qed.

(** The head of the sorted array is the first of the elements with the
    largest key. *)
Lemma sort_head (l : list A) (x : A) :
  hd_error (JSArray.sort (by_key key) l) = Some x ->
  exists pre post,
    l = (pre ++ x :: post)%list
    /\ (forall y, In y pre -> key y < key x)
    /\ (forall y, In y post -> key y <= key x).
Proof.
  revert x. induction l as [|a l IH]; intros x Hx.
  - discriminate Hx.
  - simpl in Hx. rewrite insert_head in Hx.
    destruct (hd_error (JSArray.sort (by_key key) l)) as [y|] eqn:E.
    + destruct (IH y eq_refl) as (pre & post & Hl & Hpre & Hpost).
      destruct (key a <? key y) eqn:Ea; injection Hx as <-.
      * apply Z.ltb_lt in Ea. exists (a :: pre), post. subst l.
        split; [reflexivity|]. split; [|exact Hpost].
        intros z [<- | Hz]; [exact Ea|now apply Hpre].
      * apply Z.ltb_ge in Ea. exists [], l. split; [reflexivity|].
        split; [intros z []|].
        intros z Hz. subst l. apply in_app_or in Hz.
        destruct Hz as [Hz | [<- | Hz]].
        -- specialize (Hpre z Hz). lia.
        -- exact Ea.
        -- specialize (Hpost z Hz). lia.
    + injection Hx as <-. exists [], l. split; [reflexivity|]. split; [intros z []|].
      intros z Hz. exfalso.
      assert (Hlen : List.length (JSArray.sort (by_key key) l) = List.length l)
        by apply sort_length.
      destruct (JSArray.sort (by_key key) l); [|discriminate E].
      destruct l; [destruct Hz|discriminate Hlen].
Qed.

Lemma sort_head_exists (l : list A) :
  l <> [] -> exists x, hd_error (JSArray.sort (by_key key) l) = Some x.
Proof.
  intro Hne.
  assert (Hlen : List.length (JSArray.sort (by_key key) l) = List.length l) by apply sort_length.
  destruct (JSArray.sort (by_key key) l) as [|x s].
  - destruct l; [contradiction|discriminate Hlen].
  - exists x. reflexivity.
Qed.
End SortFacts.

(* ------------------------------------------------------------------ *)
(** ** [Promise.all] *)

Section PromiseFacts.
Context {A : Type}.

Lemma store_length (i : nat) (v : A) (slots : list (option A)) :
  List.length (Promise.store i v slots) = List.length slots.
Proof.
  revert i. induction slots as [|s slots IH]; intros [|i]; simpl; try reflexivity.
  now rewrite IH.
Qed.

Lemma store_same (i : nat) (v : A) (slots : list (option A)) :
  (i < List.length slots)%nat -> nth_error (Promise.store i v slots) i = Some (Some v).
Proof.
  revert i. induction slots as [|s slots IH]; intros [|i] Hi; simpl in *; try lia.
  - reflexivity.
  - apply IH. lia.
Qed.

Lemma store_other (i j : nat) (v : A) (slots : list (option A)) :
  i <> j -> nth_error (Promise.store i v slots) j = nth_error slots j.
Proof.
  revert i j. induction slots as [|s slots IH]; intros [|i] [|j] Hij; simpl;
    try reflexivity; try contradiction.
  apply IH. congruence.
Qed.

Lemma settle_all (values : list A) (order : list nat) (slots : list (option A)) :
  List.length slots = List.length values ->
  List.length (fold_left (settle values) order slots) = List.length values
  /\ forall j,
       (In j order -> (j < List.length values)%nat ->
        nth_error (fold_left (settle values) order slots) j = Some (nth_error values j))
       /\ (~ In j order ->
           nth_error (fold_left (settle values) order slots) j = nth_error slots j).
Proof.
  revert slots. induction order as [|i order IH]; intros slots Hlen.
  - simpl. split; [exact Hlen|]. intro j. split; [intros []|reflexivity].
  - simpl.
    assert (Hlen' : List.length (settle values slots i) = List.length values).
    { unfold settle. destruct (nth_error values i); [|exact Hlen].
      now rewrite store_length. }
    destruct (IH (settle values slots i) Hlen') as [Hl Hj].
    split; [exact Hl|]. intro j. destruct (Hj j) as [Hin Hout]. split.
    + intros Hor Hbound.
      destruct (in_dec Nat.eq_dec j order) as [Hjo | Hjo]; [now apply Hin|].
      rewrite (Hout Hjo). destruct Hor as [-> | Hor]; [|contradiction].
      unfold settle. destruct (nth_error values j) as [v|] eqn:Ev.
      * apply store_same. lia.
      * apply nth_error_None in Ev. lia.
    + intro Hnot. rewrite Hout by (intro H; apply Hnot; now right).
      unfold settle. destruct (nth_error values i); [|reflexivity].
      apply store_other. intro Heq. apply Hnot. now left.
Qed.

Lemma collect_filled (values : list A) : Promise.collect (map Some values) = Some values.
Proof.
  induction values as [|v values IH]; simpl; [reflexivity|]. now rewrite IH.
Qed.

(** Whatever the order in which the promises settle, [Promise.all]
    fulfils with the values in the order of the promises. *)
Lemma Promise_all_in_order (values : list A) (order : list nat) :
  Permutation order (seq 0 (List.length values)) ->
  Promise.all values order = Some values.
Proof.
  intro Hperm. unfold Promise.all.
  change (fun slots i => match nth_error values i with
                         | Some v => Promise.store i v slots
                         | None => slots
                         end) with (settle values).
  destruct (settle_all values order (repeat None (List.length values))) as [Hlen Hj];
    [apply repeat_length|].
  assert (Hslots : fold_left (settle values) order (repeat None (List.length values))
                   = map Some values).
  { apply nth_error_ext. intro j. rewrite nth_error_map.
    destruct (Nat.lt_ge_cases j (List.length values)) as [Hlt | Hge].
    - rewrite (proj1 (Hj j)); [|apply (Permutation_in _ (Permutation_sym Hperm)),
                                  in_seq; lia|exact Hlt].
      destruct (nth_error values j) eqn:Ev; [reflexivity|].
      apply nth_error_None in Ev. lia.
    - rewrite (proj2 (nth_error_None _ _)) by lia.
      rewrite (proj2 (nth_error_None values j)) by lia. reflexivity. }
  rewrite Hslots. apply collect_filled.
Qed.
End PromiseFacts.

(* ------------------------------------------------------------------ *)
(** ** Listing aggregator *)

Section Aggregator.
Context {host : DateHost}.

Lemma tagged_type (kind : string) (resp : response RawAssessment)
    (a : PatientListingV2.Assessment) :
  In a (PatientListingV2.tagged kind resp) -> PatientListingV2.type a = kind.
Proof.
  unfold PatientListingV2.tagged. destruct resp as [data|]; [|intros []].
  destruct (Json.truthy data); [|intros []].
  rewrite in_map_iff. intros [raw [<- _]]. reflexivity.
Qed.

Lemma prefix_before {B : Type} (l1 l2 pre post : list B) (x : B) :
  (l1 ++ l2 = pre ++ x :: post)%list -> ~ In x l1 -> forall b, In b l1 -> In b pre.
Proof.
  revert pre. induction l1 as [|c l1 IH]; intros pre Heq Hnot b Hb; [destruct Hb|].
  destruct pre as [|d pre].
  - simpl in Heq. injection Heq as -> _. exfalso. apply Hnot. now left.
  - simpl in Heq. injection Heq as <- Heq. destruct Hb as [<- | Hb]; [now left|].
    right. apply (IH pre Heq); [|exact Hb]. intro H. apply Hnot. now right.
Qed.

(** The second listing reports the most recent of all the assessments of
    both kinds, by visit date and else by creation date; of two equally
    recent ones of different kinds, the overweight one. *)
Lemma fetchPatientAssessments_latest (overweightResponse generalResponse : response RawAssessment)
    (a : PatientListingV2.Assessment) :
  PatientListingV2.fetchPatientAssessments overweightResponse generalResponse = Some a ->
  In a (PatientListingV2.tagged "overweight" overweightResponse
        ++ PatientListingV2.tagged "general" generalResponse)%list
  /\ (forall b,
         In b (PatientListingV2.tagged "overweight" overweightResponse
               ++ PatientListingV2.tagged "general" generalResponse)%list ->
         date_value b <= date_value a)
  /\ (PatientListingV2.type a = "general" ->
      forall b, In b (PatientListingV2.tagged "overweight" overweightResponse) ->
                date_value b < date_value a).
Proof.
  unfold PatientListingV2.fetchPatientAssessments. intro H.
  apply (sort_head date_value) in H.
  destruct H as (pre & post & Heq & Hpre & Hpost).
  rewrite Heq. split; [apply in_elt|]. split.
  - intros b Hb. apply in_app_or in Hb. destruct Hb as [Hb | [<- | Hb]].
    + specialize (Hpre b Hb). lia.
    + lia.
    + now apply Hpost.
  - intros Htype b Hb. apply Hpre.
    apply (prefix_before _ _ _ _ _ Heq); [|exact Hb].
    intro Hin. apply tagged_type in Hin. rewrite Htype in Hin. discriminate Hin.
Qed.

Lemma fetchPatientAssessments_some (overweight general : list RawAssessment) :
  overweight <> [] ->
  exists a,
    PatientListingV2.fetchPatientAssessments (Fulfilled (JArr overweight))
                                             (Fulfilled (JArr general)) = Some a.
Proof.
  intro Hne. unfold PatientListingV2.fetchPatientAssessments.
  apply (sort_head_exists date_value).
  destruct overweight; [contradiction|discriminate].
Qed.
(** The first listing reports an overweight assessment whenever the
    patient has one, whatever the general assessments are. *)
Lemma overweight_takes_precedence (api : Backend) (patient : PatientListing.Patient)
    (vitals : json RawVital) (overweight : json RawAssessment) :
  getVitals api (PatientListing.id patient) = Fulfilled vitals ->
  getPatientOverweightAssessments api (PatientListing.id patient) = Fulfilled overweight ->
  PatientListing.extractArrayFromResponse overweight <> [] ->
  PatientListing.last_assessment_type (PatientListing.withDetails api patient)
  = Some "Overweight".
Proof.
  intros Hvitals Hoverweight Hne. unfold PatientListing.withDetails.
  rewrite Hvitals, Hoverweight. unfold PatientListing.latest_assessment.
  set (after := fun a b : RawAssessment =>
                  PatientListing.after (PatientListing.assessment_date a)
                                       (PatientListing.assessment_date b)).
  pose proof (sort_length after (PatientListing.extractArrayFromResponse overweight)) as Hlen.
  destruct (JSArray.sort after (PatientListing.extractArrayFromResponse overweight))
    as [|latest sorted].
  - destruct (PatientListing.extractArrayFromResponse overweight);
      [contradiction|discriminate Hlen].
  - reflexivity.
Qed.
End Aggregator.

(** C2 at its failing input.  For a patient with an overweight assessment
    of 2024-01-01 and a general assessment of 2024-02-01, the first listing
    reports the overweight one, the older of the two, as the last
    assessment; the second listing reports the general one. *)
Theorem listing_prefers_overweight_assessment :
  PatientListing.after (host := utc_host) (Some "2024-02-01") (Some "2024-01-01") = false
  /\ PatientListing.after (host := utc_host) (Some "2024-01-01") (Some "2024-02-01") = true
  /\ PatientListing.last_assessment_type
       (PatientListing.withDetails (host := utc_host) ListingSample.api
          (ListingSample.basic "1" "Amina")) = Some "Overweight"
  /\ PatientListing.last_assessment_date
       (PatientListing.withDetails (host := utc_host) ListingSample.api
          (ListingSample.basic "1" "Amina")) = Some "2024-01-01"
  /\ PatientListingV2.last_assessment_type
       (PatientListingV2.processPatientData (host := utc_host) ListingSample.api Sample.now
          ListingSample.amina) = Some "General Assessment"
  /\ PatientListingV2.last_assessment_date
       (PatientListingV2.processPatientData (host := utc_host) ListingSample.api Sample.now
          ListingSample.amina) = Some "2024-02-01".
Proof. repeat split; vm_compute; reflexivity. Qed.

(** C8 at its failing input.  An envelope that keeps its list under
    another key than [results] and [data], or one level down, is read by
    the normaliser of the vitals form and comes out empty from the
    three-step copies of the listing and of the details page. *)
Theorem listing_normaliser_stops_after_three_steps :
  VitalsFormV2.extractArrayFromResponse ListingSample.keyed_payload = ["r1"; "r2"]
  /\ PatientListing.extractArrayFromResponse ListingSample.keyed_payload = []
  /\ PatientDetails.extractArrayFromResponse ListingSample.keyed_payload = []
  /\ VitalsFormV2.extractArrayFromResponse ListingSample.nested_payload = ["r1"; "r2"]
  /\ PatientListing.extractArrayFromResponse ListingSample.nested_payload = []
  /\ PatientDetails.extractArrayFromResponse ListingSample.nested_payload = [].
Proof. repeat split. Qed.

(** C3, as stated, fails for the second listing: of two patients listed in
    the order of their registration it shows the second one first, and a
    patient without a name it does not show at all. *)
Lemma second_listing_reorders_patients :
  PatientListingV2.fetchPatients (host := utc_host) ListingSample.empty_api Sample.now
    (Fulfilled (JArr [ListingSample.amina; ListingSample.brian])) [0%nat; 1%nat]
  = PatientListingV2.Loaded
      [PatientListingV2.processPatientData (host := utc_host) ListingSample.empty_api
         Sample.now ListingSample.brian;
       PatientListingV2.processPatientData (host := utc_host) ListingSample.empty_api
         Sample.now ListingSample.amina]
  /\ PatientListingV2.processPatientData (host := utc_host) ListingSample.empty_api
       Sample.now ListingSample.brian
     <> PatientListingV2.processPatientData (host := utc_host) ListingSample.empty_api
          Sample.now ListingSample.amina
  /\ PatientListingV2.fetchPatients (host := utc_host) ListingSample.empty_api Sample.now
       (Fulfilled (JArr [ListingSample.amina; ListingSample.nameless])) [0%nat; 1%nat]
     = PatientListingV2.Loaded
         [PatientListingV2.processPatientData (host := utc_host) ListingSample.empty_api
            Sample.now ListingSample.amina].
Proof.
  split; [vm_compute; reflexivity|].
  split; [|vm_compute; reflexivity].
  intro H. apply (f_equal PatientListingV2.id) in H. vm_compute in H. discriminate H.
Qed.

(** C3, amended.  Whatever the order in which the per-patient promises
    settle, [Promise.all] hands back one summary per patient, in the
    order of the patients.  The first listing shows exactly that list:
    it is as long as the input and its i-th element is the summary of the
    i-th patient.  The second listing shows the patients of that list that
    have a first or a last name, sorted by creation date, the most recent
    first. *)
Theorem fan_in_keeps_patient_order (host : DateHost) (api : Backend) (order : list nat) :
  (forall basicPatients : list PatientListing.Patient,
      Permutation order (seq 0 (List.length basicPatients)) ->
      exists summaries,
        PatientListing.fetchPatients api basicPatients order = Some summaries
        /\ List.length summaries = List.length basicPatients
        /\ forall i patient,
             nth_error basicPatients i = Some patient ->
             nth_error summaries i = Some (PatientListing.withDetails api patient))
  /\ (forall (now : Z) (data : json PatientListingV2.RawPatient),
         Json.truthy data = true ->
         Permutation order (seq 0 (List.length (PatientListingV2.patients_of data))) ->
         exists patientsData,
           Promise.all (map (PatientListingV2.processPatientData api now)
                            (PatientListingV2.patients_of data)) order
           = Some patientsData
           /\ List.length patientsData = List.length (PatientListingV2.patients_of data)
           /\ (forall i patientData,
                  nth_error (PatientListingV2.patients_of data) i = Some patientData ->
                  nth_error patientsData i
                  = Some (PatientListingV2.processPatientData api now patientData))
           /\ PatientListingV2.fetchPatients api now (Fulfilled data) order
              = PatientListingV2.Loaded (PatientListingV2.publish patientsData)
           /\ Permutation (PatientListingV2.publish patientsData) (filter named patientsData)
           /\ StronglySorted (newer_first PatientListingV2.created_value)
                             (PatientListingV2.publish patientsData)).
Proof.
  split.
  - intros basicPatients Hperm.
    exists (map (PatientListing.withDetails api) basicPatients).
    split; [|split].
    + unfold PatientListing.fetchPatients. apply Promise_all_in_order.
      now rewrite length_map.
    + apply length_map.
    + intros i patient Hi. rewrite nth_error_map, Hi. reflexivity.
  - intros now data Htruthy Hperm.
    set (patientsArray := PatientListingV2.patients_of data) in *.
    exists (map (PatientListingV2.processPatientData api now) patientsArray).
    assert (Hall : Promise.all (map (PatientListingV2.processPatientData api now) patientsArray)
                               order
                   = Some (map (PatientListingV2.processPatientData api now) patientsArray)).
    { apply Promise_all_in_order. now rewrite length_map. }
    split; [exact Hall|]. split; [apply length_map|]. split.
    { intros i patientData Hi. rewrite nth_error_map, Hi. reflexivity. }
    split.
    { unfold PatientListingV2.fetchPatients. rewrite Htruthy.
      fold patientsArray. rewrite Hall.
      destruct patientsArray; reflexivity. }
    split.
    + unfold PatientListingV2.publish. apply sort_Permutation.
    + unfold PatientListingV2.publish.
      apply (sort_sorted PatientListingV2.created_value).
Qed.

Lemma fan_in_keeps_patient_order_witness :
  Permutation [1%nat; 0%nat]
    (seq 0 (List.length [ListingSample.basic "1" "Amina"; ListingSample.basic "2" "Brian"]))
  /\ PatientListing.fetchPatients (host := utc_host) ListingSample.api
       [ListingSample.basic "1" "Amina"; ListingSample.basic "2" "Brian"] [1%nat; 0%nat]
     = Some [PatientListing.withDetails (host := utc_host) ListingSample.api
               (ListingSample.basic "1" "Amina");
             PatientListing.withDetails (host := utc_host) ListingSample.api
               (ListingSample.basic "2" "Brian")].
Proof.
  assert (Hperm : Permutation [1%nat; 0%nat]
                    (seq 0 (List.length [ListingSample.basic "1" "Amina";
                                         ListingSample.basic "2" "Brian"])))
    by apply perm_swap.
  split; [exact Hperm|].
  destruct (fan_in_keeps_patient_order utc_host ListingSample.api [1%nat; 0%nat]) as [H _].
  destruct (H _ Hperm) as (summaries & Hsome & _ & Hnth).
  rewrite Hsome. f_equal.
  pose proof (Hnth 0%nat _ eq_refl) as H0. pose proof (Hnth 1%nat _ eq_refl) as H1.
  destruct summaries as [|s0 [|s1 [|s2 rest]]]; try discriminate H0; try discriminate H1.
  - simpl in H0, H1. injection H0 as ->. injection H1 as ->. reflexivity.
  - simpl in H0, H1. injection H0 as ->. injection H1 as ->.
    vm_compute in Hsome. discriminate Hsome.
Defined.
(* ================================================================== *)
(** * Further properties *)

(** ** Rounding to one decimal *)




Lemma toFixed1_shape (q : Q) :
  (toFixed1 (Fin q) = Fin q /\ Qle_bool toFixed_limit (Qabs q) = true)
  \/ exists n, toFixed1 (Fin q) = Fin (tenths n).
Proof.
  unfold toFixed1.
  destruct (Qle_bool toFixed_limit (Qabs q)); [left; split; reflexivity|].
  right. destruct (Qneg q); eexists; reflexivity.
Qed.


Lemma toFixed1_Fin (q : Q) : exists r, toFixed1 (Fin q) = Fin r.
Proof.
  destruct (toFixed1_shape q) as [[E _]|[n E]]; rewrite E; eexists; reflexivity.
Qed.

Lemma toFixed1_finite (x : number) : isFinite x = true -> isFinite (toFixed1 x) = true.
Proof.
  destruct x as [| | |q]; try discriminate. intros _.
  destruct (toFixed1_Fin q) as [r E]. rewrite E. reflexivity.
Qed.


(** X1.  The second listing shows a recorded BMI as the form computed
    it, on the doubles JavaScript computes with.  For a height from 1 cm
    to 100 m and a weight from 1 g to 1000 t, the BMI either vitals form
    computes is a finite double that [parseBmiValue] reads back
    unchanged, and, unless it is zero, [getBmiStatus] of the listing gives
    it the status the form gave it.  Outside that range the quotient can
    overflow: for 1 cm and 1e308 kg the form computes [Infinity], for
    which the listing has no BMI and shows No Data. *)
Theorem listing_shows_recorded_bmi (h w : Q) :
  plausible h w ->
  (exists r : Q,
      VitalsForm.bmi_value (Double.VitalsForm.calculateBMI (Fin h) (Fin w)) = Fin r
      /\ Double.VitalsFormV2.calculateBMI (Fin h) (Fin w) = Fin r
      /\ Double.PatientListingV2.parseBmiValue (BmiNumber (Fin r)) = Some (Fin r)
      /\ (truthy (Fin r) = true ->
          PatientListingV2.getBmiStatus
            (Double.PatientListingV2.parseBmiValue (BmiNumber (Fin r)))
          = VitalsForm.status (Double.VitalsForm.calculateBMI (Fin h) (Fin w))))
  /\ VitalsForm.bmi_value
       (Double.VitalsForm.calculateBMI (Fin 1) (Double.parseFloat "1e308")) = PInf
  /\ Double.PatientListingV2.parseBmiValue (BmiNumber PInf) = None
  /\ PatientListingV2.getBmiStatus (Double.PatientListingV2.parseBmiValue (BmiNumber PInf))
     = "No Data".
Proof.
  intro Hplausible.
  split; [|split; [vm_compute; reflexivity|split; vm_compute; reflexivity]].
  destruct (calculateBMI_double h w Hplausible)
    as (b & r & n & Hb & _ & _ & _ & _ & Hn0 & Hr & Hr1 & Hr2 & Hfix).
  assert (Hvalue : Double.VitalsFormV2.calculateBMI (Fin h) (Fin w) = Fin r).
  { unfold Double.VitalsFormV2.calculateBMI. cbn zeta. rewrite Hb. exact Hfix. }
  assert (Hsame : VitalsForm.bmi_value (Double.VitalsForm.calculateBMI (Fin h) (Fin w))
                  = Double.VitalsFormV2.calculateBMI (Fin h) (Fin w)) by reflexivity.
  pose proof (tenths_times_ten n) as Ht.
  assert (K1 : (inject_Z 0 <= inject_Z n)%Q) by (rewrite <- Zle_Qle; lia).
  assert (K2 : (inject_Z n <= inject_Z 2000000000001)%Q) by (rewrite <- Zle_Qle; lia).
  change (inject_Z 0) with 0%Q in K1.
  change (inject_Z 2000000000001) with 2000000000001%Q in K2.
  unfold unit_roundoff in Hr1, Hr2.
  assert (Hr0 : (0 <= r)%Q) by lra.
  assert (Hread : Double.PatientListingV2.parseBmiValue (BmiNumber (Fin r)) = Some (Fin r)).
  { unfold Double.PatientListingV2.parseBmiValue. cbn [isNaN isFinite negb orb].
    f_equal. unfold Double.toFixed1, JSNumber.toFixed1.
    assert (Hlim : Qle_bool toFixed_limit (Qabs r) = false).
    { destruct (Qle_bool toFixed_limit (Qabs r)) eqn:E; [|reflexivity].
      apply Qle_bool_iff in E. rewrite (Qabs_pos r Hr0) in E.
      unfold toFixed_limit in E. exfalso.
      change ((10 ^ 21)%Z # 1)%Q with 1000000000000000000000%Q in E. lra. }
    rewrite Hlim.
    assert (Hneg : Qneg r = false) by (apply Qltb_ge; exact Hr0).
    rewrite Hneg. cbn [Double.rounded].
    rewrite (nearest_tenths_unique r n); [exact Hr|lra|lra]. }
  exists r.
  split; [rewrite Hsame; exact Hvalue|]. split; [exact Hvalue|]. split; [exact Hread|].
  intro Htruthy. rewrite Hread.
  change (VitalsForm.status (Double.VitalsForm.calculateBMI (Fin h) (Fin w)))
    with (if lt (Double.VitalsFormV2.calculateBMI (Fin h) (Fin w)) (Fin (185 # 10))
          then "Underweight"
          else if lt (Double.VitalsFormV2.calculateBMI (Fin h) (Fin w)) (of_Z 25)
               then "Normal" else "Overweight").
  rewrite Hvalue. unfold PatientListingV2.getBmiStatus. rewrite Htruthy. reflexivity.
Qed.

(** ** Outcomes of the submit handlers *)

Lemma le_false_gt (x : number) :
  isNaN x = false -> le x (of_Z 0) = false -> gt x (of_Z 0) = true.
Proof.
  destruct x as [| | |q]; simpl; try discriminate; try reflexivity.
  intros _ H. unfold gt, lt. cbn [of_Z] in *. unfold le in H. cbn [lt of_Z] in H.
  apply negb_false_iff in H. exact H.
Qed.

(** X2.  What [handleSubmit] of the first vitals form can do.  Either it
    sets an error and issues nothing; or the patient has an id, height
    and weight read as numbers above zero, the date is not among the
    existing dates, and exactly one record is written, with the BMI
    [calculateBMI] gives for that height and weight.  It navigates only
    after a write that succeeded, to one of the two assessment pages, and
    hands on the patient, the BMI it stored and the category of that BMI;
    after a failed write it shows the failure and stays. *)
Theorem vitals_submit_outcomes (saved : write_result) (st : VitalsForm.State) :
  (snd (VitalsForm.handleSubmit saved st) = []
   /\ exists message, VitalsForm.error (fst (VitalsForm.handleSubmit saved st)) = Some message)
  \/ exists p payload,
       VitalsForm.patient st = Some p
       /\ empty (id p) = false
       /\ payload
          = {| VitalsForm.p_patient_id := id p;
               VitalsForm.p_visit_date := VitalsForm.visit_date (VitalsForm.formData st);
               VitalsForm.p_height_cm := parseFloat (VitalsForm.height_cm (VitalsForm.formData st));
               VitalsForm.p_weight_kg := parseFloat (VitalsForm.weight_kg (VitalsForm.formData st));
               VitalsForm.p_bmi :=
                 VitalsForm.bmi_value
                   (VitalsForm.calculateBMI
                      (parseFloat (VitalsForm.height_cm (VitalsForm.formData st)))
                      (parseFloat (VitalsForm.weight_kg (VitalsForm.formData st)))) |}
       /\ gt (VitalsForm.p_height_cm payload) (of_Z 0) = true
       /\ gt (VitalsForm.p_weight_kg payload) (of_Z 0) = true
       /\ empty (VitalsForm.p_visit_date payload) = false
       /\ VitalsForm.dateExists (VitalsForm.existingDates st) (VitalsForm.p_visit_date payload)
          = false
       /\ VitalsForm.isSubmitting (fst (VitalsForm.handleSubmit saved st)) = false
       /\ ((exists message,
               saved = Failed message
               /\ snd (VitalsForm.handleSubmit saved st) = [VitalsForm.CreateVitals payload]
               /\ VitalsForm.error (fst (VitalsForm.handleSubmit saved st)) = Some message)
           \/ (saved = Saved
               /\ VitalsForm.error (fst (VitalsForm.handleSubmit saved st)) = None
               /\ exists path,
                    snd (VitalsForm.handleSubmit saved st)
                    = [VitalsForm.CreateVitals payload;
                       VitalsForm.Navigate path
                         {| ls_patient := Some p;
                            ls_bmi := Some (VitalsForm.p_bmi payload);
                            ls_bmiStatus :=
                              Some (GeneralAssessmentForm.getBmiStatusText
                                      (VitalsForm.p_bmi payload)) |}]
                    /\ (App.route path = App.GeneralAssessmentForm
                        \/ App.route path = App.OverweightAssessmentForm))).
Proof.
  unfold VitalsForm.handleSubmit.
  cbn [VitalsForm.patient VitalsForm.setError VitalsForm.formData VitalsForm.existingDates].
  destruct (VitalsForm.patient st) as [p|] eqn:Hp;
    [|left; split; [reflexivity|eexists; reflexivity]].
  destruct (empty (id p)) eqn:Hid;
    [left; split; [reflexivity|eexists; reflexivity]|].
  destruct (empty (VitalsForm.visit_date (VitalsForm.formData st))) eqn:Hd;
    [left; split; [reflexivity|eexists; reflexivity]|].
  destruct (empty (VitalsForm.height_cm (VitalsForm.formData st))) eqn:Hh;
    [left; split; [reflexivity|eexists; reflexivity]|].
  destruct (empty (VitalsForm.weight_kg (VitalsForm.formData st))) eqn:Hw;
    [left; split; [reflexivity|eexists; reflexivity]|].
  cbn [orb].
  set (height := parseFloat (VitalsForm.height_cm (VitalsForm.formData st))).
  set (weight := parseFloat (VitalsForm.weight_kg (VitalsForm.formData st))).
  destruct (isNaN height) eqn:Hnh; [left; split; [reflexivity|eexists; reflexivity]|].
  destruct (isNaN weight) eqn:Hnw; [left; split; [reflexivity|eexists; reflexivity]|].
  destruct (le height (of_Z 0)) eqn:Hlh; [left; split; [reflexivity|eexists; reflexivity]|].
  destruct (le weight (of_Z 0)) eqn:Hlw; [left; split; [reflexivity|eexists; reflexivity]|].
  cbn [orb].
  destruct (VitalsForm.dateExists (VitalsForm.existingDates st)
              (VitalsForm.visit_date (VitalsForm.formData st))) eqn:Hdup;
    [left; split; [reflexivity|eexists; reflexivity]|].
  right. exists p. eexists. split; [reflexivity|]. split; [exact Hid|].
  split; [reflexivity|].
  cbn [VitalsForm.p_height_cm VitalsForm.p_weight_kg VitalsForm.p_visit_date VitalsForm.p_bmi].
  split; [apply le_false_gt; assumption|].
  split; [apply le_false_gt; assumption|].
  split; [exact Hd|]. split; [exact Hdup|].
  destruct saved as [|message].
  - split; [reflexivity|]. right. split; [reflexivity|]. split; [reflexivity|].
    eexists. split.
    + cbn [snd]. rewrite <- calculateBMI_status. reflexivity.
    + destruct (le (VitalsForm.bmi_value (VitalsForm.calculateBMI height weight)) (of_Z 25));
        [left|right]; reflexivity.
  - split; [reflexivity|]. left. exists message. repeat split.
Qed.

(** ** The second vitals form: ranges *)




Section SecondVitalsFormRange.
Context {host : DateHost}.


Lemma v2_write_valid (now : Z) (saved : write_result) (st : VitalsFormV2.State)
    (payload : VitalsFormV2.VitalsPayload) :
  In (VitalsFormV2.CreateVitals payload) (snd (VitalsFormV2.handleSubmit now saved st)) ->
  snd (VitalsFormV2.validateForm now st) = true
  /\ payload
     = {| VitalsFormV2.p_patient_id := VitalsFormV2.patientUUID st;
          VitalsFormV2.p_visit_date := VitalsFormV2.visit_date (VitalsFormV2.formData st);
          VitalsFormV2.p_height_cm := parseFloat (VitalsFormV2.height_cm (VitalsFormV2.formData st));
          VitalsFormV2.p_weight_kg := parseFloat (VitalsFormV2.weight_kg (VitalsFormV2.formData st));
          VitalsFormV2.p_bmi := VitalsFormV2.bmi (VitalsFormV2.formData st) |}.
Proof.
  unfold VitalsFormV2.handleSubmit.
  destruct (VitalsFormV2.validateForm now st) as [newErrors isValid]. cbn [snd].
  destruct isValid; cbn [negb].
  - intro H. split; [reflexivity|].
    destruct saved; cbn [snd In] in H.
    + destruct H as [H|[H|[H|[]]]]; try discriminate. now injection H as <-.
    + destruct H as [H|[H|[]]]; try discriminate. now injection H as <-.
  - cbn [snd].
    destruct (empty (VitalsFormV2.e_patient (VitalsFormV2.errors st))); cbn [In].
    + intros [].
    + intros [H|[]]; discriminate.
Qed.




Lemma v2_navigation_bmi (now : Z) (saved : write_result) (st : VitalsFormV2.State)
    (path : string) (ls : LocationState) :
  In (VitalsFormV2.Navigate path ls) (snd (VitalsFormV2.handleSubmit now saved st)) ->
  ls_bmi ls
  = Some (VitalsFormV2.calculateBMI
            (parseFloat (VitalsFormV2.height_cm (VitalsFormV2.formData st)))
            (parseFloat (VitalsFormV2.weight_kg (VitalsFormV2.formData st))))
  /\ path
     = if le (VitalsFormV2.calculateBMI
                (parseFloat (VitalsFormV2.height_cm (VitalsFormV2.formData st)))
                (parseFloat (VitalsFormV2.weight_kg (VitalsFormV2.formData st))))
             (of_Z 25)
       then "/general-assessment" else "/overweight-assessment".
Proof.
  unfold VitalsFormV2.handleSubmit.
  destruct (VitalsFormV2.validateForm now st) as [newErrors isValid].
  destruct isValid; cbn [negb].
  - destruct saved; cbn [snd In].
    + intros [H'|[H'|[H'|[]]]]; try discriminate.
      injection H' as <- <-. split; reflexivity.
    + intros [H'|[H'|[]]]; discriminate.
  - cbn [snd].
    destruct (empty (VitalsFormV2.e_patient (VitalsFormV2.errors st))); cbn [In].
    + intros [].
    + intros [H|[]]; discriminate.
Qed.


End SecondVitalsFormRange.

Section SecondVitalsFormSync.
Context {host : DateHost}.



End SecondVitalsFormSync.

(** ** The first vitals form: the BMI panel *)

Lemma recalculate_fields (st : VitalsForm.State) :
  VitalsFormPage.recalculate st
  = {| VitalsForm.patient := VitalsForm.patient st;
       VitalsForm.formData := VitalsForm.formData st;
       VitalsForm.bmi := VitalsForm.bmi (VitalsFormPage.recalculate st);
       VitalsForm.bmiStatus := VitalsForm.bmiStatus (VitalsFormPage.recalculate st);
       VitalsForm.isSubmitting := VitalsForm.isSubmitting st;
       VitalsForm.error := VitalsForm.error st;
       VitalsForm.existingDates := VitalsForm.existingDates st |}.
Proof.
  unfold VitalsFormPage.recalculate.
  destruct (truthy _ && truthy _ && gt _ _ && gt _ _); reflexivity.
Qed.

Lemma recalculate_reads_form (st st' : VitalsForm.State) :
  VitalsForm.height_cm (VitalsForm.formData st') = VitalsForm.height_cm (VitalsForm.formData st) ->
  VitalsForm.weight_kg (VitalsForm.formData st') = VitalsForm.weight_kg (VitalsForm.formData st) ->
  VitalsForm.bmi (VitalsFormPage.recalculate st') = VitalsForm.bmi (VitalsFormPage.recalculate st)
  /\ VitalsForm.bmiStatus (VitalsFormPage.recalculate st')
     = VitalsForm.bmiStatus (VitalsFormPage.recalculate st).
Proof.
  intros Hh Hw. unfold VitalsFormPage.recalculate. rewrite Hh, Hw.
  destruct (truthy _ && truthy _ && gt _ _ && gt _ _); split; reflexivity.
Qed.

Lemma recalculate_idempotent (st : VitalsForm.State) :
  VitalsFormPage.recalculate (VitalsFormPage.recalculate st) = VitalsFormPage.recalculate st.
Proof.
  destruct st as [p fd b bs sub err dates].
  unfold VitalsFormPage.recalculate at 2.
  cbn [VitalsForm.formData].
  destruct (truthy (parseFloat (VitalsForm.height_cm fd))
            && truthy (parseFloat (VitalsForm.weight_kg fd))
            && gt (parseFloat (VitalsForm.height_cm fd)) (of_Z 0)
            && gt (parseFloat (VitalsForm.weight_kg fd)) (of_Z 0)) eqn:E;
    unfold VitalsFormPage.recalculate;
    cbn [VitalsForm.formData VitalsFormPage.setBmiStatus VitalsFormPage.setBmi];
    rewrite E; reflexivity.
Qed.

Lemma input_effect_ran (name : VitalsFormPage.field) (value : string) (st : VitalsForm.State) :
  effect_ran st -> effect_ran (VitalsFormPage.input name value st).
Proof.
  unfold effect_ran. intro Hsync.
  destruct name; unfold VitalsFormPage.input; try apply recalculate_idempotent.
  destruct st as [p fd b bs sub err dates].
  unfold VitalsFormPage.recalculate in Hsync. cbn [VitalsForm.formData] in Hsync.
  unfold VitalsFormPage.handleChange, VitalsFormPage.recalculate.
  cbn [VitalsForm.formData VitalsForm.error].
  destruct (truthy (parseFloat (VitalsForm.height_cm fd))
            && truthy (parseFloat (VitalsForm.weight_kg fd))
            && gt (parseFloat (VitalsForm.height_cm fd)) (of_Z 0)
            && gt (parseFloat (VitalsForm.weight_kg fd)) (of_Z 0)) eqn:E;
    cbn [VitalsFormPage.setBmiStatus VitalsFormPage.setBmi VitalsForm.patient
         VitalsForm.formData VitalsForm.bmi VitalsForm.bmiStatus VitalsForm.isSubmitting
         VitalsForm.error VitalsForm.existingDates] in Hsync;
    injection Hsync as Hb Hbs;
    (destruct err as [message|]; [destruct (empty message)|]);
    cbn [VitalsFormPage.setFormData VitalsForm.setError VitalsForm.formData
         VitalsForm.height_cm VitalsForm.weight_kg VitalsForm.patient VitalsForm.bmi
         VitalsForm.bmiStatus VitalsForm.isSubmitting VitalsForm.error
         VitalsForm.existingDates];
    rewrite E;
    cbn [VitalsFormPage.setBmiStatus VitalsFormPage.setBmi VitalsForm.patient
         VitalsForm.formData VitalsForm.bmi VitalsForm.bmiStatus VitalsForm.isSubmitting
         VitalsForm.error VitalsForm.existingDates];
    subst b bs; reflexivity.
Qed.

Lemma vitals_navigates (st : VitalsForm.State) (payload : VitalsForm.VitalsPayload)
    (path : string) (ls : LocationState) :
  snd (VitalsForm.handleSubmit Saved st)
  = [VitalsForm.CreateVitals payload; VitalsForm.Navigate path ls] ->
  isNaN (parseFloat (VitalsForm.height_cm (VitalsForm.formData st))) = false
  /\ isNaN (parseFloat (VitalsForm.weight_kg (VitalsForm.formData st))) = false
  /\ le (parseFloat (VitalsForm.height_cm (VitalsForm.formData st))) (of_Z 0) = false
  /\ le (parseFloat (VitalsForm.weight_kg (VitalsForm.formData st))) (of_Z 0) = false
  /\ VitalsForm.p_bmi payload
     = VitalsForm.bmi_value
         (VitalsForm.calculateBMI
            (parseFloat (VitalsForm.height_cm (VitalsForm.formData st)))
            (parseFloat (VitalsForm.weight_kg (VitalsForm.formData st))))
  /\ ls_bmi ls = Some (VitalsForm.p_bmi payload)
  /\ ls_bmiStatus ls
     = Some (VitalsForm.status
               (VitalsForm.calculateBMI
                  (parseFloat (VitalsForm.height_cm (VitalsForm.formData st)))
                  (parseFloat (VitalsForm.weight_kg (VitalsForm.formData st)))))
  /\ path = (if le (VitalsForm.p_bmi payload) (of_Z 25)
             then "/general-assessment" else "/overweight-assessment")
  /\ ls = {| ls_patient := VitalsForm.patient st;
             ls_bmi := ls_bmi ls;
             ls_bmiStatus := ls_bmiStatus ls |}
  /\ VitalsForm.patient st <> None.
Proof.
  unfold VitalsForm.handleSubmit.
  cbn [VitalsForm.patient VitalsForm.setError VitalsForm.formData VitalsForm.existingDates].
  destruct (VitalsForm.patient st) as [p|]; [|discriminate].
  destruct (empty (id p)); [discriminate|].
  destruct (empty (VitalsForm.visit_date (VitalsForm.formData st))
            || empty (VitalsForm.height_cm (VitalsForm.formData st))
            || empty (VitalsForm.weight_kg (VitalsForm.formData st))); [discriminate|].
  destruct (isNaN (parseFloat (VitalsForm.height_cm (VitalsForm.formData st))));
    [discriminate|].
  destruct (isNaN (parseFloat (VitalsForm.weight_kg (VitalsForm.formData st))));
    [discriminate|].
  destruct (le (parseFloat (VitalsForm.height_cm (VitalsForm.formData st))) (of_Z 0));
    [discriminate|].
  destruct (le (parseFloat (VitalsForm.weight_kg (VitalsForm.formData st))) (of_Z 0));
    [discriminate|].
  cbn [orb].
  destruct (VitalsForm.dateExists _ _); [discriminate|].
  cbn [snd]. intro Heq. injection Heq as <- <- <-.
  cbn [VitalsForm.p_bmi ls_bmi ls_bmiStatus]. repeat split. discriminate.
Qed.

(** X5.  The BMI panel of the first vitals form announces the form that
    is loaded.  Once the recalculation effect has run, which it has
    after mounting and after every input event, a submission that
    navigates hands on exactly the BMI and the category the panel was
    showing; and whenever the panel was on screen, its badge was that
    category in capitals and the next step it announced is the page the
    handler navigates to. *)
Theorem first_vitals_form_panel_announces_route :
  (forall st, effect_ran (VitalsFormPage.recalculate st))
  /\ (forall name value st,
         effect_ran st -> effect_ran (VitalsFormPage.input name value st))
  /\ (forall st payload path ls,
         effect_ran st ->
         snd (VitalsForm.handleSubmit Saved st)
         = [VitalsForm.CreateVitals payload; VitalsForm.Navigate path ls] ->
         VitalsForm.bmi st = Some (VitalsForm.p_bmi payload)
         /\ ls_bmi ls = VitalsForm.bmi st
         /\ ls_bmiStatus ls = Some (VitalsForm.bmiStatus st)
         /\ VitalsForm.bmiStatus st
            = GeneralAssessmentForm.getBmiStatusText (VitalsForm.p_bmi payload)
         /\ forall shown,
              VitalsFormPage.panel st = Some shown ->
              VitalsFormPage.badge shown = JSText.toUpperCase (VitalsForm.bmiStatus st)
              /\ (VitalsFormPage.next_step shown = GeneralAssessmentAnnounced ->
                  App.route path = App.GeneralAssessmentForm)
              /\ (VitalsFormPage.next_step shown = OverweightAssessmentAnnounced ->
                  App.route path = App.OverweightAssessmentForm)).
Proof.
  split; [exact recalculate_idempotent|].
  split; [exact input_effect_ran|].
  intros st payload path ls Hsync Hsubmit.
  destruct (vitals_navigates st payload path ls Hsubmit)
    as (Hnh & Hnw & Hlh & Hlw & Epayload & Els & Elabel & Epath & _).
  assert (Hcond :
    truthy (parseFloat (VitalsForm.height_cm (VitalsForm.formData st)))
    && truthy (parseFloat (VitalsForm.weight_kg (VitalsForm.formData st)))
    && gt (parseFloat (VitalsForm.height_cm (VitalsForm.formData st))) (of_Z 0)
    && gt (parseFloat (VitalsForm.weight_kg (VitalsForm.formData st))) (of_Z 0) = true).
  { pose proof (le_false_gt _ Hnh Hlh) as Hh. pose proof (le_false_gt _ Hnw Hlw) as Hw.
    rewrite Hh, Hw.
    destruct (parseFloat (VitalsForm.height_cm (VitalsForm.formData st))) as [| | |qh];
      try discriminate;
      destruct (parseFloat (VitalsForm.weight_kg (VitalsForm.formData st))) as [| | |qw];
      try discriminate; try reflexivity; cbn [truthy andb];
      unfold gt, lt, of_Z in Hh, Hw;
      repeat match goal with
             | H : Qltb (inject_Z 0) ?q = true |- context [Qzero ?q] =>
                 rewrite (Qzero_false q)
                   by (apply Qltb_lt in H; change (inject_Z 0) with 0%Q in H; lra)
             end; reflexivity. }
  unfold effect_ran, VitalsFormPage.recalculate in Hsync. rewrite Hcond in Hsync.
  assert (Ebmi : VitalsForm.bmi st = Some (VitalsForm.p_bmi payload)).
  { rewrite <- Hsync at 1. rewrite Epayload. reflexivity. }
  assert (Estatus : VitalsForm.bmiStatus st
                    = GeneralAssessmentForm.getBmiStatusText (VitalsForm.p_bmi payload)).
  { rewrite <- Hsync at 1. rewrite Epayload.
    cbn [VitalsFormPage.setBmiStatus VitalsForm.bmiStatus].
    apply calculateBMI_status. }
  split; [exact Ebmi|]. split; [rewrite Els; symmetry; exact Ebmi|].
  split; [rewrite Elabel, Estatus, Epayload, calculateBMI_status; reflexivity|].
  split; [exact Estatus|].
  intros shown Hshown. unfold VitalsFormPage.panel in Hshown. rewrite Ebmi in Hshown.
  destruct (truthy (VitalsForm.p_bmi payload)); [|discriminate].
  injection Hshown as <-.
  cbn [VitalsFormPage.badge VitalsFormPage.next_step].
  split; [reflexivity|].
  rewrite Epath.
  destruct (le (VitalsForm.p_bmi payload) (of_Z 25));
    split; intro; try discriminate; reflexivity.
Qed.

(** ** From the listed records to the duplicate check *)

Section ListedDates.
Context {host : DateHost}.

Lemma three_shapes_truthy {A : Type} (data : json A) (v : A) :
  In v (PatientListing.extractArrayFromResponse data) -> Json.truthy data = true.
Proof.
  destruct data as [| | b | n | s | items | props]; simpl; try contradiction; reflexivity.
Qed.

Lemma fetchExistingVitals_lists (st : VitalsForm.State) (p : PatientData)
    (data : json VitalsForm.ExistingVital) (v : VitalsForm.ExistingVital) :
  VitalsForm.patient st = Some p -> empty (id p) = false ->
  In v (PatientListing.extractArrayFromResponse data) ->
  In (match isoDay (VitalsForm.ev_visit_date v) with
      | Some d => d
      | None => VitalsForm.ev_visit_date v
      end)
     (VitalsForm.existingDates (VitalsForm.fetchExistingVitals (Fulfilled data) st)).
Proof.
  intros Hp Hid Hin. unfold VitalsForm.fetchExistingVitals. rewrite Hp, Hid.
  rewrite (three_shapes_truthy data v Hin).
  cbn [VitalsForm.setExistingDates VitalsForm.existingDates].
  apply (in_map (fun vital =>
                   match isoDay (VitalsForm.ev_visit_date vital) with
                   | Some d => d
                   | None => VitalsForm.ev_visit_date vital
                   end)).
  exact Hin.
Qed.

Lemma assessment_dates_lists (l : list RawAssessment) (a : RawAssessment) (s : string) :
  In a l -> ra_visit_date a = Some s ->
  empty (match isoDay s with Some d => d | None => s end) = false ->
  In (match isoDay s with Some d => d | None => s end) (assessment_dates l).
Proof.
  intros Hin Hs Hne. unfold assessment_dates. apply in_flat_map.
  exists a. split; [exact Hin|]. rewrite Hs. cbn zeta. rewrite Hne. left. reflexivity.
Qed.

(** With no date in the date field the browser reports the missing
    value, and with a date of the date list the submit button is
    disabled: either way a click does not reach [handleSubmit]. *)
Lemma general_click_needs_new_date (now : Z) (ls : LocationState) (saved : write_result)
    (st : GeneralAssessmentForm.State) :
  empty (GeneralAssessmentForm.visit_date (GeneralAssessmentForm.formData st)) = true
  \/ includes (GeneralAssessmentForm.existingDates st)
       (GeneralAssessmentForm.visit_date (GeneralAssessmentForm.formData st)) = true ->
  forall result, GeneralAssessmentFormPage.click now ls saved st <> SubmitHandled result.
Proof.
  intros H result. unfold GeneralAssessmentFormPage.click.
  destruct (GeneralAssessmentForm.render ls); try discriminate.
  destruct H as [He|Hi].
  - destruct (_ || _); [discriminate|].
    unfold GeneralAssessmentFormPage.valid. cbn zeta.
    destruct (GeneralAssessmentForm.visit_date (GeneralAssessmentForm.formData st));
      [|discriminate He].
    discriminate.
  - rewrite Hi, orb_true_r. discriminate.
Qed.

Lemma overweight_click_needs_new_date (now : Z) (ls : LocationState) (saved : write_result)
    (st : OverweightAssessmentForm.State) :
  empty (OverweightAssessmentForm.visit_date (OverweightAssessmentForm.formData st)) = true
  \/ includes (OverweightAssessmentForm.existingDates st)
       (OverweightAssessmentForm.visit_date (OverweightAssessmentForm.formData st)) = true ->
  forall result, OverweightAssessmentFormPage.click now ls saved st <> SubmitHandled result.
Proof.
  intros H result. unfold OverweightAssessmentFormPage.click.
  destruct (OverweightAssessmentForm.render ls); try discriminate.
  destruct H as [He|Hi].
  - destruct (_ || _); [discriminate|].
    unfold OverweightAssessmentFormPage.valid. cbn zeta.
    destruct (OverweightAssessmentForm.visit_date (OverweightAssessmentForm.formData st));
      [|discriminate He].
    discriminate.
  - rewrite Hi, orb_true_r. discriminate.
Qed.

Lemma general_refuses_without_new_date (ls : LocationState) (saved : write_result)
    (st : GeneralAssessmentForm.State) :
  empty (GeneralAssessmentForm.visit_date (GeneralAssessmentForm.formData st)) = true
  \/ includes (GeneralAssessmentForm.existingDates st)
       (GeneralAssessmentForm.visit_date (GeneralAssessmentForm.formData st)) = true ->
  snd (GeneralAssessmentForm.handleSubmit ls saved st) = []
  /\ exists message,
       GeneralAssessmentForm.error (fst (GeneralAssessmentForm.handleSubmit ls saved st))
       = Some message.
Proof.
  intros [He|Hi]; [|exact (general_duplicate_rejected ls saved st Hi)].
  unfold GeneralAssessmentForm.handleSubmit.
  cbn [GeneralAssessmentForm.formData GeneralAssessmentForm.setError].
  destruct (ls_patient ls) as [p|]; [|split; [reflexivity|eexists; reflexivity]].
  destruct (empty (id p)); [split; [reflexivity|eexists; reflexivity]|].
  rewrite He. split; [reflexivity|eexists; reflexivity].
Qed.

Lemma overweight_refuses_without_new_date (ls : LocationState) (saved : write_result)
    (st : OverweightAssessmentForm.State) :
  empty (OverweightAssessmentForm.visit_date (OverweightAssessmentForm.formData st)) = true
  \/ includes (OverweightAssessmentForm.existingDates st)
       (OverweightAssessmentForm.visit_date (OverweightAssessmentForm.formData st)) = true ->
  snd (OverweightAssessmentForm.handleSubmit ls saved st) = []
  /\ exists message,
       OverweightAssessmentForm.error (fst (OverweightAssessmentForm.handleSubmit ls saved st))
       = Some message.
Proof.
  intros [He|Hi]; [|exact (overweight_duplicate_rejected ls saved st Hi)].
  unfold OverweightAssessmentForm.handleSubmit.
  cbn [OverweightAssessmentForm.formData OverweightAssessmentForm.setError].
  destruct (ls_patient ls) as [p|]; [|split; [reflexivity|eexists; reflexivity]].
  destruct (empty (id p)); [split; [reflexivity|eexists; reflexivity]|].
  rewrite He. split; [reflexivity|eexists; reflexivity].
Qed.

(** X6.  A date the backend lists is refused on submission.  After the
    existing records have been read, the date list of each form holds,
    for every listed record, the UTC day of its visit date (the raw
    field when it does not parse); [handleSubmit] of a form that holds
    such a date in its date field writes nothing and sets an error.
    This holds for the first vitals form and for both assessment forms,
    whichever of the three response shapes the backend uses.  On the page
    of an assessment form the submit button is disabled for such a date
    (and an empty date is reported by the browser), so the click does
    not reach [handleSubmit] in the first place. *)
Theorem listed_visit_date_is_refused (saved : write_result) (p : PatientData) :
  empty (id p) = false ->
  (forall st data v,
      VitalsForm.patient st = Some p ->
      In v (PatientListing.extractArrayFromResponse data) ->
      VitalsForm.visit_date (VitalsForm.formData st)
      = match isoDay (VitalsForm.ev_visit_date v) with
        | Some d => d
        | None => VitalsForm.ev_visit_date v
        end ->
      snd (VitalsForm.handleSubmit saved (VitalsForm.fetchExistingVitals (Fulfilled data) st))
      = []
      /\ exists message,
           VitalsForm.error
             (fst (VitalsForm.handleSubmit saved
                     (VitalsForm.fetchExistingVitals (Fulfilled data) st)))
           = Some message)
  /\ (forall ls st data a s,
         ls_patient ls = Some p ->
         In a (assessments_of data) ->
         ra_visit_date a = Some s ->
         GeneralAssessmentForm.visit_date (GeneralAssessmentForm.formData st)
         = match isoDay s with Some d => d | None => s end ->
         snd (GeneralAssessmentForm.handleSubmit ls saved
                (GeneralAssessmentForm.fetchExistingAssessments ls (Fulfilled data) st))
         = []
         /\ (exists message,
                GeneralAssessmentForm.error
                  (fst (GeneralAssessmentForm.handleSubmit ls saved
                          (GeneralAssessmentForm.fetchExistingAssessments ls (Fulfilled data)
                             st)))
                = Some message)
         /\ forall now result,
              GeneralAssessmentFormPage.click now ls saved
                (GeneralAssessmentForm.fetchExistingAssessments ls (Fulfilled data) st)
              <> SubmitHandled result)
  /\ (forall ls st data a s,
         ls_patient ls = Some p ->
         In a (assessments_of data) ->
         ra_visit_date a = Some s ->
         OverweightAssessmentForm.visit_date (OverweightAssessmentForm.formData st)
         = match isoDay s with Some d => d | None => s end ->
         snd (OverweightAssessmentForm.handleSubmit ls saved
                (OverweightAssessmentForm.fetchExistingAssessments ls (Fulfilled data) st))
         = []
         /\ (exists message,
                OverweightAssessmentForm.error
                  (fst (OverweightAssessmentForm.handleSubmit ls saved
                          (OverweightAssessmentForm.fetchExistingAssessments ls
                             (Fulfilled data) st)))
                = Some message)
         /\ forall now result,
              OverweightAssessmentFormPage.click now ls saved
                (OverweightAssessmentForm.fetchExistingAssessments ls (Fulfilled data) st)
              <> SubmitHandled result).
Proof.
  intro Hid. split; [|split].
  - intros st data v Hp Hin Hdate.
    apply vitals_duplicate_rejected.
    apply dateExists_In.
    replace (VitalsForm.formData (VitalsForm.fetchExistingVitals (Fulfilled data) st))
      with (VitalsForm.formData st).
    + rewrite Hdate. apply (fetchExistingVitals_lists st p data v Hp Hid Hin).
    + unfold VitalsForm.fetchExistingVitals. rewrite Hp, Hid.
      rewrite (three_shapes_truthy data v Hin). reflexivity.
  - intros ls st data a s Hp Hin Hs Hdate.
    set (st' := GeneralAssessmentForm.fetchExistingAssessments ls (Fulfilled data) st).
    assert (Hcase :
      empty (GeneralAssessmentForm.visit_date (GeneralAssessmentForm.formData st')) = true
      \/ includes (GeneralAssessmentForm.existingDates st')
           (GeneralAssessmentForm.visit_date (GeneralAssessmentForm.formData st')) = true).
    { unfold st', GeneralAssessmentForm.fetchExistingAssessments. rewrite Hp, Hid.
      cbn [GeneralAssessmentForm.setExistingDates GeneralAssessmentForm.existingDates
           GeneralAssessmentForm.formData].
      destruct (empty (GeneralAssessmentForm.visit_date (GeneralAssessmentForm.formData st)))
        eqn:Hempty; [left; reflexivity|right].
      apply includes_In. rewrite Hdate in *.
      apply (assessment_dates_lists _ a s Hin Hs Hempty). }
    destruct (general_refuses_without_new_date ls saved st' Hcase) as [Hnone Herror].
    split; [exact Hnone|]. split; [exact Herror|].
    intros now result. apply general_click_needs_new_date. exact Hcase.
  - intros ls st data a s Hp Hin Hs Hdate.
    set (st' := OverweightAssessmentForm.fetchExistingAssessments ls (Fulfilled data) st).
    assert (Hcase :
      empty (OverweightAssessmentForm.visit_date (OverweightAssessmentForm.formData st'))
      = true
      \/ includes (OverweightAssessmentForm.existingDates st')
           (OverweightAssessmentForm.visit_date (OverweightAssessmentForm.formData st'))
         = true).
    { unfold st', OverweightAssessmentForm.fetchExistingAssessments. rewrite Hp, Hid.
      cbn [OverweightAssessmentForm.setExistingDates OverweightAssessmentForm.existingDates
           OverweightAssessmentForm.formData].
      destruct (empty (OverweightAssessmentForm.visit_date
                         (OverweightAssessmentForm.formData st)))
        eqn:Hempty; [left; reflexivity|right].
      apply includes_In. rewrite Hdate in *.
      apply (assessment_dates_lists _ a s Hin Hs Hempty). }
    destruct (overweight_refuses_without_new_date ls saved st' Hcase) as [Hnone Herror].
    split; [exact Hnone|]. split; [exact Herror|].
    intros now result. apply overweight_click_needs_new_date. exact Hcase.
Qed.

Lemma existing_days_None (visits : list string) :
  VitalsFormV2.existing_days visits = None
  <-> exists v, In v visits /\ empty v = false /\ isoDay v = None.
Proof.
  induction visits as [|v rest IH]; cbn [VitalsFormV2.existing_days].
  - split; [discriminate|intros (v & [] & _)].
  - destruct (empty v) eqn:Hv.
    + rewrite IH. split.
      * intros (x & Hin & Hx). exists x. split; [right; exact Hin|exact Hx].
      * intros (x & [->|Hin] & Hne & Hx); [congruence|]. exists x. auto.
    + destruct (isoDay v) as [d|] eqn:Hd.
      * destruct (VitalsFormV2.existing_days rest) as [ds|] eqn:Hrest.
        -- split; [discriminate|].
           intros (x & [->|Hin] & Hne & Hx); [congruence|].
           exfalso. assert (Habs : Some ds = None) by (apply IH; exists x; auto).
           discriminate.
        -- split; [|reflexivity]. intros _.
           destruct (proj1 IH eq_refl) as (x & Hin & Hx).
           exists x. split; [right; exact Hin|exact Hx].
      * split; [|reflexivity]. intros _. exists v. split; [left; reflexivity|]. auto.
Qed.

Lemma existing_days_Some (visits dates : list string) (v d : string) :
  VitalsFormV2.existing_days visits = Some dates ->
  In v visits -> isoDay v = Some d -> empty v = false -> empty d = false ->
  In d dates.
Proof.
  revert dates. induction visits as [|x rest IH]; intros dates Hdays Hin Hd Hv Hne;
    [destruct Hin|].
  cbn [VitalsFormV2.existing_days] in Hdays.
  destruct Hin as [->|Hin].
  - rewrite Hv, Hd in Hdays.
    destruct (VitalsFormV2.existing_days rest) as [ds|]; [|discriminate].
    rewrite Hne in Hdays. injection Hdays as <-. left. reflexivity.
  - destruct (empty x).
    + apply IH; assumption.
    + destruct (isoDay x) as [dx|]; [|discriminate].
      destruct (VitalsFormV2.existing_days rest) as [ds|]; [|discriminate].
      injection Hdays as <-.
      destruct (empty dx); [|right]; apply IH; auto.
Qed.

(** X7.  The second vitals form reads the existing dates all or nothing.
    With a valid patient UUID and a response that lists records: if the
    date of one listed record ([visit_date], or else [created_at]) is
    not empty and does not parse, the whole update is dropped and the
    date list stays as it was; if every such date parses, the UTC day of
    each listed record is in the date list, and a form holding that day
    in its date field writes nothing. *)
Theorem second_vitals_form_dates_all_or_nothing
    (first second : response RawVital) (data : json RawVital) (st : VitalsFormV2.State) :
  VitalsFormV2.isValidUUID (VitalsFormV2.patientUUID st) = true ->
  first = Fulfilled data \/ (first = Rejected /\ second = Fulfilled data) ->
  ((exists v,
       In v (VitalsFormV2.extractArrayFromResponse data)
       /\ empty (VitalsFormV2.or_else (rv_visit_date v) (rv_created_at v)) = false
       /\ isoDay (VitalsFormV2.or_else (rv_visit_date v) (rv_created_at v)) = None) ->
   VitalsFormV2.fetchVitals first second st = st)
  /\ ((forall v,
         In v (VitalsFormV2.extractArrayFromResponse data) ->
         empty (VitalsFormV2.or_else (rv_visit_date v) (rv_created_at v)) = false ->
         exists d, isoDay (VitalsFormV2.or_else (rv_visit_date v) (rv_created_at v)) = Some d) ->
      forall v d,
        In v (VitalsFormV2.extractArrayFromResponse data) ->
        isoDay (VitalsFormV2.or_else (rv_visit_date v) (rv_created_at v)) = Some d ->
        empty (VitalsFormV2.or_else (rv_visit_date v) (rv_created_at v)) = false ->
        empty d = false ->
        In d (VitalsFormV2.existingDates (VitalsFormV2.fetchVitals first second st))
        /\ (VitalsFormV2.visit_date (VitalsFormV2.formData st) = d ->
            forall now saved,
              only_alerts
                (snd (VitalsFormV2.handleSubmit now saved
                        (VitalsFormV2.fetchVitals first second st))))).
Proof.
  intros Huuid Hsettled.
  assert (Hne : empty (VitalsFormV2.patientUUID st) = false).
  { unfold VitalsFormV2.isValidUUID in Huuid.
    destruct (empty (VitalsFormV2.patientUUID st)); [discriminate|reflexivity]. }
  assert (Hfetch :
    VitalsFormV2.fetchVitals first second st
    = match VitalsFormV2.existing_days
              (map (fun v => VitalsFormV2.or_else (rv_visit_date v) (rv_created_at v))
                   (VitalsFormV2.extractArrayFromResponse data)) with
      | Some dates => VitalsFormV2.setExistingDates dates st
      | None => st
      end).
  { unfold VitalsFormV2.fetchVitals. rewrite Hne, Huuid. cbn [negb orb].
    destruct Hsettled as [->|[-> ->]]; reflexivity. }
  split.
  - intros (v & Hin & Hv & Hd).
    rewrite Hfetch.
    replace (VitalsFormV2.existing_days
               (map (fun v => VitalsFormV2.or_else (rv_visit_date v) (rv_created_at v))
                    (VitalsFormV2.extractArrayFromResponse data))) with (@None (list string));
      [reflexivity|].
    symmetry. apply existing_days_None.
    exists (VitalsFormV2.or_else (rv_visit_date v) (rv_created_at v)).
    split; [|split; assumption].
    apply (in_map (fun v => VitalsFormV2.or_else (rv_visit_date v) (rv_created_at v))).
    exact Hin.
  - intros Hall v d Hin Hd Hv Hdne.
    destruct (VitalsFormV2.existing_days
                (map (fun v => VitalsFormV2.or_else (rv_visit_date v) (rv_created_at v))
                     (VitalsFormV2.extractArrayFromResponse data))) as [dates|] eqn:Hdays.
    + assert (Hlisted : In d dates).
      { apply (existing_days_Some _ dates
                 (VitalsFormV2.or_else (rv_visit_date v) (rv_created_at v)) d Hdays);
          try assumption.
        apply (in_map (fun v => VitalsFormV2.or_else (rv_visit_date v) (rv_created_at v))).
        exact Hin. }
      rewrite Hfetch. cbn [VitalsFormV2.setExistingDates VitalsFormV2.existingDates].
      split; [exact Hlisted|].
      intros Hdate now saved.
      apply v2_invalid_only_alerts. apply v2_duplicate_invalid.
      cbn [VitalsFormV2.setExistingDates VitalsFormV2.existingDates VitalsFormV2.formData].
      rewrite Hdate. apply includes_In. exact Hlisted.
    + exfalso. apply existing_days_None in Hdays.
      destruct Hdays as (x & Hx & Hxne & Hxd).
      apply in_map_iff in Hx. destruct Hx as (v' & <- & Hv').
      destruct (Hall v' Hv' Hxne) as [d' Hd']. congruence.
Qed.

End ListedDates.

(** ** The listings: settling, order and failures *)

Section Settling.
Context {A : Type}.

Lemma collect_hole (slots : list (option A)) (i : nat) :
  nth_error slots i = Some None -> Promise.collect slots = None.
Proof.
  revert i. induction slots as [|s slots IH]; intros [|i] H; simpl in *; try discriminate.
  - injection H as ->. reflexivity.
  - destruct s; [|reflexivity]. now rewrite (IH i H).
Qed.

Lemma Promise_all_settled (values : list A) (order : list nat) :
  (forall i, (i < List.length values)%nat -> In i order) ->
  Promise.all values order = Some values.
Proof.
  intro Hall. unfold Promise.all.
  change (fun slots i => match nth_error values i with
                         | Some v => Promise.store i v slots
                         | None => slots
                         end) with (settle values).
  destruct (settle_all values order (repeat None (List.length values))) as [Hlen Hj];
    [apply repeat_length|].
  assert (Hslots : fold_left (settle values) order (repeat None (List.length values))
                   = map Some values).
  { apply nth_error_ext. intro j. rewrite nth_error_map.
    destruct (Nat.lt_ge_cases j (List.length values)) as [Hlt | Hge].
    - rewrite (proj1 (Hj j)); [|apply Hall; exact Hlt|exact Hlt].
      destruct (nth_error values j) eqn:Ev; [reflexivity|].
      apply nth_error_None in Ev. lia.
    - rewrite (proj2 (nth_error_None _ _)) by lia.
      rewrite (proj2 (nth_error_None values j)) by lia. reflexivity. }
  rewrite Hslots. apply collect_filled.
Qed.

Lemma Promise_all_pending (values : list A) (order : list nat) (i : nat) :
  (i < List.length values)%nat -> ~ In i order -> Promise.all values order = None.
Proof.
  intros Hi Hnot. unfold Promise.all.
  change (fun slots i => match nth_error values i with
                         | Some v => Promise.store i v slots
                         | None => slots
                         end) with (settle values).
  destruct (settle_all values order (repeat None (List.length values))) as [Hlen Hj];
    [apply repeat_length|].
  apply (collect_hole _ i). rewrite (proj2 (Hj i) Hnot).
  apply nth_error_repeat. exact Hi.
Qed.

End Settling.

(** X8.  A listing publishes nothing before every patient has settled.
    [order] lists the indices of the per-patient promises in the order
    in which they settle.  Once every index has occurred (in whatever
    order, and however often), [fetchPatients] of the first listing has
    the summaries in the order of the patients.  As long as the promise
    of one patient has not settled there is no list, whatever else has
    settled: the first listing publishes nothing and the second one
    stays in its loading state. *)
Theorem listing_waits_for_every_patient (host : DateHost) (api : Backend) (order : list nat) :
  (forall basicPatients,
      (forall i, (i < List.length basicPatients)%nat -> In i order) ->
      PatientListing.fetchPatients api basicPatients order
      = Some (map (PatientListing.withDetails api) basicPatients))
  /\ (forall basicPatients i,
         (i < List.length basicPatients)%nat -> ~ In i order ->
         PatientListing.fetchPatients api basicPatients order = None)
  /\ (forall now data i,
         Json.truthy data = true ->
         (i < List.length (PatientListingV2.patients_of data))%nat -> ~ In i order ->
         PatientListingV2.fetchPatients api now (Fulfilled data) order
         = PatientListingV2.Pending).
Proof.
  split; [|split].
  - intros basicPatients Hall. unfold PatientListing.fetchPatients.
    apply Promise_all_settled. now rewrite length_map.
  - intros basicPatients i Hi Hnot. unfold PatientListing.fetchPatients.
    apply (Promise_all_pending _ _ i); [now rewrite length_map|exact Hnot].
  - intros now data i Htruthy Hi Hnot. unfold PatientListingV2.fetchPatients.
    rewrite Htruthy.
    rewrite (Promise_all_pending
               (map (PatientListingV2.processPatientData api now)
                    (PatientListingV2.patients_of data)) order i);
      [|now rewrite length_map|exact Hnot].
    destruct (PatientListingV2.patients_of data); [simpl in Hi; lia|reflexivity].
Qed.

Section Stability.
Context {A : Type}.
Variable key : A -> Z.

Lemma insert_same_key (k : Z) (x : A) (l : list A) :
  filter (fun a => key a =? k) (JSArray.insert (by_key key) x l)
  = filter (fun a => key a =? k) (x :: l).
Proof.
  induction l as [|y l IH]; [reflexivity|].
  cbn [JSArray.insert]. unfold by_key at 1.
  destruct (key x <? key y) eqn:E; [|reflexivity].
  apply Z.ltb_lt in E.
  cbn [filter] in *. rewrite IH.
  destruct (key x =? k) eqn:Ex; destruct (key y =? k) eqn:Ey; try reflexivity.
  apply Z.eqb_eq in Ex, Ey. lia.
Qed.

Lemma sort_same_key (k : Z) (l : list A) :
  filter (fun a => key a =? k) (JSArray.sort (by_key key) l)
  = filter (fun a => key a =? k) l.
Proof.
  induction l as [|x l IH]; [reflexivity|].
  unfold JSArray.sort in *. cbn [fold_right].
  rewrite insert_same_key. cbn [filter]. rewrite IH. reflexivity.
Qed.

Lemma insert_in_front (x : A) (l : list A) :
  (forall y, In y l -> key y <= key x) -> JSArray.insert (by_key key) x l = x :: l.
Proof.
  destruct l as [|y l]; [reflexivity|].
  intro H. cbn [JSArray.insert]. unfold by_key.
  destruct (key x <? key y) eqn:E; [|reflexivity].
  apply Z.ltb_lt in E. specialize (H y (or_introl eq_refl)). lia.
Qed.

Lemma sort_of_sorted (l : list A) :
  StronglySorted (newer_first key) l -> JSArray.sort (by_key key) l = l.
Proof.
  induction 1 as [|x l Hsorted IH Hx]; [reflexivity|].
  unfold JSArray.sort in *. cbn [fold_right]. rewrite IH.
  apply insert_in_front. rewrite Forall_forall in Hx. exact Hx.
Qed.

End Stability.

Lemma filter_all {A : Type} (f : A -> bool) (l : list A) :
  Forall (fun a => f a = true) l -> filter f l = l.
Proof.
  induction 1 as [|x l Hx _ IH]; [reflexivity|]. cbn [filter]. now rewrite Hx, IH.
Qed.

(** X9.  The second listing sorts stably and publishing is idempotent.
    Among the patients with one and the same creation time (and so among
    all those without a creation date that parses) the published list
    keeps the order of the backend; a list that is already sorted, the
    most recent first, and holds only patients with a name is published
    as it is; so publishing a published list changes nothing. *)
Theorem publish_is_stable (host : DateHost) (patientsData : list PatientListingV2.Patient) :
  (forall k,
      filter (fun patient => PatientListingV2.created_value patient =? k)
             (PatientListingV2.publish patientsData)
      = filter (fun patient => PatientListingV2.created_value patient =? k)
               (filter named patientsData))
  /\ (Forall (fun patient => named patient = true) patientsData ->
      StronglySorted (newer_first PatientListingV2.created_value) patientsData ->
      PatientListingV2.publish patientsData = patientsData)
  /\ PatientListingV2.publish (PatientListingV2.publish patientsData)
     = PatientListingV2.publish patientsData.
Proof.
  assert (Hfixed : forall l,
             Forall (fun patient => named patient = true) l ->
             StronglySorted (newer_first PatientListingV2.created_value) l ->
             PatientListingV2.publish l = l).
  { intros l Hnamed Hsorted. unfold PatientListingV2.publish.
    change (fun patient => negb (empty (PatientListingV2.first_name patient))
                           || negb (empty (PatientListingV2.last_name patient)))
      with named.
    rewrite (filter_all named l Hnamed).
    apply (sort_of_sorted PatientListingV2.created_value). exact Hsorted. }
  split; [|split].
  - intro k. unfold PatientListingV2.publish.
    apply (sort_same_key PatientListingV2.created_value).
  - apply Hfixed.
  - apply Hfixed.
    + apply Forall_forall. intros patient Hin.
      unfold PatientListingV2.publish in Hin.
      apply (Permutation_in _ (sort_Permutation _ _)) in Hin.
      apply filter_In in Hin. exact (proj2 Hin).
    + unfold PatientListingV2.publish.
      apply (sort_sorted PatientListingV2.created_value).
Qed.

(** ** The workflow from the vitals forms to the assessment forms *)

Lemma gates_follow_route (p : PatientData) (b : number) (status : option string) :
  (forall q, b = Fin q -> ~ (q == 25)%Q) ->
  (le b (of_Z 25) = true ->
   GeneralAssessmentForm.render
     {| ls_patient := Some p; ls_bmi := Some b; ls_bmiStatus := status |} = FormView
   /\ GeneralAssessmentFormV1.render
        {| ls_patient := Some p; ls_bmi := Some b; ls_bmiStatus := status |} = FormView
   /\ OverweightAssessmentForm.render
        {| ls_patient := Some p; ls_bmi := Some b; ls_bmiStatus := status |} = AccessDenied)
  /\ (le b (of_Z 25) = false ->
      OverweightAssessmentForm.render
        {| ls_patient := Some p; ls_bmi := Some b; ls_bmiStatus := status |} = FormView
      /\ GeneralAssessmentForm.render
           {| ls_patient := Some p; ls_bmi := Some b; ls_bmiStatus := status |} = AccessDenied
      /\ GeneralAssessmentFormV1.render
           {| ls_patient := Some p; ls_bmi := Some b; ls_bmiStatus := status |}
         = match b with NaN => FormView | _ => AccessDenied end).
Proof.
  intro Hb.
  destruct b as [| | |q]; try (split; intro H; try discriminate H; repeat split; fail).
  specialize (Hb q eq_refl).
  destruct (gates_away_from_25 p q status Hb) as [Hhigh Hlow].
  unfold GeneralAssessmentFormV1.render. cbn [ls_patient ls_bmi].
  unfold gt, le, lt. cbn [of_Z]. unfold le, lt in Hhigh, Hlow. cbn [of_Z] in Hhigh, Hlow.
  destruct (Qltb (inject_Z 25) q) eqn:E; cbn [negb].
  - split; [discriminate|]. intros _.
    apply Qltb_lt in E. change (inject_Z 25) with 25%Q in E.
    destruct Hhigh as (_ & H1 & H2); [lra|]. repeat split; assumption.
  - split; [|discriminate]. intros _.
    apply Qltb_ge in E. change (inject_Z 25) with 25%Q in E.
    destruct Hlow as (_ & H1 & H2); [|repeat split; assumption].
    destruct (Qlt_le_dec q 25) as [Hlt|Hge]; [exact Hlt|].
    exfalso. apply Hb. lra.
Qed.

(** X10.  Away from a BMI of exactly 25, the form a vitals form sends the
    patient to is the one that opens.  When [handleSubmit] of either
    vitals form navigates with a BMI other than 25 (any number, [NaN]
    and the infinities included), the page the route reaches shows its
    form and the other assessment form would have denied access: a BMI
    up to 25 reaches the general form, a BMI above 25 the overweight
    form. *)
Theorem vitals_route_reaches_open_form (host : DateHost) (path : string) (ls : LocationState)
    (b : number) :
  ((exists st payload,
       snd (VitalsForm.handleSubmit Saved st)
       = [VitalsForm.CreateVitals payload; VitalsForm.Navigate path ls])
   \/ (exists now st,
          In (VitalsFormV2.Navigate path ls) (snd (VitalsFormV2.handleSubmit now Saved st)))) ->
  ls_bmi ls = Some b ->
  (forall q, b = Fin q -> ~ (q == 25)%Q) ->
  (App.route path = App.GeneralAssessmentForm
   /\ le b (of_Z 25) = true
   /\ GeneralAssessmentForm.render ls = FormView
   /\ GeneralAssessmentFormV1.render ls = FormView
   /\ OverweightAssessmentForm.render ls = AccessDenied)
  \/ (App.route path = App.OverweightAssessmentForm
      /\ le b (of_Z 25) = false
      /\ OverweightAssessmentForm.render ls = FormView
      /\ GeneralAssessmentForm.render ls = AccessDenied).
Proof.
  intros Hsubmit Hbmi Hb.
  assert (Hshape : exists p status,
             ls = {| ls_patient := Some p; ls_bmi := Some b; ls_bmiStatus := status |}
             /\ path = if le b (of_Z 25) then "/general-assessment"
                       else "/overweight-assessment").
  { destruct Hsubmit as [(st & payload & Hsubmit)|(now & st & Hsubmit)].
    - destruct (vitals_navigates st payload path ls Hsubmit)
        as (_ & _ & _ & _ & _ & Els & _ & Epath & Eshape & Hp).
      destruct (VitalsForm.patient st) as [p|]; [|contradiction].
      exists p, (ls_bmiStatus ls). rewrite Els in Hbmi. injection Hbmi as <-.
      split; [|exact Epath]. rewrite Eshape at 1. rewrite Els. reflexivity.
    - destruct (v2_navigation_bmi now Saved st path ls Hsubmit) as [Els Epath].
      rewrite Els in Hbmi. injection Hbmi as Hbmi. rewrite Hbmi in Epath.
      revert Hsubmit. unfold VitalsFormV2.handleSubmit.
      destruct (VitalsFormV2.validateForm now st) as [newErrors isValid].
      destruct isValid; cbn [negb snd].
      + cbn [In]. intros [H'|[H'|[H'|[]]]]; try discriminate.
        injection H' as _ <-. rewrite Hbmi.
        eexists. eexists. split; [reflexivity|exact Epath].
      + destruct (empty (VitalsFormV2.e_patient (VitalsFormV2.errors st))); cbn [In].
        * intros [].
        * intros [H'|[]]; discriminate. }
  destruct Hshape as (p & status & -> & ->).
  destruct (gates_follow_route p b status Hb) as [Hlow Hhigh].
  destruct (le b (of_Z 25)) eqn:E.
  - left. destruct (Hlow eq_refl) as (H1 & H2 & H3). repeat split; assumption.
  - right. destruct (Hhigh eq_refl) as (H1 & H2 & _). repeat split; assumption.
Qed.

(** ** The listings: what a summary reports *)

Section Summaries.
Context {host : DateHost}.

(** X11.  The second listing reports the most recent assessment of both
    kinds.  When [processPatientData] reports an assessment, its date is
    the date of a listed assessment and no listed assessment of either
    kind has a later date (by visit date, else creation date; a date that
    does not parse counts as the epoch).  It reports a general one only
    when every overweight assessment is strictly older.  It reports none
    exactly when both requests listed nothing. *)
Theorem second_listing_reports_latest_assessment (api : Backend) (now : Z)
    (patientData : PatientListingV2.RawPatient) :
  (PatientListingV2.last_assessment_type
     (PatientListingV2.processPatientData api now patientData) = None
   <-> (PatientListingV2.tagged "overweight"
          (getPatientOverweightAssessments api (PatientListingV2.r_id patientData))
        ++ PatientListingV2.tagged "general"
             (getPatientGeneralAssessments api (PatientListingV2.r_id patientData)))%list
       = [])
  /\ (forall kind,
         PatientListingV2.last_assessment_type
           (PatientListingV2.processPatientData api now patientData) = Some kind ->
         exists a,
           In a (PatientListingV2.tagged "overweight"
                   (getPatientOverweightAssessments api (PatientListingV2.r_id patientData))
                 ++ PatientListingV2.tagged "general"
                      (getPatientGeneralAssessments api (PatientListingV2.r_id patientData)))%list
           /\ PatientListingV2.last_assessment_date
                (PatientListingV2.processPatientData api now patientData)
              = PatientListingV2.assessment_date a
           /\ kind = (if String.eqb (PatientListingV2.type a) "overweight"
                      then "Overweight Assessment" else "General Assessment")
           /\ (forall b,
                  In b (PatientListingV2.tagged "overweight"
                          (getPatientOverweightAssessments api
                             (PatientListingV2.r_id patientData))
                        ++ PatientListingV2.tagged "general"
                             (getPatientGeneralAssessments api
                                (PatientListingV2.r_id patientData)))%list ->
                  date_value b <= date_value a)
           /\ (kind = "General Assessment" ->
               forall b,
                 In b (PatientListingV2.tagged "overweight"
                         (getPatientOverweightAssessments api
                            (PatientListingV2.r_id patientData))) ->
                 date_value b < date_value a)).
Proof.
  unfold PatientListingV2.processPatientData.
  cbn [PatientListingV2.last_assessment_type PatientListingV2.last_assessment_date].
  set (ow := getPatientOverweightAssessments api (PatientListingV2.r_id patientData)).
  set (gen := getPatientGeneralAssessments api (PatientListingV2.r_id patientData)).
  destruct (PatientListingV2.fetchPatientAssessments ow gen) as [a|] eqn:Hlatest.
  - destruct (fetchPatientAssessments_latest ow gen a Hlatest) as (Hin & Hmax & Hgeneral).
    split.
    + split; [discriminate|]. intro Hnil. rewrite Hnil in Hin. destruct Hin.
    + intros kind Hkind. injection Hkind as <-.
      exists a. split; [exact Hin|]. split; [reflexivity|]. split; [reflexivity|].
      split; [exact Hmax|].
      intros Hk b Hb. apply Hgeneral; [|exact Hb].
      apply in_app_or in Hin. destruct Hin as [Hin|Hin]; apply tagged_type in Hin.
      * rewrite Hin in Hk. discriminate Hk.
      * exact Hin.
  - split.
    + split; [|reflexivity]. intros _.
      unfold PatientListingV2.fetchPatientAssessments in Hlatest.
      destruct (PatientListingV2.tagged "overweight" ow
                ++ PatientListingV2.tagged "general" gen)%list as [|x l] eqn:E;
        [reflexivity|].
      destruct (sort_head_exists date_value (x :: l)) as [y Hy]; [discriminate|].
      assert (Habs : Some y = None) by (rewrite <- Hy; exact Hlatest).
      discriminate Habs.
    + intros kind Hkind. discriminate.
Qed.

(** X12.  In the first listing an overweight assessment shadows every
    general one, and a failed vitals request hides the assessments.  When
    the vitals request succeeds: if the backend lists an overweight
    assessment, the summary reports type Overweight with the date of a
    listed overweight assessment, whatever the general assessments are;
    if it lists none, the summary reports type General with the date of a
    listed general assessment when there is one.  When the vitals request
    fails the summary is the patient as listed: no BMI and no assessment,
    though the backend may hold assessments. *)
Theorem first_listing_assessment_precedence (api : Backend) (patient : PatientListing.Patient) :
  (getVitals api (PatientListing.id patient) = Rejected ->
   PatientListing.withDetails api patient = patient)
  /\ (forall vitals overweight,
         getVitals api (PatientListing.id patient) = Fulfilled vitals ->
         getPatientOverweightAssessments api (PatientListing.id patient)
         = Fulfilled overweight ->
         PatientListing.extractArrayFromResponse overweight <> [] ->
         PatientListing.last_assessment_type (PatientListing.withDetails api patient)
         = Some "Overweight"
         /\ exists a,
              In a (PatientListing.extractArrayFromResponse overweight)
              /\ PatientListing.last_assessment_date (PatientListing.withDetails api patient)
                 = PatientListing.assessment_date a)
  /\ (forall vitals overweight general,
         getVitals api (PatientListing.id patient) = Fulfilled vitals ->
         getPatientOverweightAssessments api (PatientListing.id patient)
         = Fulfilled overweight ->
         PatientListing.extractArrayFromResponse overweight = [] ->
         getPatientGeneralAssessments api (PatientListing.id patient) = Fulfilled general ->
         PatientListing.extractArrayFromResponse general <> [] ->
         PatientListing.last_assessment_type (PatientListing.withDetails api patient)
         = Some "General"
         /\ exists a,
              In a (PatientListing.extractArrayFromResponse general)
              /\ PatientListing.last_assessment_date (PatientListing.withDetails api patient)
                 = PatientListing.assessment_date a).
Proof.
  assert (Hhead : forall l : list RawAssessment,
             l <> [] ->
             exists a, PatientListing.latest_assessment l = Some a /\ In a l).
  { intros l Hne. unfold PatientListing.latest_assessment.
    set (after := fun a b : RawAssessment =>
                    PatientListing.after (PatientListing.assessment_date a)
                                         (PatientListing.assessment_date b)).
    pose proof (sort_length after l) as Hlen.
    pose proof (sort_Permutation after l) as Hperm.
    destruct (JSArray.sort after l) as [|latest sorted].
    - destruct l; [contradiction|discriminate Hlen].
    - exists latest. split; [reflexivity|].
      apply (Permutation_in _ Hperm). left. reflexivity. }
  split; [|split].
  - intro Hvitals. unfold PatientListing.withDetails. rewrite Hvitals. reflexivity.
  - intros vitals overweight Hvitals Hoverweight Hne.
    destruct (Hhead _ Hne) as (a & Ha & Hin).
    unfold PatientListing.withDetails. rewrite Hvitals, Hoverweight, Ha.
    split; [reflexivity|]. exists a. split; [exact Hin|reflexivity].
  - intros vitals overweight general Hvitals Hoverweight Hnil Hgeneral Hne.
    destruct (Hhead _ Hne) as (a & Ha & Hin).
    unfold PatientListing.withDetails. rewrite Hvitals, Hoverweight, Hnil, Hgeneral, Ha.
    split; [reflexivity|]. exists a. split; [exact Hin|reflexivity].
Qed.

End Summaries.

(** ** The response normaliser of the vitals form *)

Section FullNormaliser.
Context {A : Type}.

(** X13.  The normaliser of the second vitals form finds the first list
    down to depth two.  For an object that has no list under [results]
    or [data]: it returns the first value that is a list; when no value
    is a list, the first list among the values of the first nested object
    that holds one; and the empty list when there is none at either
    depth.  A payload that is a list comes back as it is. *)
Theorem normaliser_finds_first_list (props : list (string * json A)) (items : list A) :
  not_array (Json.get "results" (JObj props)) ->
  not_array (Json.get "data" (JObj props)) ->
  (forall pre post,
      Json.values props = (pre ++ JArr items :: post)%list ->
      Forall not_array pre ->
      VitalsFormV2.extractArrayFromResponse (JObj props) = items)
  /\ (forall pre nested post pre' post',
         Forall not_array (Json.values props) ->
         Json.values props = (pre ++ JObj nested :: post)%list ->
         Forall no_nested_array pre ->
         Json.values nested = (pre' ++ JArr items :: post')%list ->
         Forall not_array pre' ->
         VitalsFormV2.extractArrayFromResponse (JObj props) = items)
  /\ (Forall not_array (Json.values props) ->
      Forall no_nested_array (Json.values props) ->
      VitalsFormV2.extractArrayFromResponse (JObj props) = [])
  /\ VitalsFormV2.extractArrayFromResponse (JArr items) = items.
Proof.
  intros Hresults Hdata.
  destruct (extractArrayFromResponse_steps (JObj props)) as (_ & _ & _ & Hscan & _).
  destruct (Hscan props eq_refl Hresults Hdata) as (Hfirst & Hsecond & Hnone).
  split; [|split; [|split]].
  - intros pre post Hvalues Hpre. apply Hfirst. apply first_array_Some.
    exists pre, post. split; assumption.
  - intros pre nested post pre' post' Hflat Hvalues Hpre Hnested Hpre'.
    apply Hsecond.
    + apply first_array_None. exact Hflat.
    + apply first_nested_array_Some. exists pre, nested, post.
      split; [exact Hvalues|]. split; [exact Hpre|].
      apply first_array_Some. exists pre', post'. split; assumption.
  - intros Hflat Hdeep. apply Hnone.
    + apply first_array_None. exact Hflat.
    + apply first_nested_array_None. exact Hdeep.
  - reflexivity.
Qed.

End FullNormaliser.

(** X14.  The shorter normalisers agree with the full one wherever they
    find a list.  The copies in the first listing, the details page, the
    second listing and the assessment forms are one and the same
    function; whenever it returns a list that is not empty, the patients
    reader of the second listing and the normaliser of the second vitals
    form return the same list; and whenever the patients reader returns
    a list that is not empty, so does the normaliser of the vitals
    form. *)
Theorem normaliser_variants_agree :
  (forall (A : Type) (data : json A),
      PatientDetails.extractArrayFromResponse data
      = PatientListing.extractArrayFromResponse data
      /\ PatientListingV2.array_of data = PatientListing.extractArrayFromResponse data
      /\ (PatientListing.extractArrayFromResponse data <> [] ->
          VitalsFormV2.extractArrayFromResponse data
          = PatientListing.extractArrayFromResponse data))
  /\ (forall data : json RawAssessment,
         assessments_of data = PatientListing.extractArrayFromResponse data)
  /\ (forall data : json PatientListingV2.RawPatient,
         (PatientListing.extractArrayFromResponse data <> [] ->
          PatientListingV2.patients_of data = PatientListing.extractArrayFromResponse data)
         /\ (PatientListingV2.patients_of data <> [] ->
             VitalsFormV2.extractArrayFromResponse data = PatientListingV2.patients_of data)).
Proof.
  split; [|split].
  - intros A data. split; [reflexivity|]. split; [reflexivity|].
    unfold PatientListing.extractArrayFromResponse, VitalsFormV2.extractArrayFromResponse.
    destruct data; try (intro H; now contradiction H); try reflexivity.
    destruct (Json.get "results" (JObj props)); try reflexivity;
      destruct (Json.get "data" (JObj props)); try reflexivity;
      intro H; now contradiction H.
  - intro data. reflexivity.
  - intro data. split.
    + unfold PatientListing.extractArrayFromResponse, PatientListingV2.patients_of.
      destruct data; try (intro H; now contradiction H); try reflexivity.
      destruct (Json.get "results" (JObj props)); try reflexivity;
        destruct (Json.get "data" (JObj props)); try reflexivity;
        intro H; now contradiction H.
    + unfold PatientListingV2.patients_of, VitalsFormV2.extractArrayFromResponse,
        VitalsFormV2.first_array.
      destruct data; try (intro H; now contradiction H); try reflexivity.
      destruct (Json.get "results" (JObj props)); try reflexivity;
        destruct (Json.get "data" (JObj props)); try reflexivity;
        (destruct (find Json.isArray (Json.values props)) as [[]|];
         try (intro H; now contradiction H); reflexivity).
Qed.

(** ** The future-date check and the time zone *)

Section FutureByZone.
Context {host : DateHost}.

(** X15.  What [isFutureDate] decides for a date-only string.  Such a
    string denotes UTC midnight of its day [d].  The check compares the
    local day of that instant with the local day of the current instant:
    in a zone at or east of UTC it flags exactly the days after today;
    in a zone west of UTC it flags the days after tomorrow, so that
    tomorrow's date passes.  In every zone a day up to today passes, and
    so does the date the form starts with, today's local date. *)
Theorem future_check_by_zone (now : Z) (s : string) (d : Z) :
  Date_parse s = Some (d * msPerDay) ->
  VitalsFormV2.isFutureDate now s = (localDay now <? d + LocalTZA / msPerDay)
  /\ (0 <= LocalTZA < msPerDay ->
      VitalsFormV2.isFutureDate now s = (localDay now <? d))
  /\ (- msPerDay <= LocalTZA < 0 ->
      VitalsFormV2.isFutureDate now s = (localDay now <? d - 1))
  /\ (LocalTZA < msPerDay -> d <= localDay now ->
      VitalsFormV2.isFutureDate now s = false)
  /\ (LocalTZA < msPerDay -> s = VitalsFormV2Page.getTodayDate now -> d = localDay now ->
      VitalsFormV2.isFutureDate now
        (VitalsFormV2.visit_date (VitalsFormV2Page.initial_formData now)) = false).
Proof.
  intro Hparse.
  assert (Hgen : VitalsFormV2.isFutureDate now s = (localDay now <? d + LocalTZA / msPerDay)).
  { unfold VitalsFormV2.isFutureDate. rewrite Hparse, setHours0_lt.
    unfold localDay at 2. rewrite Z.div_add_l by (unfold msPerDay; lia). reflexivity. }
  assert (Hpast : LocalTZA < msPerDay -> d <= localDay now ->
                  VitalsFormV2.isFutureDate now s = false).
  { intros Hzone Hd. rewrite Hgen. apply Z.ltb_ge.
    assert (LocalTZA / msPerDay <= 0); [|lia].
    assert (LocalTZA / msPerDay < 1); [|lia].
    apply Z.div_lt_upper_bound; unfold msPerDay in *; lia. }
  split; [exact Hgen|]. split; [|split; [|split]].
  - intro Hzone. rewrite Hgen, Z.div_small by exact Hzone. now rewrite Z.add_0_r.
  - intro Hzone. rewrite Hgen.
    replace (LocalTZA / msPerDay) with (-1); [reflexivity|].
    apply Z.div_unique with (r := LocalTZA + msPerDay); unfold msPerDay in *; lia.
  - exact Hpast.
  - intros Hzone -> ->. cbn [VitalsFormV2Page.initial_formData VitalsFormV2.visit_date].
    apply Hpast; [exact Hzone|lia].
Qed.

End FutureByZone.

(** ** Pagination of the first listing *)

Section Pagination.
Context {A : Type}.

Lemma paginate_chunk (n p : Z) (l : list A) :
  0 < n -> 1 <= p ->
  PatientListingView.paginate n p l
  = firstn (Z.to_nat n) (skipn (Z.to_nat ((p - 1) * n)) l).
Proof.
  intros Hn Hp. unfold PatientListingView.paginate, PatientListingView.slice.
  set (len := Z.of_nat (List.length l)).
  replace (p * n - n) with ((p - 1) * n) by lia.
  assert (H0 : 0 <= (p - 1) * n) by nia.
  assert (H1 : 0 <= p * n) by nia.
  replace ((p - 1) * n <? 0) with false by (symmetry; apply Z.ltb_ge; lia).
  replace (p * n <? 0) with false by (symmetry; apply Z.ltb_ge; lia).
  destruct (Z_le_gt_dec len ((p - 1) * n)) as [Hout|Hin].
  - rewrite (Z.min_r ((p - 1) * n) len) by lia.
    rewrite (Z.min_r (p * n) len) by lia.
    replace (len - len) with 0 by lia.
    rewrite (skipn_all2 (n := Z.to_nat ((p - 1) * n))) by (unfold len in *; lia).
    rewrite firstn_nil. reflexivity.
  - rewrite (Z.min_l ((p - 1) * n) len) by lia.
    destruct (Z_le_gt_dec (p * n) len) as [Hfull|Hpart].
    + rewrite Z.min_l by lia. f_equal. lia.
    + rewrite Z.min_r by lia.
      rewrite !firstn_all2; [reflexivity| |];
        rewrite length_skipn; unfold len in *; lia.
Qed.

Lemma firstn_plus (a b : nat) (l : list A) :
  firstn (a + b) l = (firstn a l ++ firstn b (skipn a l))%list.
Proof.
  revert l. induction a as [|a IH]; intro l; [reflexivity|].
  destruct l as [|x l].
  - rewrite skipn_nil, !firstn_nil. reflexivity.
  - cbn [plus firstn skipn app]. now rewrite IH.
Qed.

Lemma firstn_chunks (n : nat) (l : list A) (k : nat) :
  List.concat (map (fun i => firstn n (skipn (i * n) l)) (seq 0 k)) = firstn (k * n) l.
Proof.
  induction k as [|k IH]; [reflexivity|].
  rewrite seq_S, map_app, concat_app, IH. cbn [map List.concat plus].
  rewrite app_nil_r.
  replace (S k * n)%nat with (k * n + n)%nat by lia.
  rewrite firstn_plus. reflexivity.
Qed.

Lemma totalPages_bounds (n : Z) (l : list A) :
  0 < n ->
  (PatientListingView.totalPages n l - 1) * n < Z.of_nat (List.length l)
  /\ Z.of_nat (List.length l) <= PatientListingView.totalPages n l * n
  /\ 0 <= PatientListingView.totalPages n l.
Proof.
  intro Hn. unfold PatientListingView.totalPages.
  set (len := Z.of_nat (List.length l)).
  assert (0 <= len) by (unfold len; lia).
  pose proof (Z.div_mod (len + n - 1) n ltac:(lia)) as Hdm.
  pose proof (Z.mod_pos_bound (len + n - 1) n Hn) as Hmod.
  split; [nia|]. split; [nia|].
  apply Z.div_pos; lia.
Qed.

(** X16.  The pages of the first listing partition the filtered list.
    For a page size above zero, the pages from 1 to [totalPages], one
    after the other, are the filtered list: no row is lost, repeated or
    moved.  Each of these pages has at least one row and at most a page
    size of rows, and every page after the last one is empty. *)
Theorem pages_partition_the_list (itemsPerPage : Z) (filteredPatients : list A) :
  0 < itemsPerPage ->
  List.concat (map (fun page => PatientListingView.paginate itemsPerPage page filteredPatients)
              (PatientListingView.range 1
                 (PatientListingView.totalPages itemsPerPage filteredPatients)))
  = filteredPatients
  /\ (forall page,
         1 <= page <= PatientListingView.totalPages itemsPerPage filteredPatients ->
         (0 < List.length (PatientListingView.paginate itemsPerPage page filteredPatients)
          <= Z.to_nat itemsPerPage)%nat)
  /\ (forall page,
         PatientListingView.totalPages itemsPerPage filteredPatients < page ->
         PatientListingView.paginate itemsPerPage page filteredPatients = []).
Proof.
  intro Hn.
  destruct (totalPages_bounds itemsPerPage filteredPatients Hn) as (Hlow & Hhigh & Hpos).
  set (total := PatientListingView.totalPages itemsPerPage filteredPatients) in *.
  split; [|split].
  - unfold PatientListingView.range. rewrite map_map.
    replace (total - 1 + 1) with total by lia.
    erewrite map_ext_in.
    + rewrite (firstn_chunks (Z.to_nat itemsPerPage) filteredPatients (Z.to_nat total)).
      apply firstn_all2. nia.
    + intros i Hi. apply in_seq in Hi. cbv beta.
      rewrite paginate_chunk by lia.
      f_equal. f_equal. nia.
  - intros page Hpage. rewrite paginate_chunk by lia.
    rewrite length_firstn, length_skipn. nia.
  - intros page Hpage. rewrite paginate_chunk by lia.
    rewrite skipn_all2 by nia. apply firstn_nil.
Qed.

End Pagination.

Lemma In_range (a b x : Z) : In x (PatientListingView.range a b) <-> a <= x <= b.
Proof.
  unfold PatientListingView.range. rewrite in_map_iff. split.
  - intros (i & <- & Hi). apply in_seq in Hi. lia.
  - intro H. exists (Z.to_nat (x - a)). split; [lia|]. apply in_seq. lia.
Qed.

Lemma range_length (a b : Z) :
  List.length (PatientListingView.range a b) = Z.to_nat (b - a + 1).
Proof. unfold PatientListingView.range. now rewrite length_map, length_seq. Qed.

Lemma range_cons (a b : Z) :
  a <= b -> PatientListingView.range a b = a :: PatientListingView.range (a + 1) b.
Proof.
  intro H. unfold PatientListingView.range.
  replace (Z.to_nat (b - a + 1)) with (S (Z.to_nat (b - (a + 1) + 1))) by lia.
  cbn [seq map]. f_equal; [lia|].
  rewrite <- seq_shift, map_map. apply map_ext. intro i. lia.
Qed.

Lemma range_snoc (a b : Z) :
  a <= b -> PatientListingView.range a b = (PatientListingView.range a (b - 1) ++ [b])%list.
Proof.
  intro H. unfold PatientListingView.range.
  replace (Z.to_nat (b - a + 1)) with (S (Z.to_nat (b - 1 - a + 1))) by lia.
  rewrite seq_S, map_app. cbn [map plus]. f_equal. f_equal. lia.
Qed.

(** X17.  The page buttons of the first listing.  For a current page
    from 1 to [totalPages], [getPageNumbers] gives at most seven entries,
    each an ellipsis or a page from 1 to [totalPages]; the first is page
    1, the last is the last page and the current page is among them;
    and [handlePageChange] on an entry that is a page makes it the
    current page, while on any number outside 1 to [totalPages] it leaves
    the current page as it is. *)
Theorem page_numbers_reach_every_end (totalPages currentPage : Z) :
  1 <= currentPage <= totalPages ->
  In currentPage (PatientListingView.getPageNumbers totalPages currentPage)
  /\ hd_error (PatientListingView.getPageNumbers totalPages currentPage) = Some 1
  /\ last (PatientListingView.getPageNumbers totalPages currentPage) 0 = totalPages
  /\ (List.length (PatientListingView.getPageNumbers totalPages currentPage) <= 7)%nat
  /\ (forall n,
         In n (PatientListingView.getPageNumbers totalPages currentPage) ->
         n = -1 \/ 1 <= n <= totalPages)
  /\ (forall n,
         In n (PatientListingView.getPageNumbers totalPages currentPage) -> n <> -1 ->
         PatientListingView.handlePageChange totalPages n currentPage = n)
  /\ (forall n,
         n < 1 \/ totalPages < n ->
         PatientListingView.handlePageChange totalPages n currentPage = currentPage).
Proof.
  intro Hc.
  assert (Hentries : forall n,
             In n (PatientListingView.getPageNumbers totalPages currentPage) ->
             n = -1 \/ 1 <= n <= totalPages).
  { intro n. unfold PatientListingView.getPageNumbers.
    destruct (totalPages <=? 5) eqn:E1; [rewrite In_range; lia|].
    apply Z.leb_gt in E1.
    destruct (currentPage <=? 3) eqn:E2.
    { rewrite in_app_iff, In_range. cbn [In]. lia. }
    destruct (totalPages - 2 <=? currentPage) eqn:E3.
    { rewrite in_app_iff, In_range. cbn [In]. lia. }
    rewrite !in_app_iff, In_range. cbn [In]. lia. }
  split.
  { unfold PatientListingView.getPageNumbers.
    destruct (totalPages <=? 5) eqn:E1; [apply In_range; lia|].
    apply Z.leb_gt in E1.
    destruct (currentPage <=? 3) eqn:E2.
    { apply Z.leb_le in E2. apply in_or_app. left. apply In_range. lia. }
    apply Z.leb_gt in E2.
    destruct (totalPages - 2 <=? currentPage) eqn:E3.
    { apply Z.leb_le in E3. apply in_or_app. right. apply In_range. lia. }
    apply in_or_app. right. apply in_or_app. left. apply In_range. lia. }
  split.
  { unfold PatientListingView.getPageNumbers.
    destruct (totalPages <=? 5) eqn:E1; [rewrite range_cons by lia; reflexivity|].
    destruct (currentPage <=? 3); [reflexivity|].
    destruct (totalPages - 2 <=? currentPage); reflexivity. }
  split.
  { unfold PatientListingView.getPageNumbers.
    destruct (totalPages <=? 5) eqn:E1.
    { rewrite range_snoc by lia. apply last_last. }
    apply Z.leb_gt in E1.
    destruct (currentPage <=? 3).
    { change (PatientListingView.range 1 4 ++ [-1; totalPages])%list
        with ((PatientListingView.range 1 4 ++ [-1]) ++ [totalPages])%list.
      apply last_last. }
    destruct (totalPages - 2 <=? currentPage).
    { rewrite (range_snoc (totalPages - 3) totalPages) by lia.
      rewrite app_assoc. apply last_last. }
    replace ([1; -1] ++ PatientListingView.range (currentPage - 1) (currentPage + 1)
             ++ [-1; totalPages])%list
      with (([1; -1] ++ PatientListingView.range (currentPage - 1) (currentPage + 1)
             ++ [-1]) ++ [totalPages])%list
      by (rewrite <- !app_assoc; reflexivity).
    apply last_last. }
  split.
  { unfold PatientListingView.getPageNumbers.
    destruct (totalPages <=? 5) eqn:E1.
    { apply Z.leb_le in E1. rewrite range_length. lia. }
    destruct (currentPage <=? 3); [rewrite length_app, range_length; simpl; lia|].
    destruct (totalPages - 2 <=? currentPage);
      rewrite ?length_app, ?range_length; cbn [List.length]; lia. }
  split; [exact Hentries|].
  split.
  - intros n Hin Hn. destruct (Hentries n Hin) as [?|Hrange]; [contradiction|].
    unfold PatientListingView.handlePageChange.
    replace (n <? 1) with false by (symmetry; apply Z.ltb_ge; lia).
    replace (totalPages <? n) with false by (symmetry; apply Z.ltb_ge; lia).
    reflexivity.
  - intros n Hn. unfold PatientListingView.handlePageChange.
    destruct Hn as [Hn|Hn].
    + replace (n <? 1) with true by (symmetry; apply Z.ltb_lt; lia). reflexivity.
    + replace (totalPages <? n) with true by (symmetry; apply Z.ltb_lt; lia).
      now rewrite orb_true_r.
Qed.

(** ** Registration *)


(** ** Colours *)

(** X19.  One colour scheme.  For every BMI that is a number other than
    zero, the BMI panel of the first vitals form, the badge and the
    history rows of the second vitals form, the rows of both listings
    and the details page paint it in the same background and text
    colours, by its category: amber below 18.5, green below 25 and red
    from 25 on. *)
Theorem one_colour_scheme (host : DateHost) (b : number) (st : VitalsForm.State)
    (st2 : VitalsFormV2.State) :
  plain b ->
  VitalsForm.bmi st = Some b ->
  VitalsFormV2.bmi (VitalsFormV2.formData st2) = b ->
  (VitalsFormPage.getStatusColor st, VitalsFormPage.getStatusTextColor st)
  = (if lt b (Fin (185 # 10)) then ("#fef3c7", "#92400e")
     else if lt b (of_Z 25) then ("#d1fae5", "#065f46")
     else ("#fee2e2", "#991b1b"))
  /\ (VitalsFormV2Page.bg (VitalsFormV2Page.getBmiStatusColor (inl b)),
      VitalsFormV2Page.text (VitalsFormV2Page.getBmiStatusColor (inl b)))
     = (VitalsFormPage.getStatusColor st, VitalsFormPage.getStatusTextColor st)
  /\ (forall shown,
         VitalsFormV2Page.panel st2 = Some shown ->
         VitalsFormV2Page.badge_colors shown = VitalsFormV2Page.getBmiStatusColor (inl b))
  /\ (PatientListingView.getStatusColor (PatientListing.getBmiStatus b),
      PatientListingView.getStatusTextColor (PatientListing.getBmiStatus b))
     = (VitalsFormPage.getStatusColor st, VitalsFormPage.getStatusTextColor st)
  /\ (PatientListingV2View.getStatusColor (PatientListingV2.getBmiStatus (Some b)),
      PatientListingV2View.getStatusTextColor (PatientListingV2.getBmiStatus (Some b)))
     = (VitalsFormPage.getStatusColor st, VitalsFormPage.getStatusTextColor st)
  /\ (PatientDetailsView.getStatusColor (PatientDetailsView.latestBmiStatus (Some b)),
      PatientDetailsView.getStatusTextColor (PatientDetailsView.latestBmiStatus (Some b)))
     = (VitalsFormPage.getStatusColor st, VitalsFormPage.getStatusTextColor st).
Proof.
  intros [Hnan Htruthy] Hbmi Hbmi2.
  unfold VitalsFormPage.getStatusColor, VitalsFormPage.getStatusTextColor,
    VitalsFormV2Page.getBmiStatusColor, VitalsFormV2.getBmiStatus,
    PatientListing.getBmiStatus, PatientListingV2.getBmiStatus,
    PatientDetailsView.latestBmiStatus, PatientDetails.getBmiStatus,
    VitalsFormV2Page.panel.
  rewrite Hbmi, Hbmi2, Htruthy, Hnan. cbn [negb orb].
  destruct (lt b (Fin (185 # 10))) eqn:E1; [|destruct (lt b (of_Z 25)) eqn:E2];
    (split; [reflexivity|]); (split; [reflexivity|]);
    (split; [intros shown Hshown; destruct (gt b (of_Z 0)); [|discriminate];
             injection Hshown as <-; reflexivity|]);
    repeat split.
Qed.

(** ** Search in the first listing *)

Lemma lower_upper (c : ascii) : JSText.lower (JSText.upper c) = JSText.lower c.
Proof. destruct c as [[] [] [] [] [] [] [] []]; reflexivity. Qed.

Lemma lower_lower (c : ascii) : JSText.lower (JSText.lower c) = JSText.lower c.
Proof. destruct c as [[] [] [] [] [] [] [] []]; reflexivity. Qed.

Lemma is_space_upper (c : ascii) : is_space (JSText.upper c) = is_space c.
Proof. destruct c as [[] [] [] [] [] [] [] []]; reflexivity. Qed.

Lemma is_space_lower (c : ascii) : is_space (JSText.lower c) = is_space c.
Proof. destruct c as [[] [] [] [] [] [] [] []]; reflexivity. Qed.

Lemma toLowerCase_toUpperCase (s : string) :
  JSText.toLowerCase (JSText.toUpperCase s) = JSText.toLowerCase s.
Proof. induction s as [|c s IH]; [reflexivity|]. simpl. now rewrite lower_upper, IH. Qed.

Lemma toLowerCase_idempotent (s : string) :
  JSText.toLowerCase (JSText.toLowerCase s) = JSText.toLowerCase s.
Proof. induction s as [|c s IH]; [reflexivity|]. simpl. now rewrite lower_lower, IH. Qed.

Lemma empty_trim (s : string) : empty (trim s) = all_space s.
Proof.
  unfold trim. induction s as [|c s IH]; [reflexivity|].
  cbn [trimStart all_space]. destruct (is_space c) eqn:E; [exact IH|].
  cbn [trimEnd all_space]. rewrite E. reflexivity.
Qed.

Lemma all_space_toUpperCase (s : string) : all_space (JSText.toUpperCase s) = all_space s.
Proof. induction s as [|c s IH]; [reflexivity|]. simpl. now rewrite is_space_upper, IH. Qed.

Lemma all_space_toLowerCase (s : string) : all_space (JSText.toLowerCase s) = all_space s.
Proof. induction s as [|c s IH]; [reflexivity|]. simpl. now rewrite is_space_lower, IH. Qed.

(** X20.  The search of the first listing ignores the case of the term
    and shows a sublist.  Putting the search term in capitals or in small
    letters (of the ASCII range) gives the same rows; a term of white
    space only, with no date filter, gives all the patients; and whatever
    the filters, the rows shown are patients of the list, in the order of
    the list. *)
Theorem search_ignores_case (host : DateHost) (searchTerm dateFilter : string)
    (patients : list PatientListing.Patient) :
  PatientListingView.filtered (JSText.toUpperCase searchTerm) dateFilter patients
  = PatientListingView.filtered searchTerm dateFilter patients
  /\ PatientListingView.filtered (JSText.toLowerCase searchTerm) dateFilter patients
     = PatientListingView.filtered searchTerm dateFilter patients
  /\ (all_space searchTerm = true ->
      PatientListingView.filtered searchTerm "" patients = patients)
  /\ (exists keep, PatientListingView.filtered searchTerm dateFilter patients
                   = filter keep patients).
Proof.
  unfold PatientListingView.filtered.
  rewrite !empty_trim, all_space_toUpperCase, all_space_toLowerCase,
    toLowerCase_toUpperCase, toLowerCase_idempotent.
  split; [reflexivity|]. split; [reflexivity|]. split.
  - intros ->. reflexivity.
  - destruct (all_space searchTerm && empty dateFilter).
    + exists (fun _ => true). symmetry. apply filter_all. apply Forall_forall. reflexivity.
    + eexists. reflexivity.
Qed.

(** ** The assessment history of the details page *)

Section History.
Context {host : DateHost}.

Lemma insert_ext {B : Type} (f g : B -> B -> bool) (x : B) (l : list B) :
  (forall y, In y l -> f x y = g x y) -> JSArray.insert f x l = JSArray.insert g x l.
Proof.
  induction l as [|y l IH]; intro H; [reflexivity|].
  cbn [JSArray.insert]. rewrite (H y (or_introl eq_refl)).
  destruct (g x y); [|reflexivity].
  f_equal. apply IH. intros z Hz. apply H. now right.
Qed.

Lemma sort_ext {B : Type} (f g : B -> B -> bool) (l : list B) :
  (forall x y, In x l -> In y l -> f x y = g x y) -> JSArray.sort f l = JSArray.sort g l.
Proof.
  induction l as [|x l IH]; intro H; [reflexivity|].
  unfold JSArray.sort in *. cbn [fold_right].
  rewrite IH by (intros a b Ha Hb; apply H; now right).
  apply insert_ext. intros y Hy. apply H; [now left|].
  right. apply (Permutation_in _ (sort_Permutation g l)). exact Hy.
Qed.

(** The time value the details page sorts an assessment by, when its
    date parses. *)
Lemma details_comparator (a b : PatientListingV2.Assessment) (ta tb : Z) :
  PatientListing.getTime (PatientListingV2.visit_date a) = Some ta ->
  PatientListing.getTime (PatientListingV2.visit_date b) = Some tb ->
  PatientListing.after (PatientListingV2.visit_date a) (PatientListingV2.visit_date b)
  = (ta <? tb).
Proof. intros Ha Hb. unfold PatientListing.after. now rewrite Ha, Hb. Qed.

(** X21.  The assessment history of the details page is all or nothing.
    When both requests succeed the history holds every listed assessment
    of both kinds exactly once, each tagged with its kind, and, when the
    date of each of them parses, the most recent first.  When either
    request fails the history is empty, whatever the other request
    listed, whereas the second listing still reports an assessment the
    request that succeeded lists, and none of those has a later date. *)
Theorem details_history_all_or_nothing
    (overweightResponse generalResponse : response RawAssessment) :
  (overweightResponse = Rejected \/ generalResponse = Rejected ->
   PatientDetailsView.assessmentsHistory overweightResponse generalResponse = [])
  /\ (forall overweight general,
         overweightResponse = Fulfilled overweight ->
         generalResponse = Fulfilled general ->
         Permutation
           (PatientDetailsView.assessmentsHistory overweightResponse generalResponse)
           (PatientDetailsView.tagged "overweight"
              (PatientDetails.extractArrayFromResponse overweight)
            ++ PatientDetailsView.tagged "general"
                 (PatientDetails.extractArrayFromResponse general))%list
         /\ List.length
              (PatientDetailsView.assessmentsHistory overweightResponse generalResponse)
            = (List.length (PatientDetails.extractArrayFromResponse overweight)
               + List.length (PatientDetails.extractArrayFromResponse general))%nat
         /\ ((forall a,
                 In a (PatientDetailsView.tagged "overweight"
                         (PatientDetails.extractArrayFromResponse overweight)
                       ++ PatientDetailsView.tagged "general"
                            (PatientDetails.extractArrayFromResponse general))%list ->
                 PatientListing.getTime (PatientListingV2.visit_date a) <> None) ->
             StronglySorted
               (fun a b =>
                  forall ta tb,
                    PatientListing.getTime (PatientListingV2.visit_date a) = Some ta ->
                    PatientListing.getTime (PatientListingV2.visit_date b) = Some tb ->
                    tb <= ta)
               (PatientDetailsView.assessmentsHistory overweightResponse generalResponse)))
  /\ (forall general,
         overweightResponse = Rejected ->
         generalResponse = Fulfilled general ->
         PatientListingV2.tagged "general" generalResponse <> [] ->
         PatientDetailsView.assessmentsHistory overweightResponse generalResponse = []
         /\ exists a,
              PatientListingV2.fetchPatientAssessments overweightResponse generalResponse
              = Some a
              /\ In a (PatientListingV2.tagged "general" generalResponse)
              /\ forall b,
                   In b (PatientListingV2.tagged "general" generalResponse) ->
                   date_value b <= date_value a)
  /\ (forall overweight,
         overweightResponse = Fulfilled overweight ->
         generalResponse = Rejected ->
         PatientListingV2.tagged "overweight" overweightResponse <> [] ->
         PatientDetailsView.assessmentsHistory overweightResponse generalResponse = []
         /\ exists a,
              PatientListingV2.fetchPatientAssessments overweightResponse generalResponse
              = Some a
              /\ In a (PatientListingV2.tagged "overweight" overweightResponse)
              /\ forall b,
                   In b (PatientListingV2.tagged "overweight" overweightResponse) ->
                   date_value b <= date_value a).
Proof.
  split; [|split; [|split]].
  - intros [->| ->]; [reflexivity|]. destruct overweightResponse; reflexivity.
  - intros overweight general -> ->.
    cbn [PatientDetailsView.assessmentsHistory].
    set (all := (PatientDetailsView.tagged "overweight"
                   (PatientDetails.extractArrayFromResponse overweight)
                 ++ PatientDetailsView.tagged "general"
                      (PatientDetails.extractArrayFromResponse general))%list).
    split; [apply sort_Permutation|]. split.
    + rewrite sort_length. unfold all, PatientDetailsView.tagged.
      now rewrite length_app, !length_map.
    + intro Hvalid.
      set (key := fun a : PatientListingV2.Assessment =>
                    match PatientListing.getTime (PatientListingV2.visit_date a) with
                    | Some t => t
                    | None => 0
                    end).
      rewrite (sort_ext _ (by_key key) all).
      * pose proof (sort_sorted key all) as Hsorted.
        induction Hsorted as [|a l Hl IH Ha]; constructor; [exact IH|].
        rewrite Forall_forall in *. intros b Hb ta tb Hta Htb.
        specialize (Ha b Hb). unfold newer_first, key in Ha. now rewrite Hta, Htb in Ha.
      * intros a b Ha Hb. unfold by_key, key.
        destruct (PatientListing.getTime (PatientListingV2.visit_date a)) as [ta|] eqn:Eta;
          [|exfalso; exact (Hvalid a Ha Eta)].
        destruct (PatientListing.getTime (PatientListingV2.visit_date b)) as [tb|] eqn:Etb;
          [|exfalso; exact (Hvalid b Hb Etb)].
        apply (details_comparator a b ta tb Eta Etb).
  - intros general -> -> Hne. split; [reflexivity|].
    destruct (sort_head_exists date_value
                (PatientListingV2.tagged "overweight" Rejected
                 ++ PatientListingV2.tagged "general" (Fulfilled general))%list)
      as [a Ha]; [exact Hne|].
    exists a. split; [exact Ha|].
    destruct (fetchPatientAssessments_latest Rejected (Fulfilled general) a Ha)
      as (Hin & Hmax & _).
    split; [exact Hin|exact Hmax].
  - intros overweight -> -> Hne. split; [reflexivity|].
    destruct (sort_head_exists date_value
                (PatientListingV2.tagged "overweight" (Fulfilled overweight)
                 ++ PatientListingV2.tagged "general" Rejected)%list)
      as [a Ha].
    { cbn [PatientListingV2.tagged]. rewrite app_nil_r. exact Hne. }
    exists a. split; [exact Ha|].
    destruct (fetchPatientAssessments_latest (Fulfilled overweight) Rejected a Ha)
      as (Hin & Hmax & _).
    cbn [PatientListingV2.tagged] in Hin, Hmax. rewrite app_nil_r in Hin, Hmax.
    split; [exact Hin|exact Hmax].
Qed.

End History.

(** ** White space around a visit date *)

Lemma all_space_app (s t : string) : all_space (s ++ t) = all_space s && all_space t.
Proof.
  induction s as [|c s IH]; [reflexivity|]. cbn [append all_space].
  rewrite IH. now rewrite andb_assoc.
Qed.

Lemma trimStart_space_app (pre s : string) :
  all_space pre = true -> trimStart (pre ++ s) = trimStart s.
Proof.
  induction pre as [|c pre IH]; [reflexivity|]. cbn [all_space append trimStart].
  intro H. apply andb_true_iff in H. destruct H as [Hc Hpre]. rewrite Hc. now apply IH.
Qed.

Lemma trimEnd_app_space (s post : string) :
  all_space post = true -> trimEnd (s ++ post) = trimEnd s.
Proof.
  intro Hpost. induction s as [|c s IH].
  - cbn [append]. destruct post as [|c post]; [reflexivity|].
    cbn [trimEnd]. now rewrite Hpost.
  - cbn [append trimEnd all_space]. rewrite all_space_app, Hpost, andb_true_r, IH.
    reflexivity.
Qed.

Lemma trimStart_all_space (s : string) : all_space s = true -> trimStart s = "".
Proof.
  induction s as [|c s IH]; [reflexivity|]. cbn [all_space trimStart].
  intro H. apply andb_true_iff in H. destruct H as [Hc Hs]. rewrite Hc. now apply IH.
Qed.

Lemma trim_app_space (s post : string) :
  all_space post = true -> trim (s ++ post) = trim s.
Proof.
  intro Hpost. unfold trim. induction s as [|c s IH].
  - cbn [append]. now rewrite trimStart_all_space.
  - cbn [append trimStart]. destruct (is_space c); [exact IH|].
    change (String c (s ++ post)) with (String c s ++ post).
    now apply trimEnd_app_space.
Qed.

Lemma trim_padded (pre s post : string) :
  all_space pre = true -> all_space post = true -> trim (pre ++ s ++ post) = trim s.
Proof.
  intros Hpre Hpost. unfold trim. rewrite trimStart_space_app by exact Hpre.
  apply (trim_app_space s post Hpost).
Qed.

(** X22.  The duplicate check of the first vitals form ignores white
    space around a date, on either side of the comparison.  Padding the
    date of the form, or the existing dates, with white space does not
    change the answer of [dateExists]; so a date that is listed is
    refused however it is padded.  The general assessment form compares
    with [includes]: a padded date that is not itself in the list is
    written, though the date it pads may be listed. *)
Theorem duplicate_check_ignores_white_space (pre post : string) (dates : list string)
    (visit : string) :
  all_space pre = true -> all_space post = true ->
  VitalsForm.dateExists dates (pre ++ visit ++ post) = VitalsForm.dateExists dates visit
  /\ VitalsForm.dateExists (map (fun d => pre ++ d ++ post) dates) visit
     = VitalsForm.dateExists dates visit
  /\ (In visit dates ->
      forall saved st,
        VitalsForm.existingDates st = dates ->
        VitalsForm.visit_date (VitalsForm.formData st) = pre ++ visit ++ post ->
        snd (VitalsForm.handleSubmit saved st) = [])
  /\ (~ In (pre ++ visit ++ post) dates ->
      forall ls saved st,
        general_ready ls st = true ->
        GeneralAssessmentForm.existingDates st = dates ->
        GeneralAssessmentForm.visit_date (GeneralAssessmentForm.formData st)
        = pre ++ visit ++ post ->
        exists payload rest,
          snd (GeneralAssessmentForm.handleSubmit ls saved st)
          = CreateAssessment payload :: rest
          /\ GeneralAssessmentForm.p_visit_date payload = pre ++ visit ++ post).
Proof.
  intros Hpre Hpost.
  assert (H1 : VitalsForm.dateExists dates (pre ++ visit ++ post)
               = VitalsForm.dateExists dates visit).
  { unfold VitalsForm.dateExists. now rewrite trim_padded. }
  split; [exact H1|]. split; [|split].
  - unfold VitalsForm.dateExists.
    induction dates as [|d dates IH]; [reflexivity|].
    cbn [map existsb]. rewrite trim_padded by assumption. f_equal.
    apply IH. unfold VitalsForm.dateExists. now rewrite trim_padded.
  - intros Hin saved st Hdates Hvisit.
    apply vitals_duplicate_rejected. rewrite Hdates, Hvisit, H1.
    now apply dateExists_In.
  - intros Hnot ls saved st Hready Hdates Hvisit.
    rewrite <- Hvisit. apply general_submitted; [exact Hready|].
    rewrite Hdates, Hvisit. now apply includes_not_In.
Qed.

(** ** Ages *)

Lemma year_of_era_range (doe : Z) :
  0 <= doe < 146097 -> 0 <= year_of_era doe <= 399 /\ 0 <= day_of_year doe <= 365.
Proof.
  intro H. unfold day_of_year, year_of_era. Z.to_euclidean_division_equations. lia.
Qed.

Lemma year_of_era_monotone (doe doe' : Z) :
  0 <= doe -> doe <= doe' -> doe' < 146097 ->
  year_of_era doe < year_of_era doe'
  \/ (year_of_era doe = year_of_era doe' /\ day_of_year doe <= day_of_year doe').
Proof.
  intros H0 H1 H2.
  assert (Hmono : year_of_era doe <= year_of_era doe').
  { unfold year_of_era. apply Z.div_le_mono; [lia|].
    Z.to_euclidean_division_equations. lia. }
  destruct (Z.eq_dec (year_of_era doe) (year_of_era doe')) as [E|E]; [right|left; lia].
  split; [exact E|]. unfold day_of_year. rewrite E. lia.
Qed.

Lemma month_of_monotone (doy doy' : Z) :
  0 <= doy -> doy <= doy' ->
  month_of doy < month_of doy'
  \/ (month_of doy = month_of doy' /\ day_of doy <= day_of doy').
Proof.
  intros H0 H1.
  assert (Hmono : month_of doy <= month_of doy').
  { unfold month_of. apply Z.div_le_mono; lia. }
  destruct (Z.eq_dec (month_of doy) (month_of doy')) as [E|E]; [right|left; lia].
  split; [exact E|]. unfold day_of. rewrite E. lia.
Qed.

Lemma month_of_range (doy : Z) : 0 <= doy <= 365 -> 0 <= month_of doy <= 11.
Proof. intro H. unfold month_of. Z.to_euclidean_division_equations. lia. Qed.

Lemma civil_from_days_fields (z : Z) :
  Calendar.civil_from_days z
  = let era := (z + 719468) / 146097 in
    let doe := (z + 719468) mod 146097 in
    let mp := month_of (day_of_year doe) in
    (if mp <? 10 then year_of_era doe + era * 400 else year_of_era doe + era * 400 + 1,
     if mp <? 10 then mp + 3 else mp - 9,
     day_of (day_of_year doe)).
Proof.
  unfold Calendar.civil_from_days. cbv zeta.
  replace (z + 719468 - (z + 719468) / 146097 * 146097) with ((z + 719468) mod 146097)
    by (rewrite Z.mod_eq by lia; lia).
  fold (year_of_era ((z + 719468) mod 146097)).
  fold (day_of_year ((z + 719468) mod 146097)).
  fold (month_of (day_of_year ((z + 719468) mod 146097))).
  fold (day_of (day_of_year ((z + 719468) mod 146097))).
  pose proof (Z.mod_pos_bound (z + 719468) 146097 ltac:(lia)) as Hdoe.
  destruct (year_of_era_range _ Hdoe) as [_ Hdoy].
  pose proof (month_of_range _ Hdoy) as Hmp.
  destruct (month_of (day_of_year ((z + 719468) mod 146097)) <? 10) eqn:E.
  - apply Z.ltb_lt in E.
    replace (_ + 3 <=? 2) with false by (symmetry; apply Z.leb_gt; lia). reflexivity.
  - apply Z.ltb_ge in E.
    replace (_ - 9 <=? 2) with true by (symmetry; apply Z.leb_le; lia). reflexivity.
Qed.

Lemma civil_monotone (z z' : Z) :
  z <= z' -> date_le (Calendar.civil_from_days z) (Calendar.civil_from_days z').
Proof.
  intro Hz. rewrite !civil_from_days_fields. cbv zeta.
  set (era := (z + 719468) / 146097). set (era' := (z' + 719468) / 146097).
  set (doe := (z + 719468) mod 146097). set (doe' := (z' + 719468) mod 146097).
  pose proof (Z.mod_pos_bound (z + 719468) 146097 ltac:(lia)) as Hdoe.
  pose proof (Z.mod_pos_bound (z' + 719468) 146097 ltac:(lia)) as Hdoe'.
  fold doe in Hdoe. fold doe' in Hdoe'.
  pose proof (Z.div_mod (z + 719468) 146097 ltac:(lia)) as Hdm.
  pose proof (Z.div_mod (z' + 719468) 146097 ltac:(lia)) as Hdm'.
  fold era doe in Hdm. fold era' doe' in Hdm'.
  destruct (year_of_era_range doe Hdoe) as [Hy Hd].
  destruct (year_of_era_range doe' Hdoe') as [Hy' Hd'].
  pose proof (month_of_range _ Hd) as Hm. pose proof (month_of_range _ Hd') as Hm'.
  assert (Hera : era < era' \/ (era = era' /\ doe <= doe')) by nia.
  unfold date_le. cbn [fst snd].
  assert (Hcases :
    (era < era')
    \/ (era = era' /\ year_of_era doe < year_of_era doe')
    \/ (era = era' /\ year_of_era doe = year_of_era doe'
        /\ month_of (day_of_year doe) < month_of (day_of_year doe'))
    \/ (era = era' /\ year_of_era doe = year_of_era doe'
        /\ month_of (day_of_year doe) = month_of (day_of_year doe')
        /\ day_of (day_of_year doe) <= day_of (day_of_year doe'))).
  { destruct Hera as [Hera|[Hera Hle]]; [left; exact Hera|right].
    destruct (year_of_era_monotone doe doe' (proj1 Hdoe) Hle (proj2 Hdoe'))
      as [Hyear|[Hyear Hday]]; [left; split; assumption|right].
    destruct (month_of_monotone _ _ (proj1 Hd) Hday) as [Hmonth|[Hmonth Hdate]];
      [left|right]; repeat split; assumption. }
  destruct (month_of (day_of_year doe) <? 10) eqn:E;
    destruct (month_of (day_of_year doe') <? 10) eqn:E';
    try apply Z.ltb_lt in E; try apply Z.ltb_ge in E;
    try apply Z.ltb_lt in E'; try apply Z.ltb_ge in E'; lia.
Qed.

Section Ages.
Context {host : DateHost}.

Lemma local_date_monotone (a b : Z) :
  localDay a <= localDay b ->
  getFullYear a < getFullYear b
  \/ (getFullYear a = getFullYear b
      /\ (getMonth a < getMonth b
          \/ (getMonth a = getMonth b /\ getDate a <= getDate b))).
Proof.
  intro H. apply civil_monotone in H. unfold date_le in H.
  unfold getFullYear, getMonth, getDate. lia.
Qed.

(** X23.  Ages are whole years that never run backwards.  For a date of
    birth that parses: the age the second listing computes is not
    negative when the birth date is not after today (by local day), is
    zero on the day of birth, never decreases as the current date
    advances, and is the difference of the calendar years or one less.
    The copy of the first listing and the details page computes the same
    number; for a date that does not parse the second listing answers 0
    where that copy answers [NaN]. *)
Theorem age_counts_whole_years (now : Z) (dateOfBirth : string) (birthDate : Z) :
  empty dateOfBirth = false ->
  Date_parse dateOfBirth = Some birthDate ->
  (localDay birthDate <= localDay now ->
   0 <= PatientListingV2.calculateAge now dateOfBirth)
  /\ (localDay now = localDay birthDate ->
      PatientListingV2.calculateAge now dateOfBirth = 0)
  /\ (forall later,
         localDay now <= localDay later ->
         PatientListingV2.calculateAge now dateOfBirth
         <= PatientListingV2.calculateAge later dateOfBirth)
  /\ (getFullYear now - getFullYear birthDate - 1
      <= PatientListingV2.calculateAge now dateOfBirth
      <= getFullYear now - getFullYear birthDate)
  /\ PatientListingAge.calculateAge now dateOfBirth
     = of_Z (PatientListingV2.calculateAge now dateOfBirth)
  /\ (forall unparsed,
         empty unparsed = false -> Date_parse unparsed = None ->
         PatientListingV2.calculateAge now unparsed = 0
         /\ PatientListingAge.calculateAge now unparsed = NaN).
Proof.
  intros Hne Hparse.
  assert (Hage : forall t,
             PatientListingV2.calculateAge t dateOfBirth
             = if (getMonth t - getMonth birthDate <? 0)
                  || ((getMonth t - getMonth birthDate =? 0)
                      && (getDate t <? getDate birthDate))
               then getFullYear t - getFullYear birthDate - 1
               else getFullYear t - getFullYear birthDate).
  { intro t. unfold PatientListingV2.calculateAge. now rewrite Hne, Hparse. }
  assert (Hcases : forall t,
             (PatientListingV2.calculateAge t dateOfBirth
              = getFullYear t - getFullYear birthDate - 1
              /\ (getMonth t < getMonth birthDate
                  \/ (getMonth t = getMonth birthDate /\ getDate t < getDate birthDate)))
             \/ (PatientListingV2.calculateAge t dateOfBirth
                 = getFullYear t - getFullYear birthDate
                 /\ (getMonth birthDate < getMonth t
                     \/ (getMonth t = getMonth birthDate
                         /\ getDate birthDate <= getDate t)))).
  { intro t. rewrite Hage.
    destruct (getMonth t - getMonth birthDate <? 0) eqn:E1; cbn [orb].
    - apply Z.ltb_lt in E1. left. split; [reflexivity|lia].
    - apply Z.ltb_ge in E1.
      destruct (getMonth t - getMonth birthDate =? 0) eqn:E2; cbn [andb].
      + apply Z.eqb_eq in E2.
        destruct (getDate t <? getDate birthDate) eqn:E3.
        * apply Z.ltb_lt in E3. left. split; [reflexivity|lia].
        * apply Z.ltb_ge in E3. right. split; [reflexivity|lia].
      + apply Z.eqb_neq in E2. right. split; [reflexivity|lia]. }
  split; [|split; [|split; [|split; [|split]]]].
  - intro Hborn. pose proof (local_date_monotone birthDate now Hborn) as Hdate.
    destruct (Hcases now) as [[-> H]|[-> H]]; lia.
  - intro Hsame.
    assert (getFullYear now = getFullYear birthDate
            /\ getMonth now = getMonth birthDate /\ getDate now = getDate birthDate)
      as (Hy & Hm & Hd)
      by (unfold getFullYear, getMonth, getDate; rewrite Hsame; repeat split).
    destruct (Hcases now) as [[-> H]|[-> H]]; lia.
  - intros later Hlater. pose proof (local_date_monotone now later Hlater) as Hdate.
    destruct (Hcases now) as [[-> H]|[-> H]];
      destruct (Hcases later) as [[-> H']|[-> H']]; lia.
  - destruct (Hcases now) as [[-> H]|[-> H]]; lia.
  - unfold PatientListingAge.calculateAge. rewrite Hne, Hparse, Hage.
    destruct ((getMonth now - getMonth birthDate <? 0)
              || ((getMonth now - getMonth birthDate =? 0)
                  && (getDate now <? getDate birthDate))); reflexivity.
  - intros unparsed Hu Hnone.
    unfold PatientListingV2.calculateAge, PatientListingAge.calculateAge.
    rewrite Hu, Hnone. split; reflexivity.
Qed.

End Ages.

(** ** Where the handlers navigate *)

(** X24.  Where the forms go after saving and on cancel.  An assessment
    form navigates only after its write has succeeded: the general form
    to the details page with the patient it was given, the overweight
    form to the listing.  With the router that has no details route, the
    path of the general form falls through to the registration page.
    Cancel on the first vitals form with a patient goes to
    [/patient-search], a path neither router knows, and so lands on the
    registration page; cancel on the second vitals form goes to the
    details page when the form was opened from it, and to the listing
    otherwise. *)
Theorem where_the_forms_navigate (host : DateHost) :
  (forall ls saved st path patient,
      In (NavigateTo path patient) (snd (GeneralAssessmentForm.handleSubmit ls saved st)) ->
      saved = Saved
      /\ patient = ls_patient ls
      /\ patient <> None
      /\ App.route path = App.PatientDetails
      /\ AppWithoutDetails.route path = App.PatientRegistration)
  /\ (forall ls saved st path patient,
         In (NavigateTo path patient)
            (snd (OverweightAssessmentForm.handleSubmit ls saved st)) ->
         saved = Saved
         /\ patient = None
         /\ App.route path = App.PatientListing
         /\ AppWithoutDetails.route path = App.PatientListing)
  /\ (forall st path patient,
         VitalsFormPage.handleCancel st = GoTo path patient ->
         patient = VitalsForm.patient st
         /\ App.route path = App.PatientRegistration
         /\ AppWithoutDetails.route path = App.PatientRegistration)
  /\ (forall redirectBack st,
         exists path patient,
           VitalsFormV2Page.handleCancel redirectBack st = GoTo path patient
           /\ ((redirectBack = true /\ VitalsFormV2.patient st <> None
                /\ patient = VitalsFormV2.patient st
                /\ App.route path = App.PatientDetails)
               \/ ((redirectBack = false \/ VitalsFormV2.patient st = None)
                   /\ patient = None
                   /\ App.route path = App.PatientListing)))
  /\ (exists path,
         PatientRegistration.handleCancel = GoTo path None
         /\ App.route path = App.PatientRegistration).
Proof.
  split; [|split; [|split; [|split]]].
  - intros ls saved st path patient.
    unfold GeneralAssessmentForm.handleSubmit.
    destruct (ls_patient ls) as [p|]; [|intros []].
    destruct (empty (id p)); [intros []|].
    destruct (empty _); [intros []|].
    destruct (empty _); [intros []|].
    destruct (empty _); [intros []|].
    destruct (includes _ _); [intros []|].
    destruct saved; cbn [snd In].
    + intros [H|[H|[]]]; [discriminate|]. injection H as <- <-.
      repeat split. discriminate.
    + intros [H|[]]. discriminate.
  - intros ls saved st path patient.
    unfold OverweightAssessmentForm.handleSubmit.
    destruct (ls_patient ls) as [p|]; [|intros []].
    destruct (empty (id p)); [intros []|].
    destruct (_ || _ || _); [intros []|].
    destruct (includes _ _); [intros []|].
    destruct saved; cbn [snd In].
    + intros [H|[H|[]]]; [discriminate|]. injection H as <- <-. repeat split.
    + intros [H|[]]. discriminate.
  - intros st path patient. unfold VitalsFormPage.handleCancel.
    destruct (VitalsForm.patient st) as [p|]; [|discriminate].
    intro H. injection H as <- <-. repeat split.
  - intros redirectBack st. unfold VitalsFormV2Page.handleCancel.
    destruct (VitalsFormV2.patient st) as [p|]; [destruct redirectBack|];
      eexists; eexists; (split; [reflexivity|]).
    + left. repeat split. discriminate.
    + right. repeat split. left. reflexivity.
    + right. repeat split. right. reflexivity.
  - eexists. split; reflexivity.
Qed.

(** ** The patient lookup of the second vitals form *)

Lemma valid_Some (x : option string) :
  VitalsFormV2Lookup.valid x = true ->
  x = Some (VitalsFormV2Lookup.or_empty x)
  /\ VitalsFormV2.isValidUUID (VitalsFormV2Lookup.or_empty x) = true.
Proof. destruct x as [s|]; [intro H; split; [reflexivity|exact H]|discriminate]. Qed.

Lemma use_id_or_patient_id_taken (found : VitalsFormV2Lookup.ListedPatient)
    (st : VitalsFormV2.State) (fallback : VitalsFormV2.State -> VitalsFormV2.State) :
  (forall s, VitalsFormV2.patient (fallback s) = VitalsFormV2.patient s
             /\ VitalsFormV2.patientUUID (fallback s) = VitalsFormV2.patientUUID s) ->
  taken found st
    (VitalsFormV2.setLoading false
       match VitalsFormV2Lookup.use_id_or_patient_id found
               (VitalsFormV2Lookup.setPatient (VitalsFormV2Lookup.stored found) st) with
       | Some st2 => st2
       | None => fallback (VitalsFormV2Lookup.setPatient (VitalsFormV2Lookup.stored found) st)
       end).
Proof.
  intro Hfallback. unfold taken, VitalsFormV2Lookup.use_id_or_patient_id.
  destruct (VitalsFormV2Lookup.valid (VitalsFormV2Lookup.l_id found)) eqn:E1.
  - destruct (valid_Some _ E1) as [Hid Hvalid].
    split; [reflexivity|]. right. split; [exact Hvalid|]. left. exact Hid.
  - destruct (VitalsFormV2Lookup.valid (VitalsFormV2Lookup.l_patient_id found)) eqn:E2.
    + destruct (valid_Some _ E2) as [Hid Hvalid].
      split; [reflexivity|]. right. split; [exact Hvalid|]. right. split; [reflexivity|exact Hid].
    + destruct (Hfallback (VitalsFormV2Lookup.setPatient (VitalsFormV2Lookup.stored found) st))
        as [Hp Hu].
      cbn [VitalsFormV2.setLoading VitalsFormV2.patient VitalsFormV2.patientUUID].
      rewrite Hp, Hu. split; [reflexivity|]. left. reflexivity.
Qed.

Lemma use_id_taken (found : VitalsFormV2Lookup.ListedPatient) (st : VitalsFormV2.State) :
  taken found st
    (VitalsFormV2.setLoading false
       (VitalsFormV2Lookup.use_id found
          (VitalsFormV2Lookup.setPatient (VitalsFormV2Lookup.stored found) st))).
Proof.
  unfold taken, VitalsFormV2Lookup.use_id.
  destruct (VitalsFormV2Lookup.valid (VitalsFormV2Lookup.l_id found)) eqn:E1.
  - destruct (valid_Some _ E1) as [Hid Hvalid].
    split; [reflexivity|]. right. split; [exact Hvalid|]. left. exact Hid.
  - split; [reflexivity|]. left. reflexivity.
Qed.

Lemma lookup_result (location : VitalsFormV2Lookup.LocationPatient)
    (direct all : response VitalsFormV2Lookup.ListedPatient) (st : VitalsFormV2.State) :
  (exists found,
      listed direct all found
      /\ taken found st
           (fst (VitalsFormV2Lookup.fetchRealPatientData (Some location) direct all st)))
  \/ (VitalsFormV2.patientUUID
        (fst (VitalsFormV2Lookup.fetchRealPatientData (Some location) direct all st))
      = VitalsFormV2.patientUUID st
      /\ empty (VitalsFormV2.e_patient
                  (VitalsFormV2.errors
                     (fst (VitalsFormV2Lookup.fetchRealPatientData
                             (Some location) direct all st)))) = false).
Proof.
  unfold VitalsFormV2Lookup.fetchRealPatientData.
  destruct (match direct with
            | Fulfilled data => hd_error (VitalsFormV2.extractArrayFromResponse data)
            | Rejected => None
            end) as [foundPatient|] eqn:Hdirect.
  { left. exists foundPatient. split.
    - left. destruct direct as [data|]; [|discriminate]. exists data. split; [reflexivity|].
      destruct (VitalsFormV2.extractArrayFromResponse data); [discriminate|].
      injection Hdirect as ->. left. reflexivity.
    - cbn [fst].
      apply (use_id_or_patient_id_taken foundPatient st (fun s => s)).
      intro s. split; reflexivity. }
  destruct all as [data|]; [|right; split; reflexivity].
  destruct (VitalsFormV2.extractArrayFromResponse data) as [|first rest] eqn:Harray;
    [right; split; reflexivity|].
  set (patients := first :: rest) in *.
  match goal with
  | |- context [find ?f patients] => destruct (find f patients) as [foundPatient|] eqn:Hfind
  end.
  { left. exists foundPatient. split.
    - right. exists data. split; [reflexivity|]. rewrite Harray.
      apply (find_some _ _ Hfind).
    - cbn [fst].
      apply (use_id_or_patient_id_taken foundPatient st
               (VitalsFormV2Lookup.setPatientError "Patient found but ID is not a valid UUID")).
      intro s. split; reflexivity. }
  match goal with
  | |- context [find ?f patients] => destruct (find f patients) as [foundByName|] eqn:Hname
  end.
  { left. exists foundByName. split.
    - right. exists data. split; [reflexivity|]. rewrite Harray.
      apply (find_some _ _ Hname).
    - cbn [fst]. apply use_id_taken. }
  match goal with
  | |- context [find ?f patients] => destruct (find f patients) as [partialMatch|] eqn:Hpartial
  end.
  { left. exists partialMatch. split.
    - right. exists data. split; [reflexivity|]. rewrite Harray.
      apply (find_some _ _ Hpartial).
    - cbn [fst]. apply use_id_taken. }
  right. split; reflexivity.
Qed.

(** X25.  The lookup of the second vitals form only ever adopts the id
    of a patient the backend listed.  Without a patient in the navigation
    state the effect leaves the state alone and goes to the listing.
    With one, it does not navigate and clears the loading flag, and
    either it takes a patient that one of the two responses lists, stores
    it as the patient of the form and sets the id to write with, if it
    sets one, to a UUID that is the [id] of that patient, or its
    [patient_id] when the [id] is no UUID; or it leaves the id as it was
    and sets a patient error.  The first record of the direct query is
    taken as it is, whatever it holds; and when the direct query finds
    nothing and the list request fails, the patient of the navigation
    state is kept and the error says that loading failed. *)
Theorem lookup_adopts_a_listed_patient
    (direct all : response VitalsFormV2Lookup.ListedPatient) (st : VitalsFormV2.State) :
  VitalsFormV2Lookup.fetchRealPatientData None direct all st
  = (st, Some (GoTo "/patient-listing" None))
  /\ (forall location,
         snd (VitalsFormV2Lookup.fetchRealPatientData (Some location) direct all st) = None
         /\ VitalsFormV2.loading
              (fst (VitalsFormV2Lookup.fetchRealPatientData (Some location) direct all st))
            = false
         /\ ((exists found,
                 listed direct all found
                 /\ taken found st
                      (fst (VitalsFormV2Lookup.fetchRealPatientData
                              (Some location) direct all st)))
             \/ (VitalsFormV2.patientUUID
                   (fst (VitalsFormV2Lookup.fetchRealPatientData
                           (Some location) direct all st))
                 = VitalsFormV2.patientUUID st
                 /\ empty (VitalsFormV2.e_patient
                             (VitalsFormV2.errors
                                (fst (VitalsFormV2Lookup.fetchRealPatientData
                                        (Some location) direct all st)))) = false)))
  /\ (forall location data first rest,
         direct = Fulfilled data ->
         VitalsFormV2.extractArrayFromResponse data = first :: rest ->
         taken first st
           (fst (VitalsFormV2Lookup.fetchRealPatientData (Some location) direct all st)))
  /\ (forall location,
         (direct = Rejected
          \/ exists data, direct = Fulfilled data
                          /\ VitalsFormV2.extractArrayFromResponse data = []) ->
         all = Rejected ->
         fst (VitalsFormV2Lookup.fetchRealPatientData (Some location) direct all st)
         = VitalsFormV2.setLoading false
             (VitalsFormV2Lookup.setPatient (VitalsFormV2Lookup.stored_location location)
                (VitalsFormV2Lookup.setPatientError "Failed to load patient data" st))).
Proof.
  split; [reflexivity|]. split; [|split].
  - intro location. split; [|split; [|apply lookup_result]].
    + unfold VitalsFormV2Lookup.fetchRealPatientData.
      repeat match goal with
             | |- context [match ?x with _ => _ end] => destruct x
             end; reflexivity.
    + unfold VitalsFormV2Lookup.fetchRealPatientData.
      repeat match goal with
             | |- context [match ?x with _ => _ end] => destruct x
             end; reflexivity.
  - intros location data first rest -> Harray.
    unfold VitalsFormV2Lookup.fetchRealPatientData. rewrite Harray. cbn [hd_error fst].
    apply (use_id_or_patient_id_taken first st (fun s => s)).
    intro s. split; reflexivity.
  - intros location Hdirect ->.
    unfold VitalsFormV2Lookup.fetchRealPatientData.
    destruct Hdirect as [->|(data & -> & ->)]; reflexivity.
Qed.

Section LookupThenSubmit.
Context {host : DateHost}.

(** X26.  The second vitals form writes only for a patient its lookup
    found.  Starting without an id, after the lookup has run, a record
    the form sends carries as patient id a UUID that is the [id] (or
    else the [patient_id]) of a patient that one of the two lookup
    responses lists, and that patient is the one the form holds.  When
    the lookup has set no id, a submission writes nothing, whatever the
    fields hold. *)
Theorem second_vitals_form_writes_for_a_found_patient
    (location : option VitalsFormV2Lookup.LocationPatient)
    (direct all : response VitalsFormV2Lookup.ListedPatient) (st : VitalsFormV2.State)
    (now : Z) (saved : write_result) :
  VitalsFormV2.patientUUID st = "" ->
  (forall payload,
      In (VitalsFormV2.CreateVitals payload)
         (snd (VitalsFormV2.handleSubmit now saved
                 (fst (VitalsFormV2Lookup.fetchRealPatientData location direct all st)))) ->
      exists found,
        listed direct all found
        /\ VitalsFormV2.patient
             (fst (VitalsFormV2Lookup.fetchRealPatientData location direct all st))
           = Some (VitalsFormV2Lookup.stored found)
        /\ VitalsFormV2.isValidUUID (VitalsFormV2.p_patient_id payload) = true
        /\ (VitalsFormV2Lookup.l_id found = Some (VitalsFormV2.p_patient_id payload)
            \/ VitalsFormV2Lookup.l_patient_id found
               = Some (VitalsFormV2.p_patient_id payload)))
  /\ (VitalsFormV2.patientUUID
        (fst (VitalsFormV2Lookup.fetchRealPatientData location direct all st)) = "" ->
      only_alerts
        (snd (VitalsFormV2.handleSubmit now saved
                (fst (VitalsFormV2Lookup.fetchRealPatientData location direct all st))))).
Proof.
  intro Hstart.
  assert (Hnone : forall st',
             VitalsFormV2.patientUUID st' = "" ->
             snd (VitalsFormV2.validateForm now st') = false).
  { intros st' Hempty. unfold VitalsFormV2.validateForm. rewrite Hempty. reflexivity. }
  split.
  - intros payload Hin.
    destruct (v2_write_valid now saved _ payload Hin) as [Hvalid ->].
    cbn [VitalsFormV2.p_patient_id].
    destruct location as [location|].
    + destruct (lookup_result location direct all st) as [(found & Hlisted & Hp & Hu)|[Hu _]].
      * destruct Hu as [Hu|(Huuid & Hid)].
        -- rewrite Hstart in Hu. rewrite (Hnone _ Hu) in Hvalid. discriminate.
        -- exists found. split; [exact Hlisted|]. split; [exact Hp|]. split; [exact Huuid|].
           destruct Hid as [Hid|[_ Hid]]; [left|right]; exact Hid.
      * rewrite Hstart in Hu. rewrite (Hnone _ Hu) in Hvalid. discriminate.
    + cbn [VitalsFormV2Lookup.fetchRealPatientData fst] in Hvalid.
      rewrite (Hnone _ Hstart) in Hvalid. discriminate.
  - intro Hempty. apply v2_invalid_only_alerts. apply Hnone. exact Hempty.
Qed.

End LookupThenSubmit.

(** ** What a summary holds *)

Section WellFormed.
Context {host : DateHost}.



End WellFormed.

(** ** Outcomes of the assessment forms *)

(** X28.  What [handleSubmit] of an assessment form can do.  Either it
    sets an error and requests nothing; or the navigation state holds a
    patient with an id, the date of the form is not empty and not among
    the existing dates, and exactly one assessment is written for that
    patient and date: by the general form with the answers and the
    comments trimmed, by the overweight form with them as entered.
    After a write that succeeded no error is left and the form navigates;
    after one that failed the failure is shown and the form stays. *)
Theorem assessment_submit_outcomes (ls : LocationState) (saved : write_result) :
  (forall st,
      (snd (GeneralAssessmentForm.handleSubmit ls saved st) = []
       /\ exists message,
            GeneralAssessmentForm.error (fst (GeneralAssessmentForm.handleSubmit ls saved st))
            = Some message)
      \/ exists p,
           ls_patient ls = Some p
           /\ empty (id p) = false
           /\ empty (GeneralAssessmentForm.visit_date (GeneralAssessmentForm.formData st))
              = false
           /\ includes (GeneralAssessmentForm.existingDates st)
                (GeneralAssessmentForm.visit_date (GeneralAssessmentForm.formData st)) = false
           /\ GeneralAssessmentForm.isSubmitting
                (fst (GeneralAssessmentForm.handleSubmit ls saved st)) = false
           /\ ((saved = Saved
                /\ GeneralAssessmentForm.error
                     (fst (GeneralAssessmentForm.handleSubmit ls saved st)) = None
                /\ snd (GeneralAssessmentForm.handleSubmit ls saved st)
                   = [CreateAssessment
                        {| GeneralAssessmentForm.p_patient_id := id p;
                           GeneralAssessmentForm.p_visit_date :=
                             GeneralAssessmentForm.visit_date
                               (GeneralAssessmentForm.formData st);
                           GeneralAssessmentForm.p_general_health :=
                             trim (GeneralAssessmentForm.general_health
                                     (GeneralAssessmentForm.formData st));
                           GeneralAssessmentForm.p_using_drugs :=
                             trim (GeneralAssessmentForm.using_drugs
                                     (GeneralAssessmentForm.formData st));
                           GeneralAssessmentForm.p_comments :=
                             trim (GeneralAssessmentForm.comments
                                     (GeneralAssessmentForm.formData st)) |};
                      NavigateTo "/patient-details" (Some p)])
               \/ (exists message,
                      saved = Failed message
                      /\ GeneralAssessmentForm.error
                           (fst (GeneralAssessmentForm.handleSubmit ls saved st))
                         = Some message
                      /\ snd (GeneralAssessmentForm.handleSubmit ls saved st)
                         = [CreateAssessment
                              {| GeneralAssessmentForm.p_patient_id := id p;
                                 GeneralAssessmentForm.p_visit_date :=
                                   GeneralAssessmentForm.visit_date
                                     (GeneralAssessmentForm.formData st);
                                 GeneralAssessmentForm.p_general_health :=
                                   trim (GeneralAssessmentForm.general_health
                                           (GeneralAssessmentForm.formData st));
                                 GeneralAssessmentForm.p_using_drugs :=
                                   trim (GeneralAssessmentForm.using_drugs
                                           (GeneralAssessmentForm.formData st));
                                 GeneralAssessmentForm.p_comments :=
                                   trim (GeneralAssessmentForm.comments
                                           (GeneralAssessmentForm.formData st)) |}])))
  /\ (forall st,
         (snd (OverweightAssessmentForm.handleSubmit ls saved st) = []
          /\ exists message,
               OverweightAssessmentForm.error
                 (fst (OverweightAssessmentForm.handleSubmit ls saved st)) = Some message)
         \/ exists p,
              ls_patient ls = Some p
              /\ empty (id p) = false
              /\ empty (OverweightAssessmentForm.visit_date
                          (OverweightAssessmentForm.formData st)) = false
              /\ includes (OverweightAssessmentForm.existingDates st)
                   (OverweightAssessmentForm.visit_date (OverweightAssessmentForm.formData st))
                 = false
              /\ OverweightAssessmentForm.isSubmitting
                   (fst (OverweightAssessmentForm.handleSubmit ls saved st)) = false
              /\ ((saved = Saved
                   /\ OverweightAssessmentForm.error
                        (fst (OverweightAssessmentForm.handleSubmit ls saved st)) = None
                   /\ snd (OverweightAssessmentForm.handleSubmit ls saved st)
                      = [CreateAssessment
                           {| OverweightAssessmentForm.p_patient_id := id p;
                              OverweightAssessmentForm.p_visit_date :=
                                OverweightAssessmentForm.visit_date
                                  (OverweightAssessmentForm.formData st);
                              OverweightAssessmentForm.p_general_health :=
                                OverweightAssessmentForm.general_health
                                  (OverweightAssessmentForm.formData st);
                              OverweightAssessmentForm.p_been_on_diet :=
                                OverweightAssessmentForm.been_on_diet
                                  (OverweightAssessmentForm.formData st);
                              OverweightAssessmentForm.p_comments :=
                                OverweightAssessmentForm.comments
                                  (OverweightAssessmentForm.formData st) |};
                         NavigateTo "/patient-listing" None])
                  \/ (exists message,
                         saved = Failed message
                         /\ OverweightAssessmentForm.error
                              (fst (OverweightAssessmentForm.handleSubmit ls saved st))
                            = Some message
                         /\ snd (OverweightAssessmentForm.handleSubmit ls saved st)
                            = [CreateAssessment
                                 {| OverweightAssessmentForm.p_patient_id := id p;
                                    OverweightAssessmentForm.p_visit_date :=
                                      OverweightAssessmentForm.visit_date
                                        (OverweightAssessmentForm.formData st);
                                    OverweightAssessmentForm.p_general_health :=
                                      OverweightAssessmentForm.general_health
                                        (OverweightAssessmentForm.formData st);
                                    OverweightAssessmentForm.p_been_on_diet :=
                                      OverweightAssessmentForm.been_on_diet
                                        (OverweightAssessmentForm.formData st);
                                    OverweightAssessmentForm.p_comments :=
                                      OverweightAssessmentForm.comments
                                        (OverweightAssessmentForm.formData st) |}]))).
Proof.
  split.
  - intro st. unfold GeneralAssessmentForm.handleSubmit.
    cbn [GeneralAssessmentForm.setError GeneralAssessmentForm.formData
         GeneralAssessmentForm.existingDates].
    destruct (ls_patient ls) as [p|]; [|left; split; [reflexivity|eexists; reflexivity]].
    destruct (empty (id p)) eqn:Hid; [left; split; [reflexivity|eexists; reflexivity]|].
    destruct (empty (GeneralAssessmentForm.visit_date (GeneralAssessmentForm.formData st)))
      eqn:Hdate; [left; split; [reflexivity|eexists; reflexivity]|].
    destruct (empty (GeneralAssessmentForm.general_health (GeneralAssessmentForm.formData st)));
      [left; split; [reflexivity|eexists; reflexivity]|].
    destruct (empty (GeneralAssessmentForm.using_drugs (GeneralAssessmentForm.formData st)));
      [left; split; [reflexivity|eexists; reflexivity]|].
    destruct (includes (GeneralAssessmentForm.existingDates st)
                (GeneralAssessmentForm.visit_date (GeneralAssessmentForm.formData st)))
      eqn:Hdup; [left; split; [reflexivity|eexists; reflexivity]|].
    right. exists p. split; [reflexivity|]. split; [exact Hid|]. split; [reflexivity|].
    split; [reflexivity|].
    destruct saved as [|message].
    + split; [reflexivity|]. left. repeat split.
    + split; [reflexivity|]. right. exists message. repeat split.
  - intro st. unfold OverweightAssessmentForm.handleSubmit.
    cbn [OverweightAssessmentForm.setError OverweightAssessmentForm.formData
         OverweightAssessmentForm.existingDates].
    destruct (ls_patient ls) as [p|]; [|left; split; [reflexivity|eexists; reflexivity]].
    destruct (empty (id p)) eqn:Hid; [left; split; [reflexivity|eexists; reflexivity]|].
    destruct (empty (OverweightAssessmentForm.visit_date
                       (OverweightAssessmentForm.formData st))) eqn:Hdate;
      [left; split; [reflexivity|eexists; reflexivity]|].
    destruct (empty (OverweightAssessmentForm.general_health
                       (OverweightAssessmentForm.formData st)));
      [left; split; [reflexivity|eexists; reflexivity]|].
    destruct (empty (OverweightAssessmentForm.been_on_diet
                       (OverweightAssessmentForm.formData st)));
      [left; split; [reflexivity|eexists; reflexivity]|].
    cbn [orb].
    destruct (includes (OverweightAssessmentForm.existingDates st)
                (OverweightAssessmentForm.visit_date (OverweightAssessmentForm.formData st)))
      eqn:Hdup; [left; split; [reflexivity|eexists; reflexivity]|].
    right. exists p. split; [reflexivity|]. split; [exact Hid|]. split; [reflexivity|].
    split; [reflexivity|].
    destruct saved as [|message].
    + split; [reflexivity|]. left. repeat split.
    + split; [reflexivity|]. right. exists message. repeat split.
Qed.

(* ------------------------------------------------------------------ *)
(** ** The properties at sample inputs *)

Lemma listing_shows_recorded_bmi_witness :
  plausible 160 48
  /\ Double.PatientListingV2.parseBmiValue
       (BmiNumber (Double.VitalsFormV2.calculateBMI (Fin 160) (Fin 48)))
     = Some (Double.VitalsFormV2.calculateBMI (Fin 160) (Fin 48)).
Proof.
  assert (Hplausible : plausible 160 48).
  { unfold plausible. repeat split; apply Qle_bool_iff; reflexivity. }
  split; [exact Hplausible|].
  destruct (listing_shows_recorded_bmi 160 48 Hplausible) as [(r & _ & Hr & Hread & _) _].
  rewrite Hr. exact Hread.
Defined.



Lemma first_vitals_form_panel_announces_route_witness :
  effect_ran (VitalsFormPage.recalculate (Cases.vitals "2024-01-11" "170" "70" []))
  /\ snd (VitalsForm.handleSubmit Saved
            (VitalsFormPage.recalculate (Cases.vitals "2024-01-11" "170" "70" [])))
     = [VitalsForm.CreateVitals
          {| VitalsForm.p_patient_id := "7";
             VitalsForm.p_visit_date := "2024-01-11";
             VitalsForm.p_height_cm := Fin 170;
             VitalsForm.p_weight_kg := Fin 70;
             VitalsForm.p_bmi := Fin (242 # 10) |};
        VitalsForm.Navigate "/general-assessment"
          {| ls_patient := Some Sample.patient;
             ls_bmi := Some (Fin (242 # 10));
             ls_bmiStatus := Some "Normal" |}]
  /\ VitalsForm.bmi (VitalsFormPage.recalculate (Cases.vitals "2024-01-11" "170" "70" []))
     = Some (Fin (242 # 10)).
Proof.
  destruct first_vitals_form_panel_announces_route as (Hran & _ & Hshown).
  assert (Hsubmit :
    snd (VitalsForm.handleSubmit Saved
           (VitalsFormPage.recalculate (Cases.vitals "2024-01-11" "170" "70" [])))
    = [VitalsForm.CreateVitals
         {| VitalsForm.p_patient_id := "7";
            VitalsForm.p_visit_date := "2024-01-11";
            VitalsForm.p_height_cm := Fin 170;
            VitalsForm.p_weight_kg := Fin 70;
            VitalsForm.p_bmi := Fin (242 # 10) |};
       VitalsForm.Navigate "/general-assessment"
         {| ls_patient := Some Sample.patient;
            ls_bmi := Some (Fin (242 # 10));
            ls_bmiStatus := Some "Normal" |}]) by (vm_compute; reflexivity).
  split; [apply Hran|]. split; [exact Hsubmit|].
  exact (proj1 (Hshown _ _ _ _ (Hran _) Hsubmit)).
Defined.

Lemma listed_visit_date_is_refused_witness :
  empty (id Sample.patient) = false
  /\ snd (VitalsForm.handleSubmit Saved
            (VitalsForm.fetchExistingVitals (host := utc_host)
               (Fulfilled (JObj [("results", JArr [Cases.existing])]))
               (Cases.vitals "2024-01-10" "170" "70" []))) = [].
Proof.
  assert (Hid : empty (id Sample.patient) = false) by reflexivity.
  split; [exact Hid|].
  destruct (listed_visit_date_is_refused (host := utc_host) Saved Sample.patient Hid)
    as [Hvitals _].
  refine (proj1 (Hvitals (Cases.vitals "2024-01-10" "170" "70" [])
                   (JObj [("results", JArr [Cases.existing])]) Cases.existing
                   eq_refl _ _)).
  - left. reflexivity.
  - vm_compute. reflexivity.
Defined.

Lemma second_vitals_form_dates_all_or_nothing_witness :
  VitalsFormV2.isValidUUID
    (VitalsFormV2.patientUUID (Sample.vitals_v2 "2024-01-10" "170" "70" ["2024-01-09"]))
  = true
  /\ VitalsFormV2.fetchVitals (host := utc_host)
       (Fulfilled (JArr [Cases.listed_vital "2024-01-10"; Cases.listed_vital "yesterday"]))
       Rejected (Sample.vitals_v2 "2024-01-10" "170" "70" ["2024-01-09"])
     = Sample.vitals_v2 "2024-01-10" "170" "70" ["2024-01-09"].
Proof.
  assert (Huuid : VitalsFormV2.isValidUUID
                    (VitalsFormV2.patientUUID
                       (Sample.vitals_v2 "2024-01-10" "170" "70" ["2024-01-09"])) = true)
    by reflexivity.
  split; [exact Huuid|].
  destruct (second_vitals_form_dates_all_or_nothing (host := utc_host)
              (Fulfilled (JArr [Cases.listed_vital "2024-01-10";
                                Cases.listed_vital "yesterday"]))
              Rejected
              (JArr [Cases.listed_vital "2024-01-10"; Cases.listed_vital "yesterday"])
              (Sample.vitals_v2 "2024-01-10" "170" "70" ["2024-01-09"])
              Huuid (or_introl eq_refl)) as [Hbad _].
  apply Hbad. exists (Cases.listed_vital "yesterday").
  split; [right; left; reflexivity|]. split; reflexivity.
Defined.

Lemma listing_waits_for_every_patient_witness :
  (0 < List.length [ListingSample.basic "1" "Amina"; ListingSample.basic "2" "Brian"])%nat
  /\ ~ In 0%nat [1%nat; 1%nat]
  /\ PatientListing.fetchPatients (host := utc_host) ListingSample.api
       [ListingSample.basic "1" "Amina"; ListingSample.basic "2" "Brian"] [1%nat; 1%nat]
     = None.
Proof.
  assert (Hlt : (0 < List.length [ListingSample.basic "1" "Amina";
                                  ListingSample.basic "2" "Brian"])%nat)
    by (cbn [List.length]; lia).
  assert (Hnot : ~ In 0%nat [1%nat; 1%nat])
    by (intros [H|[H|[]]]; discriminate H).
  split; [exact Hlt|]. split; [exact Hnot|].
  destruct (listing_waits_for_every_patient utc_host ListingSample.api [1%nat; 1%nat])
    as (_ & Hpending & _).
  exact (Hpending _ 0%nat Hlt Hnot).
Defined.

Lemma publish_is_stable_witness :
  Forall (fun patient => named patient = true)
    [PatientListingV2.processPatientData (host := utc_host) ListingSample.empty_api
       Sample.now ListingSample.brian]
  /\ PatientListingV2.publish (host := utc_host)
       [PatientListingV2.processPatientData (host := utc_host) ListingSample.empty_api
          Sample.now ListingSample.brian]
     = [PatientListingV2.processPatientData (host := utc_host) ListingSample.empty_api
          Sample.now ListingSample.brian].
Proof.
  assert (Hnamed : Forall (fun patient => named patient = true)
                     [PatientListingV2.processPatientData (host := utc_host)
                        ListingSample.empty_api Sample.now ListingSample.brian])
    by (constructor; [reflexivity|constructor]).
  split; [exact Hnamed|].
  destruct (publish_is_stable utc_host
              [PatientListingV2.processPatientData (host := utc_host)
                 ListingSample.empty_api Sample.now ListingSample.brian]) as (_ & Hfixed & _).
  apply Hfixed; [exact Hnamed|].
  constructor; [constructor|constructor].
Defined.

Lemma vitals_route_reaches_open_form_witness :
  ls_bmi {| ls_patient := Some Sample.patient;
            ls_bmi := Some (Fin (242 # 10));
            ls_bmiStatus := Some "Normal" |} = Some (Fin (242 # 10))
  /\ (forall q, Fin (242 # 10) = Fin q -> ~ (q == 25)%Q)
  /\ App.route "/general-assessment" = App.GeneralAssessmentForm
  /\ GeneralAssessmentForm.render
       {| ls_patient := Some Sample.patient;
          ls_bmi := Some (Fin (242 # 10));
          ls_bmiStatus := Some "Normal" |} = FormView.
Proof.
  assert (Hother : forall q, Fin (242 # 10) = Fin q -> ~ (q == 25)%Q).
  { intros q H. injection H as <-. intro E. discriminate E. }
  split; [reflexivity|]. split; [exact Hother|].
  destruct (vitals_route_reaches_open_form utc_host "/general-assessment"
              {| ls_patient := Some Sample.patient;
                 ls_bmi := Some (Fin (242 # 10));
                 ls_bmiStatus := Some "Normal" |}
              (Fin (242 # 10))) as [(Hroute & _ & Hopen & _)|(Hroute & _)].
  - left. exists (Cases.vitals "2024-01-11" "170" "70" []).
    eexists. vm_compute. reflexivity.
  - reflexivity.
  - exact Hother.
  - split; [exact Hroute|exact Hopen].
  - discriminate Hroute.
Defined.

Lemma second_listing_reports_latest_assessment_witness :
  PatientListingV2.last_assessment_type
    (PatientListingV2.processPatientData (host := utc_host) ListingSample.api Sample.now
       ListingSample.amina) = Some "General Assessment"
  /\ exists a,
       PatientListingV2.last_assessment_date
         (PatientListingV2.processPatientData (host := utc_host) ListingSample.api Sample.now
            ListingSample.amina)
       = PatientListingV2.assessment_date a
       /\ forall b,
            In b (PatientListingV2.tagged "overweight"
                    (getPatientOverweightAssessments ListingSample.api
                       (PatientListingV2.r_id ListingSample.amina))) ->
            date_value (host := utc_host) b < date_value (host := utc_host) a.
Proof.
  assert (Hkind : PatientListingV2.last_assessment_type
                    (PatientListingV2.processPatientData (host := utc_host)
                       ListingSample.api Sample.now ListingSample.amina)
                  = Some "General Assessment") by (vm_compute; reflexivity).
  split; [exact Hkind|].
  destruct (second_listing_reports_latest_assessment (host := utc_host)
              ListingSample.api Sample.now ListingSample.amina) as [_ Hlatest].
  destruct (Hlatest _ Hkind) as (a & _ & Hdate & _ & _ & Holder).
  exists a. split; [exact Hdate|]. exact (Holder eq_refl).
Defined.

Lemma first_listing_assessment_precedence_witness :
  getVitals Cases.failing_api (PatientListing.id (ListingSample.basic "1" "Amina")) = Rejected
  /\ PatientListing.withDetails (host := utc_host) Cases.failing_api
       (ListingSample.basic "1" "Amina")
     = ListingSample.basic "1" "Amina".
Proof.
  split; [reflexivity|].
  destruct (first_listing_assessment_precedence (host := utc_host) Cases.failing_api
              (ListingSample.basic "1" "Amina")) as [Hfailed _].
  apply Hfailed. reflexivity.
Defined.

Lemma normaliser_finds_first_list_witness :
  not_array (Json.get "results" ListingSample.keyed_payload)
  /\ not_array (Json.get "data" ListingSample.keyed_payload)
  /\ VitalsFormV2.extractArrayFromResponse ListingSample.keyed_payload = ["r1"; "r2"].
Proof.
  assert (H1 : not_array (Json.get "results" ListingSample.keyed_payload)) by reflexivity.
  assert (H2 : not_array (Json.get "data" ListingSample.keyed_payload)) by reflexivity.
  split; [exact H1|]. split; [exact H2|].
  destruct (normaliser_finds_first_list
              [("count", JNum (of_Z 2)); ("patients", JArr ["r1"; "r2"])] ["r1"; "r2"] H1 H2)
    as [Hfirst _].
  apply (Hfirst [JNum (of_Z 2)] []); [reflexivity|].
  constructor; [reflexivity|constructor].
Defined.

Lemma normaliser_variants_agree_witness :
  PatientListing.extractArrayFromResponse (JObj [("results", JArr ["r1"])]) <> []
  /\ VitalsFormV2.extractArrayFromResponse (JObj [("results", JArr ["r1"])])
     = PatientListing.extractArrayFromResponse (JObj [("results", JArr ["r1"])]).
Proof.
  assert (Hne : PatientListing.extractArrayFromResponse (JObj [("results", JArr ["r1"])])
                <> []) by discriminate.
  split; [exact Hne|].
  destruct normaliser_variants_agree as [Hsame _].
  exact (proj2 (proj2 (Hsame string (JObj [("results", JArr ["r1"])]))) Hne).
Defined.

Lemma future_check_by_zone_witness :
  Date_parse (DateHost := utc_host) "2024-01-11" = Some (19733 * msPerDay)
  /\ 0 <= LocalTZA (DateHost := utc_host) < msPerDay
  /\ VitalsFormV2.isFutureDate (host := utc_host) Sample.now "2024-01-11"
     = (localDay (host := utc_host) Sample.now <? 19733)
  /\ Date_parse (DateHost := west_host) "2024-01-11" = Some (19733 * msPerDay)
  /\ - msPerDay <= LocalTZA (DateHost := west_host) < 0
  /\ VitalsFormV2.isFutureDate (host := west_host) 1704934800000 "2024-01-11"
     = (localDay (host := west_host) 1704934800000 <? 19733 - 1).
Proof.
  assert (Hparse : Date_parse (DateHost := utc_host) "2024-01-11" = Some (19733 * msPerDay))
    by (vm_compute; reflexivity).
  assert (Hzone : 0 <= LocalTZA (DateHost := utc_host) < msPerDay)
    by (cbn [LocalTZA utc_host]; unfold msPerDay; lia).
  assert (Hparse' : Date_parse (DateHost := west_host) "2024-01-11" = Some (19733 * msPerDay))
    by (vm_compute; reflexivity).
  assert (Hzone' : - msPerDay <= LocalTZA (DateHost := west_host) < 0)
    by (cbn [LocalTZA west_host]; unfold msPerDay; lia).
  split; [exact Hparse|]. split; [exact Hzone|].
  split.
  - destruct (future_check_by_zone (host := utc_host) Sample.now "2024-01-11" 19733 Hparse)
      as (_ & Heast & _).
    exact (Heast Hzone).
  - split; [exact Hparse'|]. split; [exact Hzone'|].
    destruct (future_check_by_zone (host := west_host) 1704934800000 "2024-01-11" 19733
                Hparse') as (_ & _ & Hwest & _).
    exact (Hwest Hzone').
Defined.

Lemma pages_partition_the_list_witness :
  0 < 2
  /\ List.concat (map (fun page => PatientListingView.paginate 2 page [1; 2; 3; 4; 5])
                      (PatientListingView.range 1
                         (PatientListingView.totalPages 2 [1; 2; 3; 4; 5])))
     = [1; 2; 3; 4; 5].
Proof.
  assert (H : 0 < 2) by lia.
  split; [exact H|].
  exact (proj1 (pages_partition_the_list 2 [1; 2; 3; 4; 5] H)).
Defined.

Lemma page_numbers_reach_every_end_witness :
  1 <= 5 <= 10
  /\ In 5 (PatientListingView.getPageNumbers 10 5)
  /\ PatientListingView.getPageNumbers 10 5 = [1; -1; 4; 5; 6; -1; 10].
Proof.
  assert (H : 1 <= 5 <= 10) by lia.
  split; [exact H|].
  split; [exact (proj1 (page_numbers_reach_every_end 10 5 H))|reflexivity].
Defined.

Lemma one_colour_scheme_witness :
  plain (Fin (242 # 10))
  /\ VitalsFormPage.getStatusColor
       (VitalsFormPage.recalculate (Cases.vitals "2024-01-11" "170" "70" [])) = "#d1fae5"
  /\ PatientListingView.getStatusColor (PatientListing.getBmiStatus (Fin (242 # 10)))
     = "#d1fae5".
Proof.
  assert (Hplain : plain (Fin (242 # 10))) by (split; reflexivity).
  split; [exact Hplain|].
  destruct (one_colour_scheme utc_host (Fin (242 # 10))
              (VitalsFormPage.recalculate (Cases.vitals "2024-01-11" "170" "70" []))
              (Sample.vitals_v2 "2024-01-10" "170" "70" [])
              Hplain) as (Hfirst & _ & _ & Hlisting & _).
  - vm_compute. reflexivity.
  - vm_compute. reflexivity.
  - split.
    + exact (f_equal fst Hfirst).
    + exact (eq_trans (f_equal fst Hlisting) (f_equal fst Hfirst)).
Defined.

Lemma search_ignores_case_witness :
  all_space "  " = true
  /\ PatientListingView.filtered (host := utc_host) "  " ""
       [ListingSample.basic "1" "Amina"; ListingSample.basic "2" "Brian"]
     = [ListingSample.basic "1" "Amina"; ListingSample.basic "2" "Brian"]
  /\ PatientListingView.filtered (host := utc_host) (JSText.toUpperCase "ami") ""
       [ListingSample.basic "1" "Amina"; ListingSample.basic "2" "Brian"]
     = [ListingSample.basic "1" "Amina"].
Proof.
  split; [reflexivity|].
  destruct (search_ignores_case utc_host "  " ""
              [ListingSample.basic "1" "Amina"; ListingSample.basic "2" "Brian"])
    as (_ & _ & Hblank & _).
  split; [exact (Hblank eq_refl)|].
  destruct (search_ignores_case utc_host "ami" ""
              [ListingSample.basic "1" "Amina"; ListingSample.basic "2" "Brian"])
    as (Hupper & _).
  rewrite Hupper. vm_compute. reflexivity.
Defined.

Lemma details_history_all_or_nothing_witness :
  PatientDetailsView.assessmentsHistory (host := utc_host) Rejected
    (Fulfilled (JObj [("results", JArr [ListingSample.assessment "2024-01-05";
                                         ListingSample.assessment "2024-02-01"])])) = []
  /\ exists a,
       PatientListingV2.fetchPatientAssessments (host := utc_host) Rejected
         (Fulfilled (JObj [("results", JArr [ListingSample.assessment "2024-01-05";
                                              ListingSample.assessment "2024-02-01"])]))
       = Some a
       /\ PatientListingV2.visit_date a = Some "2024-02-01".
Proof.
  destruct (details_history_all_or_nothing (host := utc_host) Rejected
              (Fulfilled (JObj [("results", JArr [ListingSample.assessment "2024-01-05";
                                                   ListingSample.assessment "2024-02-01"])])))
    as (_ & _ & Hcontrast & _).
  destruct (Hcontrast _ eq_refl eq_refl) as [Hempty (a & Ha & _)]; [discriminate|].
  split; [exact Hempty|].
  exists a. split; [exact Ha|].
  vm_compute in Ha. injection Ha as <-. reflexivity.
Defined.

Lemma duplicate_check_ignores_white_space_witness :
  all_space " " = true
  /\ VitalsForm.dateExists ["2024-01-10"] (" " ++ "2024-01-10" ++ " ") = true
  /\ includes ["2024-01-10"] (" " ++ "2024-01-10" ++ " ") = false.
Proof.
  assert (Hspace : all_space " " = true) by reflexivity.
  split; [exact Hspace|].
  destruct (duplicate_check_ignores_white_space " " " " ["2024-01-10"] "2024-01-10"
              Hspace Hspace) as (Hsame & _).
  split; [rewrite Hsame; reflexivity|reflexivity].
Defined.

Lemma age_counts_whole_years_witness :
  empty "1990-05-17" = false
  /\ Date_parse (DateHost := utc_host) "1990-05-17" = Some 642902400000
  /\ localDay (host := utc_host) 642902400000 <= localDay (host := utc_host) Sample.now
  /\ 0 <= PatientListingV2.calculateAge (host := utc_host) Sample.now "1990-05-17"
  /\ PatientListingV2.calculateAge (host := utc_host) Sample.now "1990-05-17" = 33.
Proof.
  assert (Hne : empty "1990-05-17" = false) by reflexivity.
  assert (Hparse : Date_parse (DateHost := utc_host) "1990-05-17" = Some 642902400000)
    by (vm_compute; reflexivity).
  assert (Hborn : localDay (host := utc_host) 642902400000
                  <= localDay (host := utc_host) Sample.now)
    by (vm_compute; discriminate).
  split; [exact Hne|]. split; [exact Hparse|]. split; [exact Hborn|].
  destruct (age_counts_whole_years (host := utc_host) Sample.now "1990-05-17" 642902400000
              Hne Hparse) as (Hpositive & _).
  split; [exact (Hpositive Hborn)|]. vm_compute. reflexivity.
Defined.

Lemma where_the_forms_navigate_witness :
  In (NavigateTo "/patient-details" (Some Sample.patient))
     (snd (GeneralAssessmentForm.handleSubmit Sample.state_22 Saved
             (Sample.general "2024-01-11" [])))
  /\ App.route "/patient-details" = App.PatientDetails
  /\ AppWithoutDetails.route "/patient-details" = App.PatientRegistration.
Proof.
  assert (Hin : In (NavigateTo "/patient-details" (Some Sample.patient))
                   (snd (GeneralAssessmentForm.handleSubmit Sample.state_22 Saved
                           (Sample.general "2024-01-11" []))))
    by (right; left; reflexivity).
  split; [exact Hin|].
  destruct (where_the_forms_navigate utc_host) as (Hgeneral & _).
  destruct (Hgeneral _ _ _ _ _ Hin) as (_ & _ & _ & Hdetails & Hfallback).
  split; [exact Hdetails|exact Hfallback].
Defined.

Lemma lookup_adopts_a_listed_patient_witness :
  VitalsFormV2.extractArrayFromResponse (JArr [Cases.found]) = [Cases.found]
  /\ taken Cases.found Cases.mounted
       (fst (VitalsFormV2Lookup.fetchRealPatientData (Some Cases.location)
               (Fulfilled (JArr [Cases.found])) Rejected Cases.mounted))
  /\ VitalsFormV2.patientUUID
       (fst (VitalsFormV2Lookup.fetchRealPatientData (Some Cases.location)
               (Fulfilled (JArr [Cases.found])) Rejected Cases.mounted)) = Sample.uuid.
Proof.
  split; [reflexivity|].
  destruct (lookup_adopts_a_listed_patient (Fulfilled (JArr [Cases.found])) Rejected
              Cases.mounted) as (_ & _ & Hfirst & _).
  split; [|reflexivity].
  exact (Hfirst Cases.location (JArr [Cases.found]) Cases.found [] eq_refl eq_refl).
Defined.

Lemma second_vitals_form_writes_for_a_found_patient_witness :
  VitalsFormV2.patientUUID Cases.mounted = ""
  /\ In (VitalsFormV2.CreateVitals Cases.payload_170_70)
        (snd (VitalsFormV2.handleSubmit (host := utc_host) Sample.now Saved
                (fst (VitalsFormV2Lookup.fetchRealPatientData (Some Cases.location)
                        (Fulfilled (JArr [Cases.found])) Rejected Cases.mounted))))
  /\ (exists found,
         listed (Fulfilled (JArr [Cases.found])) Rejected found
         /\ (VitalsFormV2Lookup.l_id found = Some Sample.uuid
             \/ VitalsFormV2Lookup.l_patient_id found = Some Sample.uuid))
  /\ only_alerts
       (snd (VitalsFormV2.handleSubmit (host := utc_host) Sample.now Saved
               (fst (VitalsFormV2Lookup.fetchRealPatientData (Some Cases.location)
                       Rejected Rejected Cases.mounted)))).
Proof.
  assert (Hstart : VitalsFormV2.patientUUID Cases.mounted = "") by reflexivity.
  assert (Hin : In (VitalsFormV2.CreateVitals Cases.payload_170_70)
                   (snd (VitalsFormV2.handleSubmit (host := utc_host) Sample.now Saved
                           (fst (VitalsFormV2Lookup.fetchRealPatientData
                                   (Some Cases.location)
                                   (Fulfilled (JArr [Cases.found])) Rejected
                                   Cases.mounted)))))
    by (vm_compute; left; reflexivity).
  split; [exact Hstart|]. split; [exact Hin|].
  split.
  - destruct (second_vitals_form_writes_for_a_found_patient (host := utc_host)
                (Some Cases.location) (Fulfilled (JArr [Cases.found])) Rejected
                Cases.mounted Sample.now Saved Hstart) as [Hwrite _].
    destruct (Hwrite _ Hin) as (found & Hlisted & _ & _ & Hid).
    exists found. split; [exact Hlisted|exact Hid].
  - destruct (second_vitals_form_writes_for_a_found_patient (host := utc_host)
                (Some Cases.location) Rejected Rejected
                Cases.mounted Sample.now Saved Hstart) as [_ Hnone].
    apply Hnone. reflexivity.
Defined.

